(** * Marketplace backend (FastAPI + MongoDB): a shallow embedding

  The development follows the Python modules of the backend:
  [modules/common/utils.py], [modules/catalog/service.py],
  [modules/sellers/service.py], [modules/cart/service.py],
  [modules/notifications/service.py], [modules/orders/service.py],
  [modules/orders/router.py], [modules/payments/service.py],
  [modules/shipping/service.py] and the legacy password-reset endpoints of
  [main.py].

  Conventions.
  - A Python [float] is a binary64 value ([PrimFloat.float]); [round(x, 2)],
    [int(x)] and the int-to-float conversion are written out on the exact
    value of the float.
  - A Python [int] is a [Z]; a [str] is a [string] of code units below 256.
    [Py.lower], [Py.upper] and [Py.strip] convert letters and strip white
    space of the ASCII range only: they are Python's methods on ASCII text,
    and a statement that needs more of them than that assumes [Py.is_ascii].
  - [ObjectId(value)] is embedded on the strings of 24 hexadecimal digits; a
    24-character string with white space, which [bytes.fromhex] would skip,
    is taken as invalid, and the statements about a request take the parsed
    [_id] as a hypothesis.
  - A Mongo collection is a [list] of documents in insertion order;
    [find_one] returns the first match, [update_one] rewrites the first match.
  - A document is a record; a key read with [.get] is an [option] field.
  - MongoDB keeps a datetime to the millisecond, and the stored documents of
    the embedding keep the microseconds of [utcnow()].  A statement that
    relates a dict a service has built and returns to the document stored
    from it does so through the relations of [Stored], which leave the
    datetimes out.
  - [HTTPException] is an error value; an operation returns its result
    together with the database it leaves behind (there is no rollback). *)

From Stdlib Require Import ZArith NArith List String Ascii Bool Lia.
From Stdlib Require Import Floats.PrimFloat Floats.SpecFloat Floats.FloatOps.
From Stdlib Require Import DecimalString DecimalN.
Import ListNotations.

#[local] Set Warnings "-inexact-float".

Open Scope string_scope.
Open Scope Z_scope.

(* ================================================================== *)
(** * Python built-ins used by the services *)
(* ================================================================== *)

Module Py.

(** ** Strings *)

Definition chars (s : string) : list ascii := list_ascii_of_string s.
Definition str (l : list ascii) : string := string_of_list_ascii l.

Definition code (c : ascii) : N := N_of_ascii c.

Definition is_upper (c : ascii) : bool := ((65 <=? code c) && (code c <=? 90))%N.
Definition is_lower (c : ascii) : bool := ((97 <=? code c) && (code c <=? 122))%N.
Definition is_digit (c : ascii) : bool := ((48 <=? code c) && (code c <=? 57))%N.
Definition is_alpha (c : ascii) : bool := is_upper c || is_lower c.

(** [str.isspace] on the ASCII range: TAB, LF, VT, FF, CR, FS..US and SPACE. *)
Definition is_space (c : ascii) : bool :=
  (((9 <=? code c) && (code c <=? 13)) || ((28 <=? code c) && (code c <=? 32)))%N.

(** [s.isascii()] *)
Definition is_ascii (s : string) : bool := forallb (fun c => (code c <? 128)%N) (chars s).

Definition lower_char (c : ascii) : ascii :=
  if is_upper c then ascii_of_N (code c + 32) else c.

Definition lower_chars (l : list ascii) : list ascii := map lower_char l.

(** [s.lower()] on ASCII text *)
Definition lower (s : string) : string := str (lower_chars (chars s)).

Definition upper_char (c : ascii) : ascii :=
  if is_lower c then ascii_of_N (code c - 32) else c.

(** [s.upper()] on ASCII text *)
Definition upper (s : string) : string := str (map upper_char (chars s)).

Fixpoint lstrip_by (p : ascii -> bool) (l : list ascii) : list ascii :=
  match l with
  | [] => []
  | c :: r => if p c then lstrip_by p r else l
  end.

Definition rstrip_by (p : ascii -> bool) (l : list ascii) : list ascii :=
  rev (lstrip_by p (rev l)).

Definition strip_by (p : ascii -> bool) (l : list ascii) : list ascii :=
  rstrip_by p (lstrip_by p l).

(** [s.strip()] on ASCII text *)
Definition strip (s : string) : string := str (strip_by is_space (chars s)).

(** [s.strip(c)] for a one-character argument *)
Definition strip_char (c : ascii) (s : string) : string :=
  str (strip_by (Ascii.eqb c) (chars s)).

(** [sep.join(parts)] *)
Definition join (sep : string) (parts : list string) : string := String.concat sep parts.

(** [str(n)] / [f"{n}"] for a non-negative int *)
Definition str_of_N (n : N) : string := NilZero.string_of_uint (N.to_uint n).

(** [str(n).zfill(width)] for a non-negative int, as [strftime] pads its fields *)
Fixpoint zeros (k : nat) : string :=
  match k with O => "" | S k' => String "0" (zeros k') end.

Definition zfill (width : nat) (n : Z) : string :=
  let s := str_of_N (Z.to_N n) in
  zeros (width - String.length s) ++ s.

(** ** Floats (binary64) *)

Definition zero : float := 0%float.

(** [float(n)] for an int: the nearest binary64, ties to even. *)
Definition float_of_int (z : Z) : float :=
  SF2Prim (binary_normalize prec emax z 0 false).

(** [int(x)]: truncation toward zero; [None] stands for the [ValueError] /
    [OverflowError] Python raises on NaN and infinities. *)
Definition int_of_float (x : float) : option Z :=
  match Prim2SF x with
  | S754_zero _ => Some 0
  | S754_finite s m e =>
      let v := if 0 <=? e then Z.pos m * 2 ^ e else Z.pos m / 2 ^ (- e) in
      Some (if s then - v else v)
  | S754_infinity _ => None
  | S754_nan => None
  end.

(** The integer nearest to [n / 2^k], ties to the even one ([0 <= n]). *)
Definition div_pow2_half_even (n k : Z) : Z :=
  let d := 2 ^ k in
  let q := n / d in
  let r := n mod d in
  if 2 * r <? d then q
  else if d <? 2 * r then q + 1
  else if Z.even q then q else q + 1.

(** [round(x, 2)]: CPython renders the exact value of [x] with two
    decimals (round-half-even on the exact binary value) and reads the
    decimal string back as the nearest binary64.  Zeros, infinities and
    NaN round to themselves. *)
Definition round2 (x : float) : float :=
  match Prim2SF x with
  | S754_finite s m e =>
      let hundredths :=
        if 0 <=? e then Z.pos m * 100 * 2 ^ e
        else div_pow2_half_even (Z.pos m * 100) (- e) in
      let num :=
        match hundredths with
        | Zpos p => S754_finite s p 0
        | _ => S754_zero s
        end in
      SF2Prim (SFdiv prec emax num (S754_finite false 100 0))
  | _ => x
  end.

(** Truth value of a float: [bool(x)] is [x != 0]. *)
Definition truthy_float (x : float) : bool := negb (PrimFloat.eqb x 0%float).

(** [a or b] on floats *)
Definition or_float (a b : float) : float := if truthy_float a then a else b.

(** [sum] by repeated [+=] from a start value, left to right *)
Definition fsum (start : float) (l : list float) : float :=
  fold_left PrimFloat.add l start.

End Py.

(* ================================================================== *)
(** * bson.ObjectId, datetime, HTTP errors *)
(* ================================================================== *)

(** An [ObjectId] is its 96-bit value. *)
Definition ObjectId := N.

Module Bson.

Definition hex_digit (c : ascii) : option N :=
  let n := Py.code c in
  if Py.is_digit c then Some (n - 48)%N
  else if ((97 <=? n) && (n <=? 102))%N then Some (n - 87)%N
  else if ((65 <=? n) && (n <=? 70))%N then Some (n - 55)%N
  else None.

Fixpoint parse_hex (l : list ascii) (acc : N) : option N :=
  match l with
  | [] => Some acc
  | c :: r =>
      match hex_digit c with
      | Some d => parse_hex r (16 * acc + d)%N
      | None => None
      end
  end.

(** [ObjectId(value)] on a [str]: exactly 24 hexadecimal digits, otherwise
    [InvalidId] ([None]). *)
Definition ObjectId_of_str (s : string) : option ObjectId :=
  if (String.length s =? 24)%nat then parse_hex (Py.chars s) 0%N else None.

Definition hex_char (d : N) : ascii :=
  if (d <? 10)%N then ascii_of_N (48 + d) else ascii_of_N (87 + d).

Fixpoint hex_digits (k : nat) (n : N) (acc : list ascii) : list ascii :=
  match k with
  | O => acc
  | S k' => hex_digits k' (n / 16)%N (hex_char (n mod 16)%N :: acc)
  end.

(** [str(oid)]: 24 lowercase hexadecimal digits. *)
Definition str_of_ObjectId (o : ObjectId) : string := Py.str (hex_digits 24 o []).

End Bson.

(** A [datetime] is a number of microseconds since the epoch (UTC). *)
Definition datetime := Z.

Module Datetime.

Definition minutes (n : Z) : Z := n * 60 * 1000000.   (* timedelta(minutes=n) *)

Definition usec_per_day : Z := 86400 * 1000000.

(** Proleptic Gregorian date (year, month, day) of a day number counted from
    1970-01-01. *)
Definition civil_from_days (days : Z) : Z * Z * Z :=
  let z := days + 719468 in
  let era := z / 146097 in
  let doe := z - era * 146097 in
  let yoe := (doe - doe / 1460 + doe / 36524 - doe / 146096) / 365 in
  let doy := doe - (365 * yoe + yoe / 4 - yoe / 100) in
  let mp := (5 * doy + 2) / 153 in
  let d := doy - (153 * mp + 2) / 5 + 1 in
  let m := if mp <? 10 then mp + 3 else mp - 9 in
  let y := yoe + era * 400 in
  (if m <=? 2 then y + 1 else y, m, d).

(** [t.strftime("%Y%m%d%H%M%S%f")] *)
Definition strftime_compact_usec (t : datetime) : string :=
  let '(y, m, d) := civil_from_days (t / usec_per_day) in
  let rest := t mod usec_per_day in
  let secs := rest / 1000000 in
  Py.zfill 4 y ++ Py.zfill 2 m ++ Py.zfill 2 d
    ++ Py.zfill 2 (secs / 3600) ++ Py.zfill 2 ((secs / 60) mod 60) ++ Py.zfill 2 (secs mod 60)
    ++ Py.zfill 6 (rest mod 1000000).

(** [t.strftime("%Y%m%d%H%M%S")] *)
Definition strftime_compact (t : datetime) : string :=
  let '(y, m, d) := civil_from_days (t / usec_per_day) in
  let secs := (t mod usec_per_day) / 1000000 in
  Py.zfill 4 y ++ Py.zfill 2 m ++ Py.zfill 2 d
    ++ Py.zfill 2 (secs / 3600) ++ Py.zfill 2 ((secs / 60) mod 60) ++ Py.zfill 2 (secs mod 60).

End Datetime.

(** [fastapi.HTTPException(status_code, detail)] *)
Record HTTPException := HTTPError { status_code : Z; detail : string }.

Definition HTTP_400_BAD_REQUEST : Z := 400.
Definition HTTP_403_FORBIDDEN : Z := 403.
Definition HTTP_404_NOT_FOUND : Z := 404.
Definition HTTP_500_INTERNAL_SERVER_ERROR : Z := 500.
Definition HTTP_503_SERVICE_UNAVAILABLE : Z := 503.

(** The error kinds of the specification's taxonomy. *)
Definition InvalidInput (e : HTTPException) : Prop := status_code e = HTTP_400_BAD_REQUEST.
Definition NotFound (e : HTTPException) : Prop := status_code e = HTTP_404_NOT_FOUND.

Inductive Result (A : Type) : Type :=
| Ok (a : A)
| Raise (e : HTTPException).
Arguments Ok {A} a.
Arguments Raise {A} e.

Definition is_ok {A} (r : Result A) : bool :=
match r with Ok _ => true | Raise _ => false end.

Definition raises_status {A} (r : Result A) (code : Z) : Prop :=
exists d, r = Raise (HTTPError code d).

(* ================================================================== *)
(** * Documents ([db/models.py]) *)
(* ================================================================== *)

(** [dict[str, str]] in insertion order *)
Definition str_dict := list (string * string).

Record ProductVariantDocument := {
v_id : ObjectId;
v_sku : option string;
v_attributes : option str_dict;
v_price : float;
v_compare_at_price : option float;
v_stock_quantity : option Z
}.

Record ProductDocument := {
p_id : ObjectId;
p_seller_id : option ObjectId;
p_name : string;
p_slug : string;
p_categories : list ObjectId;
p_status : option string;
p_thumbnail_url : option string;
p_image_urls : option (list string);
p_variants : option (list ProductVariantDocument);
p_base_price : option float
}.

Record CartItemDocument := {
ci_item_id : ObjectId;
ci_product_id : option ObjectId;
ci_variant_id : option ObjectId;
ci_product_name : string;
ci_variant_name : option string;
ci_thumbnail_url : option string;
ci_attributes : str_dict;
ci_quantity : Z;
ci_price : float;
ci_compare_at_price : option float;
ci_created_at : datetime;
ci_updated_at : datetime
}.

Record CartDocument := {
c_id : ObjectId;
c_user_id : ObjectId;
c_items : list CartItemDocument;
c_updated_at : datetime
}.

Record AddressDocument := {
a_id : ObjectId;
a_user_id : ObjectId;
a_recipient_name : option string;
a_phone_number : option string;
a_address_line : option string;
a_ward : option string;
a_district : option string;
a_province : option string;
a_postal_code : option string;
a_country : option string
}.

Record OrderItemDocument := {
oi_product_id : ObjectId;
oi_variant_id : option ObjectId;
oi_product_name : string;
oi_sku : option string;
oi_quantity : Z;
oi_price : float;
oi_total_amount : float;
oi_thumbnail_url : option string;
oi_attributes : str_dict
}.

Record OrderTimelineEntryDocument := {
tl_status : string;
tl_note : option string;
tl_created_at : datetime;
tl_actor_id : option ObjectId
}.

Record OrderDocument := {
o_id : ObjectId;
o_buyer_id : ObjectId;
o_seller_id : option ObjectId;
o_order_code : string;
o_address_snapshot : list (string * option string);
o_payment_method : string;
o_payment_status : string;
o_fulfillment_status : string;
o_subtotal_amount : float;
o_shipping_fee : float;
o_discount_amount : float;
o_total_amount : float;
o_items : list OrderItemDocument;
o_timeline : list OrderTimelineEntryDocument;
o_tracking_number : option string;
o_shipping_provider : option string;
o_transaction_id : option string;
o_created_at : datetime;
o_updated_at : datetime;
o_note : option string
}.

Record NotificationPreferenceDocument := {
np_user_id : ObjectId;
np_channel : string;
np_enabled : option bool;
np_event_type : string
}.

Record NotificationDocument := {
n_id : ObjectId;
n_user_id : ObjectId;
n_type : string;
n_title : string;
n_message : string;
n_metadata : str_dict;
n_is_read : bool;
n_created_at : datetime;
n_read_at : option datetime
}.

(* ================================================================== *)
(** * The database and the service monad *)
(* ================================================================== *)

(** The collections the services below touch, the wall clock ([utcnow()]
  returns the next reading) and the supply of fresh [ObjectId]s. *)
Record Database := {
products : list ProductDocument;
addresses : list AddressDocument;
carts : list CartDocument;
orders : list OrderDocument;
notifications : list NotificationDocument;
notification_preferences : list NotificationPreferenceDocument;
clock : nat -> datetime;
ticks : nat;
next_oid : ObjectId
}.

Definition with_products (db : Database) (ps : list ProductDocument) : Database :=
{| products := ps; addresses := addresses db; carts := carts db;
   orders := orders db; notifications := notifications db;
   notification_preferences := notification_preferences db;
   clock := clock db; ticks := ticks db; next_oid := next_oid db |}.

Definition with_carts (db : Database) (cs : list CartDocument) : Database :=
{| products := products db; addresses := addresses db; carts := cs;
   orders := orders db; notifications := notifications db;
   notification_preferences := notification_preferences db;
   clock := clock db; ticks := ticks db; next_oid := next_oid db |}.

Definition with_orders (db : Database) (os : list OrderDocument) : Database :=
{| products := products db; addresses := addresses db; carts := carts db;
   orders := os; notifications := notifications db;
   notification_preferences := notification_preferences db;
   clock := clock db; ticks := ticks db; next_oid := next_oid db |}.

Definition with_notifications (db : Database) (ns : list NotificationDocument) : Database :=
{| products := products db; addresses := addresses db; carts := carts db;
   orders := orders db; notifications := ns;
   notification_preferences := notification_preferences db;
   clock := clock db; ticks := ticks db; next_oid := next_oid db |}.

Definition with_ticks (db : Database) (n : nat) : Database :=
{| products := products db; addresses := addresses db; carts := carts db;
   orders := orders db; notifications := notifications db;
   notification_preferences := notification_preferences db;
   clock := clock db; ticks := n; next_oid := next_oid db |}.

Definition with_next_oid (db : Database) (o : ObjectId) : Database :=
{| products := products db; addresses := addresses db; carts := carts db;
   orders := orders db; notifications := notifications db;
   notification_preferences := notification_preferences db;
   clock := clock db; ticks := ticks db; next_oid := o |}.

(** A service call over a store [S]: a result or an [HTTPException], and the
    store after it. *)
Definition ST (S A : Type) : Type := S -> Result A * S.

Definition ret {S A} (a : A) : ST S A := fun s => (Ok a, s).
Definition raise {S A} (e : HTTPException) : ST S A := fun s => (Raise e, s).
Definition bind {S A B} (m : ST S A) (k : A -> ST S B) : ST S B :=
fun s =>
  match m s with
  | (Ok a, s') => k a s'
  | (Raise e, s') => (Raise e, s')
  end.

Declare Scope service_scope.
Delimit Scope service_scope with service.
Notation "x <- m ;; k" := (bind m (fun x => k))
(at level 100, m at next level, right associativity) : service_scope.
Notation "m ;;; k" := (bind m (fun _ => k))
(at level 100, right associativity) : service_scope.
Open Scope service_scope.

Definition gets {S A} (f : S -> A) : ST S A := fun s => (Ok (f s), s).
Definition modify {S} (f : S -> S) : ST S unit := fun s => (Ok tt, f s).
Definition lift {S A} (r : Result A) : ST S A := fun s => (r, s).

(** The services of the marketplace run over the [Database]. *)
Definition M (A : Type) : Type := ST Database A.

(** [utcnow()] *)
Definition utcnow : M datetime :=
fun db => (Ok (clock db (ticks db)), with_ticks db (S (ticks db))).

(** [ObjectId()] and the [_id] pymongo gives an inserted document *)
Definition new_ObjectId : M ObjectId :=
fun db => (Ok (next_oid db), with_next_oid db (next_oid db + 1)%N).

(** ** Collection primitives *)

Section Collections.
Context {A : Type}.

(** [coll.find_one(filter)] *)
Definition find_one (p : A -> bool) (coll : list A) : option A := find p coll.

(** [coll.update_one(filter, update)]: the first matching document *)
Fixpoint update_one (p : A -> bool) (f : A -> A) (coll : list A) : list A :=
  match coll with
  | [] => []
  | x :: r => if p x then f x :: r else x :: update_one p f r
  end.

(** [coll.insert_one(doc)] *)
Definition insert_one (doc : A) (coll : list A) : list A := coll ++ [doc].
End Collections.

Definition oid_eqb (a b : ObjectId) : bool := N.eqb a b.

Definition opt_oid_eqb (a b : option ObjectId) : bool :=
match a, b with
| Some x, Some y => oid_eqb x y
| None, None => true
| _, _ => false
end.

(** [value in {s1, s2}] on status strings *)
Definition str_in (s : string) (l : list string) : bool := existsb (String.eqb s) l.

Definition opt_str_in (s : option string) (l : list string) : bool :=
match s with Some x => str_in x l | None => false end.

(* ================================================================== *)
(** * Catalog lookups ([modules/catalog/service.py]) *)
(* ================================================================== *)

Fixpoint find_variant (variants : list ProductVariantDocument) (variant_id : ObjectId)
: option ProductVariantDocument :=
match variants with
| [] => None
| variant :: rest =>
    if oid_eqb (v_id variant) variant_id then Some variant
    else find_variant rest variant_id
end.

(** [get_product_with_variant(db, product_id, variant_id=None)] *)
Definition get_product_with_variant (db : Database) (product_id : ObjectId)
  (variant_id : option ObjectId)
: Result (ProductDocument * option ProductVariantDocument) :=
match find_one (fun p => oid_eqb (p_id p) product_id) (products db) with
| None => Raise (HTTPError HTTP_404_NOT_FOUND "Sản phẩm không tồn tại")
| Some product =>
    if negb (opt_str_in (p_status product) ["active"; "draft"]) then
      Raise (HTTPError HTTP_400_BAD_REQUEST "Sản phẩm không khả dụng")
    else
      match variant_id with
      | None => Ok (product, None)
      | Some vid =>
          let variants := match p_variants product with Some vs => vs | None => [] end in
          match find_variant variants vid with
          | Some variant => Ok (product, Some variant)
          | None => Raise (HTTPError HTTP_404_NOT_FOUND "Biến thể không tồn tại")
          end
      end
end.

(* ================================================================== *)
(** * Addresses ([modules/users/service.py]) *)
(* ================================================================== *)

(** [get_address_by_id(db, user_id, address_id)] *)
Definition get_address_by_id (db : Database) (user_id address_id : ObjectId)
: Result AddressDocument :=
match find_one (fun a => oid_eqb (a_id a) address_id && oid_eqb (a_user_id a) user_id)
               (addresses db) with
| Some address => Ok address
| None => Raise (HTTPError HTTP_404_NOT_FOUND "Địa chỉ không tồn tại")
end.

(* ================================================================== *)
(** * Notifications ([modules/notifications/service.py]) *)
(* ================================================================== *)

Module Notifications.

Definition DEFAULT_CHANNEL : string := "in_app".
Definition DEFAULT_EVENT_ALL : string := "__all__".

Definition pref_matches (user_id : ObjectId) (event_type channel : string)
    (pref : NotificationPreferenceDocument) : bool :=
  oid_eqb (np_user_id pref) user_id
  && String.eqb (np_event_type pref) event_type
  && String.eqb (np_channel pref) channel.

(** [_should_send_notification(db, user_id, event_type, channel)] *)
Definition _should_send_notification (db : Database) (user_id : ObjectId)
    (event_type channel : string) : bool :=
  let pref := find_one (pref_matches user_id event_type channel)
                       (notification_preferences db) in
  let pref :=
    match pref with
    | None => find_one (pref_matches user_id DEFAULT_EVENT_ALL channel)
                       (notification_preferences db)
    | Some _ => pref
    end in
  match pref with
  | None => true
  | Some pref => match np_enabled pref with Some b => b | None => true end
  end.

(** [create_notification(db, user_id, notification_type, title, message,
    metadata=None, channel=DEFAULT_CHANNEL)] *)
Definition create_notification (user_id : ObjectId) (notification_type title message : string)
    (metadata : option str_dict) (channel : string) : M (option NotificationDocument) :=
  send <- gets (fun db => _should_send_notification db user_id notification_type channel) ;;
  if negb send then ret None
  else
    now <- utcnow ;;
    inserted_id <- new_ObjectId ;;
    let doc := {| n_id := inserted_id;
                  n_user_id := user_id;
                  n_type := notification_type;
                  n_title := title;
                  n_message := message;
                  n_metadata := match metadata with Some m => m | None => [] end;
                  n_is_read := false;
                  n_created_at := now;
                  n_read_at := None |} in
    modify (fun db => with_notifications db (insert_one doc (notifications db))) ;;;
    ret (Some doc).

(** [_parse_object_id(value, label)] *)
Definition _parse_object_id (value label : string) : Result ObjectId :=
  match Bson.ObjectId_of_str value with
  | Some oid => Ok oid
  | None => Raise (HTTPError HTTP_400_BAD_REQUEST (label ++ " is invalid"))
  end.

(** The filter [{"user_id": user_id, "is_read": False}] *)
Definition unread_of (user_id : ObjectId) (n : NotificationDocument) : bool :=
  oid_eqb (n_user_id n) user_id && negb (n_is_read n).

(** The filter [{"_id": notif_id, "user_id": user_id}] *)
Definition owned_with_id (notif_id user_id : ObjectId) (n : NotificationDocument) : bool :=
  oid_eqb (n_id n) notif_id && oid_eqb (n_user_id n) user_id.

(** [{"$set": {"is_read": read, "read_at": read_at}}] *)
Definition set_read (read : bool) (read_at : option datetime) (n : NotificationDocument)
  : NotificationDocument :=
  {| n_id := n_id n; n_user_id := n_user_id n; n_type := n_type n; n_title := n_title n;
     n_message := n_message n; n_metadata := n_metadata n;
     n_is_read := read; n_created_at := n_created_at n; n_read_at := read_at |}.

(** [get_unread_count(db, user_id)] *)
Definition get_unread_count (db : Database) (user_id : ObjectId) : nat :=
  List.length (filter (unread_of user_id) (notifications db)).

(** [mark_notification_read(db, notification_id, user_id, read=True)]; the
    update document, with its [utcnow()], is built before the collection is
    touched, and [matched_count] is 1 when a document matched the filter. *)
Definition mark_notification_read (notification_id : string) (user_id : ObjectId)
    (read : bool) : M unit :=
  notif_id <- lift (_parse_object_id notification_id "notification_id") ;;
  read_at <- (if read then (now <- utcnow ;; ret (Some now)) else ret None) ;;
  matched_count <- gets (fun db => if existsb (owned_with_id notif_id user_id) (notifications db)
                                   then 1%nat else 0%nat) ;;
  modify (fun db => with_notifications db
                      (update_one (owned_with_id notif_id user_id) (set_read read read_at)
                                  (notifications db))) ;;;
  if Nat.eqb matched_count 0 then
    raise (HTTPError HTTP_404_NOT_FOUND "Notification not found")
  else ret tt.

(** [coll.update_many(filter, update)]: every matching document *)
Definition update_many {A} (p : A -> bool) (f : A -> A) (coll : list A) : list A :=
  map (fun x => if p x then f x else x) coll.

(** [mark_all_read(db, user_id)]: every matched document has [is_read]
    False and is modified, so [modified_count] is the number matched. *)
Definition mark_all_read (user_id : ObjectId) : M nat :=
  now <- utcnow ;;
  modified_count <- gets (fun db => List.length (filter (unread_of user_id) (notifications db))) ;;
  modify (fun db => with_notifications db
                      (update_many (unread_of user_id) (set_read true (Some now))
                                   (notifications db))) ;;;
  ret modified_count.

End Notifications.

(* ================================================================== *)
(** * Cart ([modules/cart/service.py]) *)
(* ================================================================== *)

Module Cart.

(** [_parse_object_id(value, label)] *)
Definition _parse_object_id (value : option string) (label : string)
  : Result (option ObjectId) :=
  match value with
  | None => Ok None
  | Some s =>
      match Bson.ObjectId_of_str s with
      | Some oid => Ok (Some oid)
      | None => Raise (HTTPError HTTP_400_BAD_REQUEST (label ++ " không hợp lệ"))
      end
  end.

(** [_variant_display_name(variant)] *)
Definition _variant_display_name (variant : option ProductVariantDocument) : option string :=
  match variant with
  | None => None
  | Some v =>
      match v_attributes v with
      | None | Some [] => v_sku v
      | Some attributes =>
          Some (Py.join ", " (map (fun kv => fst kv ++ ": " ++ snd kv) attributes))
      end
  end.

(** [_cart_thumbnail(product)] *)
Definition _cart_thumbnail (product : ProductDocument) : option string :=
  match p_thumbnail_url product with
  | Some (String c r) => Some (String c r)
  | _ =>
      match p_image_urls product with
      | Some (first :: _) => Some first
      | _ => None
      end
  end.

Definition owned_by (user_id : ObjectId) (cart : CartDocument) : bool :=
  oid_eqb (c_user_id cart) user_id.

(** [_ensure_cart(db, user_id)] *)
Definition _ensure_cart (user_id : ObjectId) : M CartDocument :=
  found <- gets (fun db => find_one (owned_by user_id) (carts db)) ;;
  match found with
  | Some cart => ret cart
  | None =>
      now <- utcnow ;;
      inserted_id <- new_ObjectId ;;
      let doc := {| c_id := inserted_id; c_user_id := user_id;
                    c_items := []; c_updated_at := now |} in
      modify (fun db => with_carts db (insert_one doc (carts db))) ;;;
      ret doc
  end.

Definition same_line (product_id : ObjectId) (variant_id : option ObjectId)
    (item : CartItemDocument) : bool :=
  opt_oid_eqb (ci_product_id item) (Some product_id)
  && opt_oid_eqb (ci_variant_id item) variant_id.

Fixpoint find_index_from (idx : Z) (items : list CartItemDocument)
    (product_id : ObjectId) (variant_id : option ObjectId) : Z :=
  match items with
  | [] => -1
  | item :: rest =>
      if same_line product_id variant_id item then idx
      else find_index_from (idx + 1) rest product_id variant_id
  end.

(** [_find_item_index(cart, product_id, variant_id)] *)
Definition _find_item_index (cart : CartDocument) (product_id : ObjectId)
    (variant_id : option ObjectId) : Z :=
  find_index_from 0 (c_items cart) product_id variant_id.

(** [get_cart(db, user_id)] *)
Definition get_cart (user_id : ObjectId) : M CartDocument := _ensure_cart user_id.

(** [items[idx] = value] *)
Fixpoint list_set {A} (l : list A) (idx : nat) (value : A) : list A :=
  match l, idx with
  | [], _ => []
  | _ :: r, O => value :: r
  | x :: r, S i => x :: list_set r i value
  end.

Definition by_id (cart_id : ObjectId) (cart : CartDocument) : bool :=
  oid_eqb (c_id cart) cart_id.

(** [{"$set": {"items": items, "updated_at": now}}] *)
Definition set_items (items : list CartItemDocument) (now : datetime) (cart : CartDocument)
  : CartDocument :=
  {| c_id := c_id cart; c_user_id := c_user_id cart; c_items := items; c_updated_at := now |}.

Definition price_of (product : ProductDocument) (variant : option ProductVariantDocument)
  : float :=
  match variant with
  | Some v => v_price v
  | None => match p_base_price product with Some b => b | None => Py.zero end
  end.

Definition compare_at_price_of (variant : option ProductVariantDocument) : option float :=
  match variant with
  | Some v =>
      match v_compare_at_price v with
      | Some c => if Py.truthy_float c then Some c else None
      | None => None
      end
  | None => None
  end.

Definition stock_quantity_of (variant : option ProductVariantDocument) : option Z :=
  match variant with Some v => v_stock_quantity v | None => None end.

Definition attributes_of (variant : option ProductVariantDocument) : str_dict :=
  match variant with
  | Some v => match v_attributes v with Some a => a | None => [] end
  | None => []
  end.

(** [stock_quantity is not None and quantity > stock_quantity] *)
Definition exceeds_stock (stock_quantity : option Z) (quantity : Z) : bool :=
  match stock_quantity with
  | Some stock => stock <? quantity
  | None => false
  end.

Definition stock_error : HTTPException :=
  HTTPError HTTP_400_BAD_REQUEST "Số lượng vượt quá tồn kho".

(** [add_item(db, user_id, product_id_str, variant_id_str, quantity)] *)
Definition add_item (user_id : ObjectId) (product_id_str : string)
    (variant_id_str : option string) (quantity : Z) : M CartDocument :=
  parsed_product_id <- lift (_parse_object_id (Some product_id_str) "product_id") ;;
  variant_id <- lift (_parse_object_id variant_id_str "variant_id") ;;
  match parsed_product_id with
  | None => raise (HTTPError HTTP_500_INTERNAL_SERVER_ERROR "AssertionError")
  | Some product_id =>
    cart <- _ensure_cart user_id ;;
    pv <- bind (gets (fun db => get_product_with_variant db product_id variant_id)) lift ;;
    let product := fst pv in
    let variant := snd pv in
    let price := price_of product variant in
    let compare_at_price := compare_at_price_of variant in
    let stock_quantity := stock_quantity_of variant in
    if exceeds_stock stock_quantity quantity then raise stock_error
    else
      now <- utcnow ;;
      let items := c_items cart in
      let idx := _find_item_index cart product_id variant_id in
      new_items <-
        (if 0 <=? idx then
           match nth_error items (Z.to_nat idx) with
           | None => raise (HTTPError HTTP_500_INTERNAL_SERVER_ERROR "IndexError")
           | Some existing =>
               let new_quantity := ci_quantity existing + quantity in
               if exceeds_stock stock_quantity new_quantity then raise stock_error
               else
                 let updated :=
                   {| ci_item_id := ci_item_id existing;
                      ci_product_id := ci_product_id existing;
                      ci_variant_id := ci_variant_id existing;
                      ci_product_name := p_name product;
                      ci_variant_name := _variant_display_name variant;
                      ci_thumbnail_url := _cart_thumbnail product;
                      ci_attributes := attributes_of variant;
                      ci_quantity := new_quantity;
                      ci_price := price;
                      ci_compare_at_price := compare_at_price;
                      ci_created_at := ci_created_at existing;
                      ci_updated_at := now |} in
                 ret (list_set items (Z.to_nat idx) updated)
           end
         else
           item_id <- new_ObjectId ;;
           let item :=
             {| ci_item_id := item_id;
                ci_product_id := Some (p_id product);
                ci_variant_id := option_map v_id variant;
                ci_product_name := p_name product;
                ci_variant_name := _variant_display_name variant;
                ci_thumbnail_url := _cart_thumbnail product;
                ci_attributes := attributes_of variant;
                ci_quantity := quantity;
                ci_price := price;
                ci_compare_at_price := compare_at_price;
                ci_created_at := now;
                ci_updated_at := now |} in
           ret (items ++ [item])%list) ;;
      modify (fun db =>
                with_carts db (update_one (by_id (c_id cart)) (set_items new_items now)
                                          (carts db))) ;;;
      ret (set_items new_items now cart)
  end.

(** The body of the [for item in items] loop of [update_item_quantity]:
    [None] is the [else] branch of the loop (no line has this [item_id]). *)
Fixpoint update_matching_item (items : list CartItemDocument) (item_id : ObjectId)
    (quantity : Z) : M (option (list CartItemDocument)) :=
  match items with
  | [] => ret None
  | item :: rest =>
      if oid_eqb (ci_item_id item) item_id then
        let variant_id := ci_variant_id item in
        match ci_product_id item with
        | None => raise (HTTPError HTTP_404_NOT_FOUND "Sản phẩm không tồn tại")
        | Some product_id =>
          pv <- bind (gets (fun db => get_product_with_variant db product_id variant_id)) lift ;;
          let product := fst pv in
          let variant := snd pv in
          let stock_quantity := stock_quantity_of variant in
          if exceeds_stock stock_quantity quantity then raise stock_error
          else
            now <- utcnow ;;
            let updated :=
              {| ci_item_id := ci_item_id item;
                 ci_product_id := ci_product_id item;
                 ci_variant_id := ci_variant_id item;
                 ci_product_name := p_name product;
                 ci_variant_name := _variant_display_name variant;
                 ci_thumbnail_url := _cart_thumbnail product;
                 ci_attributes := attributes_of variant;
                 ci_quantity := quantity;
                 ci_price := price_of product variant;
                 ci_compare_at_price := compare_at_price_of variant;
                 ci_created_at := ci_created_at item;
                 ci_updated_at := now |} in
            ret (Some (updated :: rest))
        end
      else
        r <- update_matching_item rest item_id quantity ;;
        ret (option_map (cons item) r)
  end.

(** [update_item_quantity(db, user_id, item_id_str, quantity)] *)
Definition update_item_quantity (user_id : ObjectId) (item_id_str : string) (quantity : Z)
  : M CartDocument :=
  if quantity <=? 0 then raise (HTTPError HTTP_400_BAD_REQUEST "Số lượng phải lớn hơn 0")
  else
    parsed <- lift (_parse_object_id (Some item_id_str) "item_id") ;;
    match parsed with
    | None => raise (HTTPError HTTP_400_BAD_REQUEST "item_id không hợp lệ")
    | Some item_id =>
        cart <- _ensure_cart user_id ;;
        updated <- update_matching_item (c_items cart) item_id quantity ;;
        match updated with
        | None =>
            raise (HTTPError HTTP_404_NOT_FOUND "Không tìm thấy sản phẩm trong giỏ hàng")
        | Some items =>
            now <- utcnow ;;
            modify (fun db =>
                      with_carts db (update_one (by_id (c_id cart)) (set_items items now)
                                                (carts db))) ;;;
            ret (set_items items now cart)
        end
    end.

(** [remove_item(db, user_id, item_id_str)] *)
Definition remove_item (user_id : ObjectId) (item_id_str : string) : M CartDocument :=
  parsed <- lift (_parse_object_id (Some item_id_str) "item_id") ;;
  match parsed with
  | None => raise (HTTPError HTTP_400_BAD_REQUEST "item_id không hợp lệ")
  | Some item_id =>
      cart <- _ensure_cart user_id ;;
      let original_length := List.length (c_items cart) in
      let items := filter (fun item => negb (oid_eqb (ci_item_id item) item_id))
                          (c_items cart) in
      if Nat.eqb (List.length items) original_length then
        raise (HTTPError HTTP_404_NOT_FOUND "Không tìm thấy sản phẩm trong giỏ hàng")
      else
        now <- utcnow ;;
        modify (fun db =>
                  with_carts db (update_one (by_id (c_id cart)) (set_items items now)
                                            (carts db))) ;;;
        ret (set_items items now cart)
  end.

(** [clear_cart(db, user_id)] *)
Definition clear_cart (user_id : ObjectId) : M CartDocument :=
  cart <- _ensure_cart user_id ;;
  now <- utcnow ;;
  modify (fun db =>
            with_carts db (update_one (by_id (c_id cart)) (set_items [] now) (carts db))) ;;;
  ret (set_items [] now cart).

(** [calculate_cart_totals(cart)] *)
Definition calculate_cart_totals (cart : CartDocument) : float * Z :=
  let step acc item :=
    (PrimFloat.add (fst acc) (PrimFloat.mul (ci_price item) (Py.float_of_int (ci_quantity item))),
     snd acc + ci_quantity item) in
  let '(subtotal, total_items) := fold_left step (c_items cart) (Py.zero, 0) in
  (Py.round2 subtotal, total_items).

End Cart.

(* ================================================================== *)
(** * Orders ([modules/orders/service.py]) *)
(* ================================================================== *)

Module Orders.

(** [_generate_order_code()] *)
Definition _generate_order_code : M string :=
  now <- utcnow ;;
  ret ("ORD-" ++ Datetime.strftime_compact_usec now).

Definition multi_seller_error : HTTPException :=
  HTTPError HTTP_400_BAD_REQUEST
    "Giỏ hàng chứa sản phẩm từ nhiều người bán. Vui lòng tách đơn hàng.".

(** [_ensure_single_seller(current, new_seller)] *)
Definition _ensure_single_seller (current new_seller : option ObjectId) : Result ObjectId :=
  match new_seller with
  | None => Raise (HTTPError HTTP_400_BAD_REQUEST "Sản phẩm thiếu thông tin người bán")
  | Some seller =>
      match current with
      | None => Ok seller
      | Some cur => if negb (oid_eqb cur seller) then Raise multi_seller_error else Ok cur
      end
  end.

(** [a or b] on optional strings: the empty string is falsy *)
Definition or_str (a b : option string) : option string :=
  match a with
  | Some (String c r) => a
  | _ => b
  end.

(** One line of the [for item in cart.get("items", [])] loop of
    [_build_order_items]: the order item, the seller and the line total. *)
Definition build_order_item (db : Database) (seller_id : option ObjectId)
    (item : CartItemDocument) : Result (OrderItemDocument * ObjectId * float) :=
  match ci_product_id item with
  | None => Raise (HTTPError HTTP_400_BAD_REQUEST "Giỏ hàng không hợp lệ")
  | Some product_id =>
      match get_product_with_variant db product_id (ci_variant_id item) with
      | Raise e => Raise e
      | Ok (product, variant) =>
          match _ensure_single_seller seller_id (p_seller_id product) with
          | Raise e => Raise e
          | Ok seller =>
              let quantity := ci_quantity item in
              let price := Py.or_float (ci_price item) (Cart.price_of product variant) in
              let total_amount := PrimFloat.mul price (Py.float_of_int quantity) in
              Ok ({| oi_product_id := p_id product;
                     oi_variant_id := option_map v_id variant;
                     oi_product_name := p_name product;
                     oi_sku := match variant with Some v => v_sku v | None => None end;
                     oi_quantity := quantity;
                     oi_price := price;
                     oi_total_amount := Py.round2 total_amount;
                     oi_thumbnail_url := or_str (ci_thumbnail_url item) (p_thumbnail_url product);
                     oi_attributes :=
                       match ci_attributes item with
                       | [] => Cart.attributes_of variant
                       | attrs => attrs
                       end |},
                  seller, total_amount)
          end
      end
  end.

Fixpoint build_order_items_loop (db : Database) (cart_items : list CartItemDocument)
    (items : list OrderItemDocument) (seller_id : option ObjectId) (subtotal : float)
  : Result (list OrderItemDocument * option ObjectId * float) :=
  match cart_items with
  | [] => Ok (items, seller_id, subtotal)
  | item :: rest =>
      match build_order_item db seller_id item with
      | Raise e => Raise e
      | Ok (order_item, seller, total_amount) =>
          build_order_items_loop db rest (items ++ [order_item])%list (Some seller)
                                 (PrimFloat.add subtotal total_amount)
      end
  end.

(** [_build_order_items(db, cart)] *)
Definition _build_order_items (db : Database) (cart : CartDocument)
  : Result (list OrderItemDocument * ObjectId * float) :=
  match build_order_items_loop db (c_items cart) [] None Py.zero with
  | Raise e => Raise e
  | Ok (items, None, _) =>
      Raise (HTTPError HTTP_400_BAD_REQUEST "Không xác định được người bán")
  | Ok (items, Some seller_id, subtotal) => Ok (items, seller_id, Py.round2 subtotal)
  end.

Definition address_get (a : AddressDocument) (key : string) : option string :=
  if String.eqb key "recipient_name" then a_recipient_name a
  else if String.eqb key "phone_number" then a_phone_number a
  else if String.eqb key "address_line" then a_address_line a
  else if String.eqb key "ward" then a_ward a
  else if String.eqb key "district" then a_district a
  else if String.eqb key "province" then a_province a
  else if String.eqb key "postal_code" then a_postal_code a
  else if String.eqb key "country" then a_country a
  else None.

Definition address_snapshot (a : AddressDocument) : list (string * option string) :=
  map (fun key => (key, address_get a key))
      ["recipient_name"; "phone_number"; "address_line"; "ward"; "district"; "province";
       "postal_code"; "country"].

(** [create_order_from_cart(db, user, address_id_str, payment_method, note=None)] *)
Definition create_order_from_cart (user_id : ObjectId) (address_id_str payment_method : string)
    (note : option string) : M OrderDocument :=
  match Bson.ObjectId_of_str address_id_str with
  | None => raise (HTTPError HTTP_400_BAD_REQUEST "address_id không hợp lệ")
  | Some address_id =>
      cart <- Cart.get_cart user_id ;;
      match c_items cart with
      | [] => raise (HTTPError HTTP_400_BAD_REQUEST "Giỏ hàng đang trống")
      | _ :: _ =>
          address_doc <- bind (gets (fun db => get_address_by_id db user_id address_id)) lift ;;
          built <- bind (gets (fun db => _build_order_items db cart)) lift ;;
          let '(items, seller_id, subtotal) := built in
          let shipping_fee := Py.zero in
          let discount_amount := Py.zero in
          let total_amount :=
            Py.round2 (PrimFloat.sub (PrimFloat.add subtotal shipping_fee) discount_amount) in
          now <- utcnow ;;
          order_code <- _generate_order_code ;;
          inserted_id <- new_ObjectId ;;
          let order_doc :=
            {| o_id := inserted_id;
               o_buyer_id := user_id;
               o_seller_id := Some seller_id;
               o_order_code := order_code;
               o_address_snapshot := address_snapshot address_doc;
               o_payment_method := payment_method;
               o_payment_status := "pending";
               o_fulfillment_status := "pending_confirmation";
               o_subtotal_amount := subtotal;
               o_shipping_fee := shipping_fee;
               o_discount_amount := discount_amount;
               o_total_amount := total_amount;
               o_items := items;
               o_timeline := [ {| tl_status := "created";
                                  tl_note := Some "Đơn hàng đã được tạo";
                                  tl_created_at := now;
                                  tl_actor_id := Some user_id |} ];
               o_tracking_number := None;
               o_shipping_provider := None;
               o_transaction_id := None;
               o_created_at := now;
               o_updated_at := now;
               o_note := note |} in
          modify (fun db => with_orders db (insert_one order_doc (orders db))) ;;;
          Cart.clear_cart user_id ;;;
          let metadata := [("order_id", Bson.str_of_ObjectId inserted_id);
                           ("order_code", order_code)] in
          Notifications.create_notification user_id "order_created" "Order created"
            ("Order " ++ order_code ++ " has been created.") (Some metadata)
            Notifications.DEFAULT_CHANNEL ;;;
          Notifications.create_notification seller_id "order_new" "New order received"
            ("New order " ++ order_code ++ " is awaiting confirmation.") (Some metadata)
            Notifications.DEFAULT_CHANNEL ;;;
          ret order_doc
      end
  end.

(** [get_order(db, user_id, order_id_str)] *)
Definition get_order (db : Database) (user_id : ObjectId) (order_id_str : string)
  : Result OrderDocument :=
  match Bson.ObjectId_of_str order_id_str with
  | None => Raise (HTTPError HTTP_400_BAD_REQUEST "order_id không hợp lệ")
  | Some order_id =>
      match find_one (fun o => oid_eqb (o_id o) order_id && oid_eqb (o_buyer_id o) user_id)
                     (orders db) with
      | Some order => Ok order
      | None => Raise (HTTPError HTTP_404_NOT_FOUND "Không tìm thấy đơn hàng")
      end
  end.

(** [coll.find_one_and_update(filter, update, return_document=AFTER)] on orders *)
Fixpoint find_one_and_update (p : OrderDocument -> bool) (f : OrderDocument -> OrderDocument)
    (coll : list OrderDocument) : option OrderDocument * list OrderDocument :=
  match coll with
  | [] => (None, [])
  | o :: rest =>
      if p o then (Some (f o), f o :: rest)
      else let '(r, rest') := find_one_and_update p f rest in (r, o :: rest')
  end.

Definition find_one_and_update_order (p : OrderDocument -> bool)
    (f : OrderDocument -> OrderDocument) : M OrderDocument :=
  fun db =>
    match find_one_and_update p f (orders db) with
    | (Some updated, os) => (Ok updated, with_orders db os)
    | (None, _) => (Raise (HTTPError HTTP_404_NOT_FOUND "Không tìm thấy đơn hàng"), db)
    end.

(** The update document of the order transitions:
    [$set] of the given fields and [updated_at], [$push] of a timeline entry. *)
Definition apply_update (fulfillment payment : option string) (transaction_id : option string)
    (extra : option (string * string)) (now : datetime) (entry : OrderTimelineEntryDocument)
    (o : OrderDocument) : OrderDocument :=
  {| o_id := o_id o;
     o_buyer_id := o_buyer_id o;
     o_seller_id := o_seller_id o;
     o_order_code := o_order_code o;
     o_address_snapshot := o_address_snapshot o;
     o_payment_method := o_payment_method o;
     o_payment_status := match payment with Some s => s | None => o_payment_status o end;
     o_fulfillment_status :=
       match fulfillment with Some s => s | None => o_fulfillment_status o end;
     o_subtotal_amount := o_subtotal_amount o;
     o_shipping_fee := o_shipping_fee o;
     o_discount_amount := o_discount_amount o;
     o_total_amount := o_total_amount o;
     o_items := o_items o;
     o_timeline := (o_timeline o ++ [entry])%list;
     o_tracking_number :=
       match extra with Some (t, _) => Some t | None => o_tracking_number o end;
     o_shipping_provider :=
       match extra with Some (_, p) => Some p | None => o_shipping_provider o end;
     o_transaction_id :=
       match transaction_id with Some t => Some t | None => o_transaction_id o end;
     o_created_at := o_created_at o;
     o_updated_at := now;
     o_note := o_note o |}.

(** [reason or default] *)
Definition or_default (s : option string) (default : string) : string :=
  match s with
  | Some (String c r) => String c r
  | _ => default
  end.

(** [cancel_order(db, user_id, order_id_str, reason=None)] *)
Definition cancel_order (user_id : ObjectId) (order_id_str : string) (reason : option string)
  : M OrderDocument :=
  order <- bind (gets (fun db => get_order db user_id order_id_str)) lift ;;
  if negb (str_in (o_fulfillment_status order) ["pending_confirmation"; "processing"]) then
    raise (HTTPError HTTP_400_BAD_REQUEST "Đơn hàng không thể hủy ở trạng thái hiện tại")
  else
    now <- utcnow ;;
    find_one_and_update_order
      (fun o => oid_eqb (o_id o) (o_id order) && oid_eqb (o_buyer_id o) user_id)
      (apply_update (Some "cancelled") (Some "cancelled") None None now
         {| tl_status := "cancelled";
            tl_note := Some (or_default reason "Khách hàng đã hủy đơn");
            tl_created_at := now;
            tl_actor_id := Some user_id |}).

(** [get_order_by_object_id(db, order_id)] *)
Definition get_order_by_object_id (db : Database) (order_id : ObjectId)
  : Result OrderDocument :=
  match find_one (fun o => oid_eqb (o_id o) order_id) (orders db) with
  | Some order => Ok order
  | None => Raise (HTTPError HTTP_404_NOT_FOUND "Không tìm thấy đơn hàng")
  end.

(** A non-empty string is truthy. *)
Definition truthy_str (s : option string) : option string :=
  match s with
  | Some (String c r) => s
  | _ => None
  end.

(** [update_order_payment_status(db, order_id, new_status, note, actor_id,
    transaction_id=None)] *)
Definition update_order_payment_status (order_id : ObjectId) (new_status : string)
    (note : option string) (actor_id : option ObjectId) (transaction_id : option string)
  : M OrderDocument :=
  now <- utcnow ;;
  find_one_and_update_order
    (fun o => oid_eqb (o_id o) order_id)
    (apply_update None (Some new_status) (truthy_str transaction_id) None now
       {| tl_status := "payment_" ++ new_status;
          tl_note := note;
          tl_created_at := now;
          tl_actor_id := actor_id |}).

(** [update_order_fulfillment_status(db, order_id, new_status, note, actor_id,
    extra_updates=None)]; the only [extra_updates] a caller passes are the
    tracking number and the shipping provider. *)
Definition update_order_fulfillment_status (order_id : ObjectId) (new_status : string)
    (note : option string) (actor_id : option ObjectId) (extra_updates : option (string * string))
  : M OrderDocument :=
  now <- utcnow ;;
  find_one_and_update_order
    (fun o => oid_eqb (o_id o) order_id)
    (apply_update (Some new_status) None None extra_updates now
       {| tl_status := "fulfillment_" ++ new_status;
          tl_note := note;
          tl_created_at := now;
          tl_actor_id := actor_id |}).

End Orders.

(* ================================================================== *)
(** * Order endpoints ([modules/orders/router.py]) *)
(* ================================================================== *)

Module OrdersRouter.

(** [_parse_object_id(value)] *)
Definition _parse_object_id (value : string) : Result ObjectId :=
  match Bson.ObjectId_of_str value with
  | Some oid => Ok oid
  | None => Raise (HTTPError HTTP_400_BAD_REQUEST "order_id is invalid")
  end.

Definition not_allowed : HTTPException :=
  HTTPError HTTP_403_FORBIDDEN "Not allowed to update this order".

Definition status_metadata (order : OrderDocument) (status : string) : option str_dict :=
  Some [("order_id", Bson.str_of_ObjectId (o_id order)); ("status", status)].

(** [POST /orders/{order_id}/cancel] *)
Definition cancel_order (order_id : string) (current_user : ObjectId) : M OrderDocument :=
  Orders.cancel_order current_user order_id None.

(** [POST /orders/{order_id}/confirm] *)
Definition seller_confirm_order (order_id : string) (note : option string)
    (current_user : ObjectId) : M OrderDocument :=
  order_oid <- lift (_parse_object_id order_id) ;;
  order <- bind (gets (fun db => Orders.get_order_by_object_id db order_oid)) lift ;;
  if negb (opt_oid_eqb (o_seller_id order) (Some current_user)) then raise not_allowed
  else if negb (str_in (o_fulfillment_status order) ["pending_confirmation"; "processing"])
  then raise (HTTPError HTTP_400_BAD_REQUEST "Order cannot be confirmed in this status")
  else
    updated <- Orders.update_order_fulfillment_status order_oid "processing"
                 (Some (Orders.or_default note "Order confirmed by seller"))
                 (Some current_user) None ;;
    Notifications.create_notification (o_buyer_id order) "order_processing" "Order confirmed"
      ("Order " ++ o_order_code order ++ " has been confirmed by the seller.")
      (status_metadata order "processing") Notifications.DEFAULT_CHANNEL ;;;
    ret updated.

(** [POST /orders/{order_id}/ready-to-ship] *)
Definition seller_ready_to_ship (order_id : string) (note : option string)
    (current_user : ObjectId) : M OrderDocument :=
  order_oid <- lift (_parse_object_id order_id) ;;
  order <- bind (gets (fun db => Orders.get_order_by_object_id db order_oid)) lift ;;
  if negb (opt_oid_eqb (o_seller_id order) (Some current_user)) then raise not_allowed
  else
    updated <- Orders.update_order_fulfillment_status order_oid "shipping"
                 (Some (Orders.or_default note "Order ready for shipment"))
                 (Some current_user) None ;;
    Notifications.create_notification (o_buyer_id order) "order_shipping" "Order is on the way"
      ("Order " ++ o_order_code order ++ " is being prepared for shipment.")
      (status_metadata order "shipping") Notifications.DEFAULT_CHANNEL ;;;
    ret updated.

(** [POST /orders/{order_id}/delivered] *)
Definition seller_mark_delivered (order_id : string) (note : option string)
    (current_user : ObjectId) : M OrderDocument :=
  order_oid <- lift (_parse_object_id order_id) ;;
  order <- bind (gets (fun db => Orders.get_order_by_object_id db order_oid)) lift ;;
  if negb (opt_oid_eqb (o_seller_id order) (Some current_user)) then raise not_allowed
  else
    updated <- Orders.update_order_fulfillment_status order_oid "delivered"
                 (Some (Orders.or_default note "Order marked as delivered"))
                 (Some current_user) None ;;
    Notifications.create_notification (o_buyer_id order) "order_delivered" "Order delivered"
      ("Order " ++ o_order_code order ++ " has been marked as delivered.")
      (status_metadata order "delivered") Notifications.DEFAULT_CHANNEL ;;;
    ret updated.

(** [POST /orders/{order_id}/refund] (admin) *)
Definition admin_refund_order (order_id : string) (note : option string)
    (current_user : ObjectId) : M OrderDocument :=
  order_oid <- lift (_parse_object_id order_id) ;;
  order <- bind (gets (fun db => Orders.get_order_by_object_id db order_oid)) lift ;;
  Orders.update_order_payment_status order_oid "refunded"
    (Some (Orders.or_default note "Refund processed by admin")) (Some current_user) None ;;;
  updated <- Orders.update_order_fulfillment_status order_oid "refunded"
               (Some (Orders.or_default note "Refund processed by admin"))
               (Some current_user) None ;;
  Notifications.create_notification (o_buyer_id order) "order_refunded" "Order refunded"
    ("Order " ++ o_order_code order ++ " has been refunded.")
    (status_metadata order "refunded") Notifications.DEFAULT_CHANNEL ;;;
  match o_seller_id order with
  | Some seller_id =>
      Notifications.create_notification seller_id "order_refunded" "Order refunded"
        ("Order " ++ o_order_code order ++ " refund has been processed.")
        (status_metadata order "refunded") Notifications.DEFAULT_CHANNEL ;;;
      ret updated
  | None => ret updated
  end.

(** The requests that write [fulfillment_status] through this router. *)
Inductive request : Type :=
| BuyerCancel (order_id : string) (current_user : ObjectId)
| SellerConfirm (order_id : string) (note : option string) (current_user : ObjectId)
| SellerReadyToShip (order_id : string) (note : option string) (current_user : ObjectId)
| SellerMarkDelivered (order_id : string) (note : option string) (current_user : ObjectId)
| AdminRefund (order_id : string) (note : option string) (current_user : ObjectId).

Definition handle (r : request) : M OrderDocument :=
  match r with
  | BuyerCancel oid u => cancel_order oid u
  | SellerConfirm oid note u => seller_confirm_order oid note u
  | SellerReadyToShip oid note u => seller_ready_to_ship oid note u
  | SellerMarkDelivered oid note u => seller_mark_delivered oid note u
  | AdminRefund oid note u => admin_refund_order oid note u
  end.

(** The stored [fulfillment_status] of the order with this [_id]. *)
Definition fulfillment_status_of (db : Database) (order_id : ObjectId) : option string :=
  option_map o_fulfillment_status (find_one (fun o => oid_eqb (o_id o) order_id) (orders db)).

End OrdersRouter.


(* ================================================================== *)
(** * Cart endpoints ([modules/cart/router.py]) *)
(* ================================================================== *)

Module CartRouter.

(** The two requests that write a line's quantity: [POST /cart/items]
    ([CartItemAddRequest]) and [PATCH /cart/items/{item_id}]
    ([CartItemUpdateRequest]). *)
Inductive request : Type :=
| AddItem (product_id : string) (variant_id : option string) (quantity : Z)
| UpdateItem (item_id : string) (quantity : Z).

(** [quantity: int = Field(..., gt=0, le=999)] *)
Definition valid_quantity (quantity : Z) : bool := (0 <? quantity) && (quantity <=? 999).

Definition handle (current_user : ObjectId) (r : request) : M CartDocument :=
  match r with
  | AddItem product_id variant_id quantity =>
      Cart.add_item current_user product_id variant_id quantity
  | UpdateItem item_id quantity =>
      Cart.update_item_quantity current_user item_id quantity
  end.

End CartRouter.

(* ================================================================== *)
(** * Identifier checks ([modules/common/utils.py]) *)
(* ================================================================== *)

Module Utils.

Definition one_of (set : string) (c : ascii) : bool :=
  existsb (Ascii.eqb c) (Py.chars set).

(** [[a-zA-Z0-9._%+-]] and [[a-zA-Z0-9.-]] *)
Definition local_char (c : ascii) : bool :=
  Py.is_alpha c || Py.is_digit c || one_of "._%+-" c.
Definition domain_char (c : ascii) : bool :=
  Py.is_alpha c || Py.is_digit c || one_of ".-" c.

(** The text before and after the first occurrence of [sep]. *)
Fixpoint split_at_first (sep : ascii) (l : list ascii) : option (list ascii * list ascii) :=
  match l with
  | [] => None
  | c :: r =>
      if Ascii.eqb c sep then Some ([], r)
      else match split_at_first sep r with
           | Some (before, after) => Some (c :: before, after)
           | None => None
           end
  end.

Definition non_empty {A} (l : list A) : bool :=
  match l with [] => false | _ :: _ => true end.

(** [^[a-zA-Z0-9._%+-]+@[a-zA-Z0-9.-]+\.[a-zA-Z]{2,}] up to the end: the
    local part ends at the first "@" and the final label starts after the
    last ".", since neither class contains the separator that follows it. *)
Definition email_shape (l : list ascii) : bool :=
  match split_at_first "@" l with
  | None => false
  | Some (local, rest) =>
      non_empty local && forallb local_char local
      && match split_at_first "." (rev rest) with
         | None => false
         | Some (rev_label, rev_domain) =>
             non_empty rev_domain && forallb domain_char rev_domain
             && (2 <=? List.length rev_label)%nat && forallb Py.is_alpha rev_label
         end
  end.

(** [EMAIL_REGEX.match(s)]: [$] also matches before one final newline. *)
Definition EMAIL_REGEX_match (s : string) : bool :=
  let l := Py.chars s in
  email_shape l
  || match rev l with
     | c :: r => Ascii.eqb c "010" && email_shape (rev r)
     | [] => false
     end.

(** [is_email(identifier)] *)
Definition is_email (identifier : string) : bool := EMAIL_REGEX_match identifier.

(** [normalize_email(email)] *)
Definition normalize_email (email : string) : string := Py.lower (Py.strip email).

End Utils.

(* ================================================================== *)
(** * Password reset ([main.py], legacy endpoints) *)
(* ================================================================== *)

Module Auth.

Record UserDocument := {
  u_id : ObjectId;
  u_email : option string;
  u_hashed_password : string
}.

Record PasswordResetTokenDocument := {
  t_id : ObjectId;
  t_user_id : ObjectId;
  t_token_hash : string;
  t_created_at : datetime;
  t_expires_at : option datetime;
  t_used : bool
}.

(** The two collections of the reset flow, the clock ([datetime.utcnow()]
    returns the next reading) and the supply of fresh [_id]s. *)
Record Store := {
  users : list UserDocument;
  password_reset_tokens : list PasswordResetTokenDocument;
  clock : nat -> datetime;
  ticks : nat;
  next_oid : ObjectId
}.

Definition with_users (s : Store) (us : list UserDocument) : Store :=
  {| users := us; password_reset_tokens := password_reset_tokens s;
     clock := clock s; ticks := ticks s; next_oid := next_oid s |}.

Definition with_tokens (s : Store) (ts : list PasswordResetTokenDocument) : Store :=
  {| users := users s; password_reset_tokens := ts;
     clock := clock s; ticks := ticks s; next_oid := next_oid s |}.

(** [datetime.utcnow()] *)
Definition utcnow : ST Store datetime :=
  fun s => (Ok (clock s (ticks s)),
            {| users := users s; password_reset_tokens := password_reset_tokens s;
               clock := clock s; ticks := S (ticks s); next_oid := next_oid s |}).

Definition new_ObjectId : ST Store ObjectId :=
  fun s => (Ok (next_oid s),
            {| users := users s; password_reset_tokens := password_reset_tokens s;
               clock := clock s; ticks := ticks s; next_oid := (next_oid s + 1)%N |}).

Definition set_used (t : PasswordResetTokenDocument) : PasswordResetTokenDocument :=
  {| t_id := t_id t; t_user_id := t_user_id t; t_token_hash := t_token_hash t;
     t_created_at := t_created_at t; t_expires_at := t_expires_at t; t_used := true |}.

Definition set_password (hashed : string) (u : UserDocument) : UserDocument :=
  {| u_id := u_id u; u_email := u_email u; u_hashed_password := hashed |}.

(** The filter [{"user_id": user_id, "used": False}] *)
Definition unused_of (user_id : ObjectId) (t : PasswordResetTokenDocument) : bool :=
  oid_eqb (t_user_id t) user_id && negb (t_used t).

(** [tokens.update_many({"user_id": ..., "used": False}, {"$set": {"used": True}})] *)
Definition invalidate_unused (user_id : ObjectId) (tokens : list PasswordResetTokenDocument)
  : list PasswordResetTokenDocument :=
  map (fun t => if unused_of user_id t then set_used t else t) tokens.

(** The first document of a cursor sorted by [created_at] descending: the
    latest one, the earlier inserted of two with equal [created_at]. *)
Fixpoint latest (best : option PasswordResetTokenDocument)
    (l : list PasswordResetTokenDocument) : option PasswordResetTokenDocument :=
  match l with
  | [] => best
  | t :: r =>
      latest (match best with
              | None => Some t
              | Some b => if t_created_at b <? t_created_at t then Some t else Some b
              end) r
  end.

(** [tokens.find_one({"user_id": ..., "used": False}, sort=[("created_at", -1)])] *)
Definition find_latest_unused (user_id : ObjectId) (tokens : list PasswordResetTokenDocument)
  : option PasswordResetTokenDocument :=
  latest None (filter (unused_of user_id) tokens).

(** [tokens.delete_one({"_id": token_id})] *)
Fixpoint delete_one (token_id : ObjectId) (tokens : list PasswordResetTokenDocument)
  : list PasswordResetTokenDocument :=
  match tokens with
  | [] => []
  | t :: r => if oid_eqb (t_id t) token_id then r else t :: delete_one token_id r
  end.

Definition by_email (email : string) (u : UserDocument) : bool :=
  match u_email u with Some e => String.eqb e email | None => false end.

(** What [email_service.send_password_reset_code(email, code)] did: it
    returned whether a message was dispatched, or raised [RuntimeError]. *)
Inductive mail_outcome : Type :=
| Mailed (sent : bool)
| MailRuntimeError (message : string).

(** What the outside world answered during one [forgot_password] call: the
    pair [auth.generate_reset_token()] drew and the outcome of the mail. *)
Record forgot_env := {
  generated_code : string;
  generated_hash : string;
  mail : mail_outcome
}.

Definition invalid_email : HTTPException := HTTPError 400 "invalid email".
Definition unknown_email : HTTPException := HTTPError 400 "email is not registered".
Definition invalid_code : HTTPException := HTTPError 400 "invalid verification code".
Definition expired_code : HTTPException := HTTPError 400 "verification code has expired".

Section Endpoints.

(** [auth.match_reset_token(candidate, stored_hash)] and
    [auth.hash_password(plaintext)] of the security service, which the
    endpoints call and whose code is not part of the sources at hand. *)
Variable match_reset_token : string -> string -> bool.
Variable hash_password : string -> string.

(** [POST /auth/forgot-password]; the error texts are rendered in English. *)
Definition forgot_password (payload_identifier : string) (env : forgot_env)
  : ST Store string :=
  let identifier := Py.strip payload_identifier in
  if negb (Utils.is_email identifier) then raise invalid_email
  else
    let email := Py.lower identifier in
    found <- gets (fun s => find_one (by_email email) (users s)) ;;
    match found with
    | None => raise unknown_email
    | Some user =>
        modify (fun s => with_tokens s (invalidate_unused (u_id user)
                                          (password_reset_tokens s))) ;;;
        created_at <- utcnow ;;
        expires_base <- utcnow ;;
        inserted_id <- new_ObjectId ;;
        let reset_entry :=
          {| t_id := inserted_id;
             t_user_id := u_id user;
             t_token_hash := generated_hash env;
             t_created_at := created_at;
             t_expires_at := Some (expires_base + Datetime.minutes 30);
             t_used := false |} in
        modify (fun s => with_tokens s (insert_one reset_entry (password_reset_tokens s))) ;;;
        match mail env with
        | MailRuntimeError message =>
            modify (fun s => with_tokens s (delete_one inserted_id
                                              (password_reset_tokens s))) ;;;
            raise (HTTPError 500 message)
        | Mailed mail_sent =>
            ret (if mail_sent then "verification code sent"
                 else "verification code sent (debug mode: see the server log)")
        end
    end.

(** [POST /auth/reset-password] *)
Definition reset_password (payload_identifier payload_token payload_new_password : string)
  : ST Store string :=
  let identifier := Py.strip payload_identifier in
  if negb (Utils.is_email identifier) then raise invalid_email
  else
    let email := Py.lower identifier in
    found <- gets (fun s => find_one (by_email email) (users s)) ;;
    match found with
    | None => raise unknown_email
    | Some user =>
        token_entry <- gets (fun s => find_latest_unused (u_id user)
                                        (password_reset_tokens s)) ;;
        match token_entry with
        | None => raise invalid_code
        | Some entry =>
            if negb (match_reset_token payload_token (t_token_hash entry)) then
              raise invalid_code
            else
              default <- utcnow ;;
              now <- utcnow ;;
              let expires_at :=
                match t_expires_at entry with Some e => e | None => default end in
              if expires_at <? now then
                modify (fun s => with_tokens s
                                   (update_one (fun t => oid_eqb (t_id t) (t_id entry)) set_used
                                               (password_reset_tokens s))) ;;;
                raise expired_code
              else
                modify (fun s => with_users s
                                   (update_one (fun u => oid_eqb (u_id u) (u_id user))
                                               (set_password (hash_password payload_new_password))
                                               (users s))) ;;;
                modify (fun s => with_tokens s
                                   (update_one (fun t => oid_eqb (t_id t) (t_id entry)) set_used
                                               (password_reset_tokens s))) ;;;
                ret "password has been reset"
        end
    end.

(** The two requests of the reset flow. *)
Inductive request : Type :=
| Forgot (identifier : string) (env : forgot_env)
| Reset (identifier token new_password : string).

Definition handle (r : request) : ST Store string :=
  match r with
  | Forgot identifier env => forgot_password identifier env
  | Reset identifier token new_password => reset_password identifier token new_password
  end.

(** Requests served one after the other; the clock keeps running in between. *)
Fixpoint serve (rs : list request) (s : Store) : list (Result string) * Store :=
  match rs with
  | [] => ([], s)
  | r :: rest =>
      let '(result, s') := handle r s in
      let '(results, s'') := serve rest s' in
      (result :: results, s'')
  end.

End Endpoints.

End Auth.

(* ================================================================== *)
(** * Slugs and catalog creation ([modules/catalog/service.py]) *)
(* ================================================================== *)

Module Slug.

(** [pattern.sub("-", text)] for a pattern [[^...]+] given by the characters
    it does not match: every maximal run of other characters becomes one
    hyphen. *)
Fixpoint sub_runs (allowed : ascii -> bool) (in_run : bool) (l : list ascii) : list ascii :=
  match l with
  | [] => []
  | c :: r =>
      if allowed c then c :: sub_runs allowed false r
      else if in_run then sub_runs allowed true r
      else "-"%char :: sub_runs allowed true r
  end.

Definition is_hyphen (c : ascii) : bool := Ascii.eqb c "-".

(** [re.sub("-{2,}", "-", text)] *)
Fixpoint collapse_hyphens (after_hyphen : bool) (l : list ascii) : list ascii :=
  match l with
  | [] => []
  | c :: r =>
      if is_hyphen c then
        if after_hyphen then collapse_hyphens true r else c :: collapse_hyphens true r
      else c :: collapse_hyphens false r
  end.

(** The candidate tried at [idx]: the base itself first, then [f"{base}-{idx}"]. *)
Definition candidate (base : string) (idx : N) : string :=
  if (idx =? 1)%N then base else base ++ "-" ++ Py.str_of_N idx.

(** The [while] loop of both generators, entered with the candidate [slug] of
    index [idx]; [fuel] bounds the number of lookups. *)
Fixpoint first_free (fuel : nat) (taken : string -> bool) (base : string) (idx : N)
    (slug : string) : option string :=
  match fuel with
  | O => None
  | S fuel' =>
      if taken slug then
        first_free fuel' taken base (idx + 1) (base ++ "-" ++ Py.str_of_N (idx + 1))
      else Some slug
  end.

End Slug.

Record CategoryDocument := {
  cat_id : ObjectId;
  cat_name : string;
  cat_slug : string;
  cat_parent_id : option ObjectId;
  cat_is_active : bool;
  cat_created_at : datetime;
  cat_updated_at : datetime
}.

(** A collection with the clock and the supply of [_id]s its writers use. *)
Record Collection (A : Type) := {
  docs : list A;
  coll_clock : nat -> datetime;
  coll_ticks : nat;
  coll_next_oid : ObjectId
}.
Arguments docs {A} _.
Arguments coll_clock {A} _.
Arguments coll_ticks {A} _.
Arguments coll_next_oid {A} _.

Definition with_docs {A} (c : Collection A) (ds : list A) : Collection A :=
  {| docs := ds; coll_clock := coll_clock c; coll_ticks := coll_ticks c;
     coll_next_oid := coll_next_oid c |}.

Definition coll_utcnow {A} : ST (Collection A) datetime :=
  fun c => (Ok (coll_clock c (coll_ticks c)),
            {| docs := docs c; coll_clock := coll_clock c; coll_ticks := S (coll_ticks c);
               coll_next_oid := coll_next_oid c |}).

Definition coll_new_ObjectId {A} : ST (Collection A) ObjectId :=
  fun c => (Ok (coll_next_oid c),
            {| docs := docs c; coll_clock := coll_clock c; coll_ticks := coll_ticks c;
               coll_next_oid := (coll_next_oid c + 1)%N |}).

(** [ObjectId(value)] outside any [try]: [InvalidId] surfaces as a 500. *)
Definition ObjectId_or_500 (value : string) : Result ObjectId :=
  match Bson.ObjectId_of_str value with
  | Some oid => Ok oid
  | None => Raise (HTTPError HTTP_500_INTERNAL_SERVER_ERROR "InvalidId")
  end.

Module Catalog.

(** [SLUG_PATTERN = re.compile(r"[^a-z0-9-]+")] *)
Definition slug_char (c : ascii) : bool :=
  Py.is_lower c || Py.is_digit c || Slug.is_hyphen c.

(** The base of [_generate_slug]: lowercase, strip, substitute, collapse,
    strip hyphens, and "item" when nothing is left. *)
Definition slug_base (name : string) : string :=
  let base := Py.str (Slug.sub_runs slug_char false (Py.chars (Py.strip (Py.lower name)))) in
  let base := Py.strip_char "-" (Py.str (Slug.collapse_hyphens false (Py.chars base))) in
  match base with
  | EmptyString => "item"
  | _ => base
  end.

(** [existing.find_one({"slug": slug})] on the slugs of the collection *)
Definition slug_taken (existing : list string) (slug : string) : bool :=
  existsb (String.eqb slug) existing.

(** [_generate_slug(name, existing)]; [existing] is the slug of every document
    of the collection.  One lookup more than there are documents is the most
    the loop can make. *)
Definition _generate_slug (name : string) (existing : list string) : option string :=
  let base := slug_base name in
  Slug.first_free (S (List.length existing)) (slug_taken existing) base 1 base.

Record CategoryPayload := {
  cp_name : string;
  cp_slug : option string;
  cp_parent_id : option string;
  cp_is_active : option bool
}.

(** A loop that does not end returns nothing: the model's [None]. *)
Definition diverges : HTTPException := HTTPError 0 "no result".

(** [payload.get("slug") or _generate_slug(payload["name"], coll)] *)
Definition slug_for (given : option string) (name : string) (existing : list string)
  : Result string :=
  match given with
  | Some (String c r) => Ok (String c r)
  | _ =>
      match _generate_slug name existing with
      | Some slug => Ok slug
      | None => Raise diverges
      end
  end.

(** [create_category(db, payload)] *)
Definition create_category (payload : CategoryPayload)
  : ST (Collection CategoryDocument) CategoryDocument :=
  slug <- bind (gets (fun c => slug_for (cp_slug payload) (cp_name payload)
                                 (map cat_slug (docs c)))) lift ;;
  now <- coll_utcnow ;;
  parent_id <- lift (match cp_parent_id payload with
                     | Some (String c r) =>
                         match ObjectId_or_500 (String c r) with
                         | Ok oid => Ok (Some oid)
                         | Raise e => Raise e
                         end
                     | _ => Ok None
                     end) ;;
  inserted_id <- coll_new_ObjectId ;;
  let doc := {| cat_id := inserted_id;
                cat_name := cp_name payload;
                cat_slug := slug;
                cat_parent_id := parent_id;
                cat_is_active := match cp_is_active payload with Some b => b | None => true end;
                cat_created_at := now;
                cat_updated_at := now |} in
  modify (fun c => with_docs c (insert_one doc (docs c))) ;;;
  ret doc.

Record VariantPayload := {
  vp_id : option string;
  vp_sku : string;
  vp_attributes : option str_dict;
  vp_price : float;
  vp_compare_at_price : option float;
  vp_stock_quantity : option Z
}.

(** [_build_variant_payload(variant)], on the fields a variant document keeps here *)
Definition _build_variant_payload (variant : VariantPayload) : M ProductVariantDocument :=
  now <- utcnow ;;
  variant_id <- match vp_id variant with
                | Some (String c r) => lift (ObjectId_or_500 (String c r))
                | _ => new_ObjectId
                end ;;
  ret {| v_id := variant_id;
         v_sku := Some (vp_sku variant);
         v_attributes := Some (match vp_attributes variant with Some a => a | None => [] end);
         v_price := vp_price variant;
         v_compare_at_price :=
           match vp_compare_at_price variant with
           | Some c => if Py.truthy_float c then Some c else None
           | None => None
           end;
         v_stock_quantity :=
           Some (match vp_stock_quantity variant with Some q => q | None => 0 end) |}.

(** [[f(x) for x in xs]] with effects, left to right *)
Fixpoint for_each {S A B} (f : A -> ST S B) (xs : list A) : ST S (list B) :=
  match xs with
  | [] => ret []
  | x :: rest =>
      y <- f x ;;
      ys <- for_each f rest ;;
      ret (y :: ys)
  end.

Record ProductPayload := {
  pp_name : string;
  pp_slug : option string;
  pp_category_ids : list string;
  pp_status : option string;
  pp_thumbnail_url : option string;
  pp_image_urls : list string;
  pp_variants : list VariantPayload;
  pp_base_price : float
}.

(** [create_product(db, seller, payload)], on the fields a product document
    keeps here *)
Definition create_product (seller_id : ObjectId) (payload : ProductPayload)
  : M ProductDocument :=
  slug <- bind (gets (fun db => slug_for (pp_slug payload) (pp_name payload)
                                  (map p_slug (products db)))) lift ;;
  now <- utcnow ;;
  variants <- for_each _build_variant_payload (pp_variants payload) ;;
  categories <- for_each (fun cid => lift (ObjectId_or_500 cid)) (pp_category_ids payload) ;;
  inserted_id <- new_ObjectId ;;
  let doc := {| p_id := inserted_id;
                p_seller_id := Some seller_id;
                p_name := pp_name payload;
                p_slug := slug;
                p_categories := categories;
                p_status := Some (match pp_status payload with Some s => s | None => "draft" end);
                p_thumbnail_url := pp_thumbnail_url payload;
                p_image_urls := Some (pp_image_urls payload);
                p_variants := Some variants;
                p_base_price := Some (pp_base_price payload) |} in
  modify (fun db => with_products db (insert_one doc (products db))) ;;;
  ret doc.

End Catalog.

(* ================================================================== *)
(** * Seller applications ([modules/sellers/service.py]) *)
(* ================================================================== *)

Module Sellers.

Record SellerDocument := {
  s_id : ObjectId;
  s_user_id : ObjectId;
  s_shop_name : string;
  s_slug : string;
  s_description : option string;
  s_logo_url : option string;
  s_cover_image_url : option string;
  s_social_links : list string;
  s_documents : list string;
  s_status : option string;
  s_verification_notes : option string;
  s_created_at : datetime;
  s_updated_at : datetime
}.

(** [SLUG_REGEX = re.compile(r"[^a-z0-9]+")] *)
Definition slug_char (c : ascii) : bool := Py.is_lower c || Py.is_digit c.

Definition slug_base (base : string) : string :=
  let slug := Py.strip_char "-" (Py.str (Slug.sub_runs slug_char false
                                           (Py.chars (Py.lower base)))) in
  match slug with
  | EmptyString => "shop"
  | _ => slug
  end.

(** [sellers.find_one({"slug": candidate, "_id": {"$ne": exclude_id}})] *)
Definition slug_taken (sellers : list SellerDocument) (exclude_id : option ObjectId)
    (candidate : string) : bool :=
  existsb (fun doc =>
             String.eqb (s_slug doc) candidate
             && match exclude_id with
                | Some excluded => negb (oid_eqb (s_id doc) excluded)
                | None => true
                end) sellers.

(** [_generate_slug(base, db, exclude_id=None)] *)
Definition _generate_slug (base : string) (sellers : list SellerDocument)
    (exclude_id : option ObjectId) : option string :=
  let slug := slug_base base in
  Slug.first_free (S (List.length sellers)) (slug_taken sellers exclude_id) slug 1 slug.

Record ApplicationPayload := {
  ap_shop_name : string;
  ap_description : option string;
  ap_logo_url : option string;
  ap_cover_image_url : option string;
  ap_social_links : list string;
  ap_documents : list string
}.

Definition by_user (user_id : ObjectId) (doc : SellerDocument) : bool :=
  oid_eqb (s_user_id doc) user_id.

(** [submit_application(db, user, payload)]; the seller is returned as stored. *)
Definition submit_application (user_id : ObjectId) (payload : ApplicationPayload)
  : ST (Collection SellerDocument) SellerDocument :=
  now <- coll_utcnow ;;
  existing <- gets (fun c => find_one (by_user user_id) (docs c)) ;;
  let shop_name := Py.strip (ap_shop_name payload) in
  slug <- bind (gets (fun c => match _generate_slug shop_name (docs c)
                                       (option_map s_id existing) with
                               | Some slug => Ok slug
                               | None => Raise Catalog.diverges
                               end)) lift ;;
  match existing with
  | Some old =>
      let resets := opt_str_in (Some (match s_status old with Some st => st | None => "pending" end))
                               ["rejected"; "pending"] in
      let updated :=
        {| s_id := s_id old;
           s_user_id := user_id;
           s_shop_name := shop_name;
           s_slug := slug;
           s_description := ap_description payload;
           s_logo_url := Orders.truthy_str (ap_logo_url payload);
           s_cover_image_url := Orders.truthy_str (ap_cover_image_url payload);
           s_social_links := ap_social_links payload;
           s_documents := ap_documents payload;
           s_status := if resets then Some "pending" else s_status old;
           s_verification_notes := if resets then None else s_verification_notes old;
           s_created_at := s_created_at old;
           s_updated_at := now |} in
      modify (fun c => with_docs c (update_one (fun d => oid_eqb (s_id d) (s_id old))
                                               (fun _ => updated) (docs c))) ;;;
      seller <- gets (fun c => find_one (fun d => oid_eqb (s_id d) (s_id old)) (docs c)) ;;
      match seller with
      | Some doc => ret doc
      | None => raise (HTTPError HTTP_500_INTERNAL_SERVER_ERROR
                         "Không tạo được hồ sơ người bán")
      end
  | None =>
      inserted_id <- coll_new_ObjectId ;;
      let created :=
        {| s_id := inserted_id;
           s_user_id := user_id;
           s_shop_name := shop_name;
           s_slug := slug;
           s_description := ap_description payload;
           s_logo_url := Orders.truthy_str (ap_logo_url payload);
           s_cover_image_url := Orders.truthy_str (ap_cover_image_url payload);
           s_social_links := ap_social_links payload;
           s_documents := ap_documents payload;
           s_status := Some "pending";
           s_verification_notes := None;
           s_created_at := now;
           s_updated_at := now |} in
      modify (fun c => with_docs c (insert_one created (docs c))) ;;;
      seller <- gets (fun c => find_one (fun d => oid_eqb (s_id d) inserted_id) (docs c)) ;;
      match seller with
      | Some doc => ret doc
      | None => raise (HTTPError HTTP_500_INTERNAL_SERVER_ERROR
                         "Không tạo được hồ sơ người bán")
      end
  end.

End Sellers.

(* ================================================================== *)
(** * The slug base in the words of the specification *)
(* ================================================================== *)

Module SlugSpec.

(** A character a slug keeps: [[a-z0-9]]. *)
Definition alnum (c : ascii) : bool := Py.is_lower c || Py.is_digit c.

(** The maximal runs of kept characters of a text, in order: what is left
    of the text when every run of other characters is a separator.
    [current] is the run being read, its last character first. *)
Fixpoint runs_from (current : list ascii) (l : list ascii) : list (list ascii) :=
  match l with
  | [] => match current with [] => [] | _ :: _ => [rev current] end
  | c :: r =>
      if alnum c then runs_from (c :: current) r
      else match current with
           | [] => runs_from [] r
           | _ :: _ => rev current :: runs_from [] r
           end
  end.

Definition runs (l : list ascii) : list (list ascii) := runs_from [] l.

(** The runs joined by single hyphens. *)
Fixpoint hyphenate (ws : list (list ascii)) : list ascii :=
  match ws with
  | [] => []
  | w :: rest =>
      match rest with
      | [] => w
      | _ :: _ => (w ++ "-"%char :: hyphenate rest)%list
      end
  end.

(** The lowercased name with every run of characters outside [[a-z0-9]]
    collapsed to one hyphen and no hyphen at either end; [fallback] when
    nothing is left. *)
Definition base_of (fallback name : string) : string :=
  match Py.str (hyphenate (runs (Py.chars (Py.lower name)))) with
  | EmptyString => fallback
  | String c r => String c r
  end.

(** [^[a-z0-9]+(-[a-z0-9]+)*$] *)
Fixpoint shaped_from (after_alnum : bool) (l : list ascii) : bool :=
  match l with
  | [] => after_alnum
  | c :: r =>
      if alnum c then shaped_from true r
      else Slug.is_hyphen c && after_alnum && shaped_from false r
  end.

Definition shaped (slug : string) : bool := shaped_from false (Py.chars slug).

End SlugSpec.

(* ================================================================== *)
(** * Payments ([modules/payments/service.py]), the VNPay flow *)
(* ================================================================== *)

(** A value of the [params] dict of the VNPay request: a [str], or the [int]
    of [vnp_Amount]. *)
Inductive param_value :=
| PStr (s : string)
| PInt (n : Z).

Definition params_dict := list (string * param_value).

Record PaymentDocument := {
pay_id : ObjectId;
pay_order_id : ObjectId;
pay_order_code : string;
pay_provider : string;
pay_amount : float;
pay_currency : string;
pay_transaction_id : option string;
pay_request_id : option string;
pay_payment_url : option string;
pay_status : string;
pay_raw_payload : params_dict;
pay_created_at : datetime;
pay_updated_at : datetime
}.

(** The VNPay fields of [config.Settings]. *)
Record Settings := {
vnpay_tmn_code : option string;
vnpay_hash_secret : option string;
vnpay_return_url : option string;
vnpay_base_url : string
}.

Module Payments.

(** The database with its [payments] collection. *)
Record Store := {
database : Database;
payments : list PaymentDocument
}.

Definition with_payments (s : Store) (ps : list PaymentDocument) : Store :=
{| database := database s; payments := ps |}.

(** A service of the other modules, run on the same database. *)
Definition on_database {A} (m : M A) : ST Store A :=
fun s => let '(r, db) := m (database s) in (r, {| database := db; payments := payments s |}).

(** [str(n)] for an int *)
Definition str_of_int (n : Z) : string :=
  if n <? 0 then "-" ++ Py.str_of_N (Z.to_N (- n)) else Py.str_of_N (Z.to_N n).

(** [str(v)] / [f"{v}"] *)
Definition str_of_value (v : param_value) : string :=
  match v with
  | PStr s => s
  | PInt n => str_of_int n
  end.

(** A non-empty string is truthy; [None] and [""] are not. *)
Definition truthy (s : option string) : bool :=
  match s with
  | Some (String _ _) => true
  | _ => false
  end.

(** ** Dicts with [str] keys, in insertion order *)

Section Dict.
Context {V : Type}.

Fixpoint dict_get (key : string) (d : list (string * V)) : option V :=
  match d with
  | [] => None
  | (k, v) :: r => if String.eqb k key then Some v else dict_get key r
  end.

(** [d.pop(key, None)], the dict that is left *)
Definition dict_pop (key : string) (d : list (string * V)) : list (string * V) :=
  filter (fun kv => negb (String.eqb (fst kv) key)) d.

Fixpoint insert_sorted (kv : string * V) (d : list (string * V)) : list (string * V) :=
  match d with
  | [] => [kv]
  | x :: r => if String.leb (fst kv) (fst x) then kv :: d else x :: insert_sorted kv r
  end.

(** [sorted(d.items())]: the keys of a dict are distinct, so the order is
    that of the keys, code point by code point. *)
Definition sorted_items (d : list (string * V)) : list (string * V) :=
  fold_right insert_sorted [] d.
End Dict.

(** [text.split()]: the maximal runs of non-whitespace characters *)
Fixpoint split_runs (l : list ascii) (current : list ascii) : list (list ascii) :=
  match l with
  | [] => match current with [] => [] | _ => [rev current] end
  | c :: r =>
      if Py.is_space c
      then match current with
           | [] => split_runs r []
           | _ => rev current :: split_runs r []
           end
      else split_runs r (c :: current)
  end.

Definition split (text : string) : list string :=
  map Py.str (split_runs (Py.chars text) []).

(** [_upsert_payment_record(db, order, provider, amount, currency, request_id,
    payment_url, payload)] *)
Definition expire_pending (order_id : ObjectId) (provider : string) (now : datetime)
    (p : PaymentDocument) : PaymentDocument :=
  if oid_eqb (pay_order_id p) order_id && String.eqb (pay_provider p) provider
     && String.eqb (pay_status p) "pending"
  then {| pay_id := pay_id p;
          pay_order_id := pay_order_id p;
          pay_order_code := pay_order_code p;
          pay_provider := pay_provider p;
          pay_amount := pay_amount p;
          pay_currency := pay_currency p;
          pay_transaction_id := pay_transaction_id p;
          pay_request_id := pay_request_id p;
          pay_payment_url := pay_payment_url p;
          pay_status := "expired";
          pay_raw_payload := pay_raw_payload p;
          pay_created_at := pay_created_at p;
          pay_updated_at := now |}
  else p.

Definition _upsert_payment_record (order : OrderDocument) (provider : string) (amount : float)
    (currency : string) (request_id payment_url : option string) (payload : params_dict)
  : ST Store PaymentDocument :=
  now <- on_database utcnow ;;
  modify (fun s => with_payments s (map (expire_pending (o_id order) provider now) (payments s))) ;;;
  inserted_id <- on_database new_ObjectId ;;
  let payment_doc := {| pay_id := inserted_id;
                        pay_order_id := o_id order;
                        pay_order_code := o_order_code order;
                        pay_provider := provider;
                        pay_amount := amount;
                        pay_currency := currency;
                        pay_transaction_id := None;
                        pay_request_id := request_id;
                        pay_payment_url := payment_url;
                        pay_status := "pending";
                        pay_raw_payload := payload;
                        pay_created_at := now;
                        pay_updated_at := now |} in
  modify (fun s => with_payments s (insert_one payment_doc (payments s))) ;;;
  ret payment_doc.

(** [_update_payment_record_status(db, payment_doc, status_value,
    transaction_id, raw_payload)] *)
Definition _update_payment_record_status (payment_doc : PaymentDocument) (status_value : string)
    (transaction_id : option string) (raw_payload : params_dict) : ST Store unit :=
  now <- on_database utcnow ;;
  modify (fun s => with_payments s
    (update_one (fun p => oid_eqb (pay_id p) (pay_id payment_doc))
       (fun p => {| pay_id := pay_id p;
                    pay_order_id := pay_order_id p;
                    pay_order_code := pay_order_code p;
                    pay_provider := pay_provider p;
                    pay_amount := pay_amount p;
                    pay_currency := pay_currency p;
                    pay_transaction_id := transaction_id;
                    pay_request_id := pay_request_id p;
                    pay_payment_url := pay_payment_url p;
                    pay_status := status_value;
                    pay_raw_payload := raw_payload;
                    pay_created_at := pay_created_at p;
                    pay_updated_at := now |})
       (payments s))).

(** The dict [initiate_vnpay_payment] returns. *)
Record VnPayPayment := {
vp_payment_id : string;
vp_order_id : string;
vp_amount : float;
vp_pay_url : string
}.

(** [vnp_amount = int(amount * 100)] with [amount = float(order.get("total_amount", 0))];
    [None] is the exception [int] raises on a NaN or an infinity. *)
Definition vnp_amount_of (order : OrderDocument) : option Z :=
  let amount := o_total_amount order in
  Py.int_of_float (PrimFloat.mul amount (Py.float_of_int 100)).

(** [abs(amount - float(order.get("total_amount", 0))) > 1] *)
Definition amount_mismatch (amount : float) (order : OrderDocument) : bool :=
  PrimFloat.ltb (Py.float_of_int 1) (PrimFloat.abs (PrimFloat.sub amount (o_total_amount order))).

Definition not_configured (message : string) : HTTPException :=
  HTTPError HTTP_503_SERVICE_UNAVAILABLE message.

Definition invalid_signature : HTTPException :=
  HTTPError HTTP_400_BAD_REQUEST "Invalid VNPay signature".

Definition payment_not_found : HTTPException :=
  HTTPError HTTP_404_NOT_FOUND "Payment record not found".

Definition amount_mismatch_error : HTTPException :=
  HTTPError HTTP_400_BAD_REQUEST "Amount mismatch".

(** [orders_service.get_order_by_object_id(db, payment_doc["order_id"])] *)
Definition get_order_of (payment_doc : PaymentDocument) : ST Store OrderDocument :=
  fun s => (Orders.get_order_by_object_id (database s) (pay_order_id payment_doc), s).

Section Gateway.

(** [hmac.new(key, message, hashlib.sha512).hexdigest()] *)
Variable hmac_sha512_hexdigest : string -> string -> string.
(** [urllib.parse.quote_plus] *)
Variable quote_plus : string -> string.
(** [float(text)] on a [str]; [None] is its [ValueError]. *)
Variable float_of_str : string -> option float.
(** [get_settings()] *)
Variable settings : Settings.

Definition sign_data (items : params_dict) : string :=
  Py.join "&" (map (fun kv => fst kv ++ "=" ++ str_of_value (snd kv)) items).

(** [_create_vnpay_signature(data, secret_key)]; no value of [data] is [None]. *)
Definition _create_vnpay_signature (data : params_dict) (secret_key : string) : string :=
  hmac_sha512_hexdigest secret_key (sign_data (sorted_items data)).

(** [initiate_vnpay_payment(db, order, redirect_url, client_ip)]; [txn_ref] is
    the [uuid4().hex[:12]] drawn by the call. *)
Definition initiate_vnpay_payment (txn_ref : string) (order : OrderDocument)
    (redirect_url : option string) (client_ip : string) : ST Store VnPayPayment :=
  match vnpay_tmn_code settings, vnpay_hash_secret settings with
  | Some (String c1 r1), Some (String c2 r2) =>
      let tmn_code := String c1 r1 in
      let hash_secret := String c2 r2 in
      let amount := o_total_amount order in
      match vnp_amount_of order with
      | None => raise (HTTPError HTTP_500_INTERNAL_SERVER_ERROR "ValueError")
      | Some vnp_amount =>
          let order_id := o_order_code order in
          created <- on_database utcnow ;;
          let create_date := Datetime.strftime_compact created in
          expires <- on_database utcnow ;;
          let expire_date := Datetime.strftime_compact (expires + Datetime.minutes 15) in
          let return_url :=
            if truthy redirect_url then redirect_url
            else if truthy (vnpay_return_url settings) then vnpay_return_url settings
            else Some "" in
          let params :=
            [ ("vnp_Version", PStr "2.1.0");
              ("vnp_Command", PStr "pay");
              ("vnp_TmnCode", PStr tmn_code);
              ("vnp_Amount", PInt vnp_amount);
              ("vnp_CurrCode", PStr "VND");
              ("vnp_TxnRef", PStr txn_ref);
              ("vnp_OrderInfo", PStr ("Payment for order " ++ order_id));
              ("vnp_OrderType", PStr "billpayment");
              ("vnp_Locale", PStr "vn");
              ("vnp_ReturnUrl", PStr (match return_url with Some u => u | None => "" end));
              ("vnp_IpAddr", PStr client_ip);
              ("vnp_CreateDate", PStr create_date);
              ("vnp_ExpireDate", PStr expire_date);
              ("vnp_Bill_Email", PStr "");
              ("vnp_Bill_FirstName", PStr "");
              ("vnp_Bill_LastName", PStr "") ] in
          let params :=
            (params ++ [("vnp_SecureHash", PStr (_create_vnpay_signature params hash_secret))])%list in
          let query_string :=
            Py.join "&" (map (fun kv => fst kv ++ "=" ++ quote_plus (str_of_value (snd kv)))
                             (sorted_items params)) in
          let pay_url := vnpay_base_url settings ++ "?" ++ query_string in
          payment_doc <- _upsert_payment_record order "vnpay" amount "VND" (Some txn_ref)
                           (Some pay_url) params ;;
          ret {| vp_payment_id := Bson.str_of_ObjectId (pay_id payment_doc);
                 vp_order_id := order_id;
                 vp_amount := amount;
                 vp_pay_url := pay_url |}
      end
  | _, _ => raise (not_configured "VNPay chưa được cấu hình")
  end.

(** [_verify_vnpay_signature(params, secret_key)], on a copy of the params *)
Definition _verify_vnpay_signature (params : list (string * string)) (secret_key : string) : bool :=
  let received_hash := dict_get "vnp_SecureHash" params in
  let params := dict_pop "vnp_SecureHashType" (dict_pop "vnp_SecureHash" params) in
  let sign_data := Py.join "&" (map (fun kv => fst kv ++ "=" ++ snd kv) (sorted_items params)) in
  let calculated_hash := hmac_sha512_hexdigest secret_key sign_data in
  String.eqb (Py.lower calculated_hash)
             (Py.lower (match received_hash with Some (String c r) => String c r | _ => "" end)).

Definition opt_str_eqb (a b : option string) : bool :=
  match a, b with
  | Some x, Some y => String.eqb x y
  | None, None => true
  | _, _ => false
  end.

(** The metadata of the notifications of the webhook; a [code] that is [None]
    is stored as a null and left out here. *)
Definition payment_metadata (order : OrderDocument) (code : option string) : str_dict :=
  ([("order_id", Bson.str_of_ObjectId (o_id order)); ("provider", "vnpay")]
     ++ match code with Some c => [("code", c)] | None => [] end)%list.

(** [params.get("vnp_OrderInfo", "").split()[-1] if params.get("vnp_OrderInfo") else None];
    an order info of white space only has no last token. *)
Definition order_code_of (params : list (string * string)) : Result (option string) :=
  match dict_get "vnp_OrderInfo" params with
  | Some (String c r) =>
      match rev (split (String c r)) with
      | last :: _ => Ok (Some last)
      | [] => Raise (HTTPError HTTP_500_INTERNAL_SERVER_ERROR "IndexError")
      end
  | _ => Ok None
  end.

(** [float(params.get("vnp_Amount", "0")) / 100] *)
Definition reported_amount (params : list (string * string)) : Result float :=
  match float_of_str (match dict_get "vnp_Amount" params with
                      | Some text => text
                      | None => "0"
                      end) with
  | Some x => Ok (PrimFloat.div x (Py.float_of_int 100))
  | None => Raise (HTTPError HTTP_500_INTERNAL_SERVER_ERROR "ValueError")
  end.

(** The payment record the webhook looks up:
    [{"order_code": order_code, "provider": "vnpay", "request_id": txn_ref}] *)
Definition payment_of (order_code txn_ref : option string) (p : PaymentDocument) : bool :=
  opt_str_eqb (Some (pay_order_code p)) order_code
  && String.eqb (pay_provider p) "vnpay"
  && opt_str_eqb (pay_request_id p) txn_ref.

(** [handle_vnpay_webhook(db, query_params)] *)
Definition handle_vnpay_webhook (query_params : list (string * string)) : ST Store string :=
  match vnpay_hash_secret settings with
  | Some (String c0 r0) =>
      let params := query_params in
      if negb (_verify_vnpay_signature params (String c0 r0)) then raise invalid_signature
      else
        order_code <- lift (order_code_of params) ;;
        let txn_ref := dict_get "vnp_TxnRef" params in
        amount <- lift (reported_amount params) ;;
        let response_code := dict_get "vnp_ResponseCode" params in
        found <- gets (fun s => find_one (payment_of order_code txn_ref) (payments s)) ;;
        match found with
        | None => raise payment_not_found
        | Some payment_doc =>
            order <- get_order_of payment_doc ;;
            if amount_mismatch amount order then raise amount_mismatch_error
            else
              let raw := map (fun kv => (fst kv, PStr (snd kv))) params in
              let transaction_no := dict_get "vnp_TransactionNo" params in
              if opt_str_eqb response_code (Some "00") then
                _update_payment_record_status payment_doc "paid" transaction_no raw ;;;
                on_database (Orders.update_order_payment_status (pay_order_id payment_doc) "paid"
                               (Some "VNPay payment succeeded") None transaction_no) ;;;
                on_database (Notifications.create_notification (o_buyer_id order) "payment_paid"
                               "Payment successful"
                               ("Order " ++ o_order_code order ++ " has been paid via VNPay.")
                               (Some (payment_metadata order None))
                               Notifications.DEFAULT_CHANNEL) ;;;
                match o_seller_id order with
                | Some seller_id =>
                    on_database (Notifications.create_notification seller_id "payment_paid"
                                   "Order paid"
                                   ("Order " ++ o_order_code order
                                      ++ " has been paid by the buyer.")
                                   (Some (payment_metadata order None))
                                   Notifications.DEFAULT_CHANNEL) ;;;
                    ret "00"
                | None => ret "00"
                end
              else
                _update_payment_record_status payment_doc "failed" transaction_no raw ;;;
                on_database (Orders.update_order_payment_status (pay_order_id payment_doc) "failed"
                               (Some ("VNPay payment failed: "
                                        ++ match response_code with Some c => c | None => "None" end))
                               None None) ;;;
                on_database (Notifications.create_notification (o_buyer_id order) "payment_failed"
                               "Payment failed"
                               ("Payment for order " ++ o_order_code order
                                  ++ " was not successful.")
                               (Some (payment_metadata order response_code))
                               Notifications.DEFAULT_CHANNEL) ;;;
                ret "01"
        end
  | _ => raise (not_configured "VNPay is not configured")
  end.

End Gateway.

End Payments.

(* ================================================================== *)
(** * Shipping ([modules/shipping/service.py]) *)
(* ================================================================== *)

#[local] Unset Elimination Schemes.

(** A decoded JSON value, as [request.json()] returns it. *)
Inductive json :=
| JNull
| JBool (b : bool)
| JInt (n : Z)
| JFloat (x : float)
| JStr (s : string)
| JList (items : list json)
| JDict (entries : list (string * json)).

#[local] Set Elimination Schemes.

(** [ShippingWebhookPayload(...).model_dump()]: the dict the webhook route
    hands to the service. *)
Record ShippingWebhookPayload := {
wp_provider : string;
wp_tracking_number : string;
wp_status : string;
wp_note : option string;
wp_estimated_delivery : option datetime;
wp_raw_payload : list (string * json)
}.

(** The dicts kept under a shipment's [payload]: the label request the
    service builds, or the webhook dict. *)
Inductive payload_dict :=
| LabelRequest (service_code : option string) (weight_grams : option Z)
| WebhookBody (payload : ShippingWebhookPayload).

Record ShipmentStatusDocument := {
sst_status : string;
sst_note : option string;
sst_created_at : datetime;
sst_actor_id : option ObjectId
}.

Record ShipmentDocument := {
sh_id : ObjectId;
sh_order_id : ObjectId;
sh_provider : string;
sh_tracking_number : string;
sh_status : string;
sh_status_history : list ShipmentStatusDocument;
sh_estimated_delivery : option datetime;
sh_created_at : datetime;
sh_updated_at : datetime;
sh_payload : payload_dict
}.

Module Shipping.

(** The database with its [shipments] collection. *)
Record Store := {
database : Database;
shipments : list ShipmentDocument
}.

Definition with_shipments (s : Store) (shs : list ShipmentDocument) : Store :=
{| database := database s; shipments := shs |}.

(** A service of the other modules, run on the same database. *)
Definition on_database {A} (m : M A) : ST Store A :=
fun s => let '(r, db) := m (database s) in (r, {| database := db; shipments := shipments s |}).

Definition ALLOWED_CREATE_STATUSES : list string := ["pending_confirmation"; "processing"].

(** [d.get(key)] on a dict literal *)
Fixpoint dict_get {V} (d : list (string * V)) (key : string) : option V :=
  match d with
  | [] => None
  | (k, v) :: rest => if String.eqb k key then Some v else dict_get rest key
  end.

(** [create_shipment(db, order, provider, service_code, weight_grams, note,
    actor_id)]; [uuid_hex] is the [uuid4().hex] the call draws.  The
    collection has a unique index on [tracking_number], so that inserting a
    second shipment with a stored number raises pymongo's DuplicateKeyError. *)
Definition create_shipment (order : OrderDocument) (provider : string)
    (service_code : option string) (weight_grams : option Z) (note : option string)
    (actor_id : ObjectId) (uuid_hex : string) : ST Store ShipmentDocument :=
  if negb (str_in (o_fulfillment_status order) ALLOWED_CREATE_STATUSES) then
    raise (HTTPError HTTP_400_BAD_REQUEST "Order cannot create shipment in the current status")
  else
    existing <- gets (fun s => find_one (fun sh => oid_eqb (sh_order_id sh) (o_id order))
                                        (shipments s)) ;;
    match existing with
    | Some shipment => ret shipment
    | None =>
        let tracking_number := Py.upper provider ++ "-" ++ substring 0 10 uuid_hex in
        now <- on_database utcnow ;;
        duplicate <- gets (fun s => existsb (fun sh => String.eqb (sh_tracking_number sh)
                                                                  tracking_number)
                                            (shipments s)) ;;
        if duplicate then
          raise (HTTPError HTTP_500_INTERNAL_SERVER_ERROR "DuplicateKeyError")
        else
          inserted_id <- on_database new_ObjectId ;;
          let shipment :=
            {| sh_id := inserted_id;
               sh_order_id := o_id order;
               sh_provider := provider;
               sh_tracking_number := tracking_number;
               sh_status := "label_created";
               sh_status_history :=
                 [ {| sst_status := "label_created";
                      sst_note := Some (Orders.or_default note "Shipment label created");
                      sst_created_at := now;
                      sst_actor_id := Some actor_id |} ];
               sh_estimated_delivery := None;
               sh_created_at := now;
               sh_updated_at := now;
               sh_payload := LabelRequest service_code weight_grams |} in
          modify (fun s => with_shipments s (insert_one shipment (shipments s))) ;;;
          on_database (Orders.update_order_fulfillment_status (o_id order) "processing"
                         (Some "Shipment label created") (Some actor_id)
                         (Some (tracking_number, provider))) ;;;
          on_database (Notifications.create_notification (o_buyer_id order) "shipment_created"
                         "Shipment created"
                         ("Order " ++ o_order_code order ++ " now has a shipment (tracking "
                          ++ tracking_number ++ ").")
                         (Some [("order_id", Bson.str_of_ObjectId (o_id order));
                                ("tracking_number", tracking_number);
                                ("provider", provider)])
                         Notifications.DEFAULT_CHANNEL) ;;;
          ret shipment
    end.

(** [get_shipment_by_order(db, order_id)] *)
Definition get_shipment_by_order (s : Store) (order_id : ObjectId) : option ShipmentDocument :=
  find_one (fun sh => oid_eqb (sh_order_id sh) order_id) (shipments s).

(** [_parse_estimated_delivery(value)]: the callers pass [None] or the
    [datetime] pydantic has parsed; both are returned as they are. *)
Definition _parse_estimated_delivery (value : option datetime) : option datetime := value.

(** The update document of [update_shipment_status]. *)
Definition apply_status (status_value : string) (now : datetime)
    (history_entry : ShipmentStatusDocument) (parsed_estimated : option datetime)
    (raw_payload : option payload_dict) (sh : ShipmentDocument) : ShipmentDocument :=
  {| sh_id := sh_id sh;
     sh_order_id := sh_order_id sh;
     sh_provider := sh_provider sh;
     sh_tracking_number := sh_tracking_number sh;
     sh_status := status_value;
     sh_status_history := (sh_status_history sh ++ [history_entry])%list;
     sh_estimated_delivery :=
       match parsed_estimated with Some d => Some d | None => sh_estimated_delivery sh end;
     sh_created_at := sh_created_at sh;
     sh_updated_at := now;
     sh_payload := match raw_payload with Some p => p | None => sh_payload sh end |}.

(** [coll.find_one_and_update(filter, update, return_document=True)] *)
Fixpoint find_one_and_update (p : ShipmentDocument -> bool)
    (f : ShipmentDocument -> ShipmentDocument) (coll : list ShipmentDocument)
  : option ShipmentDocument * list ShipmentDocument :=
  match coll with
  | [] => (None, [])
  | sh :: rest =>
      if p sh then (Some (f sh), f sh :: rest)
      else let '(r, rest') := find_one_and_update p f rest in (r, sh :: rest')
  end.

Definition status_mapping : list (string * string) :=
  [("in_transit", "shipping"); ("delivered", "delivered"); ("completed", "completed");
   ("cancelled", "cancelled"); ("returned", "returned")].

Definition titles : list (string * (string * string)) :=
  [("in_transit", ("Shipment in transit", "Shipment is on the way."));
   ("shipping", ("Shipment in transit", "Shipment is on the way."));
   ("delivered", ("Shipment delivered", "Shipment has been delivered."));
   ("completed", ("Order completed", "Order has been completed."));
   ("cancelled", ("Shipment cancelled", "Shipment has been cancelled."));
   ("returned", ("Shipment returned", "Shipment has been returned."))].

(** [update_shipment_status(db, tracking_number, status_value, note,
    estimated_delivery=None, raw_payload=None)] *)
Definition update_shipment_status (tracking_number status_value : string)
    (note : option string) (estimated_delivery : option datetime)
    (raw_payload : option payload_dict) : ST Store ShipmentDocument :=
  found <- gets (fun s => find_one (fun sh => String.eqb (sh_tracking_number sh) tracking_number)
                                   (shipments s)) ;;
  match found with
  | None => raise (HTTPError HTTP_404_NOT_FOUND "Shipment not found")
  | Some shipment =>
      now <- on_database utcnow ;;
      let history_entry := {| sst_status := status_value;
                              sst_note := note;
                              sst_created_at := now;
                              sst_actor_id := None |} in
      let parsed_estimated := _parse_estimated_delivery estimated_delivery in
      result <- gets (fun s => find_one_and_update
                                 (fun sh => oid_eqb (sh_id sh) (sh_id shipment))
                                 (apply_status status_value now history_entry parsed_estimated
                                               raw_payload)
                                 (shipments s)) ;;
      modify (fun s => with_shipments s (snd result)) ;;;
      match fst result with
      | None => raise (HTTPError HTTP_500_INTERNAL_SERVER_ERROR "Failed to update shipment")
      | Some updated =>
          let order_id := sh_order_id shipment in
          match Orders.truthy_str (dict_get status_mapping status_value) with
          | Some order_status =>
              on_database (Orders.update_order_fulfillment_status order_id order_status
                             (Some (Orders.or_default note ("Shipment status: " ++ status_value)))
                             None None) ;;;
              ret tt
          | None => ret tt
          end ;;;
          order_doc <- on_database (fun db => (Orders.get_order_by_object_id db order_id, db)) ;;
          let '(title, default_message) :=
            match dict_get titles status_value with
            | Some t => t
            | None => ("Shipment update", "Shipment status has changed.")
            end in
          let metadata := [("order_id", Bson.str_of_ObjectId (o_id order_doc));
                           ("tracking_number", tracking_number);
                           ("status", status_value)] in
          on_database (Notifications.create_notification (o_buyer_id order_doc) "shipment_update"
                         title (Orders.or_default note default_message) (Some metadata)
                         Notifications.DEFAULT_CHANNEL) ;;;
          match o_seller_id order_doc with
          | Some seller_id =>
              if str_in status_value ["cancelled"; "returned"] then
                on_database (Notifications.create_notification seller_id "shipment_update"
                               title (Orders.or_default note default_message) (Some metadata)
                               Notifications.DEFAULT_CHANNEL) ;;;
                ret tt
              else ret tt
          | None => ret tt
          end ;;;
          ret updated
      end
  end.

(** [handle_webhook_update(db, provider, payload)]; the dict has no
    [trackingNumber] key. *)
Definition handle_webhook_update (provider : string) (payload : ShippingWebhookPayload)
  : ST Store ShipmentDocument :=
  let tracking_number := Orders.truthy_str (Some (wp_tracking_number payload)) in
  let status_value := Orders.truthy_str (Some (wp_status payload)) in
  match tracking_number, status_value with
  | Some tracking_number, Some status_value =>
      let note := wp_note payload in
      let estimated_delivery := wp_estimated_delivery payload in
      update_shipment_status tracking_number status_value
        (Some (Orders.or_default note ("Webhook " ++ provider)))
        estimated_delivery (Some (WebhookBody payload))
  | _, _ => raise (HTTPError HTTP_400_BAD_REQUEST "Missing shipment information")
  end.

End Shipping.

(* ================================================================== *)
(** * A small marketplace used to run the services *)
(* ================================================================== *)

Module Sample.

Definition buyer : ObjectId := 1%N.
Definition seller_a : ObjectId := 161%N.
Definition seller_b : ObjectId := 162%N.
Definition admin : ObjectId := 255%N.

Definition buyer_address_id : string := "000000000000000000000031".
Definition shirt_id : string := "000000000000000000000010".
Definition shirt_large_id : string := "000000000000000000000021".
Definition mug_id : string := "000000000000000000000011".
Definition shirt_line_id : string := "000000000000000000000041".
Definition mug_line_id : string := "000000000000000000000042".

Definition shirt_large : ProductVariantDocument :=
  {| v_id := 33%N; v_sku := Some "SHIRT-L"; v_attributes := Some [("size", "L")];
     v_price := 120000%float; v_compare_at_price := None; v_stock_quantity := Some 5 |}.

(** A shirt of seller A with one variant, five in stock. *)
Definition shirt : ProductDocument :=
  {| p_id := 16%N; p_seller_id := Some seller_a; p_name := "Shirt"; p_slug := "shirt";
     p_categories := []; p_status := Some "active"; p_thumbnail_url := None; p_image_urls := None;
     p_variants := Some [shirt_large]; p_base_price := Some 100000%float |}.

(** A mug of seller B, sold at product level (no variant). *)
Definition mug : ProductDocument :=
  {| p_id := 17%N; p_seller_id := Some seller_b; p_name := "Mug"; p_slug := "mug";
     p_categories := []; p_status := Some "active"; p_thumbnail_url := None; p_image_urls := None;
     p_variants := None; p_base_price := Some 50000%float |}.

Definition t0 : datetime := 1793707445123456.

Definition shirt_line : CartItemDocument :=
  {| ci_item_id := 65%N; ci_product_id := Some 16%N; ci_variant_id := Some 33%N;
     ci_product_name := "Shirt"; ci_variant_name := Some "size: L";
     ci_thumbnail_url := None; ci_attributes := [("size", "L")];
     ci_quantity := 4; ci_price := 120000%float; ci_compare_at_price := None;
     ci_created_at := t0 - 5000; ci_updated_at := t0 - 5000 |}.

Definition mug_line : CartItemDocument :=
  {| ci_item_id := 66%N; ci_product_id := Some 17%N; ci_variant_id := None;
     ci_product_name := "Mug"; ci_variant_name := None;
     ci_thumbnail_url := None; ci_attributes := [];
     ci_quantity := 1; ci_price := 50000%float; ci_compare_at_price := None;
     ci_created_at := t0 - 4000; ci_updated_at := t0 - 4000 |}.

Definition buyer_cart : CartDocument :=
  {| c_id := 81%N; c_user_id := buyer; c_items := [shirt_line; mug_line];
     c_updated_at := t0 - 4000 |}.

Definition buyer_address : AddressDocument :=
  {| a_id := 49%N; a_user_id := buyer; a_recipient_name := Some "An";
     a_phone_number := Some "0900000000"; a_address_line := Some "1 Le Loi";
     a_ward := None; a_district := None; a_province := Some "Ha Noi";
     a_postal_code := None; a_country := Some "VN" |}.

(** The buyer holds a cart with a line of each seller. *)
Definition db : Database :=
  {| products := [shirt; mug];
     addresses := [buyer_address];
     carts := [buyer_cart];
     orders := [];
     notifications := [];
     notification_preferences := [];
     clock := fun _ => t0;
     ticks := 0;
     next_oid := 4096%N |}.

(** A second buyer and two products of seller A priced with a third decimal. *)
Definition buyer2 : ObjectId := 2%N.
Definition buyer2_address_id : string := "000000000000000000000032".

Definition pen : ProductDocument :=
  {| p_id := 18%N; p_seller_id := Some seller_a; p_name := "Pen"; p_slug := "pen";
     p_categories := []; p_status := Some "active"; p_thumbnail_url := None; p_image_urls := None;
     p_variants := None; p_base_price := Some 1.005%float |}.

Definition ink : ProductDocument :=
  {| p_id := 19%N; p_seller_id := Some seller_a; p_name := "Ink"; p_slug := "ink";
     p_categories := []; p_status := Some "active"; p_thumbnail_url := None; p_image_urls := None;
     p_variants := None; p_base_price := Some 1.005%float |}.

Definition product_line (item_id : ObjectId) (product : ProductDocument) (quantity : Z)
  : CartItemDocument :=
  {| ci_item_id := item_id; ci_product_id := Some (p_id product); ci_variant_id := None;
     ci_product_name := p_name product; ci_variant_name := None;
     ci_thumbnail_url := None; ci_attributes := [];
     ci_quantity := quantity; ci_price := Cart.price_of product None;
     ci_compare_at_price := None;
     ci_created_at := t0 - 3000; ci_updated_at := t0 - 3000 |}.

Definition buyer2_cart : CartDocument :=
  {| c_id := 82%N; c_user_id := buyer2;
     c_items := [product_line 67%N pen 1; product_line 68%N ink 1];
     c_updated_at := t0 - 3000 |}.

Definition buyer2_address : AddressDocument :=
  {| a_id := 50%N; a_user_id := buyer2; a_recipient_name := Some "Binh";
     a_phone_number := Some "0900000001"; a_address_line := Some "2 Le Loi";
     a_ward := None; a_district := None; a_province := Some "Hue";
     a_postal_code := None; a_country := Some "VN" |}.

Definition db_fractional : Database :=
  {| products := [pen; ink];
     addresses := [buyer2_address];
     carts := [buyer2_cart];
     orders := [];
     notifications := [];
     notification_preferences := [];
     clock := fun _ => t0;
     ticks := 0;
     next_oid := 4096%N |}.

(** An order of the second buyer with seller A, in a given state. *)
Definition pen_order_id : string := "000000000000000000000061".

Definition pen_order (fulfillment_status payment_status : string) : OrderDocument :=
  {| o_id := 97%N;
     o_buyer_id := buyer2;
     o_seller_id := Some seller_a;
     o_order_code := "ORD-20261103120405123456";
     o_address_snapshot := Orders.address_snapshot buyer2_address;
     o_payment_method := "vnpay";
     o_payment_status := payment_status;
     o_fulfillment_status := fulfillment_status;
     o_subtotal_amount := 150000%float;
     o_shipping_fee := 0%float;
     o_discount_amount := 0%float;
     o_total_amount := 150000%float;
     o_items := [];
     o_timeline := [];
     o_tracking_number := None;
     o_shipping_provider := None;
     o_transaction_id := None;
     o_created_at := t0 - 2000;
     o_updated_at := t0 - 2000;
     o_note := None |}.

Definition db_with_order (fulfillment_status payment_status : string) : Database :=
  with_orders db_fractional [pen_order fulfillment_status payment_status].

(** The first buyer has switched the in-app "order_created" notification off. *)
Definition muted_order_created : NotificationPreferenceDocument :=
  {| np_user_id := buyer; np_channel := "in_app"; np_enabled := Some false;
     np_event_type := "order_created" |}.

Definition db_muted : Database :=
  {| products := products db;
     addresses := addresses db;
     carts := carts db;
     orders := orders db;
     notifications := notifications db;
     notification_preferences := [muted_order_created];
     clock := clock db;
     ticks := ticks db;
     next_oid := next_oid db |}.

(** The reset flow: a registered user holding one unused code, ten minutes
    after it was issued. *)
Definition match_code (candidate stored_hash : string) : bool :=
  String.eqb ("sha:" ++ candidate) stored_hash.
Definition hash_with_prefix (plaintext : string) : string := "pw:" ++ plaintext.

Definition an : Auth.UserDocument :=
  {| Auth.u_id := 1%N; Auth.u_email := Some "an@example.com";
     Auth.u_hashed_password := "pw:old" |}.

Definition an_token : Auth.PasswordResetTokenDocument :=
  {| Auth.t_id := 200%N; Auth.t_user_id := 1%N; Auth.t_token_hash := "sha:123456";
     Auth.t_created_at := 1793707445123456;
     Auth.t_expires_at := Some 1793709245123456;
     Auth.t_used := false |}.

Definition auth_store : Auth.Store :=
  {| Auth.users := [an];
     Auth.password_reset_tokens := [an_token];
     Auth.clock := fun _ => 1793708045123456;
     Auth.ticks := 0;
     Auth.next_oid := 4096%N |}.

(** The same store with a second registered user, who asked for nothing. *)
Definition binh : Auth.UserDocument :=
  {| Auth.u_id := 2%N; Auth.u_email := Some "binh@example.com";
     Auth.u_hashed_password := "pw:binh" |}.

Definition auth_store_two_users : Auth.Store :=
  {| Auth.users := [binh; an];
     Auth.password_reset_tokens := [an_token];
     Auth.clock := fun _ => 1793708045123456;
     Auth.ticks := 0;
     Auth.next_oid := 4096%N |}.

(** A code request whose mail cannot be sent. *)
Definition mail_down : Auth.forgot_env :=
  {| Auth.generated_code := "777777"; Auth.generated_hash := "sha:777777";
     Auth.mail := Auth.MailRuntimeError "SMTP is not configured" |}.

(** A sticker of seller A at 0.29, one in the cart of the second buyer, and
    a VNPay terminal. *)
Definition sticker : ProductDocument :=
  {| p_id := 20%N; p_seller_id := Some seller_a; p_name := "Sticker"; p_slug := "sticker";
     p_categories := []; p_status := Some "active"; p_thumbnail_url := None; p_image_urls := None;
     p_variants := None; p_base_price := Some 0.29%float |}.

Definition sticker_cart : CartDocument :=
  {| c_id := 83%N; c_user_id := buyer2;
     c_items := [product_line 69%N sticker 1];
     c_updated_at := t0 - 3000 |}.

Definition db_sticker : Database :=
  {| products := [sticker];
     addresses := [buyer2_address];
     carts := [sticker_cart];
     orders := [];
     notifications := [];
     notification_preferences := [];
     clock := fun _ => t0;
     ticks := 0;
     next_oid := 4096%N |}.

Definition vnpay_settings : Settings :=
  {| vnpay_tmn_code := Some "DEMOTMN1";
     vnpay_hash_secret := Some "hash-secret";
     vnpay_return_url := Some "https://shop.example/return";
     vnpay_base_url := "https://sandbox.vnpayment.vn/paymentv2/vpcpay.html" |}.

(** Stand-ins for the keyed digest and the URL quoting, and [float] on a
    string of decimal digits. *)
Definition keyed_digest (key message : string) : string := key ++ ":" ++ message.
Definition unquoted (text : string) : string := text.
Definition float_of_digits (text : string) : option float :=
  match text with
  | EmptyString => None
  | _ => match NilZero.uint_of_string text with
         | Some u => Some (Py.float_of_int (Z.of_N (N.of_uint u)))
         | None => None
         end
  end.

Definition txn_ref : string := "9f86d081884c".

(** What the gateway sends back for a request, signed. *)
Definition vnpay_report (order_code amount response_code : string) : list (string * string) :=
  let params := [ ("vnp_Amount", amount);
                  ("vnp_OrderInfo", "Payment for order " ++ order_code);
                  ("vnp_ResponseCode", response_code);
                  ("vnp_TransactionNo", "14700001");
                  ("vnp_TxnRef", txn_ref) ] in
  let digest := keyed_digest "hash-secret"
                  (Py.join "&" (map (fun kv => fst kv ++ "=" ++ snd kv) params)) in
  (params ++ [("vnp_SecureHash", digest)])%list.

(** The pending VNPay attempt for the pen order. *)
Definition pen_payment : PaymentDocument :=
  {| pay_id := 113%N;
     pay_order_id := 97%N;
     pay_order_code := "ORD-20261103120405123456";
     pay_provider := "vnpay";
     pay_amount := 150000%float;
     pay_currency := "VND";
     pay_transaction_id := None;
     pay_request_id := Some txn_ref;
     pay_payment_url := None;
     pay_status := "pending";
     pay_raw_payload := [("vnp_Amount", PInt 15000000)];
     pay_created_at := t0 - 1000;
     pay_updated_at := t0 - 1000 |}.

Definition payment_store : Payments.Store :=
  {| Payments.database := db_with_order "pending_confirmation" "pending";
     Payments.payments := [pen_payment] |}.

(** A category created three times over, in a catalog without categories. *)
Definition no_categories : Collection CategoryDocument :=
  {| docs := []; coll_clock := fun _ => t0; coll_ticks := 0; coll_next_oid := 4096%N |}.

Definition summer_sale : Catalog.CategoryPayload :=
  {| Catalog.cp_name := " Summer  Sale!"; Catalog.cp_slug := None;
     Catalog.cp_parent_id := None; Catalog.cp_is_active := None |}.

(** An inbox: the buyer has read one notification and not the other; the
    second buyer has one unread notification. *)
Definition notice (id user_id : ObjectId) (read_at : option datetime) : NotificationDocument :=
  {| n_id := id; n_user_id := user_id; n_type := "order_created"; n_title := "Order";
     n_message := "Your order was created."; n_metadata := [];
     n_is_read := match read_at with Some _ => true | None => false end;
     n_created_at := t0 - 9000; n_read_at := read_at |}.

Definition notice_id : string := "000000000000000000000092".

Definition db_inbox : Database :=
  with_notifications db
    [notice 145%N buyer (Some (t0 - 8000)); notice 146%N buyer None; notice 147%N buyer2 None].

(** Shipping: the pen order awaits confirmation and has no shipment yet; in
    the second store it has one with the carrier GHN, in the third the
    order of that shipment is no longer stored. *)
Definition uuid_hex : string := "3f2a9c0d7b1e4a5f8c6d2e1f0a9b8c7d".

Definition shipping_store : Shipping.Store :=
  {| Shipping.database := db_with_order "pending_confirmation" "pending";
     Shipping.shipments := [] |}.

Definition pen_shipment : ShipmentDocument :=
  {| sh_id := 129%N; sh_order_id := 97%N; sh_provider := "ghn";
     sh_tracking_number := "GHN-3f2a9c0d7b";
     sh_status := "label_created";
     sh_status_history := [ {| sst_status := "label_created";
                               sst_note := Some "Shipment label created";
                               sst_created_at := t0 - 500;
                               sst_actor_id := Some seller_a |} ];
     sh_estimated_delivery := None;
     sh_created_at := t0 - 500; sh_updated_at := t0 - 500;
     sh_payload := LabelRequest None (Some 250) |}.

Definition shipped_store : Shipping.Store :=
  {| Shipping.database := db_with_order "processing" "paid";
     Shipping.shipments := [pen_shipment] |}.

Definition orphan_store : Shipping.Store :=
  {| Shipping.database := db_fractional;
     Shipping.shipments := [pen_shipment] |}.

(** Both buyers hold a cart. *)
Definition db_two_carts : Database := with_carts db [buyer_cart; buyer2_cart].

End Sample.

(* ================================================================== *)
(** * Returned and stored documents *)
(* ================================================================== *)

(** MongoDB keeps a datetime to the millisecond, while the dict a service
    has built, written and then returns carries the microseconds of
    [utcnow()].  What is read back from a collection therefore agrees with
    the dict that was written on every field but the datetimes.  The
    relations below say so field by field; a statement that relates the
    document a service returns to the document it has stored uses them, and
    not the equality of the two. *)
Module Stored.

Definition notification (stored doc : NotificationDocument) : Prop :=
  n_id stored = n_id doc
  /\ n_user_id stored = n_user_id doc
  /\ n_type stored = n_type doc
  /\ n_title stored = n_title doc
  /\ n_message stored = n_message doc
  /\ n_metadata stored = n_metadata doc
  /\ n_is_read stored = n_is_read doc.

Definition cart_line (stored line : CartItemDocument) : Prop :=
  ci_item_id stored = ci_item_id line
  /\ ci_product_id stored = ci_product_id line
  /\ ci_variant_id stored = ci_variant_id line
  /\ ci_product_name stored = ci_product_name line
  /\ ci_variant_name stored = ci_variant_name line
  /\ ci_thumbnail_url stored = ci_thumbnail_url line
  /\ ci_attributes stored = ci_attributes line
  /\ ci_quantity stored = ci_quantity line
  /\ ci_price stored = ci_price line
  /\ ci_compare_at_price stored = ci_compare_at_price line.

Definition cart (stored doc : CartDocument) : Prop :=
  c_id stored = c_id doc
  /\ c_user_id stored = c_user_id doc
  /\ Forall2 cart_line (c_items stored) (c_items doc).

Definition timeline_entry (stored entry : OrderTimelineEntryDocument) : Prop :=
  tl_status stored = tl_status entry
  /\ tl_note stored = tl_note entry
  /\ tl_actor_id stored = tl_actor_id entry.

Definition order (stored doc : OrderDocument) : Prop :=
  o_id stored = o_id doc
  /\ o_buyer_id stored = o_buyer_id doc
  /\ o_seller_id stored = o_seller_id doc
  /\ o_order_code stored = o_order_code doc
  /\ o_address_snapshot stored = o_address_snapshot doc
  /\ o_payment_method stored = o_payment_method doc
  /\ o_payment_status stored = o_payment_status doc
  /\ o_fulfillment_status stored = o_fulfillment_status doc
  /\ o_subtotal_amount stored = o_subtotal_amount doc
  /\ o_shipping_fee stored = o_shipping_fee doc
  /\ o_discount_amount stored = o_discount_amount doc
  /\ o_total_amount stored = o_total_amount doc
  /\ o_items stored = o_items doc
  /\ Forall2 timeline_entry (o_timeline stored) (o_timeline doc)
  /\ o_tracking_number stored = o_tracking_number doc
  /\ o_shipping_provider stored = o_shipping_provider doc
  /\ o_transaction_id stored = o_transaction_id doc
  /\ o_note stored = o_note doc.

Definition payment (stored doc : PaymentDocument) : Prop :=
  pay_id stored = pay_id doc
  /\ pay_order_id stored = pay_order_id doc
  /\ pay_order_code stored = pay_order_code doc
  /\ pay_provider stored = pay_provider doc
  /\ pay_amount stored = pay_amount doc
  /\ pay_currency stored = pay_currency doc
  /\ pay_transaction_id stored = pay_transaction_id doc
  /\ pay_request_id stored = pay_request_id doc
  /\ pay_payment_url stored = pay_payment_url doc
  /\ pay_status stored = pay_status doc
  /\ pay_raw_payload stored = pay_raw_payload doc.

Definition shipment_status (stored entry : ShipmentStatusDocument) : Prop :=
  sst_status stored = sst_status entry
  /\ sst_note stored = sst_note entry
  /\ sst_actor_id stored = sst_actor_id entry.

Definition shipment (stored doc : ShipmentDocument) : Prop :=
  sh_id stored = sh_id doc
  /\ sh_order_id stored = sh_order_id doc
  /\ sh_provider stored = sh_provider doc
  /\ sh_tracking_number stored = sh_tracking_number doc
  /\ sh_status stored = sh_status doc
  /\ Forall2 shipment_status (sh_status_history stored) (sh_status_history doc).

End Stored.

(* ================================================================== *)
(** * A document agrees with itself *)
(* ================================================================== *)

Module StoredFacts.

Lemma Forall2_same {A} (R : A -> A -> Prop) (l : list A) :
  (forall x, R x x) -> Forall2 R l l.
Proof. intro H. induction l; constructor; auto. Qed.

Lemma notification_same doc : Stored.notification doc doc.
Proof. repeat split. Qed.

Lemma cart_line_same line : Stored.cart_line line line.
Proof. repeat split. Qed.

Lemma cart_same doc : Stored.cart doc doc.
Proof.
  split; [reflexivity|]. split; [reflexivity|]. apply Forall2_same. exact cart_line_same.
Qed.

Lemma timeline_entry_same entry : Stored.timeline_entry entry entry.
Proof. repeat split. Qed.

Lemma order_same doc : Stored.order doc doc.
Proof.
  unfold Stored.order.
  repeat match goal with
         | |- _ /\ _ => split
         | |- Forall2 _ _ _ => apply Forall2_same; exact timeline_entry_same
         | |- _ = _ => reflexivity
         end.
Qed.

Lemma payment_same doc : Stored.payment doc doc.
Proof. repeat split. Qed.

Lemma shipment_status_same entry : Stored.shipment_status entry entry.
Proof. repeat split. Qed.

Lemma shipment_same doc : Stored.shipment doc doc.
Proof.
  unfold Stored.shipment.
  repeat match goal with
         | |- _ /\ _ => split
         | |- Forall2 _ _ _ => apply Forall2_same; exact shipment_status_same
         | |- _ = _ => reflexivity
         end.
Qed.

End StoredFacts.
(* ================================================================== *)
(** * Reasoning support *)
(* ================================================================== *)

Arguments Datetime.strftime_compact_usec : simpl never.
Arguments Bson.str_of_ObjectId : simpl never.
Arguments Py.round2 : simpl never.
Arguments Py.float_of_int : simpl never.

Ltac unfold_service :=
unfold bind, gets, lift, ret, raise, modify, utcnow, new_ObjectId in *.

Lemma oid_eqb_eq (a b : ObjectId) : oid_eqb a b = true <-> a = b.
Proof. unfold oid_eqb. apply N.eqb_eq. Qed.

Lemma oid_eqb_refl (a : ObjectId) : oid_eqb a a = true.
Proof. apply oid_eqb_eq. reflexivity. Qed.

Lemma opt_oid_eqb_eq (a b : option ObjectId) : opt_oid_eqb a b = true <-> a = b.
Proof.
destruct a as [x|], b as [y|]; simpl; split; intro H;
  try reflexivity; try discriminate.
- apply oid_eqb_eq in H. now subst.
- injection H as ->. apply oid_eqb_refl.
Qed.

Lemma get_product_with_variant_frame (db db' : Database) product_id variant_id :
products db' = products db ->
get_product_with_variant db' product_id variant_id
= get_product_with_variant db product_id variant_id.
Proof. intro H. unfold get_product_with_variant. now rewrite H. Qed.

Lemma status_code_InvalidInput d : InvalidInput (HTTPError HTTP_400_BAD_REQUEST d).
Proof. reflexivity. Qed.

#[local] Hint Resolve status_code_InvalidInput : core.

Module CartFacts.
Import Cart.

(** [_ensure_cart] returns the stored cart when there is one and leaves the
    database alone; otherwise it stores a fresh empty cart. *)
Lemma ensure_cart_found db user_id cart :
  find_one (owned_by user_id) (carts db) = Some cart ->
  _ensure_cart user_id db = (Ok cart, db).
Proof. intro H. unfold _ensure_cart. unfold_service. now rewrite H. Qed.

Lemma ensure_cart_created db user_id :
  find_one (owned_by user_id) (carts db) = None ->
  exists cart db',
    _ensure_cart user_id db = (Ok cart, db')
    /\ c_items cart = [] /\ c_user_id cart = user_id
    /\ carts db' = (carts db ++ [cart])%list
    /\ products db' = products db
    /\ orders db' = orders db
    /\ notifications db' = notifications db.
Proof.
  intro H. unfold _ensure_cart. unfold_service. rewrite H. simpl.
  eexists. eexists. split; [reflexivity|]. simpl. repeat split.
Qed.

Lemma ensure_cart_cases db user_id :
  exists cart db',
    _ensure_cart user_id db = (Ok cart, db')
    /\ products db' = products db
    /\ ((find_one (owned_by user_id) (carts db) = Some cart /\ db' = db)
        \/ (find_one (owned_by user_id) (carts db) = None
            /\ c_items cart = [] /\ c_user_id cart = user_id
            /\ carts db' = (carts db ++ [cart])%list)).
Proof.
  destruct (find_one (owned_by user_id) (carts db)) as [cart|] eqn:E.
  - exists cart, db. rewrite (ensure_cart_found _ _ _ E). auto.
  - destruct (ensure_cart_created _ _ E) as (cart & db' & H & Hi & Hu & Hc & Hp & _).
    exists cart, db'. rewrite H. split; [reflexivity|]. split; [exact Hp|]. right. auto.
Qed.

(** [_find_item_index] against [find]: a non-negative index is the position
    of the first line of this product and variant. *)
Lemma find_index_from_spec items product_id variant_id :
  forall start, 0 <= start ->
    match find (same_line product_id variant_id) items with
    | Some item =>
        start <= find_index_from start items product_id variant_id
        /\ nth_error items
             (Z.to_nat (find_index_from start items product_id variant_id - start))
           = Some item
    | None => find_index_from start items product_id variant_id = -1
    end.
Proof.
  induction items as [|x r IH]; intros start Hs; simpl.
  - reflexivity.
  - destruct (same_line product_id variant_id x) eqn:E.
    + split; [lia|]. now replace (start - start) with 0 by lia.
    + specialize (IH (start + 1) ltac:(lia)).
      destruct (find (same_line product_id variant_id) r) as [item|].
      * destruct IH as [Hle Hn]. split; [lia|].
        replace (Z.to_nat (find_index_from (start + 1) r product_id variant_id - start))
          with (S (Z.to_nat (find_index_from (start + 1) r product_id variant_id - (start + 1))))
          by lia.
        exact Hn.
      * exact IH.
Qed.

Lemma find_item_index_found cart product_id variant_id item :
  find (same_line product_id variant_id) (c_items cart) = Some item ->
  (0 <=? _find_item_index cart product_id variant_id) = true
  /\ nth_error (c_items cart) (Z.to_nat (_find_item_index cart product_id variant_id))
     = Some item.
Proof.
  intro H. unfold _find_item_index.
  pose proof (find_index_from_spec (c_items cart) product_id variant_id 0 ltac:(lia)) as S.
  rewrite H in S. destruct S as [Hle Hn]. split; [now apply Z.leb_le|].
  now rewrite Z.sub_0_r in Hn.
Qed.

Lemma find_item_index_missing cart product_id variant_id :
  find (same_line product_id variant_id) (c_items cart) = None ->
  (0 <=? _find_item_index cart product_id variant_id) = false.
Proof.
  intro H. unfold _find_item_index.
  pose proof (find_index_from_spec (c_items cart) product_id variant_id 0 ltac:(lia)) as S.
  rewrite H in S. now rewrite S.
Qed.

End CartFacts.

Lemma bind_ok {S A B} (m : ST S A) (k : A -> ST S B) db a db' :
  m db = (Ok a, db') -> bind m k db = k a db'.
Proof. intro H. unfold bind. now rewrite H. Qed.

Lemma bind_raise {S A B} (m : ST S A) (k : A -> ST S B) db e db' :
  m db = (Raise e, db') -> bind m k db = (Raise e, db').
Proof. intro H. unfold bind. now rewrite H. Qed.

Lemma bind_gets_lift {S A B} (f : S -> Result A) (k : A -> ST S B) db :
  bind (bind (gets f) lift) k db
  = match f db with Ok a => k a db | Raise e => (Raise e, db) end.
Proof. unfold bind, gets, lift. destruct (f db); reflexivity. Qed.

(* ================================================================== *)
(** * The stock guard of the cart *)
(* ================================================================== *)

Module StockGuard.
Import Cart CartRouter.

(** The line a request writes and the quantity it would hold afterwards, when
    the line references a variant that resolves with a tracked stock that this
    quantity exceeds. *)
Inductive over_stock (db : Database) (user_id : ObjectId) : request -> Prop :=
| over_stock_new_quantity product_id_str variant_id_str quantity
    product_id variant_id product variant stock :
    Bson.ObjectId_of_str product_id_str = Some product_id ->
    Bson.ObjectId_of_str variant_id_str = Some variant_id ->
    get_product_with_variant db product_id (Some variant_id) = Ok (product, Some variant) ->
    v_stock_quantity variant = Some stock ->
    stock < quantity ->
    over_stock db user_id (AddItem product_id_str (Some variant_id_str) quantity)
| over_stock_summed_quantity product_id_str variant_id_str quantity
    product_id variant_id product variant stock cart existing :
    Bson.ObjectId_of_str product_id_str = Some product_id ->
    Bson.ObjectId_of_str variant_id_str = Some variant_id ->
    get_product_with_variant db product_id (Some variant_id) = Ok (product, Some variant) ->
    v_stock_quantity variant = Some stock ->
    find_one (owned_by user_id) (carts db) = Some cart ->
    find (same_line product_id (Some variant_id)) (c_items cart) = Some existing ->
    stock < ci_quantity existing + quantity ->
    over_stock db user_id (AddItem product_id_str (Some variant_id_str) quantity)
| over_stock_update item_id_str quantity item_id cart item
    product_id variant_id product variant stock :
    Bson.ObjectId_of_str item_id_str = Some item_id ->
    find_one (owned_by user_id) (carts db) = Some cart ->
    find (fun it => oid_eqb (ci_item_id it) item_id) (c_items cart) = Some item ->
    ci_product_id item = Some product_id ->
    ci_variant_id item = Some variant_id ->
    get_product_with_variant db product_id (Some variant_id) = Ok (product, Some variant) ->
    v_stock_quantity variant = Some stock ->
    stock < quantity ->
    over_stock db user_id (UpdateItem item_id_str quantity).

(** The user's cart is as it was: the stored carts are unchanged, or, when the
    user had no cart document yet, the lazily created empty one was added. *)
Definition cart_untouched (user_id : ObjectId) (db db' : Database) : Prop :=
  match find_one (owned_by user_id) (carts db) with
  | Some _ => carts db' = carts db
  | None =>
      exists cart, carts db' = (carts db ++ [cart])%list
                   /\ c_items cart = [] /\ c_user_id cart = user_id
  end.

Lemma add_item_first_check db user_id product_id_str variant_id_str quantity
    product_id variant_id product variant stock :
  Bson.ObjectId_of_str product_id_str = Some product_id ->
  Bson.ObjectId_of_str variant_id_str = Some variant_id ->
  get_product_with_variant db product_id (Some variant_id) = Ok (product, Some variant) ->
  v_stock_quantity variant = Some stock ->
  stock < quantity ->
  exists db',
    add_item user_id product_id_str (Some variant_id_str) quantity db = (Raise stock_error, db')
    /\ cart_untouched user_id db db'.
Proof.
  intros Hp Hv Hg Hs Hq.
  unfold add_item, _parse_object_id. rewrite Hp, Hv.
  unfold lift at 1 2. unfold bind at 1 2.
  destruct (CartFacts.ensure_cart_cases db user_id) as (cart & db' & He & Hprod & Hc).
  rewrite (bind_ok _ _ _ _ _ He), bind_gets_lift.
  rewrite (get_product_with_variant_frame _ _ _ _ Hprod), Hg. simpl.
  rewrite Hs. unfold exceeds_stock.
  apply Z.ltb_lt in Hq. rewrite Hq. unfold raise.
  exists db'. split; [reflexivity|].
  unfold cart_untouched.
  destruct Hc as [[Hf ->]|(Hf & Hi & Hu & Hcs)]; rewrite Hf; [reflexivity|].
  exists cart. auto.
Qed.

Lemma add_item_second_check db user_id product_id_str variant_id_str quantity
    product_id variant_id product variant stock cart existing :
  Bson.ObjectId_of_str product_id_str = Some product_id ->
  Bson.ObjectId_of_str variant_id_str = Some variant_id ->
  get_product_with_variant db product_id (Some variant_id) = Ok (product, Some variant) ->
  v_stock_quantity variant = Some stock ->
  find_one (owned_by user_id) (carts db) = Some cart ->
  find (same_line product_id (Some variant_id)) (c_items cart) = Some existing ->
  stock < ci_quantity existing + quantity ->
  exists db',
    add_item user_id product_id_str (Some variant_id_str) quantity db = (Raise stock_error, db')
    /\ carts db' = carts db.
Proof.
  intros Hp Hv Hg Hs Hc Hf Hq.
  unfold add_item, _parse_object_id. rewrite Hp, Hv.
  unfold lift at 1 2. unfold bind at 1 2.
  rewrite (bind_ok _ _ _ _ _ (CartFacts.ensure_cart_found _ _ _ Hc)), bind_gets_lift, Hg.
  simpl. rewrite Hs. unfold exceeds_stock at 1.
  destruct (stock <? quantity) eqn:E1.
  - exists db. split; reflexivity.
  - destruct (CartFacts.find_item_index_found _ _ _ _ Hf) as [Hi Hn].
    unfold bind at 1. unfold utcnow at 1.
    unfold bind at 1. rewrite Hi, Hn. unfold exceeds_stock.
    apply Z.ltb_lt in Hq. rewrite Hq. unfold raise.
    eexists. split; reflexivity.
Qed.

Lemma update_matching_item_over_stock db items item_id quantity item
    product_id variant_id product variant stock :
  find (fun it => oid_eqb (ci_item_id it) item_id) items = Some item ->
  ci_product_id item = Some product_id ->
  ci_variant_id item = Some variant_id ->
  get_product_with_variant db product_id (Some variant_id) = Ok (product, Some variant) ->
  v_stock_quantity variant = Some stock ->
  stock < quantity ->
  update_matching_item items item_id quantity db = (Raise stock_error, db).
Proof.
  intros Hf Hp Hv Hg Hs Hq.
  induction items as [|x r IH]; simpl in Hf; [discriminate|].
  simpl. destruct (oid_eqb (ci_item_id x) item_id) eqn:E.
  - injection Hf as ->. rewrite Hp, Hv, bind_gets_lift, Hg. simpl.
    rewrite Hs. unfold exceeds_stock. apply Z.ltb_lt in Hq. now rewrite Hq.
  - now rewrite (bind_raise _ _ _ _ _ (IH Hf)).
Qed.

Lemma update_item_quantity_over_stock db user_id item_id_str quantity item_id cart item
    product_id variant_id product variant stock :
  Bson.ObjectId_of_str item_id_str = Some item_id ->
  find_one (owned_by user_id) (carts db) = Some cart ->
  find (fun it => oid_eqb (ci_item_id it) item_id) (c_items cart) = Some item ->
  ci_product_id item = Some product_id ->
  ci_variant_id item = Some variant_id ->
  get_product_with_variant db product_id (Some variant_id) = Ok (product, Some variant) ->
  v_stock_quantity variant = Some stock ->
  stock < quantity ->
  exists e, update_item_quantity user_id item_id_str quantity db = (Raise e, db)
            /\ InvalidInput e.
Proof.
  intros Hi Hc Hf Hp Hv Hg Hs Hq.
  unfold update_item_quantity.
  destruct (quantity <=? 0) eqn:E0.
  - eexists. split; [reflexivity|]. reflexivity.
  - unfold _parse_object_id. rewrite Hi. unfold lift at 1. unfold bind at 1.
    rewrite (bind_ok _ _ _ _ _ (CartFacts.ensure_cart_found _ _ _ Hc)).
    rewrite (bind_raise _ _ _ _ _
               (update_matching_item_over_stock _ _ _ _ _ _ _ _ _ _ Hf Hp Hv Hg Hs Hq)).
    eexists. split; [reflexivity|]. reflexivity.
Qed.

(** C4. A request that adds a cart line, or sets a line's quantity, to a
    quantity above the stock_quantity of the variant the line references is
    rejected with InvalidInput (400) and the cart is not mutated: the stored
    carts (item lists and updated_at) are what they were.  For a line already
    in the cart it is the sum existing + added that is compared with the
    stock, before anything is written. *)
Theorem stock_guard_rejects_without_mutation (db : Database) (user_id : ObjectId)
    (r : request) :
  over_stock db user_id r ->
  exists e db',
    handle user_id r db = (Raise e, db')
    /\ InvalidInput e
    /\ cart_untouched user_id db db'.
Proof.
  intros H. destruct H as [ps vs q pid vid prod var stock Hp Hv Hg Hs Hq
                          |ps vs q pid vid prod var stock cart existing Hp Hv Hg Hs Hc Hf Hq
                          |ids q iid cart item pid vid prod var stock Hi Hc Hf Hp Hv Hg Hs Hq];
    simpl.
  - destruct (add_item_first_check db user_id ps vs q pid vid prod var stock Hp Hv Hg Hs Hq)
      as (db' & Hr & Hu).
    exists stock_error, db'. split; [exact Hr|]. split; [reflexivity|exact Hu].
  - destruct (add_item_second_check db user_id ps vs q pid vid prod var stock cart existing
                Hp Hv Hg Hs Hc Hf Hq) as (db' & Hr & Hu).
    exists stock_error, db'. split; [exact Hr|]. split; [reflexivity|].
    unfold cart_untouched. now rewrite Hc.
  - destruct (update_item_quantity_over_stock db user_id ids q iid cart item pid vid prod var
                stock Hi Hc Hf Hp Hv Hg Hs Hq) as (e & Hr & He).
    exists e, db. split; [exact Hr|]. split; [exact He|].
    unfold cart_untouched. now rewrite Hc.
Qed.

End StockGuard.

(** Four shirts are in the cart and five in stock: adding two more is refused. *)
Lemma stock_guard_rejects_without_mutation_witness :
  exists e db',
    CartRouter.handle Sample.buyer
      (CartRouter.AddItem Sample.shirt_id (Some Sample.shirt_large_id) 2) Sample.db
    = (Raise e, db')
    /\ InvalidInput e
    /\ StockGuard.cart_untouched Sample.buyer Sample.db db'.
Proof.
  apply (StockGuard.stock_guard_rejects_without_mutation Sample.db Sample.buyer).
  eapply StockGuard.over_stock_summed_quantity
    with (product_id := 16%N) (variant_id := 33%N) (stock := 5);
    try reflexivity.
Defined.

(* ================================================================== *)
(** * Product-level cart lines carry no stock check *)
(* ================================================================== *)

Module ProductLevelLines.
Import Cart CartRouter.

(** The request writes a line that references no variant, and the product of
    the line resolves (it exists and is active or draft). *)
Inductive product_level (db : Database) (user_id : ObjectId) : request -> Prop :=
| product_level_add product_id_str quantity product_id product :
    Bson.ObjectId_of_str product_id_str = Some product_id ->
    get_product_with_variant db product_id None = Ok (product, None) ->
    product_level db user_id (AddItem product_id_str None quantity)
| product_level_update item_id_str quantity item_id cart item product_id product :
    Bson.ObjectId_of_str item_id_str = Some item_id ->
    find_one (owned_by user_id) (carts db) = Some cart ->
    find (fun it => oid_eqb (ci_item_id it) item_id) (c_items cart) = Some item ->
    ci_product_id item = Some product_id ->
    ci_variant_id item = None ->
    get_product_with_variant db product_id None = Ok (product, None) ->
    product_level db user_id (UpdateItem item_id_str quantity).

Definition quantity_of (r : request) : Z :=
  match r with AddItem _ _ q => q | UpdateItem _ q => q end.

(** The items of the user's stored cart (none when there is no cart yet). *)
Definition cart_items_of (db : Database) (user_id : ObjectId) : list CartItemDocument :=
  match find_one (owned_by user_id) (carts db) with
  | Some cart => c_items cart
  | None => []
  end.

(** The quantity of the product-level line of a product (0 when absent). *)
Definition line_quantity (items : list CartItemDocument) (product_id : ObjectId) : Z :=
  match find (same_line product_id None) items with
  | Some line => ci_quantity line
  | None => 0
  end.

(** What the returned cart holds for the line the request wrote. *)
Definition holds_quantity (db : Database) (user_id : ObjectId) (r : request)
    (cart' : CartDocument) : Prop :=
  match r with
  | AddItem product_id_str _ quantity =>
      exists product_id,
        Bson.ObjectId_of_str product_id_str = Some product_id
        /\ line_quantity (c_items cart') product_id
           = line_quantity (cart_items_of db user_id) product_id + quantity
        /\ find (same_line product_id None) (c_items cart') <> None
  | UpdateItem item_id_str quantity =>
      exists item_id line,
        Bson.ObjectId_of_str item_id_str = Some item_id
        /\ find (fun it => oid_eqb (ci_item_id it) item_id) (c_items cart') = Some line
        /\ ci_quantity line = quantity
  end.

Lemma find_list_set_first (p : CartItemDocument -> bool) items product_id variant_id v :
  p = same_line product_id variant_id ->
  p v = true ->
  forall start item,
    find p items = Some item ->
    find p (list_set items
              (Z.to_nat (find_index_from start items product_id variant_id - start)) v)
    = Some v.
Proof.
  intros -> Hv. induction items as [|x r IH]; intros start item Hf; simpl in *.
  - discriminate.
  - destruct (same_line product_id variant_id x) eqn:E.
    + replace (start - start) with 0 by lia. simpl. now rewrite Hv.
    + pose proof (CartFacts.find_index_from_spec r product_id variant_id (start + 1)) as S.
      rewrite Hf in S.
      destruct (Z.le_gt_cases 0 (start + 1)) as [Hs|Hs].
      * destruct (S Hs) as [Hle _].
        replace (Z.to_nat (find_index_from (start + 1) r product_id variant_id - start))
          with (Datatypes.S
                  (Z.to_nat (find_index_from (start + 1) r product_id variant_id - (start + 1))))
          by lia.
        simpl. rewrite E. eapply IH. exact Hf.
      * (* a negative start: the index arithmetic is the same *)
        assert (G : forall l s, find (same_line product_id variant_id) l <> None ->
                      s <= find_index_from s l product_id variant_id).
        { clear. induction l as [|y l IHl]; intros s Hn; simpl in *; [congruence|].
          destruct (same_line product_id variant_id y); [lia|].
          specialize (IHl (s + 1) Hn). lia. }
        assert (Hle : start + 1 <= find_index_from (start + 1) r product_id variant_id)
          by (apply G; congruence).
        replace (Z.to_nat (find_index_from (start + 1) r product_id variant_id - start))
          with (Datatypes.S
                  (Z.to_nat (find_index_from (start + 1) r product_id variant_id - (start + 1))))
          by lia.
        simpl. rewrite E. eapply IH. exact Hf.
Qed.

Lemma find_app_last {A} (p : A -> bool) l x :
  find p l = None -> p x = true -> find p (l ++ [x])%list = Some x.
Proof.
  intros Hn Hx. induction l as [|y l IH]; simpl in *.
  - now rewrite Hx.
  - destruct (p y); [discriminate|]. now apply IH.
Qed.

Lemma resolved_product_id db product_id variant_id product variant :
  get_product_with_variant db product_id variant_id = Ok (product, variant) ->
  p_id product = product_id.
Proof.
  unfold get_product_with_variant, find_one.
  destruct (find _ (products db)) as [p|] eqn:E; [|discriminate].
  apply find_some in E. destruct E as [_ E]. apply oid_eqb_eq in E.
  destruct (negb _); [discriminate|].
  destruct variant_id as [vid|].
  - destruct (find_variant _ vid); [|discriminate]. intro H. injection H as <- _. exact E.
  - intro H. injection H as <- _. exact E.
Qed.

Lemma add_item_product_level db user_id product_id_str quantity product_id product :
  Bson.ObjectId_of_str product_id_str = Some product_id ->
  get_product_with_variant db product_id None = Ok (product, None) ->
  exists cart' db',
    add_item user_id product_id_str None quantity db = (Ok cart', db')
    /\ line_quantity (c_items cart') product_id
       = line_quantity (cart_items_of db user_id) product_id + quantity
    /\ find (same_line product_id None) (c_items cart') <> None.
Proof.
  intros Hp Hg.
  unfold add_item, _parse_object_id. rewrite Hp.
  unfold lift at 1 2. unfold bind at 1 2.
  destruct (CartFacts.ensure_cart_cases db user_id) as (cart & db1 & He & Hprod & Hc).
  rewrite (bind_ok _ _ _ _ _ He), bind_gets_lift.
  rewrite (get_product_with_variant_frame _ _ _ _ Hprod), Hg. simpl.
  assert (Hitems : cart_items_of db user_id = c_items cart).
  { unfold cart_items_of. destruct Hc as [[Hf _]|(Hf & Hi & _)]; rewrite Hf; auto. }
  rewrite Hitems. unfold line_quantity.
  unfold bind at 1. unfold utcnow at 1.
  destruct (find (same_line product_id None) (c_items cart)) as [existing|] eqn:Ef.
  - destruct (CartFacts.find_item_index_found _ _ _ _ Ef) as [Hi Hn].
    unfold bind at 1. rewrite Hi, Hn. unfold ret at 1.
    unfold bind, modify, ret. simpl.
    eexists. eexists. split; [reflexivity|]. simpl.
    unfold _find_item_index.
    erewrite <- (Z.sub_0_r (find_index_from 0 _ _ _)).
    erewrite find_list_set_first; try reflexivity; try exact Ef.
    + simpl. split; [reflexivity|discriminate].
    + unfold same_line. simpl.
      apply find_some in Ef. destruct Ef as [_ Ef]. exact Ef.
  - rewrite (CartFacts.find_item_index_missing _ _ _ Ef).
    unfold bind, new_ObjectId, modify, ret. simpl.
    eexists. eexists. split; [reflexivity|]. simpl.
    erewrite find_app_last; try exact Ef.
    + simpl. split; [lia|discriminate].
    + unfold same_line. simpl.
      rewrite (resolved_product_id _ _ _ _ _ Hg). now rewrite oid_eqb_refl.
Qed.

Lemma update_matching_item_product_level db items item_id quantity item product_id product :
  find (fun it => oid_eqb (ci_item_id it) item_id) items = Some item ->
  ci_product_id item = Some product_id ->
  ci_variant_id item = None ->
  get_product_with_variant db product_id None = Ok (product, None) ->
  exists items' line,
    update_matching_item items item_id quantity db
    = (Ok (Some items'), with_ticks db (S (ticks db)))
    /\ find (fun it => oid_eqb (ci_item_id it) item_id) items' = Some line
    /\ ci_quantity line = quantity.
Proof.
  intros Hf Hp Hv Hg.
  induction items as [|x r IH]; simpl in Hf; [discriminate|].
  simpl. destruct (oid_eqb (ci_item_id x) item_id) eqn:E.
  - injection Hf as ->. rewrite Hp, Hv, bind_gets_lift, Hg. simpl.
    unfold bind, utcnow, ret. simpl.
    eexists. eexists. split; [reflexivity|]. simpl. rewrite E. split; reflexivity.
  - destruct (IH Hf) as (items' & line & Hr & Hfind & Hq).
    rewrite (bind_ok _ _ _ _ _ Hr). unfold ret. simpl.
    eexists. eexists. split; [reflexivity|]. simpl. rewrite E. split; eassumption.
Qed.

Lemma update_item_quantity_product_level db user_id item_id_str quantity item_id cart item
    product_id product :
  0 < quantity ->
  Bson.ObjectId_of_str item_id_str = Some item_id ->
  find_one (owned_by user_id) (carts db) = Some cart ->
  find (fun it => oid_eqb (ci_item_id it) item_id) (c_items cart) = Some item ->
  ci_product_id item = Some product_id ->
  ci_variant_id item = None ->
  get_product_with_variant db product_id None = Ok (product, None) ->
  exists cart' db' line,
    update_item_quantity user_id item_id_str quantity db = (Ok cart', db')
    /\ find (fun it => oid_eqb (ci_item_id it) item_id) (c_items cart') = Some line
    /\ ci_quantity line = quantity.
Proof.
  intros Hq Hi Hc Hf Hp Hv Hg.
  unfold update_item_quantity.
  replace (quantity <=? 0) with false by (symmetry; apply Z.leb_gt; lia).
  unfold _parse_object_id. rewrite Hi. unfold lift at 1. unfold bind at 1.
  rewrite (bind_ok _ _ _ _ _ (CartFacts.ensure_cart_found _ _ _ Hc)).
  destruct (update_matching_item_product_level db _ _ quantity _ _ _ Hf Hp Hv Hg)
    as (items' & line & Hr & Hfind & Hql).
  rewrite (bind_ok _ _ _ _ _ Hr).
  unfold bind, utcnow, modify, ret. simpl.
  eexists. eexists. exists line. split; [reflexivity|]. simpl. split; assumption.
Qed.

(** C10. The stock guard applies only to lines that reference a variant.  A
    request that adds or updates a product-level line (variant_id absent), for
    a product that resolves, succeeds for every quantity the API boundary
    accepts (0 < quantity <= 999), whatever the stock of the product's
    variants: the returned cart holds the summed quantity (add) or the
    requested quantity (update) on that line. *)
Theorem product_level_line_has_no_stock_check (db : Database) (user_id : ObjectId)
    (r : request) :
  product_level db user_id r ->
  valid_quantity (quantity_of r) = true ->
  exists cart' db',
    handle user_id r db = (Ok cart', db')
    /\ holds_quantity db user_id r cart'.
Proof.
  intros H Hq.
  apply andb_prop in Hq. destruct Hq as [Hpos _]. apply Z.ltb_lt in Hpos.
  destruct H as [ps q pid prod Hp Hg|ids q iid cart item pid prod Hi Hc Hf Hp Hv Hg]; simpl in *.
  - destruct (add_item_product_level db user_id ps q pid prod Hp Hg)
      as (cart' & db' & Hr & Hl & Hn).
    exists cart', db'. split; [exact Hr|]. exists pid. auto.
  - destruct (update_item_quantity_product_level db user_id ids q iid cart item pid prod
                Hpos Hi Hc Hf Hp Hv Hg) as (cart' & db' & line & Hr & Hfind & Hql).
    exists cart', db'. split; [exact Hr|]. exists iid, line. auto.
Qed.

End ProductLevelLines.

(** The mug is sold at product level: 999 more of them go into the cart. *)
Lemma product_level_line_has_no_stock_check_witness :
  exists cart' db',
    CartRouter.handle Sample.buyer (CartRouter.AddItem Sample.mug_id None 999) Sample.db
    = (Ok cart', db')
    /\ ProductLevelLines.holds_quantity Sample.db Sample.buyer
         (CartRouter.AddItem Sample.mug_id None 999) cart'.
Proof.
  apply (ProductLevelLines.product_level_line_has_no_stock_check Sample.db Sample.buyer).
  - eapply ProductLevelLines.product_level_add with (product_id := 17%N); reflexivity.
  - reflexivity.
Defined.

(* ================================================================== *)
(** * Checkout: one seller per order *)
(* ================================================================== *)

Module SingleSeller.
Import Orders.

(** The cart line resolves to this product (and variant). *)
Definition resolves_to (db : Database) (item : CartItemDocument) (product : ProductDocument) : Prop :=
  exists product_id variant,
    ci_product_id item = Some product_id
    /\ get_product_with_variant db product_id (ci_variant_id item) = Ok (product, variant).

Definition resolves (db : Database) (item : CartItemDocument) : Prop :=
  exists product, resolves_to db item product.

(** Two lines of the cart resolve to products with different seller_id values. *)
Definition two_sellers (db : Database) (cart : CartDocument) : Prop :=
  exists item1 item2 product1 product2,
    In item1 (c_items cart) /\ In item2 (c_items cart)
    /\ resolves_to db item1 product1 /\ resolves_to db item2 product2
    /\ p_seller_id product1 <> p_seller_id product2.

(** The address id is well formed and names an address of the user. *)
Definition address_resolves (db : Database) (user_id : ObjectId) (address_id_str : string) : Prop :=
  exists address_id address,
    Bson.ObjectId_of_str address_id_str = Some address_id
    /\ get_address_by_id db user_id address_id = Ok address.

Lemma get_product_with_variant_status db product_id variant_id e :
  get_product_with_variant db product_id variant_id = Raise e ->
  InvalidInput e \/ NotFound e.
Proof.
  unfold get_product_with_variant.
  destruct (find_one _ (products db)) as [p|].
  - destruct (negb _).
    + intro H. injection H as <-. now left.
    + destruct variant_id as [vid|]; [|discriminate].
      destruct (find_variant _ vid); [discriminate|].
      intro H. injection H as <-. now right.
  - intro H. injection H as <-. now right.
Qed.

Lemma ensure_single_seller_status current new_seller e :
  _ensure_single_seller current new_seller = Raise e -> InvalidInput e.
Proof.
  unfold _ensure_single_seller.
  destruct new_seller as [s|].
  - destruct current as [c|]; [|discriminate].
    destruct (negb _); [|discriminate]. intro H. now injection H as <-.
  - intro H. now injection H as <-.
Qed.

Lemma ensure_single_seller_ok current new_seller seller :
  _ensure_single_seller current new_seller = Ok seller ->
  new_seller = Some seller /\ (forall c, current = Some c -> c = seller).
Proof.
  unfold _ensure_single_seller.
  destruct new_seller as [s|]; [|discriminate].
  destruct current as [c|].
  - destruct (oid_eqb c s) eqn:E; simpl; [|discriminate].
    apply oid_eqb_eq in E. subst. intro H. injection H as <-.
    split; [reflexivity|]. now intros c' [= ->].
  - intro H. injection H as <-. split; [reflexivity|discriminate].
Qed.

Lemma build_order_item_status db seller item e :
  build_order_item db seller item = Raise e -> InvalidInput e \/ NotFound e.
Proof.
  unfold build_order_item.
  destruct (ci_product_id item) as [pid|]; [|intro H; injection H as <-; now left].
  destruct (get_product_with_variant db pid (ci_variant_id item)) as [[product variant]|e'] eqn:G.
  - destruct (_ensure_single_seller seller (p_seller_id product)) eqn:S; [discriminate|].
    intro H. injection H as <-. left. eapply ensure_single_seller_status; eauto.
  - intro H. injection H as <-. eapply get_product_with_variant_status; eauto.
Qed.

Lemma build_order_item_status_resolved db seller item e :
  resolves db item ->
  build_order_item db seller item = Raise e -> InvalidInput e.
Proof.
  intros (product & pid & variant & Hp & Hg). unfold build_order_item. rewrite Hp, Hg.
  destruct (_ensure_single_seller seller (p_seller_id product)) eqn:S; [discriminate|].
  intro H. injection H as <-. eapply ensure_single_seller_status; eauto.
Qed.

Lemma build_order_item_ok db seller item order_item seller' total :
  build_order_item db seller item = Ok (order_item, seller', total) ->
  (forall c, seller = Some c -> c = seller')
  /\ (forall product, resolves_to db item product -> p_seller_id product = Some seller').
Proof.
  unfold build_order_item.
  destruct (ci_product_id item) as [pid|] eqn:Hp; [|discriminate].
  destruct (get_product_with_variant db pid (ci_variant_id item)) as [[product variant]|e'] eqn:G;
    [|discriminate].
  destruct (_ensure_single_seller seller (p_seller_id product)) as [s|] eqn:S; [|discriminate].
  intro H. injection H as _ <- _.
  destruct (ensure_single_seller_ok _ _ _ S) as [Hn Hc]. split; [exact Hc|].
  intros product' (pid' & variant' & Hp' & Hg'). congruence.
Qed.

(** A loop that completes has met one seller only. *)
Lemma build_order_items_loop_ok db cart_items :
  forall items seller subtotal items' seller' subtotal',
    build_order_items_loop db cart_items items seller subtotal = Ok (items', seller', subtotal') ->
    (forall c, seller = Some c -> seller' = Some c)
    /\ Forall (fun item => forall product, resolves_to db item product ->
                             p_seller_id product = seller') cart_items.
Proof.
  induction cart_items as [|item rest IH]; intros items seller subtotal items' seller' subtotal' H;
    simpl in H.
  - injection H as _ <- _. split; [auto|constructor].
  - destruct (build_order_item db seller item) as [[[oi s] t]|e] eqn:B; [|discriminate].
    destruct (build_order_item_ok _ _ _ _ _ _ B) as [Hc Hr].
    destruct (IH _ _ _ _ _ _ H) as [Hs Hall].
    specialize (Hs s eq_refl). split.
    + intros c ->. now rewrite (Hc c eq_refl).
    + constructor; [|exact Hall]. intros product Hres. rewrite Hs. now apply Hr.
Qed.

Lemma build_order_items_loop_status db cart_items :
  forall items seller subtotal e,
    build_order_items_loop db cart_items items seller subtotal = Raise e ->
    (InvalidInput e \/ NotFound e)
    /\ (Forall (resolves db) cart_items -> InvalidInput e).
Proof.
  induction cart_items as [|item rest IH]; intros items seller subtotal e H; simpl in H.
  - discriminate.
  - destruct (build_order_item db seller item) as [[[oi s] t]|e'] eqn:B.
    + destruct (IH _ _ _ _ H) as [H1 H2]. split; [exact H1|].
      intro F. apply H2. now inversion F.
    + injection H as <-. split.
      * eapply build_order_item_status; eauto.
      * intro F. inversion F; subst. eapply build_order_item_status_resolved; eauto.
Qed.

Lemma build_order_items_two_sellers db cart :
  two_sellers db cart ->
  exists e, _build_order_items db cart = Raise e
            /\ (InvalidInput e \/ NotFound e)
            /\ (Forall (resolves db) (c_items cart) -> InvalidInput e).
Proof.
  intros (item1 & item2 & product1 & product2 & In1 & In2 & R1 & R2 & Hne).
  unfold _build_order_items.
  destruct (build_order_items_loop db (c_items cart) [] None Py.zero)
    as [[[items seller] subtotal]|e] eqn:L.
  - exfalso. destruct (build_order_items_loop_ok _ _ _ _ _ _ _ _ L) as [_ Hall].
    rewrite Forall_forall in Hall.
    apply Hne. rewrite (Hall _ In1 _ R1), (Hall _ In2 _ R2). reflexivity.
  - exists e. split; [reflexivity|]. eapply build_order_items_loop_status; eauto.
Qed.

(** C1 (as the code has it). Checkout from a cart in which two lines resolve to
    products with different seller_id values always fails, inserts no order
    and leaves the carts as they were.  The failure is InvalidInput (400) or
    NotFound (404); it is InvalidInput whenever the address id names an
    address of the user and every cart line resolves, the seller conflict
    being then the first thing that can go wrong. *)
Theorem multi_seller_checkout_fails_without_effect (db : Database) (user_id : ObjectId)
    (address_id_str payment_method : string) (note : option string) (cart : CartDocument) :
  find_one (Cart.owned_by user_id) (carts db) = Some cart ->
  two_sellers db cart ->
  exists e,
    create_order_from_cart user_id address_id_str payment_method note db = (Raise e, db)
    /\ (InvalidInput e \/ NotFound e)
    /\ (address_resolves db user_id address_id_str ->
        Forall (resolves db) (c_items cart) -> InvalidInput e).
Proof.
  intros Hc H2.
  unfold create_order_from_cart.
  destruct (Bson.ObjectId_of_str address_id_str) as [address_id|] eqn:Ea.
  - unfold Cart.get_cart.
    rewrite (bind_ok _ _ _ _ _ (CartFacts.ensure_cart_found _ _ _ Hc)).
    destruct (c_items cart) as [|i0 r0] eqn:Ei.
    + exfalso. destruct H2 as (item1 & _ & _ & _ & In1 & _). rewrite Ei in In1. inversion In1.
    + rewrite bind_gets_lift.
      destruct (get_address_by_id db user_id address_id) as [address|e] eqn:Eaddr.
      * rewrite bind_gets_lift.
        destruct (build_order_items_two_sellers db cart H2) as (e & Hb & Hs & Hres).
        rewrite Hb. exists e. split; [reflexivity|]. split; [exact Hs|].
        intros _ F. apply Hres. now rewrite Ei.
      * exists e. split; [reflexivity|].
        unfold get_address_by_id in Eaddr.
        destruct (find_one _ (addresses db)) eqn:Ef; [discriminate|]. injection Eaddr as <-.
        split; [now right|].
        intros (aid & a & Hp & Hg) _. exfalso.
        assert (aid = address_id) by congruence. subst aid.
        unfold get_address_by_id in Hg. rewrite Ef in Hg. discriminate.
  - eexists. split; [reflexivity|]. split; [now left|]. intros _ _. reflexivity.
Qed.

(** The claim as the specification words it: the failure is always InvalidInput. *)
Definition always_InvalidInput : Prop :=
  forall db user_id address_id_str payment_method note cart,
    find_one (Cart.owned_by user_id) (carts db) = Some cart ->
    two_sellers db cart ->
    exists e db',
      create_order_from_cart user_id address_id_str payment_method note db = (Raise e, db')
      /\ InvalidInput e.

Lemma sample_cart_two_sellers : two_sellers Sample.db Sample.buyer_cart.
Proof.
  exists Sample.shirt_line, Sample.mug_line, Sample.shirt, Sample.mug.
  split; [now left|]. split; [right; now left|].
  split; [exists 16%N, (Some Sample.shirt_large); split; reflexivity|].
  split; [exists 17%N, None; split; reflexivity|].
  discriminate.
Qed.

(** The buyer's cart holds a shirt of seller A and a mug of seller B, and the
    request names an address the buyer does not own: the address lookup comes
    first and the checkout fails with NotFound (404), not InvalidInput. *)
Lemma multi_seller_checkout_may_be_NotFound : ~ always_InvalidInput.
Proof.
  intro H.
  destruct (H Sample.db Sample.buyer "000000000000000000000099" "cod" None Sample.buyer_cart
              eq_refl sample_cart_two_sellers) as (e & db' & Hr & Hi).
  vm_compute in Hr. injection Hr as He _. subst e.
  unfold InvalidInput in Hi. simpl in Hi. discriminate Hi.
Qed.

End SingleSeller.

(** The sample checkout: shirt (seller A) and mug (seller B) in one cart. *)
Lemma multi_seller_checkout_fails_without_effect_witness :
  exists e,
    Orders.create_order_from_cart Sample.buyer Sample.buyer_address_id "cod" None Sample.db
    = (Raise e, Sample.db)
    /\ (InvalidInput e \/ NotFound e)
    /\ (SingleSeller.address_resolves Sample.db Sample.buyer Sample.buyer_address_id ->
        Forall (SingleSeller.resolves Sample.db) (c_items Sample.buyer_cart) ->
        InvalidInput e).
Proof.
  apply (SingleSeller.multi_seller_checkout_fails_without_effect Sample.db Sample.buyer
           Sample.buyer_address_id "cod" None Sample.buyer_cart).
  - reflexivity.
  - exact SingleSeller.sample_cart_two_sellers.
Defined.

(* ================================================================== *)
(** * Checkout: the amounts of a created order *)
(* ================================================================== *)

Module OrderTotals.
Import Orders.

(** [price * quantity] of an order item, before rounding *)
Definition line_total (oi : OrderItemDocument) : float :=
  PrimFloat.mul (oi_price oi) (Py.float_of_int (oi_quantity oi)).

Definition item_total_rounded (oi : OrderItemDocument) : Prop :=
  oi_total_amount oi = Py.round2 (line_total oi).

Lemma build_order_item_total db seller item oi seller' total :
  build_order_item db seller item = Ok (oi, seller', total) ->
  total = line_total oi /\ item_total_rounded oi.
Proof.
  unfold build_order_item.
  destruct (ci_product_id item) as [pid|]; [|discriminate].
  destruct (get_product_with_variant db pid (ci_variant_id item)) as [[product variant]|];
    [|discriminate].
  destruct (_ensure_single_seller seller (p_seller_id product)); [|discriminate].
  intro H. injection H as <- _ <-. split; reflexivity.
Qed.

Lemma build_order_items_loop_totals db cart_items :
  forall items seller subtotal items' seller' subtotal',
    build_order_items_loop db cart_items items seller subtotal = Ok (items', seller', subtotal') ->
    exists new_items,
      items' = (items ++ new_items)%list
      /\ Forall item_total_rounded new_items
      /\ subtotal' = Py.fsum subtotal (map line_total new_items).
Proof.
  induction cart_items as [|item rest IH]; intros items seller subtotal items' seller' subtotal' H;
    simpl in H.
  - injection H as <- _ <-. exists []. rewrite app_nil_r. repeat split. constructor.
  - destruct (build_order_item db seller item) as [[[oi s] t]|e] eqn:B; [|discriminate].
    destruct (build_order_item_total _ _ _ _ _ _ B) as [-> Hr].
    destruct (IH _ _ _ _ _ _ H) as (new_items & -> & Hall & ->).
    exists (oi :: new_items). rewrite <- app_assoc. simpl.
    repeat split. now constructor.
Qed.

Lemma build_order_items_totals db cart items seller_id subtotal :
  _build_order_items db cart = Ok (items, seller_id, subtotal) ->
  Forall item_total_rounded items
  /\ subtotal = Py.round2 (Py.fsum Py.zero (map line_total items)).
Proof.
  unfold _build_order_items.
  destruct (build_order_items_loop db (c_items cart) [] None Py.zero)
    as [[[its [s|]] st]|e] eqn:L; try discriminate.
  intro H. injection H as <- _ <-.
  destruct (build_order_items_loop_totals _ _ _ _ _ _ _ _ L) as (new_items & -> & Hall & ->).
  simpl. split; [exact Hall|reflexivity].
Qed.

Lemma create_notification_total user_id notification_type title message metadata channel db :
  exists r db',
    Notifications.create_notification user_id notification_type title message metadata channel db
    = (Ok r, db').
Proof.
  unfold Notifications.create_notification. unfold_service.
  destruct (negb _); eexists; eexists; reflexivity.
Qed.

Lemma clear_cart_total user_id db :
  exists cart db', Cart.clear_cart user_id db = (Ok cart, db').
Proof.
  unfold Cart.clear_cart.
  destruct (CartFacts.ensure_cart_cases db user_id) as (cart & db1 & He & _).
  rewrite (bind_ok _ _ _ _ _ He). unfold_service. eexists. eexists. reflexivity.
Qed.

(** The order document a successful checkout returns is the one built from
    the result of [_build_order_items]. *)
Lemma create_order_from_cart_ok db user_id address_id_str payment_method note order db' :
  create_order_from_cart user_id address_id_str payment_method note db = (Ok order, db') ->
  exists db1 cart items seller_id subtotal,
    _build_order_items db1 cart = Ok (items, seller_id, subtotal)
    /\ o_items order = items
    /\ o_subtotal_amount order = subtotal
    /\ o_shipping_fee order = Py.zero
    /\ o_discount_amount order = Py.zero
    /\ o_total_amount order
       = Py.round2 (PrimFloat.sub (PrimFloat.add subtotal Py.zero) Py.zero)
    /\ o_payment_status order = "pending"
    /\ o_fulfillment_status order = "pending_confirmation".
Proof.
  unfold create_order_from_cart.
  destruct (Bson.ObjectId_of_str address_id_str) as [address_id|]; [|discriminate].
  unfold Cart.get_cart.
  destruct (CartFacts.ensure_cart_cases db user_id) as (cart & db1 & He & _).
  rewrite (bind_ok _ _ _ _ _ He).
  destruct (c_items cart) as [|i0 r0] eqn:Ei; [discriminate|].
  rewrite bind_gets_lift.
  destruct (get_address_by_id db1 user_id address_id) as [address|e]; [|discriminate].
  rewrite bind_gets_lift.
  destruct (_build_order_items db1 cart) as [[[items seller_id] subtotal]|e] eqn:B;
    [|discriminate].
  unfold bind at 1. unfold utcnow at 1.
  unfold bind at 1. unfold _generate_order_code at 1. unfold bind at 1. unfold utcnow at 1.
  unfold ret at 1.
  unfold bind at 1. unfold new_ObjectId at 1.
  unfold bind at 1. unfold modify at 1.
  match goal with |- bind (Cart.clear_cart ?u) _ ?d = _ -> _ =>
    destruct (clear_cart_total u d) as (c1 & d1 & Hc) end.
  rewrite (bind_ok _ _ _ _ _ Hc).
  match goal with |- bind (Notifications.create_notification ?a ?b ?c ?d ?e ?f) _ ?d0 = _ -> _ =>
    destruct (create_notification_total a b c d e f d0) as (r1 & d2 & Hn1) end.
  rewrite (bind_ok _ _ _ _ _ Hn1).
  match goal with |- bind (Notifications.create_notification ?a ?b ?c ?d ?e ?f) _ ?d0 = _ -> _ =>
    destruct (create_notification_total a b c d e f d0) as (r2 & d3 & Hn2) end.
  rewrite (bind_ok _ _ _ _ _ Hn2).
  unfold ret. intro H. injection H as <- _.
  exists db1, cart, items, seller_id, subtotal.
  split; [exact B|]. repeat split; reflexivity.
Qed.

(** C2 (as the code has it). For every order created by checkout:
    shipping_fee = 0 and discount_amount = 0;
    total_amount = round(subtotal_amount + shipping_fee - discount_amount, 2);
    every order item has total_amount = round(price * quantity, 2);
    and subtotal_amount = round(sum of price * quantity over the items, 2),
    the unrounded line totals being summed left to right from 0.0 and the sum
    rounded once. *)
Theorem order_totals_at_creation (db db' : Database) (user_id : ObjectId)
    (address_id_str payment_method : string) (note : option string) (order : OrderDocument) :
  create_order_from_cart user_id address_id_str payment_method note db = (Ok order, db') ->
  o_shipping_fee order = Py.zero
  /\ o_discount_amount order = Py.zero
  /\ o_total_amount order
     = Py.round2 (PrimFloat.sub (PrimFloat.add (o_subtotal_amount order) (o_shipping_fee order))
                                (o_discount_amount order))
  /\ Forall item_total_rounded (o_items order)
  /\ o_subtotal_amount order = Py.round2 (Py.fsum Py.zero (map line_total (o_items order))).
Proof.
  intro H.
  destruct (create_order_from_cart_ok _ _ _ _ _ _ _ H)
    as (db1 & cart & items & seller_id & subtotal & B & Hi & Hs & Hf & Hd & Ht & _).
  destruct (build_order_items_totals _ _ _ _ _ B) as [Hall Hsub].
  rewrite Hf, Hd, Hs, Hi. repeat split; assumption.
Qed.

(** The claim as the specification words it: the subtotal is the sum of the
    rounded item totals (read with or without a final rounding of the sum). *)
Definition subtotal_is_sum_of_item_totals : Prop :=
  forall db db' user_id address_id_str payment_method note order,
    create_order_from_cart user_id address_id_str payment_method note db = (Ok order, db') ->
    o_subtotal_amount order = Py.fsum Py.zero (map oi_total_amount (o_items order))
    \/ o_subtotal_amount order
       = Py.round2 (Py.fsum Py.zero (map oi_total_amount (o_items order))).

Lemma float_neq (x y : float) : Prim2SF x <> Prim2SF y -> x <> y.
Proof. intros H E. apply H. now rewrite E. Qed.

(** A pen and an ink of one seller at 1.005 each, one of each in the cart:
    each item total is round(1.005, 2) = 1.0, their sum is 2.0, and the
    stored subtotal is round(1.005 + 1.005, 2) = 2.01. *)
Lemma subtotal_differs_from_sum_of_item_totals : ~ subtotal_is_sum_of_item_totals.
Proof.
  intro H.
  assert (E : exists order db',
             Orders.create_order_from_cart Sample.buyer2 Sample.buyer2_address_id "cod" None
               Sample.db_fractional = (Ok order, db')
             /\ Prim2SF (o_subtotal_amount order) = Prim2SF 2.01%float
             /\ Prim2SF (Py.fsum Py.zero (map oi_total_amount (o_items order)))
                = Prim2SF 2%float
             /\ Prim2SF (Py.round2 (Py.fsum Py.zero (map oi_total_amount (o_items order))))
                = Prim2SF 2%float).
  { eexists. eexists. split; [vm_compute; reflexivity|].
    repeat split; vm_compute; reflexivity. }
  destruct E as (order & db' & E & Hs & Hsum & Hround).
  destruct (H _ _ _ _ _ _ _ E) as [H1|H1]; rewrite H1 in Hs.
  - rewrite Hsum in Hs. vm_compute in Hs. discriminate Hs.
  - rewrite Hround in Hs. vm_compute in Hs. discriminate Hs.
Qed.

End OrderTotals.

(** The sample order of the second buyer. *)
Lemma order_totals_at_creation_witness :
  exists order db',
    Orders.create_order_from_cart Sample.buyer2 Sample.buyer2_address_id "cod" None
      Sample.db_fractional = (Ok order, db')
    /\ o_shipping_fee order = Py.zero
    /\ o_discount_amount order = Py.zero
    /\ o_total_amount order
       = Py.round2 (PrimFloat.sub (PrimFloat.add (o_subtotal_amount order) (o_shipping_fee order))
                                  (o_discount_amount order))
    /\ Forall OrderTotals.item_total_rounded (o_items order)
    /\ o_subtotal_amount order
       = Py.round2 (Py.fsum Py.zero (map OrderTotals.line_total (o_items order))).
Proof.
  assert (E : exists order db',
             Orders.create_order_from_cart Sample.buyer2 Sample.buyer2_address_id "cod" None
               Sample.db_fractional = (Ok order, db'))
    by (eexists; eexists; vm_compute; reflexivity).
  destruct E as (order & db' & E). exists order, db'. split; [exact E|].
  exact (OrderTotals.order_totals_at_creation Sample.db_fractional db' Sample.buyer2
           Sample.buyer2_address_id "cod" None order E).
Defined.

(* ================================================================== *)
(** * Notification preferences *)
(* ================================================================== *)

Module NotificationPreferences.
Import Notifications.

(** The unique index of [notification_preferences] on
    (user_id, event_type, channel). *)
Definition pref_key (p : NotificationPreferenceDocument) : ObjectId * string * string :=
  (np_user_id p, np_event_type p, np_channel p).

Definition unique_index (prefs : list NotificationPreferenceDocument) : Prop :=
  NoDup (map pref_key prefs).

(** [pref.get("enabled", True)] *)
Definition enabled (p : NotificationPreferenceDocument) : bool :=
  match np_enabled p with Some b => b | None => true end.

(** No stored row has this exact (user, event, channel) triple. *)
Definition no_row (db : Database) (user_id : ObjectId) (event_type channel : string) : Prop :=
  forall p, In p (notification_preferences db) ->
            pref_matches user_id event_type channel p = false.

Lemma pref_matches_key user_id event_type channel p :
  pref_matches user_id event_type channel p = true <->
  pref_key p = (user_id, event_type, channel).
Proof.
  unfold pref_matches, pref_key. rewrite !andb_true_iff, oid_eqb_eq, !String.eqb_eq.
  split.
  - intros [[-> ->] ->]. reflexivity.
  - intro H. injection H as -> -> ->. auto.
Qed.

Lemma find_unique_row prefs user_id event_type channel p :
  unique_index prefs ->
  In p prefs ->
  pref_matches user_id event_type channel p = true ->
  find_one (pref_matches user_id event_type channel) prefs = Some p.
Proof.
  unfold unique_index, find_one.
  induction prefs as [|x r IH]; intros Hu Hin Hm; simpl in *.
  - contradiction.
  - inversion Hu as [|k ks Hnotin Hnd]; subst.
    destruct (pref_matches user_id event_type channel x) eqn:Ex.
    + destruct Hin as [->|Hin]; [reflexivity|].
      exfalso. apply Hnotin.
      apply pref_matches_key in Ex. apply pref_matches_key in Hm.
      rewrite Ex, <- Hm. now apply in_map.
    + destruct Hin as [->|Hin]; [congruence|]. now apply IH.
Qed.

Lemma find_no_row db user_id event_type channel :
  no_row db user_id event_type channel ->
  find_one (pref_matches user_id event_type channel) (notification_preferences db) = None.
Proof.
  unfold no_row, find_one. generalize (notification_preferences db) as prefs.
  induction prefs as [|x r IH]; intro H; simpl.
  - reflexivity.
  - rewrite (H x (or_introl eq_refl)). apply IH. intros p Hp. apply H. now right.
Qed.

Lemma create_notification_suppressed db user_id notification_type title message metadata
    channel :
  _should_send_notification db user_id notification_type channel = false ->
  create_notification user_id notification_type title message metadata channel db
  = (Ok None, db).
Proof. intro H. unfold create_notification. unfold_service. now rewrite H. Qed.

Lemma create_notification_sent db user_id notification_type title message metadata channel :
  _should_send_notification db user_id notification_type channel = true ->
  exists doc db',
    create_notification user_id notification_type title message metadata channel db
    = (Ok (Some doc), db')
    /\ notifications db' = (notifications db ++ [doc])%list
    /\ n_user_id doc = user_id /\ n_type doc = notification_type
    /\ n_title doc = title /\ n_message doc = message /\ n_is_read doc = false.
Proof.
  intro H. unfold create_notification. unfold_service. rewrite H. simpl.
  eexists. eexists. split; [reflexivity|]. simpl. repeat split.
Qed.

(** C7. [create_notification] consults the preference row of the exact
    (user, event_type, channel) triple: when that row is disabled, no
    Notification document is stored, nothing is raised and no record is
    returned.  With no exact row the row of the wildcard event "__all__" for
    that channel decides.  With neither row, exactly one Notification document
    is stored, for that user and event and unread, and the record returned
    agrees with it on every field but the datetimes (the default is to
    send). *)
Theorem notification_preferences_decide (db : Database) (user_id : ObjectId)
    (notification_type title message : string) (metadata : option str_dict) (channel : string) :
  unique_index (notification_preferences db) ->
  let run := create_notification user_id notification_type title message metadata channel db in
  (forall exact,
      In exact (notification_preferences db) ->
      pref_matches user_id notification_type channel exact = true ->
      np_enabled exact = Some false ->
      run = (Ok None, db))
  /\ (no_row db user_id notification_type channel ->
      forall wildcard,
        In wildcard (notification_preferences db) ->
        pref_matches user_id DEFAULT_EVENT_ALL channel wildcard = true ->
        _should_send_notification db user_id notification_type channel = enabled wildcard
        /\ (enabled wildcard = false -> run = (Ok None, db)))
  /\ (no_row db user_id notification_type channel ->
      no_row db user_id DEFAULT_EVENT_ALL channel ->
      exists doc stored db',
        run = (Ok (Some doc), db')
        /\ notifications db' = (notifications db ++ [stored])%list
        /\ Stored.notification stored doc
        /\ n_user_id stored = user_id /\ n_type stored = notification_type
        /\ n_title stored = title /\ n_message stored = message
        /\ n_is_read stored = false).
Proof.
  intros Hu run. subst run. split; [|split].
  - intros exact Hin Hm Hd. apply create_notification_suppressed.
    unfold _should_send_notification.
    rewrite (find_unique_row _ _ _ _ _ Hu Hin Hm). now rewrite Hd.
  - intros Hno wildcard Hin Hm.
    assert (Hs : _should_send_notification db user_id notification_type channel
                 = enabled wildcard).
    { unfold _should_send_notification.
      rewrite (find_no_row _ _ _ _ Hno), (find_unique_row _ _ _ _ _ Hu Hin Hm).
      reflexivity. }
    split; [exact Hs|]. intro Hd. apply create_notification_suppressed. congruence.
  - intros Hno Hnw.
    destruct (create_notification_sent db user_id notification_type title message metadata
                channel) as (doc & db' & Hr & Hn & Hfields).
    { unfold _should_send_notification.
      now rewrite (find_no_row _ _ _ _ Hno), (find_no_row _ _ _ _ Hnw). }
    exists doc, doc, db'. split; [exact Hr|]. split; [exact Hn|].
    split; [apply StoredFacts.notification_same|exact Hfields].
Qed.

End NotificationPreferences.

(** The first buyer muted "order_created": the event stores nothing for that
    buyer. *)
Lemma notification_preferences_decide_witness :
  Notifications.create_notification Sample.buyer "order_created" "Order created"
    "Order ORD-1 has been created." None Notifications.DEFAULT_CHANNEL Sample.db_muted
  = (Ok None, Sample.db_muted).
Proof.
  refine (proj1 (NotificationPreferences.notification_preferences_decide Sample.db_muted
                   Sample.buyer "order_created" "Order created"
                   "Order ORD-1 has been created." None Notifications.DEFAULT_CHANNEL _)
                Sample.muted_order_created _ _ _).
  - repeat constructor. simpl. tauto.
  - now left.
  - reflexivity.
  - reflexivity.
Defined.

(* ================================================================== *)
(** * Order transitions *)
(* ================================================================== *)

Module OrderTransitions.
Import Orders OrdersRouter.

Lemma find_one_and_update_found p f coll o :
  find_one p coll = Some o ->
  exists coll', find_one_and_update p f coll = (Some (f o), coll').
Proof.
  unfold find_one. induction coll as [|x r IH]; simpl; [discriminate|].
  destruct (p x).
  - intro H. injection H as ->. eexists. reflexivity.
  - intro H. destruct (IH H) as (coll' & ->). eexists. reflexivity.
Qed.

Lemma find_one_and_update_missing p f coll :
  find_one p coll = None -> find_one_and_update p f coll = (None, coll).
Proof.
  unfold find_one. induction coll as [|x r IH]; simpl; [reflexivity|].
  destruct (p x); [discriminate|]. intro H. now rewrite (IH H).
Qed.

(** A write through [find_one_and_update] that sets [fulfillment_status] to
    [s] (or leaves it, [s = None]) and keeps [_id]: the status stored under
    any [_id] is what it was, or [s]. *)
Lemma find_one_and_update_status p f s coll order_id :
  (forall o, o_id (f o) = o_id o) ->
  (forall o, o_fulfillment_status (f o)
             = match s with Some st => st | None => o_fulfillment_status o end) ->
  let after := snd (find_one_and_update p f coll) in
  option_map o_fulfillment_status (find_one (fun o => oid_eqb (o_id o) order_id) after)
  = option_map o_fulfillment_status (find_one (fun o => oid_eqb (o_id o) order_id) coll)
  \/ (exists st, s = Some st
        /\ fst (find_one_and_update p f coll) <> None
        /\ option_map o_fulfillment_status
             (find_one (fun o => oid_eqb (o_id o) order_id) after) = Some st).
Proof.
  intros Hid Hst. unfold find_one. induction coll as [|x r IH]; simpl.
  - now left.
  - destruct (p x) eqn:Ep; simpl.
    + rewrite Hid. destruct (oid_eqb (o_id x) order_id); [|now left].
      simpl. rewrite Hst. destruct s as [st|]; [|now left].
      right. exists st. repeat split. discriminate.
    + destruct (find_one_and_update p f r) as [res r'] eqn:Er. simpl in *.
      destruct (oid_eqb (o_id x) order_id); [now left|]. exact IH.
Qed.

Lemma create_notification_orders user_id notification_type title message metadata channel db
    r db' :
  Notifications.create_notification user_id notification_type title message metadata channel db
  = (r, db') ->
  orders db' = orders db /\ exists v, r = Ok v.
Proof.
  unfold Notifications.create_notification. unfold_service.
  destruct (negb _); intro H; injection H as <- <-; split; try reflexivity; eexists; reflexivity.
Qed.

(** The effect of one order write on the status stored under [order_id]. *)
Definition status_after (db db' : Database) (order_id : ObjectId) (new_status : string) : Prop :=
  fulfillment_status_of db' order_id = fulfillment_status_of db order_id
  \/ fulfillment_status_of db' order_id = Some new_status.

Lemma find_one_and_update_order_status p f s db r db' order_id :
  (forall o, o_id (f o) = o_id o) ->
  (forall o, o_fulfillment_status (f o)
             = match s with Some st => st | None => o_fulfillment_status o end) ->
  find_one_and_update_order p f db = (r, db') ->
  fulfillment_status_of db' order_id = fulfillment_status_of db order_id
  \/ (exists st updated, s = Some st /\ r = Ok updated
        /\ fulfillment_status_of db' order_id = Some st).
Proof.
  intros Hid Hst. unfold find_one_and_update_order, fulfillment_status_of.
  pose proof (find_one_and_update_status p f s (orders db) order_id Hid Hst) as H.
  destruct (find_one_and_update p f (orders db)) as [[u|] os]; simpl in H;
    intro E; injection E as <- <-; simpl.
  - destruct H as [H|(st & -> & _ & H)]; [now left|]. right. exists st, u. auto.
  - now left.
Qed.

Lemma apply_update_id fulfillment payment transaction_id extra now entry o :
  o_id (apply_update fulfillment payment transaction_id extra now entry o) = o_id o.
Proof. reflexivity. Qed.

Lemma apply_update_status fulfillment payment transaction_id extra now entry o :
  o_fulfillment_status (apply_update fulfillment payment transaction_id extra now entry o)
  = match fulfillment with Some st => st | None => o_fulfillment_status o end.
Proof. reflexivity. Qed.

Lemma fulfillment_status_of_ticks db n order_id :
  fulfillment_status_of (with_ticks db n) order_id = fulfillment_status_of db order_id.
Proof. reflexivity. Qed.

Lemma update_order_fulfillment_status_effect order_oid new_status note actor extra db r db'
    order_id :
  update_order_fulfillment_status order_oid new_status note actor extra db = (r, db') ->
  fulfillment_status_of db' order_id = fulfillment_status_of db order_id
  \/ (is_ok r = true /\ fulfillment_status_of db' order_id = Some new_status).
Proof.
  unfold update_order_fulfillment_status. unfold bind at 1. unfold utcnow at 1.
  intro H.
  apply (find_one_and_update_order_status _ _ (Some new_status) _ _ _ order_id) in H;
    try (intro; reflexivity).
  rewrite fulfillment_status_of_ticks in H.
  destruct H as [H|(st & u & [= <-] & -> & H)]; [now left|now right].
Qed.

Lemma update_order_payment_status_effect order_oid new_status note actor transaction_id db r db'
    order_id :
  update_order_payment_status order_oid new_status note actor transaction_id db = (r, db') ->
  fulfillment_status_of db' order_id = fulfillment_status_of db order_id.
Proof.
  unfold update_order_payment_status. unfold bind at 1. unfold utcnow at 1.
  intro H.
  apply (find_one_and_update_order_status _ _ None _ _ _ order_id) in H;
    try (intro; reflexivity).
  rewrite fulfillment_status_of_ticks in H.
  destruct H as [H|(st & u & [=] & _)]. exact H.
Qed.

Lemma cancel_order_effect user_id order_id_str reason db r db' order_id :
  Orders.cancel_order user_id order_id_str reason db = (r, db') ->
  fulfillment_status_of db' order_id = fulfillment_status_of db order_id
  \/ (is_ok r = true /\ fulfillment_status_of db' order_id = Some "cancelled").
Proof.
  unfold Orders.cancel_order. rewrite bind_gets_lift.
  destruct (get_order db user_id order_id_str) as [order|e].
  - destruct (negb _).
    + intro H. injection H as _ <-. now left.
    + unfold bind at 1. unfold utcnow at 1. intro H.
      apply (find_one_and_update_order_status _ _ (Some "cancelled") _ _ _ order_id) in H;
        try (intro; reflexivity).
      rewrite fulfillment_status_of_ticks in H.
      destruct H as [H|(st & u & [= <-] & -> & H)]; [now left|now right].
  - intro H. injection H as _ <-. now left.
Qed.

(** After a notification the stored orders are the same. *)
Lemma bind_notification_status {A} user_id notification_type title message metadata channel
    (k : option NotificationDocument -> M A) db r db' order_id :
  bind (Notifications.create_notification user_id notification_type title message metadata
          channel) k db = (r, db') ->
  exists v db1, k v db1 = (r, db')
                /\ fulfillment_status_of db1 order_id = fulfillment_status_of db order_id.
Proof.
  unfold bind.
  destruct (Notifications.create_notification _ _ _ _ _ _ db) as [r0 db1] eqn:E.
  destruct (create_notification_orders _ _ _ _ _ _ _ _ _ E) as [Ho [v ->]].
  intro H. exists v, db1. split; [exact H|].
  unfold fulfillment_status_of. now rewrite Ho.
Qed.

Lemma seller_confirm_order_effect order_id_str note current_user db r db' order_id :
  seller_confirm_order order_id_str note current_user db = (r, db') ->
  fulfillment_status_of db' order_id = fulfillment_status_of db order_id
  \/ (is_ok r = true /\ fulfillment_status_of db' order_id = Some "processing").
Proof.
  unfold seller_confirm_order.
  destruct (_parse_object_id order_id_str) as [order_oid|e];
    [|intro H; injection H as _ <-; now left].
  unfold lift at 1. unfold bind at 1. rewrite bind_gets_lift.
  destruct (get_order_by_object_id db order_oid) as [order|e];
    [|intro H; injection H as _ <-; now left].
  destruct (negb (opt_oid_eqb _ _)); [intro H; injection H as _ <-; now left|].
  destruct (negb (str_in _ _)); [intro H; injection H as _ <-; now left|].
  unfold bind at 1.
  destruct (update_order_fulfillment_status order_oid "processing" _ _ None db)
    as [[updated|e] db1] eqn:U.
  - intro H. apply (bind_notification_status _ _ _ _ _ _ _ _ _ _ order_id) in H.
    destruct H as (v & db2 & H & Hs). injection H as <- <-. rewrite Hs.
    destruct (update_order_fulfillment_status_effect _ _ _ _ _ _ _ _ order_id U)
      as [H|[_ H]]; [now left|now right].
  - intro H. injection H as _ <-.
    destruct (update_order_fulfillment_status_effect _ _ _ _ _ _ _ _ order_id U)
      as [H|[H _]]; [now left|discriminate H].
Qed.

Lemma admin_refund_order_effect order_id_str note current_user db r db' order_id :
  admin_refund_order order_id_str note current_user db = (r, db') ->
  fulfillment_status_of db' order_id = fulfillment_status_of db order_id
  \/ (is_ok r = true /\ fulfillment_status_of db' order_id = Some "refunded").
Proof.
  unfold admin_refund_order.
  destruct (_parse_object_id order_id_str) as [order_oid|e];
    [|intro H; injection H as _ <-; now left].
  unfold lift at 1. unfold bind at 1. rewrite bind_gets_lift.
  destruct (get_order_by_object_id db order_oid) as [order|e];
    [|intro H; injection H as _ <-; now left].
  unfold bind at 1.
  destruct (update_order_payment_status order_oid "refunded" _ _ None db)
    as [[paid|e] db1] eqn:P;
    pose proof (update_order_payment_status_effect _ _ _ _ _ _ _ _ order_id P) as HP;
    [|intro H; injection H as _ <-; now left].
  unfold bind at 1.
  destruct (update_order_fulfillment_status order_oid "refunded" _ _ None db1)
    as [[updated|e] db2] eqn:U;
    pose proof (update_order_fulfillment_status_effect _ _ _ _ _ _ _ _ order_id U) as HU.
  - intro H. apply (bind_notification_status _ _ _ _ _ _ _ _ _ _ order_id) in H.
    destruct H as (v & db3 & H & Hs).
    assert (G : fulfillment_status_of db' order_id = fulfillment_status_of db3 order_id
                /\ is_ok r = true).
    { destruct (o_seller_id order) as [seller_id|].
      - apply (bind_notification_status _ _ _ _ _ _ _ _ _ _ order_id) in H.
        destruct H as (v' & db4 & H & Hs'). injection H as <- <-. now split.
      - injection H as <- <-. now split. }
    destruct G as [-> Hok]. rewrite Hs, <- HP.
    destruct HU as [HU|[_ HU]]; [now left|now right].
  - intro H. injection H as _ <-. rewrite <- HP.
    destruct HU as [HU|[HU _]]; [now left|discriminate HU].
Qed.

(** C3 (as the code has it).  From pending_confirmation, the two
    status-guarded requests reach processing (seller confirm) and cancelled
    (buyer cancel) and nothing else, and the admin refund, which has no
    status guard, reaches refunded; a request that fails leaves the status
    as it was.  From delivered, completed, cancelled or refunded, a buyer's
    cancel of that order always fails with InvalidInput and writes nothing. *)
Theorem fulfillment_transitions (db : Database) :
  (forall r result db' order_id,
      fulfillment_status_of db order_id = Some "pending_confirmation" ->
      handle r db = (result, db') ->
      match r with
      | BuyerCancel _ _ =>
          fulfillment_status_of db' order_id = Some "pending_confirmation"
          \/ (is_ok result = true /\ fulfillment_status_of db' order_id = Some "cancelled")
      | SellerConfirm _ _ _ =>
          fulfillment_status_of db' order_id = Some "pending_confirmation"
          \/ (is_ok result = true /\ fulfillment_status_of db' order_id = Some "processing")
      | AdminRefund _ _ _ =>
          fulfillment_status_of db' order_id = Some "pending_confirmation"
          \/ (is_ok result = true /\ fulfillment_status_of db' order_id = Some "refunded")
      | SellerReadyToShip _ _ _ | SellerMarkDelivered _ _ _ => True
      end)
  /\ (forall buyer order_id_str order,
         get_order db buyer order_id_str = Ok order ->
         str_in (o_fulfillment_status order) ["delivered"; "completed"; "cancelled"; "refunded"]
         = true ->
         exists e, handle (BuyerCancel order_id_str buyer) db = (Raise e, db)
                   /\ InvalidInput e).
Proof.
  split.
  - intros r result db' order_id Hp H. destruct r; simpl in H; try exact I.
    + unfold OrdersRouter.cancel_order in H.
      apply (cancel_order_effect _ _ _ _ _ _ order_id) in H. now rewrite Hp in H.
    + apply (seller_confirm_order_effect _ _ _ _ _ _ order_id) in H. now rewrite Hp in H.
    + apply (admin_refund_order_effect _ _ _ _ _ _ order_id) in H. now rewrite Hp in H.
  - intros buyer order_id_str order Hg Hs. simpl.
    unfold OrdersRouter.cancel_order, Orders.cancel_order.
    rewrite bind_gets_lift, Hg.
    assert (E : str_in (o_fulfillment_status order) ["pending_confirmation"; "processing"]
                = false).
    { unfold str_in in *. simpl in *.
      repeat match type of Hs with
             | (String.eqb ?a ?b || _) = true =>
                 destruct (String.eqb_spec a b) as [->|]; [reflexivity|]; simpl in Hs
             end.
      discriminate Hs. }
    rewrite E. simpl. eexists. split; reflexivity.
Qed.

(** The claim as the specification words it: from pending_confirmation no
    request reaches a status other than processing or cancelled. *)
Definition only_processing_or_cancelled : Prop :=
  forall db r result db' order_id,
    fulfillment_status_of db order_id = Some "pending_confirmation" ->
    handle r db = (result, db') ->
    In (fulfillment_status_of db' order_id)
       [Some "pending_confirmation"; Some "processing"; Some "cancelled"].

(** An admin refund of an order that is still pending_confirmation stores
    refunded. *)
Lemma refund_reaches_refunded_from_pending : ~ only_processing_or_cancelled.
Proof.
  intro H.
  assert (E : exists result db',
             handle (AdminRefund Sample.pen_order_id None Sample.admin)
                    (Sample.db_with_order "pending_confirmation" "pending") = (result, db')
             /\ fulfillment_status_of db' 97%N = Some "refunded").
  { eexists. eexists. split; vm_compute; reflexivity. }
  destruct E as (result & db' & E & Hs).
  specialize (H (Sample.db_with_order "pending_confirmation" "pending") _ _ _ 97%N eq_refl E).
  rewrite Hs in H. simpl in H.
  repeat destruct H as [H|H]; try discriminate H. exact H.
Qed.


End OrderTransitions.

(** The seller's confirmation of the pending pen order stores processing;
    once the order is delivered, its buyer's cancel fails with the 400 and
    the database is as it was. *)
Lemma fulfillment_transitions_witness :
  (exists result db',
      OrdersRouter.handle (OrdersRouter.SellerConfirm Sample.pen_order_id None Sample.seller_a)
        (Sample.db_with_order "pending_confirmation" "pending") = (result, db')
      /\ (OrdersRouter.fulfillment_status_of db' 97%N = Some "pending_confirmation"
          \/ (is_ok result = true
              /\ OrdersRouter.fulfillment_status_of db' 97%N = Some "processing")))
  /\ (exists e,
        OrdersRouter.handle (OrdersRouter.BuyerCancel Sample.pen_order_id Sample.buyer2)
          (Sample.db_with_order "delivered" "paid")
        = (Raise e, Sample.db_with_order "delivered" "paid")
        /\ InvalidInput e).
Proof.
  split.
  - eexists. eexists. split; [vm_compute; reflexivity|].
    refine (proj1 (OrderTransitions.fulfillment_transitions
                     (Sample.db_with_order "pending_confirmation" "pending"))
              (OrdersRouter.SellerConfirm Sample.pen_order_id None Sample.seller_a)
              _ _ 97%N _ _).
    + reflexivity.
    + vm_compute. reflexivity.
  - refine (proj2 (OrderTransitions.fulfillment_transitions
                     (Sample.db_with_order "delivered" "paid"))
              Sample.buyer2 Sample.pen_order_id (Sample.pen_order "delivered" "paid") _ _).
    + vm_compute. reflexivity.
    + reflexivity.
Defined.


(* ================================================================== *)
(** * The lifecycle of a password-reset token *)
(* ================================================================== *)

Module ResetTokens.
Import Auth.

Section Lifecycle.

Variable match_reset_token : string -> string -> bool.
Variable hash_password : string -> string.

#[local] Abbreviation reset_password :=
  (Auth.reset_password match_reset_token hash_password).
#[local] Abbreviation serve := (Auth.serve match_reset_token hash_password).
#[local] Abbreviation handle := (Auth.handle match_reset_token hash_password).

Definition token_ids (s : Store) : list ObjectId := map t_id (password_reset_tokens s).

Definition unused_tokens (s : Store) (user_id : ObjectId) : list PasswordResetTokenDocument :=
  filter (unused_of user_id) (password_reset_tokens s).

(** [_id] is unique and below the supply of fresh ids, and a user has at most
    one unused token: what the two endpoints maintain from an empty
    collection on. *)
Definition well_formed (s : Store) : Prop :=
  NoDup (token_ids s)
  /\ Forall (fun t => (t_id t < next_oid s)%N) (password_reset_tokens s)
  /\ forall user_id, (List.length (unused_tokens s user_id) <= 1)%nat.

(** The stored token with this [_id]. *)
Definition token_by_id (s : Store) (token_id : ObjectId) : option PasswordResetTokenDocument :=
  find_one (fun t => oid_eqb (t_id t) token_id) (password_reset_tokens s).

(** The identifier is an e-mail address of a registered user. *)
Definition identifies (s : Store) (identifier : string) (user : UserDocument) : Prop :=
  Utils.is_email (Py.strip identifier) = true
  /\ find_one (by_email (Py.lower (Py.strip identifier))) (users s) = Some user.

Definition fails_InvalidInput (r : Result string) : Prop :=
  exists e, r = Raise e /\ InvalidInput e.

(** ** Lists of tokens *)

Lemma latest_In l : forall best t,
  latest best l = Some t -> best = Some t \/ In t l.
Proof.
  induction l as [|x r IH]; intros best t H; simpl in H.
  - now left.
  - apply IH in H. destruct H as [H|H]; [|right; now right].
    destruct best as [b|].
    + destruct (t_created_at b <? t_created_at x).
      * injection H as <-. right. now left.
      * now left.
    + injection H as <-. right. now left.
Qed.

Lemma find_latest_unused_In user_id tokens t :
  find_latest_unused user_id tokens = Some t ->
  In t (filter (unused_of user_id) tokens).
Proof.
  unfold find_latest_unused. intro H. apply latest_In in H.
  destruct H as [H|H]; [discriminate|exact H].
Qed.

Lemma unused_of_set_used user_id t : unused_of user_id (set_used t) = false.
Proof. unfold unused_of. simpl. apply andb_false_r. Qed.

Lemma In_token_ids t l : In t l -> In (t_id t) (map t_id l).
Proof. apply in_map. Qed.

Lemma find_by_id_unique l t :
  NoDup (map t_id l) -> In t l ->
  find_one (fun x => oid_eqb (t_id x) (t_id t)) l = Some t.
Proof.
  unfold find_one. induction l as [|x r IH]; intros Hn Hin; simpl in *; [contradiction|].
  inversion Hn as [|a b Hnotin Hnd]; subst.
  destruct (oid_eqb (t_id x) (t_id t)) eqn:E.
  - destruct Hin as [->|Hin]; [reflexivity|].
    exfalso. apply Hnotin. apply oid_eqb_eq in E. rewrite E. now apply In_token_ids.
  - destruct Hin as [->|Hin]; [now rewrite oid_eqb_refl in E|]. now apply IH.
Qed.

Lemma update_one_ids q (l : list PasswordResetTokenDocument) :
  map t_id (update_one q set_used l) = map t_id l.
Proof.
  induction l as [|x r IH]; simpl; [reflexivity|].
  destruct (q x); simpl; [reflexivity|now rewrite IH].
Qed.

Lemma find_update_one_set_used token_id l :
  find_one (fun x => oid_eqb (t_id x) token_id)
           (update_one (fun x => oid_eqb (t_id x) token_id) set_used l)
  = option_map set_used (find_one (fun x => oid_eqb (t_id x) token_id) l).
Proof.
  unfold find_one. induction l as [|x r IH]; simpl; [reflexivity|].
  destruct (oid_eqb (t_id x) token_id) eqn:E; simpl; rewrite E; [reflexivity|exact IH].
Qed.

(** Marking the only unused token of a user leaves the user none. *)
Lemma no_unused_after_use user_id l entry :
  NoDup (map t_id l) ->
  filter (unused_of user_id) l = [entry] ->
  filter (unused_of user_id)
         (update_one (fun x => oid_eqb (t_id x) (t_id entry)) set_used l) = [].
Proof.
  induction l as [|x r IH]; intros Hn Hf; simpl in *; [discriminate|].
  inversion Hn as [|a b Hnotin Hnd]; subst.
  destruct (oid_eqb (t_id x) (t_id entry)) eqn:E; simpl.
  - rewrite unused_of_set_used.
    destruct (unused_of user_id x).
    + now injection Hf as _ ->.
    + exfalso. apply Hnotin. apply oid_eqb_eq in E. rewrite E.
      apply In_token_ids.
      assert (Hin : In entry (filter (unused_of user_id) r)) by (rewrite Hf; now left).
      apply filter_In in Hin. tauto.
  - destruct (unused_of user_id x).
    + injection Hf as -> _. now rewrite oid_eqb_refl in E.
    + now apply IH.
Qed.

Lemma filter_update_one_length user_id q (l : list PasswordResetTokenDocument) :
  (List.length (filter (unused_of user_id) (update_one q set_used l))
   <= List.length (filter (unused_of user_id) l))%nat.
Proof.
  induction l as [|x r IH]; simpl; [lia|].
  destruct (q x); simpl.
  - rewrite unused_of_set_used. destruct (unused_of user_id x); simpl; lia.
  - destruct (unused_of user_id x); simpl; lia.
Qed.

Lemma invalidate_unused_ids user_id l :
  map t_id (invalidate_unused user_id l) = map t_id l.
Proof.
  unfold invalidate_unused. rewrite map_map. apply map_ext.
  intro t. now destruct (unused_of user_id t).
Qed.

Lemma invalidate_unused_none user_id l :
  filter (unused_of user_id) (invalidate_unused user_id l) = [].
Proof.
  unfold invalidate_unused. induction l as [|x r IH]; simpl; [reflexivity|].
  destruct (unused_of user_id x) eqn:E; [rewrite unused_of_set_used|rewrite E]; exact IH.
Qed.

Lemma invalidate_unused_others user_id other l :
  other <> user_id ->
  filter (unused_of other) (invalidate_unused user_id l) = filter (unused_of other) l.
Proof.
  intro Hne. unfold invalidate_unused. induction l as [|x r IH]; simpl; [reflexivity|].
  destruct (unused_of user_id x) eqn:E.
  - rewrite unused_of_set_used.
    assert (Ho : unused_of other x = false).
    { unfold unused_of in *. apply andb_prop in E. destruct E as [E _].
      apply oid_eqb_eq in E. destruct (oid_eqb (t_user_id x) other) eqn:E2; [|reflexivity].
      apply oid_eqb_eq in E2. congruence. }
    now rewrite Ho.
  - destruct (unused_of other x); [now rewrite IH|exact IH].
Qed.

(** Every token of the user is marked used by the invalidation, the others
    are kept as they are. *)
Lemma invalidate_unused_In user_id l t :
  In t l ->
  exists t', In t' (invalidate_unused user_id l) /\ t_id t' = t_id t
             /\ (t_user_id t = user_id -> t_used t' = true).
Proof.
  intro Hin. unfold invalidate_unused.
  exists (if unused_of user_id t then set_used t else t). split.
  - apply (in_map (fun t0 => if unused_of user_id t0 then set_used t0 else t0)). exact Hin.
  - unfold unused_of. destruct (oid_eqb (t_user_id t) user_id) eqn:E; simpl.
    + destruct (t_used t) eqn:U; simpl; auto.
    + split; [reflexivity|]. intro H. apply oid_eqb_eq in H. congruence.
Qed.

Lemma delete_one_fresh token_id l x :
  ~ In token_id (map t_id l) -> t_id x = token_id ->
  delete_one token_id (l ++ [x])%list = l.
Proof.
  intros Hn <-. induction l as [|y r IH]; simpl in *.
  - now rewrite oid_eqb_refl.
  - destruct (oid_eqb (t_id y) (t_id x)) eqn:E.
    + exfalso. apply Hn. left. now apply oid_eqb_eq.
    + rewrite IH; [reflexivity|tauto].
Qed.

(** ** Users *)

Lemma by_email_set_password email h u : by_email email (set_password h u) = by_email email u.
Proof. reflexivity. Qed.

Lemma find_user_after_password_change email h us user :
  find_one (by_email email) us = Some user ->
  exists user',
    find_one (by_email email)
             (update_one (fun u => oid_eqb (u_id u) (u_id user)) (set_password h) us)
    = Some user'
    /\ u_id user' = u_id user.
Proof.
  unfold find_one. induction us as [|x r IH]; simpl; [discriminate|].
  destruct (oid_eqb (u_id x) (u_id user)) eqn:E; simpl.
  - rewrite by_email_set_password. destruct (by_email email x).
    + intro H. injection H as <-. eexists. split; reflexivity.
    + intro H. rewrite H. eexists. split; reflexivity.
  - destruct (by_email email x).
    + intro H. injection H as ->. now rewrite oid_eqb_refl in E.
    + exact IH.
Qed.

(** ** The two endpoints *)

(** The token [forgot_password] stores: created at the first clock reading,
    expiring 30 minutes after the second. *)
Definition issued (s : Store) (user : UserDocument) (env : forgot_env)
  : PasswordResetTokenDocument :=
  {| t_id := next_oid s;
     t_user_id := u_id user;
     t_token_hash := generated_hash env;
     t_created_at := clock s (ticks s);
     t_expires_at := Some (clock s (S (ticks s)) + Datetime.minutes 30);
     t_used := false |}.

Lemma forgot_password_rejected s identifier env :
  (forall user, ~ identifies s identifier user) ->
  exists e, forgot_password identifier env s = (Raise e, s) /\ InvalidInput e.
Proof.
  intro H. unfold forgot_password.
  destruct (Utils.is_email (Py.strip identifier)) eqn:E; simpl.
  - unfold bind at 1. unfold gets at 1.
    destruct (find_one _ (users s)) as [user|] eqn:F.
    + exfalso. apply (H user). split; assumption.
    + eexists. split; reflexivity.
  - eexists. split; reflexivity.
Qed.

Lemma forgot_password_effect s identifier env user :
  identifies s identifier user ->
  exists result s1,
    forgot_password identifier env s = (result, s1)
    /\ users s1 = users s
    /\ next_oid s1 = (next_oid s + 1)%N
    /\ match mail env with
       | Mailed sent =>
           is_ok result = true
           /\ password_reset_tokens s1
              = (invalidate_unused (u_id user) (password_reset_tokens s)
                 ++ [issued s user env])%list
       | MailRuntimeError message =>
           result = Raise (HTTPError 500 message)
           /\ password_reset_tokens s1
              = delete_one (next_oid s)
                  (invalidate_unused (u_id user) (password_reset_tokens s)
                   ++ [issued s user env])%list
       end.
Proof.
  intros [He Hf]. unfold forgot_password. rewrite He. simpl.
  unfold bind at 1. unfold gets at 1. rewrite Hf.
  unfold bind, modify, utcnow, new_ObjectId, raise, ret, insert_one. simpl.
  destruct (mail env) as [sent|message]; simpl;
    eexists; eexists; (split; [reflexivity|]); simpl; repeat split.
Qed.

Lemma reset_password_rejected s identifier token new_password :
  (forall user, ~ identifies s identifier user) ->
  exists e, reset_password identifier token new_password s = (Raise e, s) /\ InvalidInput e.
Proof.
  intro H. unfold Auth.reset_password.
  destruct (Utils.is_email (Py.strip identifier)) eqn:E; simpl.
  - unfold bind at 1. unfold gets at 1.
    destruct (find_one _ (users s)) as [user|] eqn:F.
    + exfalso. apply (H user). split; assumption.
    + eexists. split; reflexivity.
  - eexists. split; reflexivity.
Qed.

(** Without an unused token of the user, or with a code that does not match
    the latest one, the attempt fails and nothing is written. *)
Lemma reset_password_no_match s identifier token new_password user :
  identifies s identifier user ->
  match find_latest_unused (u_id user) (password_reset_tokens s) with
  | None => True
  | Some entry => match_reset_token token (t_token_hash entry) = false
  end ->
  reset_password identifier token new_password s = (Raise invalid_code, s).
Proof.
  intros [He Hf] Hm. unfold Auth.reset_password. rewrite He. simpl.
  unfold bind at 1. unfold gets at 1. rewrite Hf.
  unfold bind at 1. unfold gets at 1.
  destruct (find_latest_unused _ _) as [entry|]; [|reflexivity].
  now rewrite Hm.
Qed.

(** The attempt with the matching code: it succeeds, or reports the expiry;
    either way the token is marked used. *)
Lemma reset_password_use s identifier token new_password user entry :
  identifies s identifier user ->
  find_latest_unused (u_id user) (password_reset_tokens s) = Some entry ->
  match_reset_token token (t_token_hash entry) = true ->
  let expires_at :=
    match t_expires_at entry with Some e => e | None => clock s (ticks s) end in
  let expired := expires_at <? clock s (S (ticks s)) in
  exists s1,
    reset_password identifier token new_password s
    = (if expired then Raise expired_code else Ok "password has been reset", s1)
    /\ password_reset_tokens s1
       = update_one (fun t => oid_eqb (t_id t) (t_id entry)) set_used (password_reset_tokens s)
    /\ users s1
       = (if expired then users s
          else update_one (fun u => oid_eqb (u_id u) (u_id user))
                          (set_password (hash_password new_password)) (users s))
    /\ next_oid s1 = next_oid s.
Proof.
  intros [He Hf] Hl Hm. unfold Auth.reset_password. rewrite He. simpl.
  unfold bind at 1. unfold gets at 1. rewrite Hf.
  unfold bind at 1. unfold gets at 1. rewrite Hl, Hm. simpl.
  unfold bind at 1. unfold utcnow at 1.
  unfold bind at 1. unfold utcnow at 1. simpl.
  destruct (_ <? _); unfold bind, modify, raise, ret; simpl;
    eexists; (split; [reflexivity|]); simpl; repeat split.
Qed.

(** Every failure of [reset_password] is InvalidInput, and a call writes at
    most a [used] flag and a password. *)
Lemma reset_password_effect s identifier token new_password result s1 :
  reset_password identifier token new_password s = (result, s1) ->
  (is_ok result = true \/ fails_InvalidInput result)
  /\ next_oid s1 = next_oid s
  /\ (password_reset_tokens s1 = password_reset_tokens s
      \/ exists q, password_reset_tokens s1 = update_one q set_used (password_reset_tokens s)).
Proof.
  unfold Auth.reset_password.
  destruct (Utils.is_email (Py.strip identifier)); simpl.
  - unfold bind at 1. unfold gets at 1.
    destruct (find_one _ (users s)) as [user|].
    + unfold bind at 1. unfold gets at 1.
      destruct (find_latest_unused _ _) as [entry|].
      * destruct (match_reset_token token (t_token_hash entry)); simpl.
        -- unfold bind at 1. unfold utcnow at 1.
           unfold bind at 1. unfold utcnow at 1. simpl.
           destruct (_ <? _); unfold bind, modify, raise, ret; simpl;
             intro H; injection H as <- <-; simpl.
           ++ split; [right; eexists; split; reflexivity|].
              split; [reflexivity|]. right. eexists. reflexivity.
           ++ split; [now left|]. split; [reflexivity|]. right. eexists. reflexivity.
        -- intro H. injection H as <- <-.
           split; [right; eexists; split; reflexivity|]. split; [reflexivity|now left].
      * intro H. injection H as <- <-.
        split; [right; eexists; split; reflexivity|]. split; [reflexivity|now left].
    + intro H. injection H as <- <-.
      split; [right; eexists; split; reflexivity|]. split; [reflexivity|now left].
  - intro H. injection H as <- <-.
    split; [right; eexists; split; reflexivity|]. split; [reflexivity|now left].
Qed.

(** ** The invariant is maintained *)

Lemma well_formed_empty us clk n o :
  well_formed {| users := us; password_reset_tokens := []; clock := clk; ticks := n;
                 next_oid := o |}.
Proof.
  unfold well_formed, token_ids, unused_tokens. simpl.
  split; [constructor|]. split; [constructor|]. intros _. lia.
Qed.

Lemma ids_below_fresh (l : list PasswordResetTokenDocument) n :
  Forall (fun t => (t_id t < n)%N) l -> ~ In n (map t_id l).
Proof.
  intros H Hin. apply in_map_iff in Hin. destruct Hin as (t & Ht & Hin).
  rewrite Forall_forall in H. specialize (H t Hin). lia.
Qed.

Lemma Forall_ids (P : ObjectId -> Prop) (l l' : list PasswordResetTokenDocument) :
  map t_id l' = map t_id l ->
  Forall (fun t => P (t_id t)) l -> Forall (fun t => P (t_id t)) l'.
Proof.
  intros E H.
  apply (proj1 (Forall_map t_id P l')). rewrite E.
  apply (proj2 (Forall_map t_id P l)). exact H.
Qed.

Lemma well_formed_issue s user env ts :
  well_formed s ->
  ts = (invalidate_unused (u_id user) (password_reset_tokens s) ++ [issued s user env])%list
  \/ ts = invalidate_unused (u_id user) (password_reset_tokens s) ->
  NoDup (map t_id ts)
  /\ Forall (fun t => (t_id t < next_oid s + 1)%N) ts
  /\ forall user_id, (List.length (filter (unused_of user_id) ts) <= 1)%nat.
Proof.
  intros (Hn & Hb & Hu) Hts.
  assert (Hfresh : ~ In (next_oid s) (map t_id (password_reset_tokens s)))
    by now apply ids_below_fresh.
  assert (Hb' : Forall (fun t => (t_id t < next_oid s + 1)%N)
                       (invalidate_unused (u_id user) (password_reset_tokens s))).
  { apply (Forall_ids (fun i => (i < next_oid s + 1)%N) (password_reset_tokens s)).
    - apply invalidate_unused_ids.
    - eapply Forall_impl; [|exact Hb]. simpl. intros; lia. }
  assert (Hu' : forall user_id,
             (List.length (filter (unused_of user_id)
                             (invalidate_unused (u_id user) (password_reset_tokens s)))
              <= 1)%nat).
  { intro v. destruct (N.eq_dec v (u_id user)) as [->|Hne].
    - rewrite invalidate_unused_none. simpl. lia.
    - rewrite invalidate_unused_others by exact Hne. apply Hu. }
  destruct Hts as [->| ->].
  - split; [|split].
    + rewrite map_app, invalidate_unused_ids. simpl.
      apply NoDup_app; [exact Hn|repeat constructor; simpl; tauto|].
      intros a Ha [<-|[]]. contradiction.
    + apply Forall_app. split; [exact Hb'|]. repeat constructor. simpl. lia.
    + intro v. rewrite filter_app, length_app.
      destruct (N.eq_dec v (u_id user)) as [->|Hne].
      * rewrite invalidate_unused_none. simpl.
        destruct (unused_of (u_id user) (issued s user env)); simpl; lia.
      * assert (E : unused_of v (issued s user env) = false).
        { unfold unused_of. simpl.
          destruct (oid_eqb (u_id user) v) eqn:E; [|reflexivity].
          apply oid_eqb_eq in E. congruence. }
        simpl. rewrite E. simpl. specialize (Hu' v). lia.
  - split; [|split]; try assumption.
    now rewrite invalidate_unused_ids.
Qed.

(** Both endpoints keep the token collection well formed. *)
Lemma well_formed_handle s r result s1 :
  well_formed s -> handle r s = (result, s1) -> well_formed s1.
Proof.
  intros Hw H. destruct r as [identifier env|identifier token new_password]; simpl in H.
  - destruct (Utils.is_email (Py.strip identifier)) eqn:He.
    + destruct (find_one (by_email (Py.lower (Py.strip identifier))) (users s))
        as [user|] eqn:Hf.
      * destruct (forgot_password_effect s identifier env user (conj He Hf))
          as (r' & s' & Hr & _ & Ho & Hm).
        rewrite Hr in H. injection H as <- <-.
        unfold well_formed, token_ids, unused_tokens. rewrite Ho.
        destruct (mail env) as [sent|message]; destruct Hm as [_ ->].
        -- apply (well_formed_issue s user env); [exact Hw|now left].
        -- rewrite (delete_one_fresh (next_oid s) _ (issued s user env)).
           ++ apply (well_formed_issue s user env); [exact Hw|now right].
           ++ rewrite invalidate_unused_ids. apply ids_below_fresh. apply Hw.
           ++ reflexivity.
      * destruct (forgot_password_rejected s identifier env) as (e & Hr & _).
        { intros user [_ Hu]. congruence. }
        rewrite Hr in H. injection H as _ <-. exact Hw.
    + destruct (forgot_password_rejected s identifier env) as (e & Hr & _).
      { intros user [Hu _]. congruence. }
      rewrite Hr in H. injection H as _ <-. exact Hw.
  - destruct (reset_password_effect _ _ _ _ _ _ H) as (_ & Ho & Ht).
    destruct Hw as (Hn & Hb & Hu).
    unfold well_formed, token_ids, unused_tokens. rewrite Ho.
    destruct Ht as [->|[q ->]]; [auto|].
    split; [|split].
    + now rewrite update_one_ids.
    + apply (Forall_ids (fun i => (i < next_oid s)%N) (password_reset_tokens s));
        [apply update_one_ids|exact Hb].
    + intro v. specialize (Hu v). unfold unused_tokens in Hu.
      pose proof (filter_update_one_length v q (password_reset_tokens s)). lia.
Qed.

(** ** After the use *)

(** The user is registered under this identifier and holds no unused token. *)
Definition spent (s : Store) (identifier : string) (user_id : ObjectId) : Prop :=
  (exists user, identifies s identifier user /\ u_id user = user_id)
  /\ unused_tokens s user_id = [].

Lemma spent_attempts_fail s identifier user_id :
  spent s identifier user_id ->
  forall attempts : list (string * string),
    Forall fails_InvalidInput
      (fst (serve (map (fun a => Reset identifier (fst a) (snd a)) attempts) s)).
Proof.
  intros [(user & Hi & Hid) Hu] attempts.
  induction attempts as [|a rest IH]; simpl; [constructor|].
  rewrite (reset_password_no_match s identifier (fst a) (snd a) user Hi).
  - destruct (serve _ s) as [results s'] eqn:E. simpl in *.
    constructor; [|exact IH]. eexists. split; reflexivity.
  - unfold find_latest_unused. rewrite Hid. unfold unused_tokens in Hu. now rewrite Hu.
Qed.

Lemma find_app_first {A} (p : A -> bool) l1 l2 x :
  find p l1 = Some x -> find p (l1 ++ l2)%list = Some x.
Proof.
  induction l1 as [|y r IH]; simpl; [discriminate|].
  destruct (p y); [auto|exact IH].
Qed.

Lemma delete_one_other token_id (l : list PasswordResetTokenDocument) other :
  other <> token_id ->
  find_one (fun x => oid_eqb (t_id x) other) (delete_one token_id l)
  = find_one (fun x => oid_eqb (t_id x) other) l.
Proof.
  intro Hne. unfold find_one. induction l as [|y r IH]; simpl; [reflexivity|].
  destruct (oid_eqb (t_id y) token_id) eqn:E.
  - apply oid_eqb_eq in E.
    destruct (oid_eqb (t_id y) other) eqn:E2; [|reflexivity].
    apply oid_eqb_eq in E2. congruence.
  - simpl. destruct (oid_eqb (t_id y) other); [reflexivity|exact IH].
Qed.


End Lifecycle.

End ResetTokens.


(* ================================================================== *)
(** * Generated slugs *)
(* ================================================================== *)

Module SlugFacts.
Import Slug.

Lemma to_uint_nonnil (n : N) : N.to_uint n <> Decimal.Nil.
Proof.
  destruct n as [|p]; simpl; [discriminate|].
  apply DecimalPos.Unsigned.to_uint_nonnil.
Qed.

Lemma str_of_N_inj (n m : N) : Py.str_of_N n = Py.str_of_N m -> n = m.
Proof.
  unfold Py.str_of_N. intro H.
  apply (f_equal NilZero.uint_of_string) in H.
  rewrite !NilZero.usu in H by apply to_uint_nonnil.
  injection H as H. now apply DecimalN.Unsigned.to_uint_inj.
Qed.

Lemma append_cancel_l (a b c : string) : a ++ b = a ++ c -> b = c.
Proof.
  induction a as [|x a IH]; simpl; intro H; [exact H|].
  injection H as H. now apply IH.
Qed.

Lemma append_empty_r (a : string) : a ++ "" = a.
Proof. induction a as [|x a IH]; simpl; [reflexivity|now rewrite IH]. Qed.

Lemma append_not_self (a b : string) : b <> "" -> a <> a ++ b.
Proof.
  intros Hb H. apply Hb.
  apply (append_cancel_l a). now rewrite <- H, append_empty_r.
Qed.

Lemma candidate_step (base : string) (idx : N) :
  (1 <= idx)%N -> base ++ "-" ++ Py.str_of_N (idx + 1) = candidate base (idx + 1).
Proof.
  intro H. unfold candidate.
  replace (idx + 1 =? 1)%N with false; [reflexivity|].
  symmetry. apply N.eqb_neq. lia.
Qed.

Lemma candidate_inj (base : string) (i j : N) :
  (1 <= i)%N -> (1 <= j)%N -> candidate base i = candidate base j -> i = j.
Proof.
  intros Hi Hj. unfold candidate.
  destruct (N.eqb_spec i 1) as [->|Ni], (N.eqb_spec j 1) as [->|Nj]; intro H.
  - reflexivity.
  - exfalso. revert H. apply append_not_self. discriminate.
  - exfalso. symmetry in H. revert H. apply append_not_self. discriminate.
  - apply append_cancel_l in H. simpl in H. injection H as H. now apply str_of_N_inj.
Qed.

(** ** The loop *)

(** What the loop returns is the first candidate, from [idx] on, that is not
    taken. *)
Lemma first_free_first (taken : string -> bool) (base : string) :
  forall fuel idx slug,
    (1 <= idx)%N ->
    first_free fuel taken base idx (candidate base idx) = Some slug ->
    exists k, (idx <= k)%N /\ slug = candidate base k /\ taken slug = false
              /\ forall j, (idx <= j < k)%N -> taken (candidate base j) = true.
Proof.
  induction fuel as [|fuel IH]; intros idx slug Hidx H; cbn [first_free] in H;
    [discriminate|].
  destruct (taken (candidate base idx)) eqn:T.
  - rewrite candidate_step in H by exact Hidx.
    destruct (IH (idx + 1)%N slug ltac:(lia) H) as (k & Hk & Hs & Ht & Hall).
    exists k. split; [lia|]. split; [exact Hs|]. split; [exact Ht|].
    intros j Hj. destruct (N.eq_dec j idx) as [->|Hne]; [exact T|]. apply Hall. lia.
  - injection H as <-. exists idx. split; [lia|]. split; [reflexivity|].
    split; [exact T|]. intros j Hj. lia.
Qed.

Lemma remove_length_lt (x : string) (l : list string) :
  In x l -> (List.length (remove string_dec x l) < List.length l)%nat.
Proof. apply remove_length_lt. Qed.

(** With more fuel than there are taken slugs the loop returns. *)
Lemma first_free_returns (taken : string -> bool) (base : string) :
  forall fuel idx (slugs : list string),
    (1 <= idx)%N ->
    (List.length slugs < fuel)%nat ->
    (forall j, (idx <= j)%N -> taken (candidate base j) = true -> In (candidate base j) slugs) ->
    exists slug, first_free fuel taken base idx (candidate base idx) = Some slug.
Proof.
  induction fuel as [|fuel IH]; intros idx slugs Hidx Hlen Hin; [lia|].
  cbn [first_free]. destruct (taken (candidate base idx)) eqn:T; [|eexists; reflexivity].
  rewrite candidate_step by exact Hidx.
  apply (IH (idx + 1)%N (remove string_dec (candidate base idx) slugs)); [lia| |].
  - pose proof (remove_length_lt (candidate base idx) slugs (Hin idx ltac:(lia) T)). lia.
  - intros j Hj Tj. apply in_in_remove; [|apply Hin; [lia|exact Tj]].
    intro E. apply candidate_inj in E; lia.
Qed.

(** ** Sequences of generated slugs *)

Section Sequence.

Variable base : string.

(** [slug] is the first candidate of [base] that no stored document has. *)
Definition first_free_of (existing : list string) (slug : string) : Prop :=
  exists k, (1 <= k)%N /\ slug = candidate base k /\ ~ In slug existing
            /\ forall j, (1 <= j < k)%N -> In (candidate base j) existing.

(** Each slug is generated against the stored slugs and then stored. *)
Fixpoint generated_from (existing : list string) (slugs : list string) : Prop :=
  match slugs with
  | [] => True
  | slug :: rest => first_free_of existing slug /\ generated_from (existing ++ [slug]) rest
  end.

Definition candidate_shaped (slug : string) : Prop :=
  exists k, (1 <= k)%N /\ slug = candidate base k.

Lemma generated_distinct slugs : forall existing,
  generated_from existing slugs ->
  NoDup slugs
  /\ Forall (fun slug => ~ In slug existing) slugs
  /\ Forall candidate_shaped slugs.
Proof.
  induction slugs as [|slug rest IH]; intros existing H; simpl in H.
  - repeat split; constructor.
  - destruct H as [(k & Hk & Hs & Hn & _) Hrest].
    destruct (IH _ Hrest) as (Hnd & Hout & Hshape).
    rewrite Forall_forall in Hout.
    split; [|split].
    + constructor; [|exact Hnd]. intro Hin. apply (Hout slug Hin).
      apply in_or_app. right. now left.
    + constructor; [exact Hn|]. apply Forall_forall. intros x Hx Hin.
      apply (Hout x Hx). apply in_or_app. now left.
    + constructor; [|exact Hshape]. exists k. auto.
Qed.

(** When the candidates of [base] stored so far are exactly the first [n0],
    the slugs generated next are the candidates [n0 + 1], [n0 + 2], ... *)
Lemma generated_exact slugs : forall existing n0,
  (forall j, (1 <= j)%N -> In (candidate base j) existing <-> (j <= n0)%N) ->
  generated_from existing slugs ->
  slugs = map (fun i => candidate base (n0 + N.of_nat i)) (seq 1 (List.length slugs)).
Proof.
  induction slugs as [|slug rest IH]; intros existing n0 Hex H; simpl in H; [reflexivity|].
  destruct H as [(k & Hk & Hs & Hn & Hall) Hrest].
  assert (Ek : k = (n0 + 1)%N).
  { destruct (N.lt_trichotomy k (n0 + 1)) as [Hlt|[E|Hgt]]; [|exact E|].
    - exfalso. apply Hn. rewrite Hs. apply Hex; lia.
    - exfalso. assert (Hin : In (candidate base (n0 + 1)) existing) by (apply Hall; lia).
      apply Hex in Hin; lia. }
  subst k. simpl. f_equal; [now rewrite Hs|].
  rewrite <- seq_shift, map_map.
  rewrite (IH (existing ++ [slug])%list (n0 + 1)%N); [|
    |exact Hrest].
  - rewrite length_map, length_seq. apply map_ext. intro i. f_equal. lia.
  - intros j Hj. rewrite in_app_iff, Hex by exact Hj. simpl. split.
    + intros [H|[H|[]]]; [lia|]. rewrite Hs in H. apply candidate_inj in H; lia.
    + intro H. destruct (N.eq_dec j (n0 + 1)) as [->|Hne]; [right; left; exact Hs|].
      left. lia.
Qed.

End Sequence.

End SlugFacts.

(* ================================================================== *)
(** * The base of a generated slug *)
(* ================================================================== *)

Module SlugBase.
Import Slug SlugSpec.

Lemma hyphen_not_alnum c : is_hyphen c = true -> alnum c = false.
Proof. unfold is_hyphen. intro H. apply Ascii.eqb_eq in H. subst c. reflexivity. Qed.

Lemma space_not_alnum c : Py.is_space c = true -> alnum c = false.
Proof.
  destruct c as [[] [] [] [] [] [] [] []]; intro H; try reflexivity; discriminate H.
Qed.

(** ** Stripping from the right, read from the left *)

Lemma lstrip_by_snoc p l a :
  Py.lstrip_by p (l ++ [a])%list
  = match Py.lstrip_by p l with
    | [] => if p a then [] else [a]
    | x :: r => (x :: r ++ [a])%list
    end.
Proof.
  induction l as [|c r IH]; simpl.
  - destruct (p a); reflexivity.
  - destruct (p c); [exact IH|reflexivity].
Qed.

Lemma rstrip_by_cons p a l :
  Py.rstrip_by p (a :: l)
  = match Py.rstrip_by p l with
    | [] => if p a then [] else [a]
    | x :: r => a :: x :: r
    end.
Proof.
  unfold Py.rstrip_by. simpl rev. rewrite lstrip_by_snoc.
  destruct (Py.lstrip_by p (rev l)) as [|x r]; simpl.
  - destruct (p a); reflexivity.
  - rewrite rev_app_distr. simpl.
    destruct (rev r ++ [x])%list eqn:E; [destruct (rev r); discriminate|reflexivity].
Qed.

Lemma strip_by_ext p q l :
  (forall c, p c = q c) -> Py.strip_by p l = Py.strip_by q l.
Proof.
  intro H.
  assert (L : forall x, Py.lstrip_by p x = Py.lstrip_by q x).
  { induction x as [|c r IH]; simpl; [reflexivity|]. rewrite H, IH. reflexivity. }
  unfold Py.strip_by, Py.rstrip_by. now rewrite !L.
Qed.

(** ** Each step of the generators keeps the runs of the text *)

Lemma runs_from_cons cur c r :
  runs_from cur (c :: r)
  = if alnum c then runs_from (c :: cur) r
    else match cur with
         | [] => runs_from [] r
         | _ :: _ => rev cur :: runs_from [] r
         end.
Proof. reflexivity. Qed.

Lemma runs_sub_runs allowed l :
  (forall c, alnum c = true -> allowed c = true) ->
  forall cur in_run, (in_run = true -> cur = []) ->
  runs_from cur (sub_runs allowed in_run l) = runs_from cur l.
Proof.
  intro Ha. induction l as [|c r IH]; intros cur in_run Hc; [reflexivity|].
  cbn [sub_runs]. destruct (allowed c) eqn:Ea.
  - cbn [runs_from]. destruct (alnum c).
    + apply IH. discriminate.
    + destruct cur; rewrite IH; try reflexivity; discriminate.
  - assert (En : alnum c = false).
    { destruct (alnum c) eqn:E; [|reflexivity]. rewrite (Ha c E) in Ea. discriminate. }
    destruct in_run.
    + rewrite (Hc eq_refl). cbn [runs_from]. rewrite En. now apply IH.
    + cbn [runs_from]. rewrite En. change (alnum "-") with false. cbv iota.
      destruct cur; rewrite IH; reflexivity.
Qed.

Lemma runs_collapse_hyphens l :
  forall cur seen, (seen = true -> cur = []) ->
  runs_from cur (collapse_hyphens seen l) = runs_from cur l.
Proof.
  induction l as [|c r IH]; intros cur seen Hc; [reflexivity|].
  cbn [collapse_hyphens]. destruct (is_hyphen c) eqn:Eh.
  - pose proof (hyphen_not_alnum c Eh) as En. destruct seen.
    + rewrite (Hc eq_refl). cbn [runs_from]. rewrite En. now apply IH.
    + cbn [runs_from]. rewrite En. destruct cur; rewrite IH; reflexivity.
  - cbn [runs_from]. destruct (alnum c).
    + apply IH. discriminate.
    + destruct cur; rewrite IH; try reflexivity; discriminate.
Qed.

Lemma runs_lstrip p l :
  (forall c, p c = true -> alnum c = false) ->
  runs_from [] (Py.lstrip_by p l) = runs_from [] l.
Proof.
  intro Hp. induction l as [|c r IH]; [reflexivity|].
  cbn [Py.lstrip_by]. destruct (p c) eqn:E; [|reflexivity].
  cbn [runs_from]. now rewrite (Hp c E).
Qed.

Lemma runs_rstrip p l :
  (forall c, p c = true -> alnum c = false) ->
  forall cur, runs_from cur (Py.rstrip_by p l) = runs_from cur l.
Proof.
  intro Hp. induction l as [|a r IH]; intro cur; [reflexivity|].
  rewrite rstrip_by_cons. destruct (Py.rstrip_by p r) as [|x t] eqn:E.
  - destruct (p a) eqn:Ea.
    + cbn [runs_from]. rewrite (Hp a Ea). destruct cur; now rewrite <- IH.
    + cbn [runs_from]. destruct (alnum a); [now rewrite <- IH|].
      destruct cur; now rewrite <- IH.
  - rewrite (runs_from_cons cur a (x :: t)), (runs_from_cons cur a r).
    destruct (alnum a); [apply IH|]. destruct cur; now rewrite IH.
Qed.

(** ** The shape of what the generators leave *)

(** Kept characters and hyphens only, and no hyphen next to a hyphen. *)
Fixpoint tidy (after_hyphen : bool) (l : list ascii) : bool :=
  match l with
  | [] => true
  | c :: r =>
      if alnum c then tidy false r
      else is_hyphen c && negb after_hyphen && tidy true r
  end.

Lemma tidy_sub_runs l : forall in_run, tidy in_run (sub_runs alnum in_run l) = true.
Proof.
  induction l as [|c r IH]; intro in_run; [reflexivity|].
  cbn [sub_runs]. destruct (alnum c) eqn:E.
  - cbn [tidy]. rewrite E. apply IH.
  - destruct in_run; [apply IH|]. cbn [tidy]. change (alnum "-") with false.
    change (is_hyphen "-") with true. cbn [negb andb]. apply IH.
Qed.

Lemma sub_runs_kept l :
  forall in_run,
    Forall (fun c => alnum c || is_hyphen c = true)
           (sub_runs (fun c => alnum c || is_hyphen c) in_run l).
Proof.
  induction l as [|c r IH]; intro in_run; [constructor|].
  cbn [sub_runs]. destruct (alnum c || is_hyphen c) eqn:E.
  - constructor; [exact E|apply IH].
  - destruct in_run; [apply IH|]. constructor; [reflexivity|apply IH].
Qed.

Lemma tidy_collapse_hyphens l :
  Forall (fun c => alnum c || is_hyphen c = true) l ->
  forall seen, tidy seen (collapse_hyphens seen l) = true.
Proof.
  induction 1 as [|c r Hc _ IH]; intro seen; [reflexivity|].
  cbn [collapse_hyphens]. destruct (is_hyphen c) eqn:Eh.
  - destruct seen; [apply IH|]. cbn [tidy]. rewrite (hyphen_not_alnum c Eh), Eh.
    cbn [negb andb]. apply IH.
  - rewrite orb_false_r in Hc. cbn [tidy]. rewrite Hc. apply IH.
Qed.

Lemma tidy_lstrip l :
  forall b, tidy b l = true -> tidy true (Py.lstrip_by is_hyphen l) = true.
Proof.
  induction l as [|c r IH]; intros b H; [reflexivity|].
  cbn [Py.lstrip_by]. cbn [tidy] in H. destruct (is_hyphen c) eqn:Eh.
  - rewrite (hyphen_not_alnum c Eh) in H. cbn [andb] in H.
    apply andb_prop in H. destruct H as [_ H]. now apply (IH true).
  - cbn [tidy]. destruct (alnum c); [exact H|discriminate H].
Qed.

Lemma shaped_rstrip l :
  forall a, tidy (negb a) l = true ->
            match Py.rstrip_by is_hyphen l with
            | [] => True
            | x :: r => shaped_from a (x :: r) = true
            end.
Proof.
  induction l as [|c t IH]; intros a H; [exact I|].
  rewrite rstrip_by_cons. cbn [tidy] in H. destruct (alnum c) eqn:Ea.
  - specialize (IH true H).
    assert (Eh : is_hyphen c = false).
    { destruct (is_hyphen c) eqn:E; [|reflexivity].
      rewrite (hyphen_not_alnum c E) in Ea. discriminate. }
    destruct (Py.rstrip_by is_hyphen t) as [|x r].
    + rewrite Eh. cbn [shaped_from]. now rewrite Ea.
    + cbn [shaped_from]. rewrite Ea. exact IH.
  - apply andb_prop in H. destruct H as [H Ht]. apply andb_prop in H. destruct H as [Eh Hn].
    rewrite negb_involutive in Hn. subst a. specialize (IH false Ht).
    destruct (Py.rstrip_by is_hyphen t) as [|x r].
    + now rewrite Eh.
    + cbn [shaped_from]. rewrite Ea, Eh. cbn [andb]. exact IH.
Qed.

Lemma hyphenate_cons w ws :
  ws <> [] -> hyphenate (w :: ws) = (w ++ "-"%char :: hyphenate ws)%list.
Proof. destruct ws; [congruence|reflexivity]. Qed.

(** A text of the shape is the hyphenation of its runs. *)
Lemma hyphenate_runs_shaped x :
  forall cur,
    shaped_from (match cur with [] => false | _ :: _ => true end) x = true ->
    hyphenate (runs_from cur x) = (rev cur ++ x)%list.
Proof.
  induction x as [|c r IH]; intros cur H.
  - destruct cur; [discriminate H|]. cbn [runs_from hyphenate]. now rewrite app_nil_r.
  - cbn [shaped_from] in H. cbn [runs_from]. destruct (alnum c) eqn:Ea.
    + rewrite (IH (c :: cur) H). cbn [rev]. now rewrite <- app_assoc.
    + apply andb_prop in H. destruct H as [H Hr]. apply andb_prop in H.
      destruct H as [Eh Hc]. destruct cur as [|c0 cur0]; [discriminate Hc|].
      pose proof (IH [] Hr) as Hrest. cbn [rev app] in Hrest.
      unfold is_hyphen in Eh. apply Ascii.eqb_eq in Eh. subst c.
      rewrite hyphenate_cons.
      * now rewrite Hrest.
      * intro E. rewrite E in Hrest. cbn [hyphenate] in Hrest.
        subst r. discriminate Hr.
Qed.

(** Stripping the hyphens off a tidy text leaves the hyphenation of its
    runs: the empty text, or a text of the shape. *)
Lemma strip_tidy y :
  tidy false y = true ->
  Py.strip_by is_hyphen y = hyphenate (runs_from [] y)
  /\ match Py.strip_by is_hyphen y with
     | [] => True
     | x :: r => shaped_from false (x :: r) = true
     end.
Proof.
  intro Hy. unfold Py.strip_by.
  pose proof (tidy_lstrip y false Hy) as Hz.
  pose proof (shaped_rstrip _ false Hz) as Hout.
  assert (Hr : runs_from [] (Py.rstrip_by is_hyphen (Py.lstrip_by is_hyphen y))
               = runs_from [] y).
  { rewrite (runs_rstrip _ _ hyphen_not_alnum), (runs_lstrip _ _ hyphen_not_alnum).
    reflexivity. }
  destruct (Py.rstrip_by is_hyphen (Py.lstrip_by is_hyphen y)) as [|x r] eqn:E.
  - split; [|exact I]. now rewrite <- Hr.
  - split; [|exact Hout]. rewrite <- Hr.
    now rewrite (hyphenate_runs_shaped (x :: r) [] Hout).
Qed.

(** ** The two generators *)

Lemma sellers_base_chars l :
  let out := Py.strip_by (Ascii.eqb "-") (sub_runs Sellers.slug_char false l) in
  out = hyphenate (runs l)
  /\ match out with [] => True | x :: r => shaped_from false (x :: r) = true end.
Proof.
  cbv zeta. rewrite (strip_by_ext (Ascii.eqb "-") is_hyphen)
    by (intro c; unfold is_hyphen; apply Ascii.eqb_sym).
  change Sellers.slug_char with alnum.
  destruct (strip_tidy _ (tidy_sub_runs l false)) as [He Hs].
  split; [|exact Hs]. rewrite He. unfold runs.
  now rewrite (runs_sub_runs alnum l (fun c H => H)).
Qed.

Lemma catalog_base_chars l :
  let out := Py.strip_by (Ascii.eqb "-")
               (collapse_hyphens false
                  (sub_runs Catalog.slug_char false (Py.strip_by Py.is_space l))) in
  out = hyphenate (runs l)
  /\ match out with [] => True | x :: r => shaped_from false (x :: r) = true end.
Proof.
  cbv zeta. rewrite (strip_by_ext (Ascii.eqb "-") is_hyphen)
    by (intro c; unfold is_hyphen; apply Ascii.eqb_sym).
  change Catalog.slug_char with (fun c => alnum c || is_hyphen c).
  destruct (strip_tidy _ (tidy_collapse_hyphens _ (sub_runs_kept (Py.strip_by Py.is_space l)
                                                     false) false)) as [He Hs].
  split; [|exact Hs]. rewrite He. unfold runs.
  rewrite runs_collapse_hyphens by discriminate.
  rewrite (runs_sub_runs (fun c => alnum c || is_hyphen c))
    by (try discriminate; intros c H; now rewrite H).
  unfold Py.strip_by.
  now rewrite (runs_rstrip _ _ space_not_alnum), (runs_lstrip _ _ space_not_alnum).
Qed.

Lemma chars_str l : Py.chars (Py.str l) = l.
Proof. apply list_ascii_of_string_of_list_ascii. Qed.

Lemma or_fallback out fallback :
  shaped fallback = true ->
  match out with [] => True | x :: r => shaped_from false (x :: r) = true end ->
  shaped (match Py.str out with EmptyString => fallback | String c r => String c r end) = true.
Proof.
  intros Hf Hs. destruct out as [|x r]; [exact Hf|].
  change (Py.str (x :: r)) with (String x (Py.str r)). cbv iota.
  change (String x (Py.str r)) with (Py.str (x :: r)).
  unfold shaped. now rewrite chars_str.
Qed.

(** The base of the sellers' generator is the base of the specification,
    with the fallback "shop". *)
Lemma sellers_slug_base name :
  Sellers.slug_base name = base_of "shop" name
  /\ shaped (Sellers.slug_base name) = true.
Proof.
  unfold Sellers.slug_base, base_of, Py.strip_char. rewrite chars_str.
  destruct (sellers_base_chars (Py.chars (Py.lower name))) as [He Hs]. cbv zeta in He, Hs.
  split.
  - rewrite He. destruct (Py.str (hyphenate (runs (Py.chars (Py.lower name)))));
      reflexivity.
  - pose proof (or_fallback _ "shop" eq_refl Hs) as H.
    destruct (Py.str (Py.strip_by (Ascii.eqb "-")
                        (sub_runs Sellers.slug_char false (Py.chars (Py.lower name)))));
      exact H.
Qed.

(** The base of the catalog's generator is the same base, with the fallback
    "item": a hyphen of the name is kept and collapsed with its neighbours,
    which comes to the same as replacing it. *)
Lemma catalog_slug_base name :
  Catalog.slug_base name = base_of "item" name
  /\ shaped (Catalog.slug_base name) = true.
Proof.
  unfold Catalog.slug_base, base_of, Py.strip_char, Py.strip. rewrite !chars_str.
  destruct (catalog_base_chars (Py.chars (Py.lower name))) as [He Hs]. cbv zeta in He, Hs.
  split.
  - rewrite He. destruct (Py.str (hyphenate (runs (Py.chars (Py.lower name)))));
      reflexivity.
  - pose proof (or_fallback _ "item" eq_refl Hs) as H.
    destruct (Py.str (Py.strip_by (Ascii.eqb "-")
                        (collapse_hyphens false
                           (sub_runs Catalog.slug_char false
                              (Py.strip_by Py.is_space (Py.chars (Py.lower name)))))));
      exact H.
Qed.

End SlugBase.

Module GeneratedSlugs.
Import Slug SlugFacts.

Lemma candidate_1 (base : string) : candidate base 1 = base.
Proof. reflexivity. Qed.

(** ** Catalog *)

Lemma catalog_slug_taken_In existing slug :
  Catalog.slug_taken existing slug = true <-> In slug existing.
Proof.
  unfold Catalog.slug_taken. rewrite existsb_exists. split.
  - intros (x & Hin & E). apply String.eqb_eq in E. now subst.
  - intro H. exists slug. split; [exact H|apply String.eqb_refl].
Qed.

Lemma catalog_generate_slug name existing :
  exists slug,
    Catalog._generate_slug name existing = Some slug
    /\ first_free_of (Catalog.slug_base name) existing slug.
Proof.
  unfold Catalog._generate_slug.
  set (base := Catalog.slug_base name).
  destruct (first_free_returns (Catalog.slug_taken existing) base
              (S (List.length existing)) 1 existing) as (slug & H); [lia|lia| |].
  - intros j _ T. now apply catalog_slug_taken_In.
  - exists slug. split; [exact H|].
    destruct (first_free_first _ _ _ 1%N _ (N.le_refl 1) H) as (k & Hk & Hs & Ht & Hall).
    exists k. split; [exact Hk|]. split; [exact Hs|]. split.
    + intro Hin. apply catalog_slug_taken_In in Hin. congruence.
    + intros j Hj. apply catalog_slug_taken_In. now apply Hall.
Qed.

(** The payload leaves the slug to be generated. *)
Definition auto_slug (given : option string) : Prop := Orders.truthy_str given = None.

Lemma slug_for_auto given name existing slug :
  auto_slug given ->
  Catalog.slug_for given name existing = Ok slug ->
  first_free_of (Catalog.slug_base name) existing slug.
Proof.
  unfold auto_slug, Catalog.slug_for. intros Ha H.
  destruct (catalog_generate_slug name existing) as (s & Hg & Hf).
  rewrite Hg in H.
  destruct given as [[|c r]|]; simpl in Ha; try discriminate; now injection H as <-.
Qed.

Lemma create_category_step payload c doc c' :
  auto_slug (Catalog.cp_slug payload) ->
  Catalog.create_category payload c = (Ok doc, c') ->
  first_free_of (Catalog.slug_base (Catalog.cp_name payload)) (map cat_slug (docs c))
                (cat_slug doc)
  /\ docs c' = (docs c ++ [doc])%list.
Proof.
  intros Ha. unfold Catalog.create_category. rewrite bind_gets_lift.
  destruct (Catalog.slug_for _ _ _) as [slug|e] eqn:Es; [|discriminate].
  pose proof (slug_for_auto _ _ _ _ Ha Es) as Hf.
  unfold bind at 1. unfold coll_utcnow at 1.
  unfold bind at 1. unfold lift at 1.
  match goal with |- context [match ?x with Ok _ => _ | Raise _ => _ end] =>
    destruct x as [parent|e]; [|discriminate] end.
  unfold bind, coll_new_ObjectId, modify, ret, insert_one. simpl.
  intro H. injection H as <- <-. simpl. split; [exact Hf|reflexivity].
Qed.

Lemma create_categories_generated name payloads : forall c created c',
  Forall (fun p => Catalog.cp_name p = name /\ auto_slug (Catalog.cp_slug p)) payloads ->
  Catalog.for_each Catalog.create_category payloads c = (Ok created, c') ->
  generated_from (Catalog.slug_base name) (map cat_slug (docs c)) (map cat_slug created).
Proof.
  induction payloads as [|p rest IH]; intros c created c' Hall H; simpl in H.
  - injection H as <- _. exact I.
  - inversion Hall as [|p0 r0 [Hn Ha] Hrest]; subst.
    unfold bind at 1 in H.
    destruct (Catalog.create_category p c) as [[doc|e] c1] eqn:E1; [|discriminate].
    unfold bind at 1 in H.
    destruct (Catalog.for_each Catalog.create_category rest c1) as [[ds|e] c2] eqn:E2;
      [|discriminate].
    injection H as <- _.
    destruct (create_category_step _ _ _ _ Ha E1) as [Hf Hd].
    simpl. split; [exact Hf|].
    specialize (IH _ _ _ Hrest E2). rewrite Hd, map_app in IH. exact IH.
Qed.

(** ** Products *)

Lemma build_variants_products variants : forall db vs db',
  Catalog.for_each Catalog._build_variant_payload variants db = (Ok vs, db') ->
  products db' = products db.
Proof.
  induction variants as [|v rest IH]; intros db vs db' H; simpl in H.
  - now injection H as _ <-.
  - unfold bind at 1 in H.
    destruct (Catalog._build_variant_payload v db) as [[doc|e] db1] eqn:E1; [|discriminate].
    unfold bind at 1 in H.
    destruct (Catalog.for_each Catalog._build_variant_payload rest db1) as [[ds|e] db2] eqn:E2;
      [|discriminate].
    injection H as _ <-. rewrite (IH _ _ _ E2).
    unfold Catalog._build_variant_payload in E1. unfold bind at 1 in E1.
    unfold utcnow at 1 in E1. unfold bind at 1 in E1.
    destruct (Catalog.vp_id v) as [[|ch r]|]; unfold lift, new_ObjectId, ret in E1; simpl in E1;
      try (injection E1 as _ <-; reflexivity).
    destruct (ObjectId_or_500 (String ch r)); injection E1 as _ <-; reflexivity.
Qed.

Lemma parse_categories_state ids : forall (db : Database) cs db',
  Catalog.for_each (fun cid => lift (ObjectId_or_500 cid)) ids db = (Ok cs, db') ->
  db' = db.
Proof.
  induction ids as [|i rest IH]; intros db cs db' H; simpl in H.
  - now injection H as _ <-.
  - unfold bind at 1 in H. unfold lift at 1 in H.
    destruct (ObjectId_or_500 i); [|discriminate].
    unfold bind at 1 in H.
    destruct (Catalog.for_each _ rest db) as [[ds|e] db2] eqn:E2; [|discriminate].
    injection H as _ <-. now apply (IH _ _ _ E2).
Qed.

Lemma create_product_step seller_id payload db doc db' :
  auto_slug (Catalog.pp_slug payload) ->
  Catalog.create_product seller_id payload db = (Ok doc, db') ->
  first_free_of (Catalog.slug_base (Catalog.pp_name payload)) (map p_slug (products db))
                (p_slug doc)
  /\ products db' = (products db ++ [doc])%list.
Proof.
  intros Ha. unfold Catalog.create_product. rewrite bind_gets_lift.
  destruct (Catalog.slug_for _ _ _) as [slug|e] eqn:Es; [|discriminate].
  pose proof (slug_for_auto _ _ _ _ Ha Es) as Hf.
  unfold bind at 1. unfold utcnow at 1.
  unfold bind at 1.
  destruct (Catalog.for_each Catalog._build_variant_payload _ _) as [[vs|e] db1] eqn:Ev;
    [|discriminate].
  apply build_variants_products in Ev. simpl in Ev.
  unfold bind at 1.
  destruct (Catalog.for_each _ (Catalog.pp_category_ids payload) db1) as [[cs|e] db2] eqn:Ec;
    [|discriminate].
  apply parse_categories_state in Ec. subst db2.
  unfold bind, new_ObjectId, modify, ret, insert_one. simpl.
  intro H. injection H as <- <-. simpl. rewrite Ev. split; [exact Hf|reflexivity].
Qed.

Lemma create_products_generated name requests : forall db created db',
  Forall (fun r => Catalog.pp_name (snd r) = name /\ auto_slug (Catalog.pp_slug (snd r)))
         requests ->
  Catalog.for_each (fun r => Catalog.create_product (fst r) (snd r)) requests db
  = (Ok created, db') ->
  generated_from (Catalog.slug_base name) (map p_slug (products db)) (map p_slug created).
Proof.
  induction requests as [|p rest IH]; intros db created db' Hall H; simpl in H.
  - injection H as <- _. exact I.
  - inversion Hall as [|p0 r0 [Hn Ha] Hrest]; subst.
    unfold bind at 1 in H.
    destruct (Catalog.create_product (fst p) (snd p) db) as [[doc|e] db1] eqn:E1;
      [|discriminate].
    unfold bind at 1 in H.
    destruct (Catalog.for_each _ rest db1) as [[ds|e] db2] eqn:E2; [|discriminate].
    injection H as <- _.
    destruct (create_product_step _ _ _ _ _ Ha E1) as [Hf Hd].
    simpl. split; [exact Hf|].
    specialize (IH _ _ _ Hrest E2). rewrite Hd, map_app in IH. exact IH.
Qed.

(** ** Sellers *)

Lemma seller_slug_taken_In sellers exclude_id slug :
  Sellers.slug_taken sellers exclude_id slug = true ->
  In slug (map Sellers.s_slug sellers).
Proof.
  unfold Sellers.slug_taken. rewrite existsb_exists.
  intros (d & Hin & E). apply andb_prop in E. destruct E as [E _].
  apply String.eqb_eq in E. subst. now apply in_map.
Qed.

Lemma seller_slug_taken_None sellers slug :
  Sellers.slug_taken sellers None slug = true <-> In slug (map Sellers.s_slug sellers).
Proof.
  split; [apply seller_slug_taken_In|].
  unfold Sellers.slug_taken. rewrite existsb_exists, in_map_iff.
  intros (d & E & Hin). exists d. split; [exact Hin|].
  rewrite E, String.eqb_refl. reflexivity.
Qed.

(** The seller generator returns for every collection and exclusion, with the
    first candidate the lookup does not find. *)
Lemma seller_generate_slug shop_name sellers exclude_id :
  exists slug k,
    Sellers._generate_slug shop_name sellers exclude_id = Some slug
    /\ (1 <= k)%N /\ slug = candidate (Sellers.slug_base shop_name) k
    /\ Sellers.slug_taken sellers exclude_id slug = false
    /\ forall j, (1 <= j < k)%N ->
                 Sellers.slug_taken sellers exclude_id
                   (candidate (Sellers.slug_base shop_name) j) = true.
Proof.
  unfold Sellers._generate_slug.
  set (base := Sellers.slug_base shop_name).
  destruct (first_free_returns (Sellers.slug_taken sellers exclude_id) base
              (S (List.length sellers)) 1 (map Sellers.s_slug sellers)) as (slug & H);
    [lia|rewrite length_map; lia| |].
  - intros j _ T. now apply seller_slug_taken_In in T.
  - destruct (first_free_first _ _ _ 1%N _ (N.le_refl 1) H) as (k & Hk & Hs & Ht & Hall).
    exists slug, k. auto.
Qed.

Lemma seller_generate_slug_new shop_name sellers :
  exists slug,
    Sellers._generate_slug shop_name sellers None = Some slug
    /\ first_free_of (Sellers.slug_base shop_name) (map Sellers.s_slug sellers) slug.
Proof.
  destruct (seller_generate_slug shop_name sellers None) as (slug & k & H & Hk & Hs & Ht & Hall).
  exists slug. split; [exact H|]. exists k. split; [exact Hk|]. split; [exact Hs|]. split.
  - intro Hin. apply seller_slug_taken_None in Hin. congruence.
  - intros j Hj. apply seller_slug_taken_None. now apply Hall.
Qed.

(** Every stored [_id] is below the supply of fresh ones. *)
Definition fresh_ids (c : Collection Sellers.SellerDocument) : Prop :=
  Forall (fun d => (Sellers.s_id d < coll_next_oid c)%N) (docs c).

Lemma find_inserted (l : list Sellers.SellerDocument) n created :
  Forall (fun d => (Sellers.s_id d < n)%N) l ->
  Sellers.s_id created = n ->
  find (fun d => oid_eqb (Sellers.s_id d) n) (l ++ [created])%list = Some created.
Proof.
  intros Hf Hid. induction l as [|x r IH]; simpl.
  - now rewrite Hid, oid_eqb_refl.
  - inversion Hf as [|a b Hx Hr]; subst.
    destruct (oid_eqb (Sellers.s_id x) (Sellers.s_id created)) eqn:E.
    + apply oid_eqb_eq in E. lia.
    + now apply IH.
Qed.

Lemma submit_application_step user_id payload c doc c' :
  fresh_ids c ->
  find_one (Sellers.by_user user_id) (docs c) = None ->
  Sellers.submit_application user_id payload c = (Ok doc, c') ->
  first_free_of (Sellers.slug_base (Py.strip (Sellers.ap_shop_name payload)))
                (map Sellers.s_slug (docs c)) (Sellers.s_slug doc)
  /\ docs c' = (docs c ++ [doc])%list
  /\ Sellers.s_user_id doc = user_id
  /\ fresh_ids c'.
Proof.
  intros Hfresh Hnew. unfold Sellers.submit_application.
  unfold bind at 1. unfold coll_utcnow at 1.
  unfold bind at 1. unfold gets at 1. simpl. rewrite Hnew.
  rewrite bind_gets_lift. simpl.
  destruct (seller_generate_slug_new (Py.strip (Sellers.ap_shop_name payload)) (docs c))
    as (slug & Hg & Hf).
  rewrite Hg.
  unfold bind at 1. unfold coll_new_ObjectId at 1.
  unfold bind at 1. unfold modify at 1.
  unfold bind at 1. unfold gets at 1. simpl.
  unfold find_one, insert_one.
  erewrite find_inserted; [|exact Hfresh|reflexivity].
  unfold ret. intro H. injection H as <- <-. simpl.
  split; [exact Hf|]. split; [reflexivity|]. split; [reflexivity|].
  unfold fresh_ids. simpl. apply Forall_app. split.
  - eapply Forall_impl; [|exact Hfresh]. simpl. intros; lia.
  - repeat constructor. simpl. lia.
Qed.

Lemma find_by_user_app user_id (l : list Sellers.SellerDocument) doc :
  find_one (Sellers.by_user user_id) l = None ->
  Sellers.s_user_id doc <> user_id ->
  find_one (Sellers.by_user user_id) (l ++ [doc])%list = None.
Proof.
  unfold find_one. intros Hn Hne. induction l as [|x r IH]; simpl in *.
  - unfold Sellers.by_user. destruct (oid_eqb (Sellers.s_user_id doc) user_id) eqn:E;
      [|reflexivity].
    apply oid_eqb_eq in E. contradiction.
  - destruct (Sellers.by_user user_id x); [discriminate|]. now apply IH.
Qed.

Lemma submit_applications_generated name applications : forall c created c',
  fresh_ids c ->
  NoDup (map fst applications) ->
  Forall (fun a => find_one (Sellers.by_user (fst a)) (docs c) = None
                   /\ Py.strip (Sellers.ap_shop_name (snd a)) = name) applications ->
  Catalog.for_each (fun a => Sellers.submit_application (fst a) (snd a)) applications c
  = (Ok created, c') ->
  generated_from (Sellers.slug_base name) (map Sellers.s_slug (docs c))
                 (map Sellers.s_slug created).
Proof.
  induction applications as [|a rest IH]; intros c created c' Hfresh Hnd Hall H; simpl in H.
  - injection H as <- _. exact I.
  - inversion Hall as [|a0 r0 [Hnew Hn] Hrest]; subst.
    inversion Hnd as [|u us Hnotin Hnd']; subst.
    unfold bind at 1 in H.
    destruct (Sellers.submit_application (fst a) (snd a) c) as [[doc|e] c1] eqn:E1;
      [|discriminate].
    unfold bind at 1 in H.
    destruct (Catalog.for_each _ rest c1) as [[ds|e] c2] eqn:E2; [|discriminate].
    injection H as <- _.
    destruct (submit_application_step _ _ _ _ _ Hfresh Hnew E1) as (Hf & Hd & Hu & Hfresh1).
    simpl. split; [exact Hf|].
    assert (Hrest1 : Forall (fun a0 => find_one (Sellers.by_user (fst a0)) (docs c1) = None
                               /\ Py.strip (Sellers.ap_shop_name (snd a0))
                                  = Py.strip (Sellers.ap_shop_name (snd a))) rest).
    { rewrite Forall_forall in *. intros x Hx. destruct (Hrest x Hx) as [Hx1 Hx2].
      split; [|exact Hx2]. rewrite Hd. apply find_by_user_app; [exact Hx1|].
      rewrite Hu. intro E. apply Hnotin. rewrite E. now apply in_map. }
    specialize (IH _ _ _ Hfresh1 Hnd' Hrest1 E2). rewrite Hd, map_app in IH. exact IH.
Qed.

(** ** The claim *)

(** The slugs of documents created one after the other with the same name:
    pairwise distinct, none already stored, each the base or the base with a
    numeric suffix, and exactly base, base-2, base-3, ... when no document
    with a slug of that family was stored before. *)
Definition distinct_and_numbered (base : string) (stored slugs : list string) : Prop :=
  NoDup slugs
  /\ Forall (fun slug => ~ In slug stored) slugs
  /\ Forall (candidate_shaped base) slugs
  /\ ((forall j, (1 <= j)%N -> ~ In (candidate base j) stored) ->
      slugs = map (fun i => candidate base (N.of_nat i)) (seq 1 (List.length slugs))).

Lemma generated_distinct_and_numbered base stored slugs :
  generated_from base stored slugs -> distinct_and_numbered base stored slugs.
Proof.
  intro H. destruct (generated_distinct base slugs stored H) as (Hn & Ho & Hs).
  repeat split; try assumption.
  intro Hnone. apply (generated_exact base slugs stored 0%N); [|exact H].
  intros j Hj. split; [intro Hin; exfalso; now apply (Hnone j)|lia].
Qed.


End GeneratedSlugs.


(* ================================================================== *)
(** * The VNPay amount *)
(* ================================================================== *)

Module VnPayAmount.
Import Payments.

(** The whole number of minor units of a total [T]: the integer nearest to
    the real number [100 * T]. *)
Definition minor_units (total : float) : option Z :=
  match Prim2SF total with
  | S754_zero _ => Some 0
  | S754_finite s m e =>
      let v := if 0 <=? e then 100 * Z.pos m * 2 ^ e
               else Py.div_pow2_half_even (100 * Z.pos m) (- e) in
      Some (if s then - v else v)
  | _ => None
  end.

Definition always_ok {S A} (m : ST S A) : Prop :=
  forall s, exists a s', m s = (Ok a, s').

Lemma always_ok_ret {S A} (a : A) : always_ok (@ret S A a).
Proof. intro s. exists a, s. reflexivity. Qed.

Lemma always_ok_bind {S A B} (m : ST S A) (k : A -> ST S B) :
  always_ok m -> (forall a, always_ok (k a)) -> always_ok (bind m k).
Proof.
  intros Hm Hk s. destruct (Hm s) as (a & s1 & E). destruct (Hk a s1) as (b & s2 & E2).
  exists b, s2. unfold bind. now rewrite E.
Qed.

Lemma always_ok_on_database {A} (m : M A) :
  (forall db, exists a db', m db = (Ok a, db')) -> always_ok (on_database m).
Proof.
  intros Hm s. destruct (Hm (database s)) as (a & db' & E).
  exists a. eexists. unfold on_database. rewrite E. reflexivity.
Qed.

Lemma create_notification_ok user_id notification_type title message metadata channel :
  always_ok (on_database (Notifications.create_notification user_id notification_type title
                            message metadata channel)).
Proof.
  apply always_ok_on_database. intro db.
  destruct (Notifications.create_notification user_id notification_type title message metadata
              channel db) as [r db'] eqn:E.
  destruct (OrderTransitions.create_notification_orders _ _ _ _ _ _ _ _ _ E) as (_ & v & ->).
  now exists v, db'.
Qed.

Lemma update_payment_record_status_ok payment_doc status_value transaction_id raw_payload s :
  exists s', _update_payment_record_status payment_doc status_value transaction_id raw_payload s
             = (Ok tt, s')
             /\ orders (database s') = orders (database s).
Proof. eexists. split; reflexivity. Qed.

Lemma update_order_payment_status_ok order_id new_status note actor transaction_id db order :
  Orders.get_order_by_object_id db order_id = Ok order ->
  exists updated db',
    Orders.update_order_payment_status order_id new_status note actor transaction_id db
    = (Ok updated, db').
Proof.
  unfold Orders.get_order_by_object_id. intro H.
  destruct (find_one (fun o => oid_eqb (o_id o) order_id) (orders db)) as [o|] eqn:Ef;
    [|discriminate].
  unfold Orders.update_order_payment_status, bind, utcnow, Orders.find_one_and_update_order.
  cbn [orders with_ticks].
  match goal with
  | |- context [Orders.find_one_and_update ?p ?f ?c] =>
      destruct (OrderTransitions.find_one_and_update_found p f c o Ef) as (coll' & ->)
  end.
  eexists. eexists. reflexivity.
Qed.

Lemma get_order_by_object_id_orders db db' order_id :
  orders db' = orders db ->
  Orders.get_order_by_object_id db' order_id = Orders.get_order_by_object_id db order_id.
Proof. intro H. unfold Orders.get_order_by_object_id. now rewrite H. Qed.

Section Webhook.

Variable hmac_sha512_hexdigest : string -> string -> string.
Variable float_of_str : string -> option float.
Variable settings : Settings.

(** The webhook gets as far as comparing the reported amount (divided by
    100) with the total of the order of the payment record. *)
Definition reaches_amount_check (params : list (string * string)) (s : Store)
    (order : OrderDocument) (amount : float) : Prop :=
  exists secret order_code payment_doc,
    vnpay_hash_secret settings = Some secret /\ secret <> ""
    /\ _verify_vnpay_signature hmac_sha512_hexdigest params secret = true
    /\ order_code_of params = Ok order_code
    /\ reported_amount float_of_str params = Ok amount
    /\ find_one (payment_of order_code (dict_get "vnp_TxnRef" params)) (payments s)
       = Some payment_doc
    /\ Orders.get_order_by_object_id (database s) (pay_order_id payment_doc) = Ok order.

Lemma webhook_amount_check params s order amount :
  reaches_amount_check params s order amount ->
  if amount_mismatch amount order
  then handle_vnpay_webhook hmac_sha512_hexdigest float_of_str settings params s
       = (Raise amount_mismatch_error, s)
  else exists code s',
         handle_vnpay_webhook hmac_sha512_hexdigest float_of_str settings params s
         = (Ok code, s')
         /\ (code = "00" \/ code = "01").
Proof.
  intros (secret & order_code & payment_doc & Hsecret & Hne & Hsig & Hcode & Hamount
          & Hfind & Horder).
  destruct secret as [|c0 r0]; [now elim Hne|].
  destruct (amount_mismatch amount order) eqn:Hcheck;
    unfold handle_vnpay_webhook; rewrite Hsecret, Hsig; cbn [negb]; rewrite Hcode, Hamount;
    unfold bind at 1; unfold lift at 1;
    unfold bind at 1; unfold lift at 1;
    unfold bind at 1; unfold gets at 1; rewrite Hfind;
    unfold bind at 1; unfold get_order_of at 1; rewrite Horder, Hcheck;
    [reflexivity|].
  destruct (opt_str_eqb (dict_get "vnp_ResponseCode" params) (Some "00")).
  - unfold bind at 1.
    match goal with
    | |- context [_update_payment_record_status ?p ?st ?tx ?raw s] =>
        destruct (update_payment_record_status_ok p st tx raw s) as (s1 & -> & Ho)
    end.
    rewrite <- (get_order_by_object_id_orders _ _ (pay_order_id payment_doc) Ho) in Horder.
    unfold bind at 1.
    match goal with
    | |- context [Orders.update_order_payment_status ?i ?st ?n ?a ?tx] =>
        destruct (update_order_payment_status_ok i st n a tx _ _ Horder) as (u & db2 & E)
    end.
    unfold on_database at 1. rewrite E.
    match goal with
    | |- exists code s', bind ?m ?k ?s2 = _ /\ _ =>
        destruct (create_notification_ok (o_buyer_id order) "payment_paid" "Payment successful"
                    ("Order " ++ o_order_code order ++ " has been paid via VNPay.")
                    (Some (payment_metadata order None)) Notifications.DEFAULT_CHANNEL s2)
          as (a & s3 & E3)
    end.
    unfold bind at 1. rewrite E3.
    destruct (o_seller_id order) as [seller_id|].
    + destruct (create_notification_ok seller_id "payment_paid" "Order paid"
                  ("Order " ++ o_order_code order ++ " has been paid by the buyer.")
                  (Some (payment_metadata order None)) Notifications.DEFAULT_CHANNEL s3)
        as (a4 & s4 & E4).
      unfold bind. rewrite E4. eexists. eexists. split; [reflexivity|now left].
    + eexists. eexists. split; [reflexivity|now left].
  - unfold bind at 1.
    match goal with
    | |- context [_update_payment_record_status ?p ?st ?tx ?raw s] =>
        destruct (update_payment_record_status_ok p st tx raw s) as (s1 & -> & Ho)
    end.
    rewrite <- (get_order_by_object_id_orders _ _ (pay_order_id payment_doc) Ho) in Horder.
    unfold bind at 1.
    match goal with
    | |- context [Orders.update_order_payment_status ?i ?st ?n ?a ?tx] =>
        destruct (update_order_payment_status_ok i st n a tx _ _ Horder) as (u & db2 & E)
    end.
    unfold on_database at 1. rewrite E.
    match goal with
    | |- exists code s', bind (on_database ?m) ?k ?s2 = _ /\ _ =>
        destruct (always_ok_on_database m) with (s := s2) as (a & s3 & E3)
    end.
    { intro db. 
      match goal with
      | |- exists a db', ?m db = _ =>
          destruct (m db) as [r db'] eqn:En
      end.
      destruct (OrderTransitions.create_notification_orders _ _ _ _ _ _ _ _ _ En) as (_ & v & ->).
      now exists v, db'. }
    unfold bind. rewrite E3. eexists. eexists. split; [reflexivity|now right].
Qed.

End Webhook.

(** C6 (the amount the initiation sends, and the check of the webhook).
    The webhook divides the reported [vnp_Amount] by 100 and, once it has
    found the payment record and its order, fails with the 400 "Amount
    mismatch" and writes nothing when the result is more than 1 away from the
    order's total, and answers "00" or "01" otherwise.  For the total 150000
    the initiation sends 15000000.  The amount sent is [int(T * 100)], the
    binary product cut to a whole number: an order of one sticker at 0.29
    has the total 0.29, the whole number of minor units of which is 29, and
    the initiation sends [vnp_Amount = 28]; the webhook that reports 28 is
    accepted. *)
Theorem vnpay_amount_sent_and_checked :
  (forall hmac_sha512_hexdigest float_of_str settings params s order amount,
      reaches_amount_check hmac_sha512_hexdigest float_of_str settings params s order amount ->
      if amount_mismatch amount order
      then handle_vnpay_webhook hmac_sha512_hexdigest float_of_str settings params s
           = (Raise amount_mismatch_error, s)
           /\ InvalidInput amount_mismatch_error
      else exists code s',
             handle_vnpay_webhook hmac_sha512_hexdigest float_of_str settings params s
             = (Ok code, s')
             /\ (code = "00" \/ code = "01"))
  /\ (vnp_amount_of (Sample.pen_order "pending_confirmation" "pending") = Some 15000000
      /\ minor_units (o_total_amount (Sample.pen_order "pending_confirmation" "pending"))
         = Some 15000000)
  /\ (exists order db' payment s' s'',
        Orders.create_order_from_cart Sample.buyer2 Sample.buyer2_address_id "vnpay" None
          Sample.db_sticker = (Ok order, db')
        /\ o_total_amount order = 0.29%float
        /\ minor_units (o_total_amount order) = Some 29
        /\ initiate_vnpay_payment Sample.keyed_digest Sample.unquoted Sample.vnpay_settings
             Sample.txn_ref order None "127.0.0.1" {| database := db'; payments := [] |}
           = (Ok payment, s')
        /\ map (fun p => dict_get "vnp_Amount" (pay_raw_payload p)) (payments s')
           = [Some (PInt 28)]
        /\ handle_vnpay_webhook Sample.keyed_digest Sample.float_of_digits Sample.vnpay_settings
             (Sample.vnpay_report (o_order_code order) "28" "00") s'
           = (Ok "00", s'')).
Proof.
  split; [|split].
  - intros hmac float_of_str settings params s order amount H.
    pose proof (webhook_amount_check hmac float_of_str settings params s order amount H) as R.
    destruct (amount_mismatch amount order); [split; [exact R|reflexivity]|exact R].
  - split; vm_compute; reflexivity.
  - assert (E : exists order db',
               Orders.create_order_from_cart Sample.buyer2 Sample.buyer2_address_id "vnpay" None
                 Sample.db_sticker = (Ok order, db'))
      by (eexists; eexists; vm_compute; reflexivity).
    destruct E as (order & db' & E).
    vm_compute in E. injection E as <- <-.
    eexists. eexists. eexists. eexists. eexists.
    split; [vm_compute; reflexivity|].
    split; [vm_compute; reflexivity|].
    split; [vm_compute; reflexivity|].
    split; [vm_compute; reflexivity|].
    split; vm_compute; reflexivity.
Qed.

End VnPayAmount.

(** The total 150000 of the pen order: the report of 15000000 minor units
    reconciles, and the payment is recorded as paid. *)
Lemma vnpay_amount_sent_and_checked_witness :
  Payments.amount_mismatch 150000%float (Sample.pen_order "pending_confirmation" "pending") = false
  /\ exists code s',
       Payments.handle_vnpay_webhook Sample.keyed_digest Sample.float_of_digits
         Sample.vnpay_settings
         (Sample.vnpay_report "ORD-20261103120405123456" "15000000" "00")
         Sample.payment_store
       = (Ok code, s')
       /\ (code = "00" \/ code = "01").
Proof.
  split; [vm_compute; reflexivity|].
  assert (H : VnPayAmount.reaches_amount_check Sample.keyed_digest Sample.float_of_digits
                Sample.vnpay_settings
                (Sample.vnpay_report "ORD-20261103120405123456" "15000000" "00")
                Sample.payment_store
                (Sample.pen_order "pending_confirmation" "pending") 150000%float).
  { exists "hash-secret", (Some "ORD-20261103120405123456"), Sample.pen_payment.
    repeat split; try (vm_compute; reflexivity). discriminate. }
  exact (proj1 VnPayAmount.vnpay_amount_sent_and_checked _ _ _ _ _ _ _ H).
Defined.

(* ================================================================== *)
(** * Catalog lookups: what a resolved product and variant are *)
(* ================================================================== *)

Module CatalogLookup.

Lemma find_variant_some variants variant_id v :
  find_variant variants variant_id = Some v -> In v variants /\ v_id v = variant_id.
Proof.
  induction variants as [|x r IH]; simpl; [discriminate|].
  destruct (oid_eqb (v_id x) variant_id) eqn:E.
  - intro H. injection H as <-. split; [now left|now apply oid_eqb_eq].
  - intro H. destruct (IH H). split; [now right|assumption].
Qed.

Lemma str_in_two s a b : str_in s [a; b] = true -> s = a \/ s = b.
Proof.
  unfold str_in. simpl.
  destruct (String.eqb_spec s a) as [->|]; [now left|].
  destruct (String.eqb_spec s b) as [->|]; [now right|discriminate].
Qed.

Lemma resolved db product_id variant_id product variant :
  get_product_with_variant db product_id variant_id = Ok (product, variant) ->
  find_one (fun p => oid_eqb (p_id p) product_id) (products db) = Some product
  /\ In product (products db)
  /\ p_id product = product_id
  /\ (p_status product = Some "active" \/ p_status product = Some "draft")
  /\ match variant_id with
     | None => variant = None
     | Some vid =>
         exists v vs, variant = Some v /\ v_id v = vid
                      /\ p_variants product = Some vs /\ In v vs
     end.
Proof.
  unfold get_product_with_variant.
  destruct (find_one _ (products db)) as [p|] eqn:Ef; [|discriminate].
  destruct (negb (opt_str_in (p_status p) ["active"; "draft"])) eqn:Es; [discriminate|].
  apply negb_false_iff in Es.
  assert (Hin : In p (products db) /\ p_id p = product_id).
  { unfold find_one in Ef. apply find_some in Ef. destruct Ef as [Hi He].
    split; [exact Hi|now apply oid_eqb_eq]. }
  assert (Hst : p_status p = Some "active" \/ p_status p = Some "draft").
  { destruct (p_status p) as [s|]; [|discriminate]. simpl in Es.
    destruct (str_in_two _ _ _ Es) as [->| ->]; auto. }
  destruct variant_id as [vid|].
  - destruct (p_variants p) as [vs|] eqn:Ev.
    + destruct (find_variant vs vid) as [v|] eqn:Efv; [|discriminate].
      intro H. injection H as <- <-. destruct (find_variant_some _ _ _ Efv).
      repeat split; try tauto. exists v, vs. auto.
    + simpl. discriminate.
  - intro H. injection H as <- <-. tauto.
Qed.

Lemma resolved_variant_id db product_id variant_id product variant :
  get_product_with_variant db product_id variant_id = Ok (product, variant) ->
  option_map v_id variant = variant_id.
Proof.
  intro H. destruct (resolved _ _ _ _ _ H) as (_ & _ & _ & _ & Hv).
  destruct variant_id as [vid|].
  - destruct Hv as (v & vs & -> & <- & _). reflexivity.
  - now subst.
Qed.

(** [get_product_with_variant] returns the first product stored under the
    requested [_id], only when its status is active or draft, and with it the
    variant of that product that has the requested [_id] (none when no variant
    is asked for). *)
Theorem get_product_with_variant_resolves (db : Database) (product_id : ObjectId)
    (variant_id : option ObjectId) (product : ProductDocument)
    (variant : option ProductVariantDocument) :
  get_product_with_variant db product_id variant_id = Ok (product, variant) ->
  find_one (fun p => oid_eqb (p_id p) product_id) (products db) = Some product
  /\ In product (products db)
  /\ p_id product = product_id
  /\ (p_status product = Some "active" \/ p_status product = Some "draft")
  /\ match variant_id with
     | None => variant = None
     | Some vid =>
         exists v vs, variant = Some v /\ v_id v = vid
                      /\ p_variants product = Some vs /\ In v vs
     end.
Proof. exact (resolved db product_id variant_id product variant). Qed.

End CatalogLookup.

(** The large shirt of the sample catalog. *)
Lemma get_product_with_variant_resolves_witness :
  In Sample.shirt (products Sample.db)
  /\ p_id Sample.shirt = 16%N
  /\ exists v vs, Some Sample.shirt_large = Some v /\ v_id v = 33%N
                  /\ p_variants Sample.shirt = Some vs /\ In v vs.
Proof.
  pose proof (CatalogLookup.get_product_with_variant_resolves Sample.db 16%N (Some 33%N)
                Sample.shirt (Some Sample.shirt_large) eq_refl) as H.
  destruct H as (_ & Hin & Hid & _ & Hv). auto.
Defined.

(* ================================================================== *)
(** * The cart: what a successful request has written *)
(* ================================================================== *)

Module CartLines.
Import Cart.

(** The line [add_item] stores over an existing one, and the line it appends. *)
Definition merged_line (existing : CartItemDocument) (product : ProductDocument)
    (variant : option ProductVariantDocument) (quantity : Z) (now : datetime)
  : CartItemDocument :=
  {| ci_item_id := ci_item_id existing;
     ci_product_id := ci_product_id existing;
     ci_variant_id := ci_variant_id existing;
     ci_product_name := p_name product;
     ci_variant_name := _variant_display_name variant;
     ci_thumbnail_url := _cart_thumbnail product;
     ci_attributes := attributes_of variant;
     ci_quantity := quantity;
     ci_price := price_of product variant;
     ci_compare_at_price := compare_at_price_of variant;
     ci_created_at := ci_created_at existing;
     ci_updated_at := now |}.

Definition appended_line (item_id : ObjectId) (product : ProductDocument)
    (variant : option ProductVariantDocument) (quantity : Z) (now : datetime)
  : CartItemDocument :=
  {| ci_item_id := item_id;
     ci_product_id := Some (p_id product);
     ci_variant_id := option_map v_id variant;
     ci_product_name := p_name product;
     ci_variant_name := _variant_display_name variant;
     ci_thumbnail_url := _cart_thumbnail product;
     ci_attributes := attributes_of variant;
     ci_quantity := quantity;
     ci_price := price_of product variant;
     ci_compare_at_price := compare_at_price_of variant;
     ci_created_at := now;
     ci_updated_at := now |}.

(** The user's cart as [_ensure_cart] hands it out: the stored one, or the
    empty one it has just stored. *)
Definition ensured (user_id : ObjectId) (db : Database) (cart : CartDocument)
    (db1 : Database) : Prop :=
  _ensure_cart user_id db = (Ok cart, db1)
  /\ products db1 = products db
  /\ ((find_one (owned_by user_id) (carts db) = Some cart /\ db1 = db)
      \/ (find_one (owned_by user_id) (carts db) = None
          /\ c_items cart = [] /\ c_user_id cart = user_id
          /\ c_id cart = next_oid db
          /\ carts db1 = (carts db ++ [cart])%list)).

(** The stored carts are what they were, but for the empty cart that
    [_ensure_cart] stores for a user who had none. *)
Definition at_most_created (user_id : ObjectId) (db db' : Database) : Prop :=
  carts db' = carts db
  \/ (find_one (owned_by user_id) (carts db) = None
      /\ exists cart, carts db' = (carts db ++ [cart])%list
                      /\ c_items cart = [] /\ c_user_id cart = user_id).

Lemma ensured_cases user_id db :
  exists cart db1, ensured user_id db cart db1.
Proof.
  unfold ensured. destruct (find_one (owned_by user_id) (carts db)) as [cart|] eqn:E.
  - exists cart, db. rewrite (CartFacts.ensure_cart_found _ _ _ E). auto.
  - unfold _ensure_cart. unfold_service. rewrite E. cbn.
    eexists. eexists. split; [reflexivity|]. split; [reflexivity|].
    right. repeat split.
Qed.

Lemma ensured_at_most_created user_id db cart db1 db2 :
  ensured user_id db cart db1 -> carts db2 = carts db1 -> at_most_created user_id db db2.
Proof.
  intros (_ & _ & [[_ ->]|(Hn & Hi & Hu & _ & Hc)]) H2.
  - now left.
  - right. split; [exact Hn|]. exists cart. rewrite H2. auto.
Qed.

(** [add_item], step by step: a failure leaves the carts alone, a success has
    merged the quantity into the first line of the product and variant, or
    appended a line. *)
Lemma add_item_cases user_id product_id_str variant_id_str quantity db r db' :
  add_item user_id product_id_str variant_id_str quantity db = (r, db') ->
  match r with
  | Raise e => at_most_created user_id db db'
  | Ok cart' =>
    exists product_id variant_id cart db1 product variant new_items now,
      Bson.ObjectId_of_str product_id_str = Some product_id
      /\ _parse_object_id variant_id_str "variant_id" = Ok variant_id
      /\ ensured user_id db cart db1
      /\ get_product_with_variant db product_id variant_id = Ok (product, variant)
      /\ exceeds_stock (stock_quantity_of variant) quantity = false
      /\ ((exists existing,
              find (same_line product_id variant_id) (c_items cart) = Some existing
              /\ nth_error (c_items cart)
                   (Z.to_nat (_find_item_index cart product_id variant_id)) = Some existing
              /\ exceeds_stock (stock_quantity_of variant) (ci_quantity existing + quantity)
                 = false
              /\ new_items
                 = list_set (c_items cart)
                     (Z.to_nat (_find_item_index cart product_id variant_id))
                     (merged_line existing product variant (ci_quantity existing + quantity)
                        now))
          \/ (find (same_line product_id variant_id) (c_items cart) = None
              /\ exists item_id,
                   new_items
                   = (c_items cart
                        ++ [appended_line item_id product variant quantity now])%list))
      /\ cart' = set_items new_items now cart
      /\ carts db' = update_one (by_id (c_id cart)) (set_items new_items now) (carts db1)
  end.
Proof.
  unfold add_item. cbn [_parse_object_id].
  destruct (Bson.ObjectId_of_str product_id_str) as [product_id|] eqn:Ep;
    [|intro H; injection H as <- <-; now left].
  unfold bind at 1. unfold lift at 1.
  destruct (_parse_object_id variant_id_str "variant_id") as [variant_id|e] eqn:Ev;
    [|intro H; injection H as <- <-; now left].
  unfold bind at 1. unfold lift at 1.
  destruct (ensured_cases user_id db) as (cart & db1 & Hens).
  pose proof Hens as (He & Hp & Hc).
  unfold bind at 1. rewrite He.
  rewrite bind_gets_lift, (get_product_with_variant_frame db db1 _ _ Hp).
  destruct (get_product_with_variant db product_id variant_id) as [[product variant]|e] eqn:Eg;
    [|intro H; injection H as <- <-; now apply (ensured_at_most_created _ _ _ _ _ Hens)].
  cbn [fst snd].
  destruct (exceeds_stock (stock_quantity_of variant) quantity) eqn:Es;
    [intro H; injection H as <- <-; now apply (ensured_at_most_created _ _ _ _ _ Hens)|].
  unfold bind at 1. unfold utcnow at 1.
  set (now := clock db1 (ticks db1)).
  destruct (find (same_line product_id variant_id) (c_items cart)) as [existing|] eqn:Ef.
  - destruct (CartFacts.find_item_index_found _ _ _ _ Ef) as [Hi Hn].
    rewrite Hi. unfold bind at 1. rewrite Hn.
    destruct (exceeds_stock (stock_quantity_of variant) (ci_quantity existing + quantity))
      eqn:Es2;
      [intro H; injection H as <- <-; now apply (ensured_at_most_created _ _ _ _ _ Hens)|].
    unfold_service. intro H. injection H as <- <-.
    exists product_id, variant_id, cart, db1, product, variant.
    eexists. exists now.
    repeat split; try eassumption; try reflexivity.
    left. exists existing. repeat split; try eassumption; reflexivity.
  - rewrite (CartFacts.find_item_index_missing _ _ _ Ef).
    unfold_service. intro H. injection H as <- <-.
    exists product_id, variant_id, cart, db1, product, variant.
    eexists. exists now.
    repeat split; try eassumption; try reflexivity.
    right. split; [exact Ef|]. eexists. reflexivity.
Qed.

(** The loop of [update_item_quantity]: the first line with the [item_id] is
    rewritten from the product it references; the lines around it stay. *)
Lemma update_matching_item_cases items item_id quantity db r db' :
  update_matching_item items item_id quantity db = (r, db') ->
  match r with
  | Raise e => db' = db
  | Ok None => db' = db /\ Forall (fun it => ci_item_id it <> item_id) items
  | Ok (Some new_items) =>
      exists before item after product_id product variant,
        items = (before ++ item :: after)%list
        /\ Forall (fun it => ci_item_id it <> item_id) before
        /\ ci_item_id item = item_id
        /\ ci_product_id item = Some product_id
        /\ get_product_with_variant db product_id (ci_variant_id item) = Ok (product, variant)
        /\ exceeds_stock (stock_quantity_of variant) quantity = false
        /\ new_items
           = (before ++ merged_line item product variant quantity (clock db (ticks db))
                :: after)%list
        /\ carts db' = carts db /\ products db' = products db
        /\ clock db' = clock db /\ ticks db' = S (ticks db)
  end.
Proof.
  revert r db'. induction items as [|item rest IH]; intros r db'; simpl.
  - intro H. injection H as <- <-. split; [reflexivity|constructor].
  - destruct (oid_eqb (ci_item_id item) item_id) eqn:Ei.
    + apply oid_eqb_eq in Ei.
      destruct (ci_product_id item) as [product_id|] eqn:Ep;
        [|intro H; injection H as <- <-; reflexivity].
      rewrite bind_gets_lift.
      destruct (get_product_with_variant db product_id (ci_variant_id item))
        as [[product variant]|e] eqn:Eg; [|intro H; injection H as <- <-; reflexivity].
      cbn [fst snd].
      destruct (exceeds_stock (stock_quantity_of variant) quantity) eqn:Es;
        [intro H; injection H as <- <-; reflexivity|].
      unfold_service. intro H. injection H as <- <-.
      exists [], item, rest, product_id, product, variant.
      repeat split; try assumption; try reflexivity; try (constructor; fail).
      unfold merged_line. now rewrite Ep.
    + assert (Hne : ci_item_id item <> item_id).
      { intro E. apply oid_eqb_eq in E. congruence. }
      unfold bind at 1.
      destruct (update_matching_item rest item_id quantity db) as [[[new_rest|]|e] db1] eqn:Er;
        specialize (IH _ _ eq_refl); unfold ret; intro H; injection H as <- <-; simpl.
      * destruct IH as (before & it & after & pid & product & variant & -> & Hb & Hid & Hp
                        & Hg & Hs & -> & Hrest).
        exists (item :: before), it, after, pid, product, variant.
        repeat split; try tauto. constructor; assumption.
      * destruct IH as [-> Hall]. split; [reflexivity|]. constructor; assumption.
      * exact IH.
Qed.

Lemma update_item_quantity_cases user_id item_id_str quantity db r db' :
  update_item_quantity user_id item_id_str quantity db = (r, db') ->
  match r with
  | Raise e => at_most_created user_id db db'
  | Ok cart' =>
      exists item_id cart db1 before item after product_id product variant now,
        0 < quantity
        /\ Bson.ObjectId_of_str item_id_str = Some item_id
        /\ ensured user_id db cart db1
        /\ c_items cart = (before ++ item :: after)%list
        /\ Forall (fun it => ci_item_id it <> item_id) before
        /\ ci_item_id item = item_id
        /\ ci_product_id item = Some product_id
        /\ get_product_with_variant db product_id (ci_variant_id item) = Ok (product, variant)
        /\ exceeds_stock (stock_quantity_of variant) quantity = false
        /\ cart' = set_items (before ++ merged_line item product variant quantity
                                          (clock db1 (ticks db1)) :: after)%list now cart
        /\ carts db' = update_one (by_id (c_id cart)) (set_items (c_items cart') now) (carts db1)
  end.
Proof.
  unfold update_item_quantity.
  destruct (Z.leb_spec quantity 0) as [Hq|Hq];
    [intro H; injection H as <- <-; now left|].
  cbn [_parse_object_id].
  destruct (Bson.ObjectId_of_str item_id_str) as [item_id|] eqn:Ep;
    [|intro H; injection H as <- <-; now left].
  unfold bind at 1. unfold lift at 1.
  destruct (ensured_cases user_id db) as (cart & db1 & Hens).
  pose proof Hens as (He & Hp & Hc).
  unfold bind at 1. rewrite He.
  unfold bind at 1.
  destruct (update_matching_item (c_items cart) item_id quantity db1) as [[[items|]|e] db2]
    eqn:Eu; pose proof (update_matching_item_cases _ _ _ _ _ _ Eu) as Hu; cbn in Hu.
  - destruct Hu as (before & item & after & pid & product & variant & Hitems & Hb & Hid & Hpid
                    & Hg & Hs & -> & Hcarts & Hprods & Hclock & Hticks).
    unfold_service. intro H. injection H as <- <-.
    rewrite (get_product_with_variant_frame db db1 _ _ Hp) in Hg.
    exists item_id, cart, db1, before, item, after, pid, product, variant.
    eexists. repeat split; try eassumption; try reflexivity.
    cbn. now rewrite Hcarts.
  - destruct Hu as [-> _]. intro H. injection H as <- <-.
    now apply (ensured_at_most_created _ _ _ _ _ Hens).
  - subst db2. intro H. injection H as <- <-.
    now apply (ensured_at_most_created _ _ _ _ _ Hens).
Qed.

Lemma remove_item_cases user_id item_id_str db r db' :
  remove_item user_id item_id_str db = (r, db') ->
  match r with
  | Raise e => at_most_created user_id db db'
  | Ok cart' =>
      exists item_id cart db1 now,
        Bson.ObjectId_of_str item_id_str = Some item_id
        /\ ensured user_id db cart db1
        /\ (exists it, In it (c_items cart) /\ ci_item_id it = item_id)
        /\ cart' = set_items (filter (fun it => negb (oid_eqb (ci_item_id it) item_id))
                                     (c_items cart)) now cart
        /\ carts db' = update_one (by_id (c_id cart)) (set_items (c_items cart') now) (carts db1)
  end.
Proof.
  unfold remove_item. cbn [_parse_object_id].
  destruct (Bson.ObjectId_of_str item_id_str) as [item_id|] eqn:Ep;
    [|intro H; injection H as <- <-; now left].
  unfold bind at 1. unfold lift at 1.
  destruct (ensured_cases user_id db) as (cart & db1 & Hens).
  pose proof Hens as (He & Hp & Hc).
  unfold bind at 1. rewrite He.
  destruct (Nat.eqb_spec
              (List.length (filter (fun it => negb (oid_eqb (ci_item_id it) item_id))
                              (c_items cart)))
              (List.length (c_items cart))) as [Hl|Hl].
  - intro H. injection H as <- <-. now apply (ensured_at_most_created _ _ _ _ _ Hens).
  - unfold_service. intro H. injection H as <- <-.
    exists item_id, cart, db1. eexists.
    repeat split; try eassumption; try reflexivity.
    clear - Hl. induction (c_items cart) as [|x l IH]; simpl in *; [congruence|].
    destruct (oid_eqb (ci_item_id x) item_id) eqn:E; simpl in *.
    + exists x. split; [now left|now apply oid_eqb_eq].
    + destruct IH as (it & Hin & Hid); [congruence|]. exists it. auto.
Qed.

Lemma clear_cart_cases user_id db :
  exists cart db1 now db',
    clear_cart user_id db = (Ok (set_items [] now cart), db')
    /\ ensured user_id db cart db1
    /\ carts db' = update_one (by_id (c_id cart)) (set_items [] now) (carts db1).
Proof.
  destruct (ensured_cases user_id db) as (cart & db1 & Hens).
  pose proof Hens as (He & Hp & Hc).
  exists cart, db1. unfold clear_cart. unfold bind at 1. rewrite He.
  unfold_service. eexists. eexists. repeat split; try eassumption; reflexivity.
Qed.

(** ** One line per product and variant *)

Definition line_key (item : CartItemDocument) : option ObjectId * option ObjectId :=
  (ci_product_id item, ci_variant_id item).

(** No cart holds two lines of the same product and variant. *)
Definition one_line_per_product (db : Database) : Prop :=
  Forall (fun cart => NoDup (map line_key (c_items cart))) (carts db).

Lemma same_line_key product_id variant_id item :
  same_line product_id variant_id item = true <-> line_key item = (Some product_id, variant_id).
Proof.
  unfold same_line, line_key. rewrite andb_true_iff, !opt_oid_eqb_eq.
  split; [intros [-> ->]; reflexivity|intro H; injection H; auto].
Qed.

Lemma find_none_key product_id variant_id items :
  find (same_line product_id variant_id) items = None ->
  ~ In (Some product_id, variant_id) (map line_key items).
Proof.
  intros Hf Hin. apply in_map_iff in Hin. destruct Hin as (it & Hk & Hin).
  apply (find_none _ _ Hf) in Hin. apply same_line_key in Hk. congruence.
Qed.

Lemma map_list_set_key items idx existing v :
  nth_error items idx = Some existing ->
  line_key v = line_key existing ->
  map line_key (list_set items idx v) = map line_key items.
Proof.
  revert idx. induction items as [|x r IH]; intros [|i]; simpl; try discriminate.
  - intros H Hk. injection H as ->. now rewrite Hk.
  - intros H Hk. now rewrite (IH _ H Hk).
Qed.

Lemma NoDup_map_filter {A B} (f : A -> B) (p : A -> bool) l :
  NoDup (map f l) -> NoDup (map f (filter p l)).
Proof.
  induction l as [|x l IH]; simpl; intro H; [constructor|].
  inversion H as [|? ? Hn Hd]; subst.
  destruct (p x); simpl; [|now apply IH].
  constructor; [|now apply IH].
  intro Hin. apply Hn. apply in_map_iff in Hin. destruct Hin as (y & <- & Hy).
  apply filter_In in Hy. apply in_map. tauto.
Qed.

Lemma NoDup_snoc {A} (l : list A) x : NoDup l -> ~ In x l -> NoDup (l ++ [x])%list.
Proof.
  induction l as [|y l IH]; simpl; intros Hn Hx.
  - constructor; [intros []|constructor].
  - inversion Hn as [|? ? Hy Hl]; subst. constructor.
    + rewrite in_app_iff. simpl. intros [H|[H|[]]]; [now apply Hy|subst; tauto].
    + apply IH; tauto.
Qed.

Lemma Forall_update_one {A} (P : A -> Prop) (p : A -> bool) (f : A -> A) l :
  Forall P l -> (forall x, P (f x)) -> Forall P (update_one p f l).
Proof.
  intros H Hf. induction H as [|x l Hx Hl IH]; simpl; [constructor|].
  destruct (p x); constructor; auto.
Qed.

Lemma at_most_created_one_line user_id db db' :
  at_most_created user_id db db' -> one_line_per_product db -> one_line_per_product db'.
Proof.
  unfold one_line_per_product.
  intros [->|(_ & cart & -> & Hi & _)] H; [exact H|].
  apply Forall_app. split; [exact H|]. constructor; [|constructor].
  rewrite Hi. constructor.
Qed.

Lemma ensured_one_line user_id db cart db1 :
  ensured user_id db cart db1 -> one_line_per_product db ->
  one_line_per_product db1 /\ NoDup (map line_key (c_items cart)).
Proof.
  intros Hens H. split.
  - apply (at_most_created_one_line user_id db); [|exact H].
    now apply (ensured_at_most_created _ _ _ _ _ Hens).
  - destruct Hens as (_ & _ & [[Hf _]|(_ & -> & _)]); [|constructor].
    unfold find_one in Hf. apply find_some in Hf. destruct Hf as [Hin _].
    unfold one_line_per_product in H. rewrite Forall_forall in H. now apply H.
Qed.

Lemma written_one_line db1 db' cart_id items now :
  one_line_per_product db1 ->
  NoDup (map line_key items) ->
  carts db' = update_one (by_id cart_id) (set_items items now) (carts db1) ->
  one_line_per_product db'.
Proof.
  unfold one_line_per_product. intros H Hn ->.
  apply Forall_update_one; [exact H|]. intro x. exact Hn.
Qed.

(** The cart services keep one line per product and variant: [add_item]
    merges into the line of the product and variant when there is one, and
    updating, removing and clearing add no line. *)
Theorem cart_keeps_one_line_per_product (db : Database) (user_id : ObjectId) :
  one_line_per_product db ->
  (forall product_id_str variant_id_str quantity r db',
      add_item user_id product_id_str variant_id_str quantity db = (r, db') ->
      one_line_per_product db')
  /\ (forall item_id_str quantity r db',
         update_item_quantity user_id item_id_str quantity db = (r, db') ->
         one_line_per_product db')
  /\ (forall item_id_str r db',
         remove_item user_id item_id_str db = (r, db') -> one_line_per_product db')
  /\ (forall r db', clear_cart user_id db = (r, db') -> one_line_per_product db').
Proof.
  intro Hinv. repeat split.
  - intros ps vs q r db' H. apply add_item_cases in H. destruct r as [cart'|e];
      [|now apply (at_most_created_one_line user_id db)].
    destruct H as (pid & vid & cart & db1 & product & variant & new_items & now & Hp & Hv
                   & Hens & Hg & Hs & Hnew & -> & Hc).
    destruct (ensured_one_line _ _ _ _ Hens Hinv) as [H1 Hn].
    apply (written_one_line db1 db' (c_id cart) new_items now H1); [|exact Hc].
    destruct Hnew as [(existing & Hf & Hnth & _ & ->)|(Hf & item_id & ->)].
    + now rewrite (map_list_set_key _ _ existing).
    + rewrite map_app. simpl. apply NoDup_snoc; [exact Hn|].
      unfold line_key at 1. cbn [appended_line ci_product_id ci_variant_id].
      rewrite (ProductLevelLines.resolved_product_id _ _ _ _ _ Hg),
              (CatalogLookup.resolved_variant_id _ _ _ _ _ Hg).
      now apply find_none_key.
  - intros ids q r db' H. apply update_item_quantity_cases in H. destruct r as [cart'|e];
      [|now apply (at_most_created_one_line user_id db)].
    destruct H as (item_id & cart & db1 & before & item & after & pid & product & variant & now
                   & Hq & Hp & Hens & Hitems & Hb & Hid & Hpid & Hg & Hs & -> & Hc).
    destruct (ensured_one_line _ _ _ _ Hens Hinv) as [H1 Hn].
    refine (written_one_line db1 db' (c_id cart) _ now H1 _ Hc).
    cbn [set_items c_items]. rewrite Hitems in Hn.
    rewrite map_app in *. exact Hn.
  - intros ids r db' H. apply remove_item_cases in H. destruct r as [cart'|e];
      [|now apply (at_most_created_one_line user_id db)].
    destruct H as (item_id & cart & db1 & now & Hp & Hens & _ & -> & Hc).
    destruct (ensured_one_line _ _ _ _ Hens Hinv) as [H1 Hn].
    refine (written_one_line db1 db' (c_id cart) _ now H1 _ Hc).
    cbn [set_items c_items]. now apply NoDup_map_filter.
  - intros r db' H.
    destruct (clear_cart_cases user_id db) as (cart & db1 & now & db2 & Hr & Hens & Hc).
    rewrite Hr in H. injection H as _ <-.
    destruct (ensured_one_line _ _ _ _ Hens Hinv) as [H1 Hn].
    apply (written_one_line db1 db2 (c_id cart) [] now H1); [constructor|exact Hc].
Qed.

(** ** What a successful request has written *)

(** The items of the user's stored cart (none when there is no cart yet). *)
Definition items_of (db : Database) (user_id : ObjectId) : list CartItemDocument :=
  match find_one (owned_by user_id) (carts db) with
  | Some cart => c_items cart
  | None => []
  end.

(** The quantity a cart holds of a product and variant (0 when it has no
    such line). *)
Definition quantity_in (items : list CartItemDocument) (product_id : ObjectId)
    (variant_id : option ObjectId) : Z :=
  match find (same_line product_id variant_id) items with
  | Some line => ci_quantity line
  | None => 0
  end.

Definition other_lines (product_id : ObjectId) (variant_id : option ObjectId)
    (items : list CartItemDocument) : list CartItemDocument :=
  filter (fun it => negb (same_line product_id variant_id it)) items.

Lemma ensured_items user_id db cart db1 :
  ensured user_id db cart db1 -> c_items cart = items_of db user_id.
Proof.
  unfold items_of. intros (_ & _ & [[-> _]|(-> & -> & _)]); reflexivity.
Qed.

Lemma other_lines_list_set product_id variant_id items v :
  same_line product_id variant_id v = true ->
  forall start existing,
    find (same_line product_id variant_id) items = Some existing ->
    other_lines product_id variant_id
      (list_set items (Z.to_nat (find_index_from start items product_id variant_id - start)) v)
    = other_lines product_id variant_id items.
Proof.
  intros Hv. unfold other_lines.
  induction items as [|x r IH]; intros start existing Hf; simpl in *; [discriminate|].
  destruct (same_line product_id variant_id x) eqn:E.
  - replace (start - start) with 0 by lia. simpl. now rewrite Hv.
  - assert (Hle : start + 1 <= find_index_from (start + 1) r product_id variant_id).
    { clear - Hf. revert start. induction r as [|y l IHl]; intros s; simpl in *;
        [discriminate|].
      destruct (same_line product_id variant_id y); [lia|].
      specialize (IHl Hf (s + 1)). lia. }
    replace (Z.to_nat (find_index_from (start + 1) r product_id variant_id - start))
      with (Datatypes.S
              (Z.to_nat (find_index_from (start + 1) r product_id variant_id - (start + 1))))
      by lia.
    simpl. rewrite E. simpl. f_equal. now apply (IH _ existing).
Qed.

Lemma within_stock stock_quantity quantity :
  exceeds_stock stock_quantity quantity = false ->
  forall stock, stock_quantity = Some stock -> quantity <= stock.
Proof.
  intros H stock ->. simpl in H. now apply Z.ltb_ge in H.
Qed.

(** A successful [add_item] returns a cart with a line for the product and
    variant that holds what the stored cart held of it plus the added
    quantity, priced from the catalog as it is now and within the stock of the
    variant when the stock is tracked; the other lines are as they were. *)
Theorem add_item_merges_within_stock (db : Database) (user_id : ObjectId)
    (product_id_str : string) (variant_id_str : option string) (quantity : Z)
    (cart' : CartDocument) (db' : Database) :
  add_item user_id product_id_str variant_id_str quantity db = (Ok cart', db') ->
  exists product_id variant_id product variant line,
    Bson.ObjectId_of_str product_id_str = Some product_id
    /\ _parse_object_id variant_id_str "variant_id" = Ok variant_id
    /\ get_product_with_variant db product_id variant_id = Ok (product, variant)
    /\ find (same_line product_id variant_id) (c_items cart') = Some line
    /\ ci_quantity line = quantity_in (items_of db user_id) product_id variant_id + quantity
    /\ ci_price line = price_of product variant
    /\ (forall stock, stock_quantity_of variant = Some stock -> ci_quantity line <= stock)
    /\ other_lines product_id variant_id (c_items cart')
       = other_lines product_id variant_id (items_of db user_id).
Proof.
  intro H. apply add_item_cases in H.
  destruct H as (pid & vid & cart & db1 & product & variant & new_items & now & Hp & Hv
                 & Hens & Hg & Hs & Hnew & -> & Hc).
  rewrite <- (ensured_items _ _ _ _ Hens). unfold quantity_in.
  exists pid, vid, product, variant.
  destruct Hnew as [(existing & Hf & Hnth & Hs2 & ->)|(Hf & item_id & ->)]; rewrite Hf.
  - set (line := merged_line existing product variant (ci_quantity existing + quantity) now).
    assert (Hl : same_line pid vid line = true).
    { pose proof (find_some _ _ Hf) as [_ Hsl]. exact Hsl. }
    exists line. repeat split; try assumption; try reflexivity.
    + cbn [set_items c_items]. unfold _find_item_index.
      rewrite <- (Z.sub_0_r (find_index_from 0 (c_items cart) pid vid)).
      now apply (ProductLevelLines.find_list_set_first _ _ pid vid line eq_refl Hl 0 existing).
    + now apply within_stock.
    + cbn [set_items c_items]. unfold _find_item_index.
      rewrite <- (Z.sub_0_r (find_index_from 0 (c_items cart) pid vid)).
      now apply (other_lines_list_set pid vid _ line Hl 0 existing).
  - set (line := appended_line item_id product variant quantity now).
    assert (Hl : same_line pid vid line = true).
    { apply same_line_key. unfold line_key. cbn.
      now rewrite (ProductLevelLines.resolved_product_id _ _ _ _ _ Hg),
                  (CatalogLookup.resolved_variant_id _ _ _ _ _ Hg). }
    exists line. repeat split; try assumption; try reflexivity.
    + cbn [set_items c_items]. now apply ProductLevelLines.find_app_last.
    + now apply within_stock.
    + cbn [set_items c_items]. unfold other_lines. rewrite filter_app. simpl.
      rewrite Hl. simpl. apply app_nil_r.
Qed.

(** A successful [update_item_quantity] has rewritten the first line with the
    [item_id]: it holds the requested quantity (positive, and within the stock
    of the variant when the stock is tracked), its price and display fields
    are taken afresh from the catalog, and the lines before and after it are
    as they were. *)
Theorem update_item_quantity_rewrites_the_line (db : Database) (user_id : ObjectId)
    (item_id_str : string) (quantity : Z) (cart' : CartDocument) (db' : Database) :
  update_item_quantity user_id item_id_str quantity db = (Ok cart', db') ->
  exists item_id before item after line product_id product variant,
    Bson.ObjectId_of_str item_id_str = Some item_id
    /\ items_of db user_id = (before ++ item :: after)%list
    /\ Forall (fun it => ci_item_id it <> item_id) before
    /\ ci_item_id item = item_id
    /\ c_items cart' = (before ++ line :: after)%list
    /\ ci_product_id item = Some product_id
    /\ get_product_with_variant db product_id (ci_variant_id item) = Ok (product, variant)
    /\ ci_item_id line = item_id
    /\ line_key line = line_key item
    /\ ci_quantity line = quantity /\ 0 < quantity
    /\ ci_price line = price_of product variant
    /\ ci_product_name line = p_name product
    /\ (forall stock, stock_quantity_of variant = Some stock -> quantity <= stock).
Proof.
  intro H. apply update_item_quantity_cases in H.
  destruct H as (item_id & cart & db1 & before & item & after & pid & product & variant & now
                 & Hq & Hp & Hens & Hitems & Hb & Hid & Hpid & Hg & Hs & -> & Hc).
  rewrite <- (ensured_items _ _ _ _ Hens).
  exists item_id, before, item, after.
  eexists. exists pid, product, variant.
  repeat split; try eassumption; try reflexivity.
  now apply within_stock.
Qed.

(** [remove_item] drops every line with the [item_id] and keeps the others in
    their order; when no line of the cart has the [item_id] it fails with the
    404 and leaves the carts alone. *)
Theorem remove_item_drops_the_line (db : Database) (user_id : ObjectId)
    (item_id_str : string) (item_id : ObjectId) :
  Bson.ObjectId_of_str item_id_str = Some item_id ->
  (forall cart' db',
      remove_item user_id item_id_str db = (Ok cart', db') ->
      (exists it, In it (items_of db user_id) /\ ci_item_id it = item_id)
      /\ c_items cart'
         = filter (fun it => negb (oid_eqb (ci_item_id it) item_id)) (items_of db user_id)
      /\ Forall (fun it => ci_item_id it <> item_id) (c_items cart'))
  /\ (Forall (fun it => ci_item_id it <> item_id) (items_of db user_id) ->
      exists e db',
        remove_item user_id item_id_str db = (Raise e, db')
        /\ NotFound e /\ at_most_created user_id db db').
Proof.
  intro Hp. split.
  - intros cart' db' H. apply remove_item_cases in H.
    destruct H as (iid & cart & db1 & now & Hp' & Hens & Hex & -> & Hc).
    rewrite Hp in Hp'. injection Hp' as <-.
    rewrite <- (ensured_items _ _ _ _ Hens). cbn [set_items c_items].
    repeat split; try assumption.
    apply Forall_forall. intros it Hin. apply filter_In in Hin. destruct Hin as [_ Hne].
    intro E. apply oid_eqb_eq in E. rewrite E in Hne. discriminate.
  - intro Hall.
    destruct (remove_item user_id item_id_str db) as [[cart'|e] db'] eqn:E.
    + apply remove_item_cases in E.
      destruct E as (iid & cart & db1 & now & Hp' & Hens & (it & Hin & Hid) & _).
      rewrite Hp in Hp'. injection Hp' as <-.
      rewrite (ensured_items _ _ _ _ Hens) in Hin.
      rewrite Forall_forall in Hall. now elim (Hall it Hin).
    + pose proof (remove_item_cases _ _ _ _ _ E) as Hc. cbn in Hc.
      exists e, db'. repeat split; try assumption.
      revert E. unfold remove_item. cbn [_parse_object_id]. rewrite Hp.
      unfold bind at 1. unfold lift at 1.
      destruct (ensured_cases user_id db) as (cart & db1 & (He & _)).
      unfold bind at 1. rewrite He.
      destruct (Nat.eqb _ _); [intro H; injection H as <- _; reflexivity|].
      unfold_service. discriminate.
Qed.

(** ** One user's requests and the other users' carts *)

(** The four requests that write a cart ([modules/cart/router.py]). *)
Inductive operation : Type :=
| AddItem (product_id : string) (variant_id : option string) (quantity : Z)
| UpdateItem (item_id : string) (quantity : Z)
| RemoveItem (item_id : string)
| ClearCart.

Definition run (user_id : ObjectId) (op : operation) : M CartDocument :=
  match op with
  | AddItem product_id variant_id quantity => add_item user_id product_id variant_id quantity
  | UpdateItem item_id quantity => update_item_quantity user_id item_id quantity
  | RemoveItem item_id => remove_item user_id item_id
  | ClearCart => clear_cart user_id
  end.

(** The [_id]s of the stored carts are distinct, and the next fresh
    [ObjectId] is none of them. *)
Definition cart_ids_distinct (db : Database) : Prop :=
  NoDup (map c_id (carts db) ++ [next_oid db]).

Lemma run_cases user_id op db r db' :
  run user_id op db = (r, db') ->
  match r with
  | Raise e => at_most_created user_id db db'
  | Ok cart' =>
      exists cart db1 now,
        ensured user_id db cart db1
        /\ cart' = set_items (c_items cart') now cart
        /\ carts db' = update_one (by_id (c_id cart)) (set_items (c_items cart') now) (carts db1)
  end.
Proof.
  destruct op as [ps vs q|ids q|ids|]; simpl; intro H.
  - apply add_item_cases in H. destruct r as [cart'|e]; [|exact H].
    destruct H as (pid & vid & cart & db1 & product & variant & new_items & now & _ & _
                   & Hens & _ & _ & _ & -> & Hc).
    exists cart, db1, now. auto.
  - apply update_item_quantity_cases in H. destruct r as [cart'|e]; [|exact H].
    destruct H as (item_id & cart & db1 & before & item & after & pid & product & variant & now
                   & _ & _ & Hens & _ & _ & _ & _ & _ & _ & -> & Hc).
    exists cart, db1, now. auto.
  - apply remove_item_cases in H. destruct r as [cart'|e]; [|exact H].
    destruct H as (item_id & cart & db1 & now & _ & Hens & _ & -> & Hc).
    exists cart, db1, now. auto.
  - destruct (clear_cart_cases user_id db) as (cart & db1 & now & db2 & Hr & Hens & Hc).
    rewrite Hr in H. injection H as <- <-.
    exists cart, db1, now. auto.
Qed.

Lemma find_app_none {A} (p : A -> bool) l x :
  p x = false -> find p (l ++ [x])%list = find p l.
Proof.
  intro Hx. induction l as [|y l IH]; simpl; [now rewrite Hx|].
  destruct (p y); [reflexivity|exact IH].
Qed.

Lemma owned_by_other user_id other cart :
  c_user_id cart = user_id -> other <> user_id -> owned_by other cart = false.
Proof.
  intros <- Hne. unfold owned_by. destruct (oid_eqb (c_user_id cart) other) eqn:E; [|reflexivity].
  apply oid_eqb_eq in E. congruence.
Qed.

Lemma update_one_absent cart_id f (l : list CartDocument) :
  ~ In cart_id (map c_id l) -> update_one (by_id cart_id) f l = l.
Proof.
  induction l as [|x l IH]; simpl; intro Hn; [reflexivity|].
  unfold by_id at 1. destruct (oid_eqb (c_id x) cart_id) eqn:E.
  - apply oid_eqb_eq in E. tauto.
  - rewrite IH; tauto.
Qed.

Lemma update_one_app_last cart_id f (l : list CartDocument) cart :
  ~ In cart_id (map c_id l) -> c_id cart = cart_id ->
  update_one (by_id cart_id) f (l ++ [cart])%list = (l ++ [f cart])%list.
Proof.
  induction l as [|x l IH]; simpl; intros Hn Hc.
  - unfold by_id. rewrite Hc, oid_eqb_refl. reflexivity.
  - unfold by_id at 1. destruct (oid_eqb (c_id x) cart_id) eqn:E.
    + apply oid_eqb_eq in E. tauto.
    + rewrite IH; tauto.
Qed.

Lemma find_update_one_own user_id cart items now (l : list CartDocument) :
  NoDup (map c_id l) ->
  find (owned_by user_id) l = Some cart ->
  find (owned_by user_id) (update_one (by_id (c_id cart)) (set_items items now) l)
  = Some (set_items items now cart).
Proof.
  induction l as [|x l IH]; simpl; intros Hn Hf; [discriminate|].
  inversion Hn as [|? ? Hx Hl]; subst.
  destruct (owned_by user_id x) eqn:E.
  - injection Hf as ->. unfold by_id at 1. rewrite oid_eqb_refl. simpl.
    unfold owned_by in *. simpl. now rewrite E.
  - unfold by_id at 1. destruct (oid_eqb (c_id x) (c_id cart)) eqn:Ei.
    + apply oid_eqb_eq in Ei. apply find_some in Hf. destruct Hf as [Hin _].
      elim Hx. rewrite Ei. now apply in_map.
    + simpl. rewrite E. now apply IH.
Qed.

Lemma find_update_one_other user_id other cart items now (l : list CartDocument) :
  NoDup (map c_id l) ->
  In cart l -> c_user_id cart = user_id -> other <> user_id ->
  find (owned_by other) (update_one (by_id (c_id cart)) (set_items items now) l)
  = find (owned_by other) l.
Proof.
  intros Hn Hin Hu Hne. induction l as [|x l IH]; simpl in *; [reflexivity|].
  inversion Hn as [|? ? Hx Hl]; subst.
  unfold by_id at 1. destruct (oid_eqb (c_id x) (c_id cart)) eqn:Ei.
  - apply oid_eqb_eq in Ei.
    assert (x = cart).
    { destruct Hin as [E|Hin]; [exact E|]. elim Hx. rewrite Ei. now apply in_map. }
    subst x. simpl.
    assert (Ho : owned_by other cart = false) by now apply (owned_by_other (c_user_id cart)).
    unfold owned_by in *. simpl. now rewrite Ho.
  - simpl. destruct (owned_by other x); [reflexivity|].
    destruct Hin as [E|Hin]; [subst x; rewrite oid_eqb_refl in Ei; discriminate|].
    now apply IH.
Qed.

(** With distinct cart [_id]s, a cart request of one user, whether it
    succeeds or fails, leaves the cart of every other user as it was; and
    after a successful request the cart stored for the user has the [_id],
    the owner and, line by line, the products, quantities and prices of the
    cart the request returns (the datetimes apart, which the store keeps to
    the millisecond). *)
Theorem cart_request_touches_one_cart (db : Database) (user_id : ObjectId) (op : operation)
    (r : Result CartDocument) (db' : Database) :
  cart_ids_distinct db ->
  run user_id op db = (r, db') ->
  (forall other, other <> user_id ->
     find_one (owned_by other) (carts db') = find_one (owned_by other) (carts db))
  /\ (forall cart', r = Ok cart' ->
        exists stored,
          find_one (owned_by user_id) (carts db') = Some stored
          /\ Stored.cart stored cart').
Proof.
  unfold cart_ids_distinct, find_one. intros Hd H. apply run_cases in H.
  assert (Hn : NoDup (map c_id (carts db))) by (now apply NoDup_app_remove_r in Hd).
  assert (Hfresh : ~ In (next_oid db) (map c_id (carts db))).
  { intro Hin. apply NoDup_remove_2 in Hd. apply Hd. now rewrite app_nil_r. }
  destruct r as [cart'|e].
  - destruct H as (cart & db1 & now & (_ & _ & Hens) & Hcart & ->).
    destruct Hens as [[Hf ->]|(Hf & Hi & Hu & Hid & ->)].
    + pose proof (find_some _ _ Hf) as [Hin Ho]. apply oid_eqb_eq in Ho.
      split.
      * intros other Hne. now apply (find_update_one_other user_id).
      * intros c [= <-]. exists cart'. split; [|apply StoredFacts.cart_same].
        rewrite Hcart at 2. now apply find_update_one_own.
    + rewrite update_one_app_last; [|now rewrite Hid|reflexivity].
      split.
      * intros other Hne. apply find_app_none. unfold owned_by. simpl.
        now apply (owned_by_other user_id).
      * intros c [= <-]. exists cart'. split; [|apply StoredFacts.cart_same].
        rewrite <- Hcart.
        assert (Ho : owned_by user_id cart' = true).
        { rewrite Hcart. unfold owned_by. simpl. rewrite Hu. apply oid_eqb_refl. }
        now apply ProductLevelLines.find_app_last.
  - split; [|discriminate].
    intros other Hne. destruct H as [->|(_ & cart & -> & _ & Hu)]; [reflexivity|].
    apply find_app_none. now apply (owned_by_other user_id).
Qed.

End CartLines.

Ltac distinct_by_computation :=
  repeat (constructor; [cbn; intuition discriminate|]); constructor.

(** One more large shirt goes into the sample cart, which keeps its two lines. *)
Lemma cart_keeps_one_line_per_product_witness :
  CartLines.one_line_per_product Sample.db
  /\ exists r db',
       Cart.add_item Sample.buyer Sample.shirt_id (Some Sample.shirt_large_id) 1 Sample.db
       = (r, db')
       /\ CartLines.one_line_per_product db'.
Proof.
  assert (Hinv : CartLines.one_line_per_product Sample.db).
  { constructor; [|constructor]. distinct_by_computation. }
  split; [exact Hinv|].
  eexists. eexists. split; [vm_compute; reflexivity|].
  refine (proj1 (CartLines.cart_keeps_one_line_per_product Sample.db Sample.buyer Hinv)
            Sample.shirt_id (Some Sample.shirt_large_id) 1 _ _ _).
  vm_compute. reflexivity.
Defined.

(** Four large shirts are in the cart and five in stock: one more is merged
    into the line, which then holds five. *)
Lemma add_item_merges_within_stock_witness :
  exists cart' db',
    Cart.add_item Sample.buyer Sample.shirt_id (Some Sample.shirt_large_id) 1 Sample.db
    = (Ok cart', db')
    /\ exists product_id variant_id product variant line,
         Bson.ObjectId_of_str Sample.shirt_id = Some product_id
         /\ Cart._parse_object_id (Some Sample.shirt_large_id) "variant_id" = Ok variant_id
         /\ get_product_with_variant Sample.db product_id variant_id = Ok (product, variant)
         /\ find (Cart.same_line product_id variant_id) (c_items cart') = Some line
         /\ ci_quantity line
            = CartLines.quantity_in (CartLines.items_of Sample.db Sample.buyer)
                product_id variant_id + 1
         /\ ci_price line = Cart.price_of product variant
         /\ (forall stock, Cart.stock_quantity_of variant = Some stock ->
               ci_quantity line <= stock)
         /\ CartLines.other_lines product_id variant_id (c_items cart')
            = CartLines.other_lines product_id variant_id
                (CartLines.items_of Sample.db Sample.buyer).
Proof.
  assert (E : exists cart' db',
             Cart.add_item Sample.buyer Sample.shirt_id (Some Sample.shirt_large_id) 1
               Sample.db = (Ok cart', db'))
    by (eexists; eexists; vm_compute; reflexivity).
  destruct E as (cart' & db' & E). exists cart', db'. split; [exact E|].
  exact (CartLines.add_item_merges_within_stock Sample.db Sample.buyer Sample.shirt_id
           (Some Sample.shirt_large_id) 1 cart' db' E).
Defined.

(** The line of four large shirts is set to two. *)
Lemma update_item_quantity_rewrites_the_line_witness :
  exists cart' db',
    Cart.update_item_quantity Sample.buyer Sample.shirt_line_id 2 Sample.db = (Ok cart', db')
    /\ exists item_id before item after line,
         Bson.ObjectId_of_str Sample.shirt_line_id = Some item_id
         /\ CartLines.items_of Sample.db Sample.buyer = (before ++ item :: after)%list
         /\ c_items cart' = (before ++ line :: after)%list
         /\ ci_item_id line = item_id
         /\ ci_quantity line = 2.
Proof.
  assert (E : exists cart' db',
             Cart.update_item_quantity Sample.buyer Sample.shirt_line_id 2 Sample.db
             = (Ok cart', db'))
    by (eexists; eexists; vm_compute; reflexivity).
  destruct E as (cart' & db' & E). exists cart', db'. split; [exact E|].
  destruct (CartLines.update_item_quantity_rewrites_the_line Sample.db Sample.buyer
              Sample.shirt_line_id 2 cart' db' E)
    as (item_id & before & item & after & line & pid & product & variant & H1 & H2 & _ & _
        & H3 & _ & _ & H4 & _ & H5 & _).
  exists item_id, before, item, after, line. auto.
Defined.

(** The mug line is removed from the sample cart; a line that is not there
    is a 404. *)
Lemma remove_item_drops_the_line_witness :
  (exists cart' db',
      Cart.remove_item Sample.buyer Sample.mug_line_id Sample.db = (Ok cart', db')
      /\ Forall (fun it => ci_item_id it <> 66%N) (c_items cart'))
  /\ (exists e db',
        Cart.remove_item Sample.buyer Sample.shirt_id Sample.db = (Raise e, db')
        /\ NotFound e /\ CartLines.at_most_created Sample.buyer Sample.db db').
Proof.
  split.
  - assert (E : exists cart' db',
               Cart.remove_item Sample.buyer Sample.mug_line_id Sample.db = (Ok cart', db'))
      by (eexists; eexists; vm_compute; reflexivity).
    destruct E as (cart' & db' & E). exists cart', db'. split; [exact E|].
    exact (proj2 (proj2 (proj1 (CartLines.remove_item_drops_the_line Sample.db Sample.buyer
                                  Sample.mug_line_id 66%N eq_refl) cart' db' E))).
  - apply (proj2 (CartLines.remove_item_drops_the_line Sample.db Sample.buyer
                    Sample.shirt_id 16%N eq_refl)).
    repeat constructor; discriminate.
Defined.

(** The first buyer's request leaves the cart that the second buyer has in
    the same database alone. *)
Lemma cart_request_touches_one_cart_witness :
  exists r db',
    CartLines.run Sample.buyer (CartLines.RemoveItem Sample.mug_line_id) Sample.db_two_carts
    = (r, db')
    /\ find_one (Cart.owned_by Sample.buyer2) (carts db')
       = find_one (Cart.owned_by Sample.buyer2) (carts Sample.db_two_carts)
    /\ forall cart', r = Ok cart' ->
         exists stored,
           find_one (Cart.owned_by Sample.buyer) (carts db') = Some stored
           /\ Stored.cart stored cart'.
Proof.
  eexists. eexists. split; [vm_compute; reflexivity|].
  assert (Hd : CartLines.cart_ids_distinct Sample.db_two_carts) by distinct_by_computation.
  destruct (CartLines.cart_request_touches_one_cart Sample.db_two_carts Sample.buyer
              (CartLines.RemoveItem Sample.mug_line_id) _ _ Hd
              ltac:(vm_compute; reflexivity)) as [H1 H2].
  split; [apply H1; discriminate|exact H2].
Defined.

(* ================================================================== *)
(** * ObjectIds and their string form *)
(* ================================================================== *)

Module BsonFacts.
Import Bson.

Lemma hex_digit_hex_char d : (d < 16)%N -> hex_digit (hex_char d) = Some d.
Proof.
  intro H. destruct d as [|p]; [reflexivity|].
  repeat (destruct p as [p|p|]; try reflexivity; try (exfalso; lia)).
Qed.

Lemma parse_hex_hex_digits k :
  forall n acc a,
    parse_hex (hex_digits k n acc) a
    = parse_hex acc (a * 16 ^ N.of_nat k + n mod 16 ^ N.of_nat k)%N.
Proof.
  induction k as [|k IH]; intros n acc a.
  - simpl. f_equal. rewrite N.mod_1_r. lia.
  - cbn [hex_digits]. rewrite IH. cbn [parse_hex].
    rewrite hex_digit_hex_char by (apply N.mod_lt; lia).
    f_equal. rewrite Nat2N.inj_succ, N.pow_succ_r'.
    rewrite (N.Div0.mod_mul_r n 16 (16 ^ N.of_nat k)). lia.
Qed.

Lemma length_hex_digits k : forall n acc,
  List.length (hex_digits k n acc) = (k + List.length acc)%nat.
Proof.
  induction k as [|k IH]; intros n acc; simpl; [reflexivity|].
  rewrite IH. simpl. lia.
Qed.

Lemma length_str l : String.length (Py.str l) = List.length l.
Proof. induction l as [|c l IH]; simpl; [reflexivity|now rewrite IH]. Qed.

Lemma ObjectId_of_str_of_ObjectId (o : ObjectId) :
  (o < 2 ^ 96)%N -> ObjectId_of_str (str_of_ObjectId o) = Some o.
Proof.
  intro H. unfold ObjectId_of_str, str_of_ObjectId.
  rewrite length_str, length_hex_digits. cbn [List.length Nat.add Nat.eqb].
  unfold Py.chars, Py.str. rewrite list_ascii_of_string_of_list_ascii.
  rewrite parse_hex_hex_digits. cbn [parse_hex]. f_equal.
  rewrite N.mul_0_l, N.add_0_l. apply N.mod_small.
  replace (16 ^ N.of_nat 24)%N with (2 ^ 96)%N by reflexivity. exact H.
Qed.

End BsonFacts.

(* ================================================================== *)
(** * Checkout: what a created order is *)
(* ================================================================== *)

Module Checkout.
Import Orders.

Lemma ensured_frame user_id db cart db1 :
  CartLines.ensured user_id db cart db1 ->
  addresses db1 = addresses db /\ orders db1 = orders db
  /\ notifications db1 = notifications db
  /\ notification_preferences db1 = notification_preferences db
  /\ clock db1 = clock db
  /\ find_one (Cart.owned_by user_id) (carts db1) = Some cart.
Proof.
  intros (He & _ & [[Hf ->]|(Hf & Hi & Hu & Hid & Hc)]).
  - repeat split. exact Hf.
  - revert He. unfold Cart._ensure_cart. unfold_service. rewrite Hf.
    intro H. injection H as <- <-. cbn. repeat split.
    unfold find_one, insert_one. apply ProductLevelLines.find_app_last; [exact Hf|].
    unfold Cart.owned_by. simpl. apply oid_eqb_refl.
Qed.

Lemma create_notification_frame user_id notification_type title message metadata channel db
    r db' :
  Notifications.create_notification user_id notification_type title message metadata channel db
  = (r, db') ->
  (exists v, r = Ok v)
  /\ products db' = products db /\ addresses db' = addresses db
  /\ carts db' = carts db /\ orders db' = orders db
  /\ notification_preferences db' = notification_preferences db
  /\ clock db' = clock db
  /\ (notifications db' = notifications db
      \/ exists doc, notifications db' = (notifications db ++ [doc])%list
                     /\ n_user_id doc = user_id /\ n_type doc = notification_type
                     /\ n_is_read doc = false).
Proof.
  unfold Notifications.create_notification. unfold_service.
  destruct (negb _); intro H; injection H as <- <-; cbn.
  - repeat split; eauto.
  - repeat split; eauto. right. eexists. repeat split.
Qed.

(** The timeline of a new order. *)
Definition created_entry (user_id : ObjectId) (now : datetime) : OrderTimelineEntryDocument :=
  {| tl_status := "created";
     tl_note := Some "Đơn hàng đã được tạo";
     tl_created_at := now;
     tl_actor_id := Some user_id |}.

(** A successful checkout, step by step. *)
Lemma checkout_ok user_id address_id_str payment_method note db order db' :
  create_order_from_cart user_id address_id_str payment_method note db = (Ok order, db') ->
  exists address_id cart db1 address items seller_id subtotal,
    Bson.ObjectId_of_str address_id_str = Some address_id
    /\ CartLines.ensured user_id db cart db1
    /\ c_items cart <> []
    /\ get_address_by_id db user_id address_id = Ok address
    /\ _build_order_items db cart = Ok (items, seller_id, subtotal)
    /\ o_id order = next_oid db1
    /\ o_buyer_id order = user_id
    /\ o_seller_id order = Some seller_id
    /\ o_order_code order
       = "ORD-" ++ Datetime.strftime_compact_usec (clock db (S (ticks db1)))
    /\ o_address_snapshot order = address_snapshot address
    /\ o_payment_method order = payment_method
    /\ o_payment_status order = "pending"
    /\ o_fulfillment_status order = "pending_confirmation"
    /\ o_items order = items
    /\ o_subtotal_amount order = subtotal
    /\ o_timeline order = [created_entry user_id (clock db (ticks db1))]
    /\ o_note order = note
    /\ orders db' = (orders db ++ [order])%list
    /\ carts db'
       = update_one (Cart.by_id (c_id cart))
           (Cart.set_items [] (clock db (S (S (ticks db1))))) (carts db1)
    /\ products db' = products db
    /\ addresses db' = addresses db.
Proof.
  unfold create_order_from_cart.
  destruct (Bson.ObjectId_of_str address_id_str) as [address_id|]; [|discriminate].
  unfold Cart.get_cart.
  destruct (CartLines.ensured_cases user_id db) as (cart & db1 & Hens).
  pose proof Hens as (He & Hprod & _).
  destruct (ensured_frame _ _ _ _ Hens) as (Haddr & Hord & Hnot & Hpref & Hclock & Hfind).
  rewrite (bind_ok _ _ _ _ _ He).
  destruct (c_items cart) as [|i0 r0] eqn:Ei; [discriminate|].
  rewrite bind_gets_lift.
  assert (Ha : get_address_by_id db1 user_id address_id
               = get_address_by_id db user_id address_id).
  { unfold get_address_by_id. now rewrite Haddr. }
  rewrite Ha.
  destruct (get_address_by_id db user_id address_id) as [address|e] eqn:Eaddr; [|discriminate].
  rewrite bind_gets_lift.
  assert (Hb : _build_order_items db1 cart = _build_order_items db cart).
  { unfold _build_order_items.
    assert (G : forall l items s t,
               build_order_items_loop db1 l items s t = build_order_items_loop db l items s t).
    { induction l as [|x l IH]; intros items s t; simpl; [reflexivity|].
      unfold build_order_item.
      destruct (ci_product_id x) as [pid|]; [|reflexivity].
      rewrite (get_product_with_variant_frame db db1 _ _ Hprod).
      destruct (get_product_with_variant db pid (ci_variant_id x)) as [[p v]|]; [|reflexivity].
      destruct (_ensure_single_seller s (p_seller_id p)); [|reflexivity].
      apply IH. }
    now rewrite G. }
  rewrite Hb.
  destruct (_build_order_items db cart) as [[[items seller_id] subtotal]|e] eqn:B;
    [|discriminate].
  unfold bind at 1. unfold utcnow at 1.
  unfold bind at 1. unfold _generate_order_code at 1. unfold bind at 1. unfold utcnow at 1.
  unfold ret at 1.
  unfold bind at 1. unfold new_ObjectId at 1.
  unfold bind at 1. unfold modify at 1.
  cbn [ticks with_ticks clock next_oid with_next_oid orders].
  match goal with |- bind (Cart.clear_cart ?u) _ ?d = _ -> _ =>
    set (db2 := d) end.
  assert (Hc2 : carts db2 = carts db1) by reflexivity.
  assert (He2 : Cart._ensure_cart user_id db2 = (Ok cart, db2)).
  { apply CartFacts.ensure_cart_found. now rewrite Hc2. }
  unfold Cart.clear_cart at 1. unfold bind at 1. unfold bind at 1. rewrite He2.
  unfold bind at 1. unfold utcnow at 1. unfold bind at 1. unfold modify at 1.
  unfold ret at 1.
  match goal with |- bind (Notifications.create_notification ?a ?b ?c ?d ?e ?f) _ ?d0 = _ -> _ =>
    destruct (Notifications.create_notification a b c d e f d0) as [r1 d1] eqn:Hn1;
    destruct (create_notification_frame _ _ _ _ _ _ _ _ _ Hn1)
      as ((v1 & ->) & Hp1 & Ha1 & Hc1 & Ho1 & _) end.
  rewrite (bind_ok _ _ _ _ _ Hn1).
  match goal with |- bind (Notifications.create_notification ?a ?b ?c ?d ?e ?f) _ ?d0 = _ -> _ =>
    destruct (Notifications.create_notification a b c d e f d0) as [r2 d3] eqn:Hn2;
    destruct (create_notification_frame _ _ _ _ _ _ _ _ _ Hn2)
      as ((v2 & ->) & Hp2 & Ha2 & Hc2' & Ho2 & _) end.
  rewrite (bind_ok _ _ _ _ _ Hn2). unfold ret. intro H. injection H as <- <-.
  exists address_id, cart, db1, address, items, seller_id, subtotal.
  rewrite Hp2, Ha2, Hc2', Ho2, Hp1, Ha1, Hc1, Ho1. cbn.
  rewrite Hclock, Hord, Hprod, Haddr.
  split; [reflexivity|]. split; [exact Hens|]. split; [now rewrite Ei|].
  repeat split; try reflexivity; try assumption.
Qed.

Lemma ensured_nonempty user_id db cart db1 :
  CartLines.ensured user_id db cart db1 -> c_items cart <> [] ->
  db1 = db /\ find_one (Cart.owned_by user_id) (carts db) = Some cart.
Proof.
  intros (_ & _ & [[Hf ->]|(_ & Hi & _)]) Hne; [auto|contradiction].
Qed.

(** ** The order and the cart it was made from *)

(** An order item against the cart line it was built from: the product and
    variant of the line as the catalog resolves them, sold by the seller of
    the order; the quantity of the line; the price of the line, or the
    catalog price when the line has none (or 0). *)
Definition mirrors (db : Database) (seller_id : ObjectId) (line : CartItemDocument)
    (oi : OrderItemDocument) : Prop :=
  exists product variant,
    ci_product_id line = Some (oi_product_id oi)
    /\ get_product_with_variant db (oi_product_id oi) (ci_variant_id line)
       = Ok (product, variant)
    /\ p_seller_id product = Some seller_id
    /\ oi_variant_id oi = ci_variant_id line
    /\ oi_product_name oi = p_name product
    /\ oi_quantity oi = ci_quantity line
    /\ oi_price oi = Py.or_float (ci_price line) (Cart.price_of product variant)
    /\ oi_total_amount oi
       = Py.round2 (PrimFloat.mul (oi_price oi) (Py.float_of_int (oi_quantity oi))).

Lemma build_order_item_mirrors db seller line oi seller' total :
  build_order_item db seller line = Ok (oi, seller', total) ->
  mirrors db seller' line oi /\ (forall c, seller = Some c -> c = seller').
Proof.
  unfold build_order_item.
  destruct (ci_product_id line) as [pid|] eqn:Hp; [|discriminate].
  destruct (get_product_with_variant db pid (ci_variant_id line)) as [[product variant]|e'] eqn:G;
    [|discriminate].
  destruct (_ensure_single_seller seller (p_seller_id product)) as [s|] eqn:S; [|discriminate].
  intro H. injection H as <- <- _.
  destruct (SingleSeller.ensure_single_seller_ok _ _ _ S) as [Hn Hc].
  pose proof (ProductLevelLines.resolved_product_id _ _ _ _ _ G) as Hid.
  split; [|exact Hc].
  exists product, variant. cbn.
  rewrite Hid, (CatalogLookup.resolved_variant_id _ _ _ _ _ G).
  repeat split; assumption.
Qed.

Lemma build_order_items_loop_mirrors db lines :
  forall items seller subtotal items' seller' subtotal',
    build_order_items_loop db lines items seller subtotal = Ok (items', seller', subtotal') ->
    exists new_items,
      items' = (items ++ new_items)%list
      /\ (forall c, seller = Some c -> seller' = Some c)
      /\ Forall2 (fun line oi => exists s, seller' = Some s /\ mirrors db s line oi)
                 lines new_items.
Proof.
  induction lines as [|line rest IH]; intros items seller subtotal items' seller' subtotal' H;
    simpl in H.
  - injection H as <- <- _. exists []. rewrite app_nil_r. repeat split; [auto|constructor].
  - destruct (build_order_item db seller line) as [[[oi s] t]|e] eqn:B; [|discriminate].
    destruct (build_order_item_mirrors _ _ _ _ _ _ B) as [Hm Hc].
    destruct (IH _ _ _ _ _ _ H) as (new_items & -> & Hs & Hall).
    exists (oi :: new_items). rewrite <- app_assoc. split; [reflexivity|]. split.
    + intros c ->. rewrite (Hs s eq_refl). now rewrite (Hc c eq_refl).
    + constructor; [|exact Hall]. exists s. split; [now apply Hs|exact Hm].
Qed.

Lemma build_order_items_mirrors db cart items seller_id subtotal :
  _build_order_items db cart = Ok (items, seller_id, subtotal) ->
  Forall2 (mirrors db seller_id) (c_items cart) items.
Proof.
  unfold _build_order_items.
  destruct (build_order_items_loop db (c_items cart) [] None Py.zero)
    as [[[its [s|]] st]|e] eqn:L; try discriminate.
  intro H. injection H as <- <- _.
  destruct (build_order_items_loop_mirrors _ _ _ _ _ _ _ _ L) as (new_items & -> & _ & Hall).
  simpl. eapply Forall2_impl; [|exact Hall].
  intros line oi (s' & [= <-] & Hm). exact Hm.
Qed.

(** The items of a created order are the lines of the buyer's cart, one for
    one and in their order: each item is the product and variant of its line
    as the catalog resolves them at checkout, with the quantity of the line
    and the price the line carries (the catalog price only when the line
    carries none), and every product is sold by the one seller of the order. *)
Theorem order_items_mirror_cart_lines (db db' : Database) (user_id : ObjectId)
    (address_id_str payment_method : string) (note : option string) (order : OrderDocument) :
  create_order_from_cart user_id address_id_str payment_method note db = (Ok order, db') ->
  exists seller_id,
    o_seller_id order = Some seller_id
    /\ CartLines.items_of db user_id <> []
    /\ Forall2 (mirrors db seller_id) (CartLines.items_of db user_id) (o_items order).
Proof.
  intro H. apply checkout_ok in H.
  destruct H as (address_id & cart & db1 & address & items & seller_id & subtotal & _ & Hens
                 & Hne & _ & Hb & _ & _ & Hs & _ & _ & _ & _ & _ & Hi & _).
  rewrite <- (CartLines.ensured_items _ _ _ _ Hens), Hi.
  exists seller_id. repeat split; try assumption.
  now apply (build_order_items_mirrors db cart items seller_id subtotal).
Qed.

(** ** The subtotal of the order and the subtotal of the cart *)

Definition cart_line_total (line : CartItemDocument) : float :=
  PrimFloat.mul (ci_price line) (Py.float_of_int (ci_quantity line)).

Lemma calculate_cart_totals_sums cart :
  Cart.calculate_cart_totals cart
  = (Py.round2 (Py.fsum Py.zero (map cart_line_total (c_items cart))),
     fold_left Z.add (map ci_quantity (c_items cart)) 0).
Proof.
  unfold Cart.calculate_cart_totals, Py.fsum.
  generalize Py.zero as a. generalize 0 as n.
  induction (c_items cart) as [|x l IH]; intros n a; simpl; [reflexivity|].
  apply IH.
Qed.

(** When every line of the cart carries a price other than 0, the subtotal
    of the created order is the subtotal [calculate_cart_totals] shows for the
    cart, and the quantities of the order items add up to its item count. *)
Theorem order_subtotal_is_cart_subtotal (db db' : Database) (user_id : ObjectId)
    (address_id_str payment_method : string) (note : option string) (order : OrderDocument)
    (cart : CartDocument) :
  create_order_from_cart user_id address_id_str payment_method note db = (Ok order, db') ->
  find_one (Cart.owned_by user_id) (carts db) = Some cart ->
  Forall (fun line => Py.truthy_float (ci_price line) = true) (c_items cart) ->
  o_subtotal_amount order = fst (Cart.calculate_cart_totals cart)
  /\ fold_left Z.add (map oi_quantity (o_items order)) 0
     = snd (Cart.calculate_cart_totals cart).
Proof.
  intros H Hf Hall. apply checkout_ok in H.
  destruct H as (address_id & cart0 & db1 & address & items & seller_id & subtotal & _ & Hens
                 & Hne & _ & Hb & _ & _ & _ & _ & _ & _ & _ & _ & Hi & Hsub & _).
  destruct (ensured_nonempty _ _ _ _ Hens Hne) as [-> Hf0].
  rewrite Hf in Hf0. injection Hf0 as <-.
  rewrite calculate_cart_totals_sums. cbn [fst snd]. rewrite Hsub, Hi.
  destruct (OrderTotals.build_order_items_totals _ _ _ _ _ Hb) as [_ ->].
  pose proof (build_order_items_mirrors _ _ _ _ _ Hb) as Hm.
  assert (G : map OrderTotals.line_total items = map cart_line_total (c_items cart)
              /\ map oi_quantity items = map ci_quantity (c_items cart)).
  { clear - Hm Hall. induction Hm as [|line oi lines ois Hl Hrest IH]; [split; reflexivity|].
    inversion Hall as [|? ? Ht Hall']; subst.
    destruct (IH Hall') as [IH1 IH2]. simpl. rewrite IH1, IH2.
    destruct Hl as (product & variant & _ & _ & _ & _ & _ & Hq & Hp & _).
    unfold OrderTotals.line_total, cart_line_total. rewrite Hq, Hp.
    unfold Py.or_float. rewrite Ht. split; reflexivity. }
  destruct G as [-> ->]. split; reflexivity.
Qed.

(** ** What a checkout writes *)

(** A successful checkout appends one order to the collection, pending and
    awaiting confirmation, with a timeline of the one entry "created"; the
    order it returns agrees with the stored one on every field but the
    datetimes, which the store keeps to the millisecond.  It empties the
    buyer's stored cart and leaves every other cart alone (cart [_id]s being
    distinct); and it leaves the products as they are: no stock is taken. *)
Theorem checkout_stores_order_and_empties_cart (db db' : Database) (user_id : ObjectId)
    (address_id_str payment_method : string) (note : option string) (order : OrderDocument) :
  NoDup (map c_id (carts db)) ->
  create_order_from_cart user_id address_id_str payment_method note db = (Ok order, db') ->
  exists stored,
    orders db' = (orders db ++ [stored])%list
    /\ Stored.order stored order
    /\ o_id stored = next_oid db
    /\ o_buyer_id stored = user_id
    /\ o_payment_method stored = payment_method
    /\ o_note stored = note
    /\ o_payment_status stored = "pending"
    /\ o_fulfillment_status stored = "pending_confirmation"
    /\ map tl_status (o_timeline stored) = ["created"]
    /\ map tl_actor_id (o_timeline stored) = [Some user_id]
    /\ CartLines.items_of db' user_id = []
    /\ (forall other, other <> user_id ->
          find_one (Cart.owned_by other) (carts db')
          = find_one (Cart.owned_by other) (carts db))
    /\ products db' = products db.
Proof.
  intros Hn H. apply checkout_ok in H.
  destruct H as (address_id & cart & db1 & address & items & seller_id & subtotal & _ & Hens
                 & Hne & _ & _ & Hid & Hb & _ & _ & _ & Hpm & Hps & Hfs & _ & _ & Htl & Hnote
                 & Ho & Hc & Hp & _).
  destruct (ensured_nonempty _ _ _ _ Hens Hne) as [-> Hf].
  pose proof (find_some _ _ Hf) as [Hin Hown]. apply oid_eqb_eq in Hown.
  exists order. split; [exact Ho|]. split; [apply StoredFacts.order_same|].
  repeat split; try assumption.
  - now rewrite Htl.
  - now rewrite Htl.
  - unfold CartLines.items_of, find_one. rewrite Hc.
    now rewrite (CartLines.find_update_one_own user_id cart [] _ _ Hn Hf).
  - intros other Hne'. rewrite Hc.
    now apply (CartLines.find_update_one_other user_id).
Qed.

(** Checkout with an empty cart, or with no cart yet, fails with the 400
    "Giỏ hàng đang trống" before the address is looked up; no order is
    stored, and the only thing written is the empty cart of a buyer who had
    none. *)
Theorem checkout_of_empty_cart_fails (db : Database) (user_id : ObjectId)
    (address_id_str payment_method : string) (note : option string) (address_id : ObjectId) :
  Bson.ObjectId_of_str address_id_str = Some address_id ->
  CartLines.items_of db user_id = [] ->
  exists db',
    create_order_from_cart user_id address_id_str payment_method note db
    = (Raise (HTTPError HTTP_400_BAD_REQUEST "Giỏ hàng đang trống"), db')
    /\ orders db' = orders db
    /\ CartLines.at_most_created user_id db db'.
Proof.
  intros Hp Hi. unfold create_order_from_cart. rewrite Hp. unfold Cart.get_cart.
  destruct (CartLines.ensured_cases user_id db) as (cart & db1 & Hens).
  pose proof Hens as (He & _).
  rewrite (bind_ok _ _ _ _ _ He).
  rewrite (CartLines.ensured_items _ _ _ _ Hens), Hi.
  exists db1. split; [reflexivity|].
  destruct (ensured_frame _ _ _ _ Hens) as (_ & Ho & _).
  split; [exact Ho|]. now apply (CartLines.ensured_at_most_created _ _ _ _ _ Hens).
Qed.

(** Under the string form of the [_id] of the order a checkout has returned
    (a fresh 96-bit [ObjectId]), [get_order] gives its buyer the stored
    order, which agrees with the returned one on every field but the
    datetimes; any other user gets the 404. *)
Theorem created_order_is_retrievable (db db' : Database) (user_id : ObjectId)
    (address_id_str payment_method : string) (note : option string) (order : OrderDocument) :
  (next_oid db < 2 ^ 96)%N ->
  ~ In (next_oid db) (map o_id (orders db)) ->
  create_order_from_cart user_id address_id_str payment_method note db = (Ok order, db') ->
  (exists stored,
      get_order db' user_id (Bson.str_of_ObjectId (o_id order)) = Ok stored
      /\ Stored.order stored order)
  /\ forall other, other <> user_id ->
       exists e, get_order db' other (Bson.str_of_ObjectId (o_id order)) = Raise e
                 /\ NotFound e.
Proof.
  intros Hlt Hfresh H. apply checkout_ok in H.
  destruct H as (address_id & cart & db1 & address & items & seller_id & subtotal & _ & Hens
                 & Hne & _ & _ & Hid & Hb & _ & _ & _ & _ & _ & _ & _ & _ & _ & _
                 & Ho & _).
  destruct (ensured_nonempty _ _ _ _ Hens Hne) as [-> Hf].
  unfold get_order. rewrite Hid, (BsonFacts.ObjectId_of_str_of_ObjectId _ Hlt), Ho.
  assert (Hnone : forall u,
             find (fun o => oid_eqb (o_id o) (next_oid db) && oid_eqb (o_buyer_id o) u)
                  (orders db) = None).
  { intro u. destruct (find _ (orders db)) as [o|] eqn:E; [|reflexivity].
    apply find_some in E. destruct E as [Hin E]. apply andb_prop in E. destruct E as [E _].
    apply oid_eqb_eq in E. elim Hfresh. rewrite <- E. now apply in_map. }
  unfold find_one. split.
  - exists order. split; [|apply StoredFacts.order_same].
    rewrite (ProductLevelLines.find_app_last _ _ order (Hnone user_id)); [reflexivity|].
    rewrite Hid, Hb, !oid_eqb_refl. reflexivity.
  - intros other Hne'. rewrite CartLines.find_app_none; [rewrite Hnone|].
    + eexists. split; reflexivity.
    + destruct (oid_eqb (o_buyer_id order) other) eqn:E; [|apply andb_false_r].
      apply oid_eqb_eq in E. congruence.
Qed.

End Checkout.

(** The second buyer checks out the pen and the ink. *)
Lemma order_items_mirror_cart_lines_witness :
  exists order db' seller_id,
    Orders.create_order_from_cart Sample.buyer2 Sample.buyer2_address_id "cod" None
      Sample.db_fractional = (Ok order, db')
    /\ o_seller_id order = Some seller_id
    /\ Forall2 (Checkout.mirrors Sample.db_fractional seller_id)
               (CartLines.items_of Sample.db_fractional Sample.buyer2) (o_items order).
Proof.
  assert (E : exists order db',
             Orders.create_order_from_cart Sample.buyer2 Sample.buyer2_address_id "cod" None
               Sample.db_fractional = (Ok order, db'))
    by (eexists; eexists; vm_compute; reflexivity).
  destruct E as (order & db' & E).
  destruct (Checkout.order_items_mirror_cart_lines Sample.db_fractional db' Sample.buyer2
              Sample.buyer2_address_id "cod" None order E) as (seller_id & Hs & _ & Hm).
  exists order, db', seller_id. auto.
Defined.

Lemma order_subtotal_is_cart_subtotal_witness :
  exists order db',
    Orders.create_order_from_cart Sample.buyer2 Sample.buyer2_address_id "cod" None
      Sample.db_fractional = (Ok order, db')
    /\ o_subtotal_amount order = fst (Cart.calculate_cart_totals Sample.buyer2_cart)
    /\ fold_left Z.add (map oi_quantity (o_items order)) 0
       = snd (Cart.calculate_cart_totals Sample.buyer2_cart).
Proof.
  assert (E : exists order db',
             Orders.create_order_from_cart Sample.buyer2 Sample.buyer2_address_id "cod" None
               Sample.db_fractional = (Ok order, db'))
    by (eexists; eexists; vm_compute; reflexivity).
  destruct E as (order & db' & E). exists order, db'. split; [exact E|].
  apply (Checkout.order_subtotal_is_cart_subtotal Sample.db_fractional db' Sample.buyer2
           Sample.buyer2_address_id "cod" None order Sample.buyer2_cart E eq_refl).
  repeat constructor.
Defined.

Lemma checkout_stores_order_and_empties_cart_witness :
  exists order db',
    Orders.create_order_from_cart Sample.buyer2 Sample.buyer2_address_id "cod" None
      Sample.db_fractional = (Ok order, db')
    /\ (exists stored,
          orders db' = (orders Sample.db_fractional ++ [stored])%list
          /\ Stored.order stored order
          /\ o_fulfillment_status stored = "pending_confirmation")
    /\ CartLines.items_of db' Sample.buyer2 = []
    /\ products db' = products Sample.db_fractional.
Proof.
  assert (E : exists order db',
             Orders.create_order_from_cart Sample.buyer2 Sample.buyer2_address_id "cod" None
               Sample.db_fractional = (Ok order, db'))
    by (eexists; eexists; vm_compute; reflexivity).
  destruct E as (order & db' & E). exists order, db'. split; [exact E|].
  assert (Hn : NoDup (map c_id (carts Sample.db_fractional))) by distinct_by_computation.
  destruct (Checkout.checkout_stores_order_and_empties_cart Sample.db_fractional db'
              Sample.buyer2 Sample.buyer2_address_id "cod" None order Hn E)
    as (stored & H1 & Hs & _ & _ & _ & _ & _ & Hf & _ & _ & H2 & _ & H3).
  split; [exists stored; auto|auto].
Defined.

(** The second buyer has no cart in the first sample database. *)
Lemma checkout_of_empty_cart_fails_witness :
  exists db',
    Orders.create_order_from_cart Sample.buyer2 Sample.buyer2_address_id "cod" None Sample.db
    = (Raise (HTTPError HTTP_400_BAD_REQUEST "Giỏ hàng đang trống"), db')
    /\ orders db' = orders Sample.db
    /\ CartLines.at_most_created Sample.buyer2 Sample.db db'.
Proof.
  exact (Checkout.checkout_of_empty_cart_fails Sample.db Sample.buyer2
           Sample.buyer2_address_id "cod" None 50%N eq_refl eq_refl).
Defined.

Lemma created_order_is_retrievable_witness :
  exists order db',
    Orders.create_order_from_cart Sample.buyer2 Sample.buyer2_address_id "cod" None
      Sample.db_fractional = (Ok order, db')
    /\ exists stored,
         Orders.get_order db' Sample.buyer2 (Bson.str_of_ObjectId (o_id order)) = Ok stored
         /\ Stored.order stored order.
Proof.
  assert (E : exists order db',
             Orders.create_order_from_cart Sample.buyer2 Sample.buyer2_address_id "cod" None
               Sample.db_fractional = (Ok order, db'))
    by (eexists; eexists; vm_compute; reflexivity).
  destruct E as (order & db' & E). exists order, db'. split; [exact E|].
  refine (proj1 (Checkout.created_order_is_retrievable Sample.db_fractional db' Sample.buyer2
                   Sample.buyer2_address_id "cod" None order _ _ E)).
  - reflexivity.
  - intros [].
Defined.

(* ================================================================== *)
(** * Order requests: what they keep and what they check *)
(* ================================================================== *)

Module OrderRequests.
Import Orders OrdersRouter.

(** What was ordered stays: the buyer, the seller, the code, the address,
    the payment method, the amounts, the items, the creation time and the
    note are the same, and the timeline has only grown at its end. *)
Definition extends (o o' : OrderDocument) : Prop :=
  o_id o' = o_id o
  /\ o_buyer_id o' = o_buyer_id o
  /\ o_seller_id o' = o_seller_id o
  /\ o_order_code o' = o_order_code o
  /\ o_address_snapshot o' = o_address_snapshot o
  /\ o_payment_method o' = o_payment_method o
  /\ o_subtotal_amount o' = o_subtotal_amount o
  /\ o_shipping_fee o' = o_shipping_fee o
  /\ o_discount_amount o' = o_discount_amount o
  /\ o_total_amount o' = o_total_amount o
  /\ o_items o' = o_items o
  /\ o_created_at o' = o_created_at o
  /\ o_note o' = o_note o
  /\ exists entries, o_timeline o' = (o_timeline o ++ entries)%list.

Lemma extends_refl o : extends o o.
Proof. repeat split. exists []. now rewrite app_nil_r. Qed.

Lemma extends_trans a b c : extends a b -> extends b c -> extends a c.
Proof.
  intros (H1 & H2 & H3 & H4 & H5 & H6 & H7 & H8 & H9 & H10 & H11 & H12 & H13 & (e1 & He1))
         (G1 & G2 & G3 & G4 & G5 & G6 & G7 & G8 & G9 & G10 & G11 & G12 & G13 & (e2 & He2)).
  repeat split; try congruence.
  exists (e1 ++ e2)%list. rewrite He2, He1. now rewrite app_assoc.
Qed.

Lemma extends_apply_update fulfillment payment transaction_id extra now entry o :
  extends o (apply_update fulfillment payment transaction_id extra now entry o).
Proof. repeat split. exists [entry]. reflexivity. Qed.

(** Every stored order is kept in its place, and extended at most. *)
Definition keeps_orders (db db' : Database) : Prop :=
  Forall2 extends (orders db) (orders db')
  /\ products db' = products db /\ carts db' = carts db /\ addresses db' = addresses db.

Lemma Forall2_extends_refl l : Forall2 extends l l.
Proof. induction l; constructor; auto using extends_refl. Qed.

Lemma Forall2_extends_trans a : forall b c,
  Forall2 extends a b -> Forall2 extends b c -> Forall2 extends a c.
Proof.
  induction a as [|x a IH]; intros b c H1 H2.
  - inversion H1; subst. inversion H2; subst. constructor.
  - inversion H1 as [|? y ? b' Hxy Hab]; subst.
    inversion H2 as [|? z ? c' Hyz Hbc]; subst.
    constructor; [now apply (extends_trans x y z)|now apply (IH b')].
Qed.

Lemma keeps_orders_refl db : keeps_orders db db.
Proof. repeat split. apply Forall2_extends_refl. Qed.

Lemma keeps_orders_trans a b c : keeps_orders a b -> keeps_orders b c -> keeps_orders a c.
Proof.
  intros (H1 & H2 & H3 & H4) (G1 & G2 & G3 & G4).
  repeat split; try congruence. now apply (Forall2_extends_trans _ (orders b)).
Qed.

(** A service keeps the orders, whatever it returns. *)
Definition keeps {A} (m : M A) : Prop :=
  forall db r db', m db = (r, db') -> keeps_orders db db'.

Lemma keeps_ret {A} (a : A) : keeps (ret a).
Proof. intros db r db' H. injection H as _ <-. apply keeps_orders_refl. Qed.

Lemma keeps_raise {A} e : keeps (@raise Database A e).
Proof. intros db r db' H. injection H as _ <-. apply keeps_orders_refl. Qed.

Lemma keeps_lift {A} (x : Result A) : keeps (lift x).
Proof. intros db r db' H. injection H as _ <-. apply keeps_orders_refl. Qed.

Lemma keeps_gets {A} (f : Database -> A) : keeps (gets f).
Proof. intros db r db' H. injection H as _ <-. apply keeps_orders_refl. Qed.

Lemma keeps_utcnow : keeps utcnow.
Proof. intros db r db' H. injection H as _ <-. repeat split. apply Forall2_extends_refl. Qed.

Lemma keeps_bind {A B} (m : M A) (k : A -> M B) :
  keeps m -> (forall a, keeps (k a)) -> keeps (bind m k).
Proof.
  intros Hm Hk db r db'. unfold bind.
  destruct (m db) as [[a|e] db1] eqn:E.
  - intro H. apply (keeps_orders_trans db db1 db'); [now apply (Hm db (Ok a))|].
    now apply (Hk a db1 r).
  - intro H. injection H as _ <-. now apply (Hm db (Raise e)).
Qed.

Lemma keeps_create_notification user_id notification_type title message metadata channel :
  keeps (Notifications.create_notification user_id notification_type title message metadata
           channel).
Proof.
  intros db r db' H.
  destruct (Checkout.create_notification_frame _ _ _ _ _ _ _ _ _ H)
    as (_ & Hp & Ha & Hc & Ho & _).
  repeat split; try assumption. rewrite Ho. apply Forall2_extends_refl.
Qed.

Lemma find_one_and_update_extends p f coll :
  (forall o, extends o (f o)) ->
  Forall2 extends coll (snd (find_one_and_update p f coll)).
Proof.
  intro Hf. induction coll as [|x l IH]; simpl; [constructor|].
  destruct (p x); simpl.
  - constructor; [apply Hf|apply Forall2_extends_refl].
  - destruct (find_one_and_update p f l) as [res l']. simpl in *.
    constructor; [apply extends_refl|exact IH].
Qed.

Lemma keeps_find_one_and_update_order p fulfillment payment transaction_id extra now entry :
  keeps (find_one_and_update_order p
           (apply_update fulfillment payment transaction_id extra now entry)).
Proof.
  intros db r db'. unfold find_one_and_update_order.
  pose proof (find_one_and_update_extends p
                (apply_update fulfillment payment transaction_id extra now entry) (orders db)
                (extends_apply_update _ _ _ _ _ _)) as He.
  destruct (find_one_and_update p _ (orders db)) as [[u|] os]; simpl in He;
    intro H; injection H as _ <-.
  - repeat split. exact He.
  - apply keeps_orders_refl.
Qed.

Ltac keeps_step :=
  first [ apply keeps_ret | apply keeps_raise | apply keeps_lift | apply keeps_gets
        | apply keeps_utcnow | apply keeps_create_notification
        | apply keeps_find_one_and_update_order
        | apply keeps_bind; [|intro]
        | match goal with
          | |- keeps (if ?c then _ else _) => destruct c
          | |- keeps (match ?x with _ => _ end) => destruct x
          end ].

Lemma keeps_handle r : keeps (handle r).
Proof.
  destruct r; simpl;
    unfold OrdersRouter.cancel_order, Orders.cancel_order, seller_confirm_order,
           seller_ready_to_ship, seller_mark_delivered, admin_refund_order,
           update_order_fulfillment_status, update_order_payment_status;
    repeat keeps_step.
Qed.

(** No order request changes what was ordered: whatever a buyer's cancel, a
    seller's confirm, ready-to-ship or delivered, or an admin's refund
    returns, every stored order keeps its place, its buyer, seller, code,
    address, items and amounts, its timeline has at most grown at its end,
    and products, carts and addresses are untouched. *)
Theorem order_requests_keep_what_was_ordered (db db' : Database) (r : request)
    (result : Result OrderDocument) :
  handle r db = (result, db') ->
  Forall2 extends (orders db) (orders db')
  /\ products db' = products db /\ carts db' = carts db /\ addresses db' = addresses db.
Proof. intro H. exact (keeps_handle r db result db' H). Qed.

(** ** What the seller and admin endpoints check *)

Lemma find_one_and_update_by_id order_id f coll o :
  find_one (fun x => oid_eqb (o_id x) order_id) coll = Some o ->
  (forall x, o_id (f x) = o_id x) ->
  exists coll',
    find_one_and_update (fun x => oid_eqb (o_id x) order_id) f coll = (Some (f o), coll')
    /\ find_one (fun x => oid_eqb (o_id x) order_id) coll' = Some (f o).
Proof.
  unfold find_one. intros Hf Hid. induction coll as [|x l IH]; simpl in *; [discriminate|].
  destruct (oid_eqb (o_id x) order_id) eqn:E.
  - injection Hf as ->. eexists. split; [reflexivity|]. simpl. now rewrite Hid, E.
  - destruct (IH Hf) as (coll' & -> & Hf'). eexists. split; [reflexivity|].
    simpl. now rewrite E.
Qed.

Definition fulfillment_entry (new_status : string) (note : option string)
    (actor_id : option ObjectId) (now : datetime) : OrderTimelineEntryDocument :=
  {| tl_status := "fulfillment_" ++ new_status;
     tl_note := note;
     tl_created_at := now;
     tl_actor_id := actor_id |}.

Definition payment_entry (new_status : string) (note : option string)
    (actor_id : option ObjectId) (now : datetime) : OrderTimelineEntryDocument :=
  {| tl_status := "payment_" ++ new_status;
     tl_note := note;
     tl_created_at := now;
     tl_actor_id := actor_id |}.

Lemma update_order_fulfillment_status_found order_id new_status note actor_id extra db order :
  get_order_by_object_id db order_id = Ok order ->
  exists db',
    update_order_fulfillment_status order_id new_status note actor_id extra db
    = (Ok (apply_update (Some new_status) None None extra (clock db (ticks db))
             (fulfillment_entry new_status note actor_id (clock db (ticks db))) order), db')
    /\ get_order_by_object_id db' order_id
       = Ok (apply_update (Some new_status) None None extra (clock db (ticks db))
               (fulfillment_entry new_status note actor_id (clock db (ticks db))) order)
    /\ clock db' = clock db /\ ticks db' = S (ticks db).
Proof.
  unfold get_order_by_object_id. intro H.
  destruct (find_one (fun o => oid_eqb (o_id o) order_id) (orders db)) as [o|] eqn:Ef;
    [|discriminate].
  injection H as ->.
  unfold update_order_fulfillment_status, bind, utcnow, find_one_and_update_order.
  cbn [orders with_ticks].
  match goal with
  | |- context [find_one_and_update ?p ?f ?c] =>
      destruct (find_one_and_update_by_id order_id f c order Ef (fun x => eq_refl))
        as (coll' & -> & Hf')
  end.
  eexists. split; [reflexivity|]. cbn [orders with_orders]. rewrite Hf'. repeat split.
Qed.

Lemma update_order_payment_status_found order_id new_status note actor_id transaction_id db
    order :
  get_order_by_object_id db order_id = Ok order ->
  exists db',
    update_order_payment_status order_id new_status note actor_id transaction_id db
    = (Ok (apply_update None (Some new_status) (truthy_str transaction_id) None
             (clock db (ticks db))
             (payment_entry new_status note actor_id (clock db (ticks db))) order), db')
    /\ get_order_by_object_id db' order_id
       = Ok (apply_update None (Some new_status) (truthy_str transaction_id) None
               (clock db (ticks db))
               (payment_entry new_status note actor_id (clock db (ticks db))) order)
    /\ clock db' = clock db /\ ticks db' = S (ticks db).
Proof.
  unfold get_order_by_object_id. intro H.
  destruct (find_one (fun o => oid_eqb (o_id o) order_id) (orders db)) as [o|] eqn:Ef;
    [|discriminate].
  injection H as ->.
  unfold update_order_payment_status, bind, utcnow, find_one_and_update_order.
  cbn [orders with_ticks].
  match goal with
  | |- context [find_one_and_update ?p ?f ?c] =>
      destruct (find_one_and_update_by_id order_id f c order Ef (fun x => eq_refl))
        as (coll' & -> & Hf')
  end.
  eexists. split; [reflexivity|]. cbn [orders with_orders]. rewrite Hf'. repeat split.
Qed.

Lemma notify_then_return {A} user_id notification_type title message metadata channel
    (a : A) db order_id :
  exists db',
    bind (Notifications.create_notification user_id notification_type title message metadata
            channel) (fun _ => ret a) db = (Ok a, db')
    /\ get_order_by_object_id db' order_id = get_order_by_object_id db order_id.
Proof.
  destruct (Notifications.create_notification user_id notification_type title message metadata
              channel db) as [r db'] eqn:E.
  destruct (Checkout.create_notification_frame _ _ _ _ _ _ _ _ _ E)
    as ((v & ->) & _ & _ & _ & Ho & _).
  exists db'. rewrite (bind_ok _ _ _ _ _ E). split; [reflexivity|].
  unfold get_order_by_object_id. now rewrite Ho.
Qed.

(** The three seller endpoints refuse an order of another seller with the
    403, before looking at its status, and write nothing. *)
Theorem seller_requests_refuse_other_sellers_orders (db : Database) (order_id_str : string)
    (order_id : ObjectId) (order : OrderDocument) (current_user : ObjectId)
    (note : option string) :
  Bson.ObjectId_of_str order_id_str = Some order_id ->
  get_order_by_object_id db order_id = Ok order ->
  o_seller_id order <> Some current_user ->
  handle (SellerConfirm order_id_str note current_user) db = (Raise not_allowed, db)
  /\ handle (SellerReadyToShip order_id_str note current_user) db = (Raise not_allowed, db)
  /\ handle (SellerMarkDelivered order_id_str note current_user) db = (Raise not_allowed, db).
Proof.
  intros Hp Hg Hs.
  assert (E : opt_oid_eqb (o_seller_id order) (Some current_user) = false).
  { destruct (opt_oid_eqb _ _) eqn:E; [|reflexivity]. apply opt_oid_eqb_eq in E. contradiction. }
  repeat split; simpl;
    unfold seller_confirm_order, seller_ready_to_ship, seller_mark_delivered, _parse_object_id;
    rewrite Hp; unfold lift at 1; unfold bind at 1;
    rewrite bind_gets_lift, Hg, E; reflexivity.
Qed.



End OrderRequests.

(** The admin refunds the pending pen order: its total is what it was. *)
Lemma order_requests_keep_what_was_ordered_witness :
  exists result db',
    OrdersRouter.handle (OrdersRouter.AdminRefund Sample.pen_order_id None Sample.admin)
      (Sample.db_with_order "pending_confirmation" "pending") = (result, db')
    /\ Forall2 OrderRequests.extends
         (orders (Sample.db_with_order "pending_confirmation" "pending")) (orders db').
Proof.
  eexists. eexists. split; [vm_compute; reflexivity|].
  refine (proj1 (OrderRequests.order_requests_keep_what_was_ordered
                   (Sample.db_with_order "pending_confirmation" "pending") _
                   (OrdersRouter.AdminRefund Sample.pen_order_id None Sample.admin) _ _)).
  vm_compute. reflexivity.
Defined.

(** Seller B asks for the order of seller A. *)
Lemma seller_requests_refuse_other_sellers_orders_witness :
  OrdersRouter.handle (OrdersRouter.SellerConfirm Sample.pen_order_id None Sample.seller_b)
    (Sample.db_with_order "pending_confirmation" "pending")
  = (Raise OrdersRouter.not_allowed, Sample.db_with_order "pending_confirmation" "pending")
  /\ OrdersRouter.handle
       (OrdersRouter.SellerMarkDelivered Sample.pen_order_id None Sample.seller_b)
       (Sample.db_with_order "pending_confirmation" "pending")
     = (Raise OrdersRouter.not_allowed, Sample.db_with_order "pending_confirmation" "pending").
Proof.
  destruct (OrderRequests.seller_requests_refuse_other_sellers_orders
              (Sample.db_with_order "pending_confirmation" "pending") Sample.pen_order_id 97%N
              (Sample.pen_order "pending_confirmation" "pending") Sample.seller_b None
              eq_refl eq_refl ltac:(discriminate)) as (H1 & _ & H3).
  split; assumption.
Defined.



(* ================================================================== *)
(** * VNPay: signatures, the payment records and the webhook *)
(* ================================================================== *)

Module VnPayFlow.
Import Payments.

(** ** Signing and verifying *)

(** The parameters as the query string carries them: every value as [str]
    renders it. *)
Definition as_strings (data : params_dict) : list (string * string) :=
  map (fun kv => (fst kv, str_of_value (snd kv))) data.

Lemma dict_get_map {V W} (g : V -> W) key (d : list (string * V)) :
  dict_get key (map (fun kv => (fst kv, g (snd kv))) d) = option_map g (dict_get key d).
Proof.
  induction d as [|[k v] d IH]; simpl; [reflexivity|].
  destruct (String.eqb k key); [reflexivity|exact IH].
Qed.

Lemma dict_get_app_last {V} key (d : list (string * V)) v :
  dict_get key d = None -> dict_get key (d ++ [(key, v)])%list = Some v.
Proof.
  induction d as [|[k w] d IH]; simpl.
  - now rewrite String.eqb_refl.
  - destruct (String.eqb k key); [discriminate|exact IH].
Qed.

Lemma dict_pop_absent {V} key (d : list (string * V)) :
  dict_get key d = None -> dict_pop key d = d.
Proof.
  unfold dict_pop. induction d as [|[k w] d IH]; simpl; [reflexivity|].
  destruct (String.eqb k key); [discriminate|]. intro H. simpl. now rewrite IH.
Qed.

Lemma dict_pop_app_last {V} key (d : list (string * V)) v :
  dict_pop key (d ++ [(key, v)])%list = dict_pop key d.
Proof.
  unfold dict_pop. rewrite filter_app. simpl. rewrite String.eqb_refl. simpl.
  apply app_nil_r.
Qed.

Lemma insert_sorted_map {V W} (g : V -> W) kv (d : list (string * V)) :
  insert_sorted (fst kv, g (snd kv)) (map (fun x => (fst x, g (snd x))) d)
  = map (fun x => (fst x, g (snd x))) (insert_sorted kv d).
Proof.
  induction d as [|x d IH]; simpl; [reflexivity|].
  destruct (String.leb (fst kv) (fst x)); simpl; [reflexivity|]. now rewrite IH.
Qed.

Lemma sorted_items_map {V W} (g : V -> W) (d : list (string * V)) :
  sorted_items (map (fun x => (fst x, g (snd x))) d)
  = map (fun x => (fst x, g (snd x))) (sorted_items d).
Proof.
  unfold sorted_items. induction d as [|x d IH]; simpl; [reflexivity|].
  rewrite IH. apply insert_sorted_map.
Qed.

(** A parameter set signed by [_create_vnpay_signature] and sent with the
    signature as [vnp_SecureHash] passes [_verify_vnpay_signature] under the
    same secret: both sides sort the parameters by key and join [key=value]
    with [&], the verifier having set the hash aside. *)
Theorem signed_parameters_verify (hmac_sha512_hexdigest : string -> string -> string)
    (data : params_dict) (secret_key : string) :
  dict_get "vnp_SecureHash" data = None ->
  dict_get "vnp_SecureHashType" data = None ->
  _verify_vnpay_signature hmac_sha512_hexdigest
    (as_strings data
       ++ [("vnp_SecureHash", _create_vnpay_signature hmac_sha512_hexdigest data secret_key)])
    secret_key = true.
Proof.
  intros Hh Ht. unfold _verify_vnpay_signature, _create_vnpay_signature, as_strings.
  rewrite dict_get_app_last by (rewrite dict_get_map, Hh; reflexivity).
  rewrite dict_pop_app_last.
  rewrite (dict_pop_absent "vnp_SecureHash") by (rewrite dict_get_map, Hh; reflexivity).
  rewrite (dict_pop_absent "vnp_SecureHashType") by (rewrite dict_get_map, Ht; reflexivity).
  rewrite sorted_items_map, map_map. cbn [fst snd]. unfold sign_data.
  match goal with
  | |- context [hmac_sha512_hexdigest ?k ?m] => generalize (hmac_sha512_hexdigest k m)
  end.
  intros [|c r]; apply String.eqb_refl.
Qed.

(** ** One pending attempt per order and provider *)

Definition pending_for (order_id : ObjectId) (provider : string) (p : PaymentDocument) : bool :=
  oid_eqb (pay_order_id p) order_id && String.eqb (pay_provider p) provider
  && String.eqb (pay_status p) "pending".

Lemma expire_pending_not_pending order_id provider now p :
  pending_for order_id provider (expire_pending order_id provider now p) = false.
Proof.
  unfold expire_pending. fold (pending_for order_id provider p).
  destruct (pending_for order_id provider p) eqn:E; [|exact E].
  unfold pending_for in *. simpl.
  apply andb_prop in E. destruct E as [E _]. rewrite E. reflexivity.
Qed.


(** ** The webhook *)

Section Webhook.

Variable hmac_sha512_hexdigest : string -> string -> string.
Variable float_of_str : string -> option float.
Variable settings : Settings.

(** The webhook fails before it writes, or it gets as far as comparing the
    amounts. *)
Lemma webhook_fails_early_or_compares params s :
  (exists e, handle_vnpay_webhook hmac_sha512_hexdigest float_of_str settings params s
             = (Raise e, s))
  \/ (exists order amount,
        VnPayAmount.reaches_amount_check hmac_sha512_hexdigest float_of_str settings params s
          order amount).
Proof.
  unfold handle_vnpay_webhook, VnPayAmount.reaches_amount_check.
  destruct (vnpay_hash_secret settings) as [[|c0 r0]|] eqn:Hs;
    try (left; eexists; reflexivity).
  destruct (_verify_vnpay_signature hmac_sha512_hexdigest params (String c0 r0)) eqn:Hv;
    [|left; eexists; reflexivity].
  cbn [negb].
  destruct (order_code_of params) as [order_code|e] eqn:Hc; [|left; eexists; reflexivity].
  unfold bind at 1. unfold lift at 1.
  destruct (reported_amount float_of_str params) as [amount|e] eqn:Ha;
    [|left; eexists; reflexivity].
  unfold bind at 1. unfold lift at 1.
  unfold bind at 1. unfold gets at 1.
  destruct (find_one (payment_of order_code (dict_get "vnp_TxnRef" params)) (payments s))
    as [payment_doc|] eqn:Hf; [|left; eexists; reflexivity].
  unfold bind at 1. unfold get_order_of at 1.
  destruct (Orders.get_order_by_object_id (database s) (pay_order_id payment_doc))
    as [order|e] eqn:Ho; [|left; eexists; reflexivity].
  right. exists order, amount, (String c0 r0), order_code, payment_doc.
  repeat split; try assumption. discriminate.
Qed.

End Webhook.

(** A VNPay webhook that fails has written nothing: a missing secret, a bad
    signature, an unknown payment record or order and an amount mismatch are
    all found before the first write, and nothing fails after it. *)
Theorem failed_webhook_writes_nothing (hmac_sha512_hexdigest : string -> string -> string)
    (float_of_str : string -> option float) (settings : Settings)
    (params : list (string * string)) (s s' : Store) (e : HTTPException) :
  handle_vnpay_webhook hmac_sha512_hexdigest float_of_str settings params s = (Raise e, s') ->
  s' = s.
Proof.
  intro H.
  destruct (webhook_fails_early_or_compares hmac_sha512_hexdigest float_of_str settings
              params s) as [(e' & He)|(order & amount & Hr)].
  - rewrite He in H. now injection H.
  - pose proof (VnPayAmount.webhook_amount_check _ _ _ _ _ _ _ Hr) as Hc.
    destruct (amount_mismatch amount order).
    + rewrite Hc in H. now injection H.
    + destruct Hc as (code & s2 & Hc & _). rewrite Hc in H. discriminate.
Qed.

Lemma find_update_one_by_pay_id payment_id f (l : list PaymentDocument) p :
  In p l -> pay_id p = payment_id -> (forall x, pay_id (f x) = pay_id x) ->
  exists x, In x l /\ pay_id x = payment_id
            /\ find_one (fun y => oid_eqb (pay_id y) payment_id)
                 (update_one (fun y => oid_eqb (pay_id y) payment_id) f l) = Some (f x).
Proof.
  unfold find_one. intros Hin Hp Hf. induction l as [|y l IH]; simpl in *; [contradiction|].
  destruct (oid_eqb (pay_id y) payment_id) eqn:E.
  - exists y. apply oid_eqb_eq in E. repeat split; auto. simpl.
    rewrite Hf. apply oid_eqb_eq in E. now rewrite E.
  - destruct Hin as [->|Hin]; [rewrite Hp, oid_eqb_refl in E; discriminate|].
    destruct (IH Hin) as (x & Hx & Hid & Hfind). exists x. repeat split; auto.
    simpl. now rewrite E.
Qed.

Lemma update_payment_record_status_run payment_doc status_value transaction_id raw_payload s :
  In payment_doc (payments s) ->
  exists s1 record,
    _update_payment_record_status payment_doc status_value transaction_id raw_payload s
    = (Ok tt, s1)
    /\ orders (database s1) = orders (database s)
    /\ find_one (fun p => oid_eqb (pay_id p) (pay_id payment_doc)) (payments s1) = Some record
    /\ pay_status record = status_value
    /\ pay_transaction_id record = transaction_id.
Proof.
  intro Hin.
  unfold _update_payment_record_status, bind, on_database, utcnow, modify.
  cbn [database payments with_payments with_ticks ticks clock].
  match goal with
  | |- context [update_one ?q ?f (payments s)] =>
      destruct (find_update_one_by_pay_id (pay_id payment_doc) f (payments s) payment_doc
                  Hin eq_refl (fun x => eq_refl)) as (x & _ & _ & Hf)
  end.
  eexists. eexists. split; [reflexivity|].
  cbn [database payments orders with_ticks]. split; [reflexivity|].
  split; [exact Hf|]. split; reflexivity.
Qed.

Lemma on_database_update_order_payment_status order_id new_status note actor_id transaction_id
    s order :
  Orders.get_order_by_object_id (database s) order_id = Ok order ->
  exists s1,
    on_database (Orders.update_order_payment_status order_id new_status note actor_id
                   transaction_id) s
    = (Ok (Orders.apply_update None (Some new_status) (Orders.truthy_str transaction_id) None
             (clock (database s) (ticks (database s)))
             (OrderRequests.payment_entry new_status note actor_id
                (clock (database s) (ticks (database s)))) order), s1)
    /\ payments s1 = payments s
    /\ Orders.get_order_by_object_id (database s1) order_id
       = Ok (Orders.apply_update None (Some new_status) (Orders.truthy_str transaction_id) None
               (clock (database s) (ticks (database s)))
               (OrderRequests.payment_entry new_status note actor_id
                  (clock (database s) (ticks (database s)))) order).
Proof.
  intro Hg.
  destruct (OrderRequests.update_order_payment_status_found order_id new_status note actor_id
              transaction_id (database s) order Hg) as (db1 & Hu & Hg1 & _).
  unfold on_database. rewrite Hu. eexists. split; [reflexivity|]. split; [reflexivity|].
  exact Hg1.
Qed.

Lemma on_database_create_notification user_id notification_type title message metadata channel
    s :
  exists v s1,
    on_database (Notifications.create_notification user_id notification_type title message
                   metadata channel) s = (Ok v, s1)
    /\ payments s1 = payments s
    /\ orders (database s1) = orders (database s).
Proof.
  unfold on_database.
  destruct (Notifications.create_notification user_id notification_type title message metadata
              channel (database s)) as [r db1] eqn:E.
  destruct (Checkout.create_notification_frame _ _ _ _ _ _ _ _ _ E)
    as ((v & ->) & _ & _ & _ & Ho & _).
  exists v. eexists. split; [reflexivity|]. split; [reflexivity|exact Ho].
Qed.

Lemma get_order_by_object_id_same_orders db db' order_id :
  orders db' = orders db ->
  Orders.get_order_by_object_id db' order_id = Orders.get_order_by_object_id db order_id.
Proof. intro H. unfold Orders.get_order_by_object_id. now rewrite H. Qed.

(** A report that passes the checks of the webhook is recorded whatever the
    payment status of the order was: with the response code "00" the payment
    record and the order become "paid" and the answer is "00"; with any other
    code (or none) they become "failed" and the answer is "01".  The payment
    record takes [vnp_TransactionNo]; the fulfillment status and the amounts
    of the order stay. *)
Theorem webhook_records_the_outcome (hmac_sha512_hexdigest : string -> string -> string)
    (float_of_str : string -> option float) (settings : Settings)
    (params : list (string * string)) (s : Store) (secret : string)
    (order_code : option string) (payment_doc : PaymentDocument) (order : OrderDocument)
    (amount : float) :
  vnpay_hash_secret settings = Some secret -> secret <> "" ->
  _verify_vnpay_signature hmac_sha512_hexdigest params secret = true ->
  order_code_of params = Ok order_code ->
  reported_amount float_of_str params = Ok amount ->
  find_one (payment_of order_code (dict_get "vnp_TxnRef" params)) (payments s)
  = Some payment_doc ->
  Orders.get_order_by_object_id (database s) (pay_order_id payment_doc) = Ok order ->
  amount_mismatch amount order = false ->
  let paid := opt_str_eqb (dict_get "vnp_ResponseCode" params) (Some "00") in
  exists s' record order',
    handle_vnpay_webhook hmac_sha512_hexdigest float_of_str settings params s
    = (Ok (if paid then "00" else "01"), s')
    /\ find_one (fun p => oid_eqb (pay_id p) (pay_id payment_doc)) (payments s') = Some record
    /\ pay_status record = (if paid then "paid" else "failed")
    /\ pay_transaction_id record = dict_get "vnp_TransactionNo" params
    /\ Orders.get_order_by_object_id (database s') (pay_order_id payment_doc) = Ok order'
    /\ o_payment_status order' = (if paid then "paid" else "failed")
    /\ o_fulfillment_status order' = o_fulfillment_status order
    /\ o_total_amount order' = o_total_amount order.
Proof.
  intros Hsecret Hne Hsig Hcode Hamount Hfind Horder Hcheck paid.
  destruct secret as [|c0 r0]; [now elim Hne|].
  assert (Hin : In payment_doc (payments s)).
  { unfold find_one in Hfind. now apply find_some in Hfind. }
  unfold handle_vnpay_webhook. rewrite Hsecret, Hsig. cbn [negb]. rewrite Hcode, Hamount.
  unfold bind at 1. unfold lift at 1.
  unfold bind at 1. unfold lift at 1.
  unfold bind at 1. unfold gets at 1. rewrite Hfind.
  unfold bind at 1. unfold get_order_of at 1. rewrite Horder, Hcheck.
  fold paid. destruct paid.
  - match goal with
    | |- context [_update_payment_record_status ?p ?st ?tx ?raw] =>
        destruct (update_payment_record_status_run p st tx raw s Hin)
          as (s1 & record & Hu & Ho1 & Hf1 & Hst & Htx)
    end.
    rewrite (bind_ok _ _ _ _ _ Hu).
    rewrite <- (get_order_by_object_id_same_orders _ _ (pay_order_id payment_doc) Ho1)
      in Horder.
    match goal with
    | |- context [Orders.update_order_payment_status ?i ?st ?n ?a ?tx] =>
        destruct (on_database_update_order_payment_status i st n a tx s1 order Horder)
          as (s2 & Hu2 & Hp2 & Hg2)
    end.
    rewrite (bind_ok _ _ _ _ _ Hu2).
    match goal with
    | |- context [bind (on_database (Notifications.create_notification ?u ?t ?ti ?m ?md ?c))
                       ?k s2] =>
        destruct (on_database_create_notification u t ti m md c s2)
          as (v3 & s3 & Hn3 & Hp3 & Ho3)
    end.
    rewrite (bind_ok _ _ _ _ _ Hn3).
    destruct (o_seller_id order) as [seller_id|].
    + match goal with
      | |- context [bind (on_database (Notifications.create_notification ?u ?t ?ti ?m ?md ?c))
                         ?k s3] =>
          destruct (on_database_create_notification u t ti m md c s3)
            as (v4 & s4 & Hn4 & Hp4 & Ho4)
      end.
      rewrite (bind_ok _ _ _ _ _ Hn4).
      exists s4, record. eexists. split; [reflexivity|].
      rewrite Hp4, Hp3, Hp2.
      rewrite (get_order_by_object_id_same_orders _ _ _ Ho4),
              (get_order_by_object_id_same_orders _ _ _ Ho3), Hg2.
      repeat split; assumption.
    + exists s3, record. eexists. split; [reflexivity|].
      rewrite Hp3, Hp2.
      rewrite (get_order_by_object_id_same_orders _ _ _ Ho3), Hg2.
      repeat split; assumption.
  - match goal with
    | |- context [_update_payment_record_status ?p ?st ?tx ?raw] =>
        destruct (update_payment_record_status_run p st tx raw s Hin)
          as (s1 & record & Hu & Ho1 & Hf1 & Hst & Htx)
    end.
    rewrite (bind_ok _ _ _ _ _ Hu).
    rewrite <- (get_order_by_object_id_same_orders _ _ (pay_order_id payment_doc) Ho1)
      in Horder.
    match goal with
    | |- context [Orders.update_order_payment_status ?i ?st ?n ?a ?tx] =>
        destruct (on_database_update_order_payment_status i st n a tx s1 order Horder)
          as (s2 & Hu2 & Hp2 & Hg2)
    end.
    rewrite (bind_ok _ _ _ _ _ Hu2).
    match goal with
    | |- context [bind (on_database (Notifications.create_notification ?u ?t ?ti ?m ?md ?c))
                       ?k s2] =>
        destruct (on_database_create_notification u t ti m md c s2)
          as (v3 & s3 & Hn3 & Hp3 & Ho3)
    end.
    rewrite (bind_ok _ _ _ _ _ Hn3).
    exists s3, record. eexists. split; [reflexivity|].
    rewrite Hp3, Hp2.
    rewrite (get_order_by_object_id_same_orders _ _ _ Ho3), Hg2.
    repeat split; assumption.
Qed.

End VnPayFlow.

(** The webhook's check of what the initiation signed for the sample order. *)
Lemma signed_parameters_verify_witness :
  Payments._verify_vnpay_signature Sample.keyed_digest
    (VnPayFlow.as_strings [("vnp_Amount", PInt 15000000); ("vnp_TxnRef", PStr Sample.txn_ref)]
       ++ [("vnp_SecureHash",
            Payments._create_vnpay_signature Sample.keyed_digest
              [("vnp_Amount", PInt 15000000); ("vnp_TxnRef", PStr Sample.txn_ref)]
              "hash-secret")])
    "hash-secret" = true.
Proof.
  exact (VnPayFlow.signed_parameters_verify Sample.keyed_digest
           [("vnp_Amount", PInt 15000000); ("vnp_TxnRef", PStr Sample.txn_ref)]
           "hash-secret" eq_refl eq_refl).
Defined.

(** A report with a signature that does not verify. *)
Lemma failed_webhook_writes_nothing_witness :
  exists e s',
    Payments.handle_vnpay_webhook Sample.keyed_digest Sample.float_of_digits
      Sample.vnpay_settings [("vnp_Amount", "15000000"); ("vnp_SecureHash", "00")]
      Sample.payment_store = (Raise e, s')
    /\ s' = Sample.payment_store.
Proof.
  eexists. eexists. split; [vm_compute; reflexivity|].
  refine (VnPayFlow.failed_webhook_writes_nothing Sample.keyed_digest Sample.float_of_digits
            Sample.vnpay_settings [("vnp_Amount", "15000000"); ("vnp_SecureHash", "00")]
            Sample.payment_store _ _ _).
  vm_compute. reflexivity.
Defined.

(** The gateway reports the pen order paid. *)
Lemma webhook_records_the_outcome_witness :
  exists s' record order',
    Payments.handle_vnpay_webhook Sample.keyed_digest Sample.float_of_digits
      Sample.vnpay_settings
      (Sample.vnpay_report "ORD-20261103120405123456" "15000000" "00") Sample.payment_store
    = (Ok "00", s')
    /\ find_one (fun p => oid_eqb (pay_id p) 113%N) (Payments.payments s') = Some record
    /\ pay_status record = "paid"
    /\ pay_transaction_id record = Some "14700001"
    /\ Orders.get_order_by_object_id (Payments.database s') 97%N = Ok order'
    /\ o_payment_status order' = "paid".
Proof.
  destruct (VnPayFlow.webhook_records_the_outcome Sample.keyed_digest Sample.float_of_digits
              Sample.vnpay_settings
              (Sample.vnpay_report "ORD-20261103120405123456" "15000000" "00")
              Sample.payment_store "hash-secret" (Some "ORD-20261103120405123456")
              Sample.pen_payment (Sample.pen_order "pending_confirmation" "pending")
              150000%float eq_refl ltac:(discriminate)
              ltac:(vm_compute; reflexivity) ltac:(vm_compute; reflexivity)
              ltac:(vm_compute; reflexivity) ltac:(vm_compute; reflexivity)
              ltac:(vm_compute; reflexivity) ltac:(vm_compute; reflexivity))
    as (s' & record & order' & H & Hf & Hs & Ht & Hg & Hp & _).
  exists s', record, order'. repeat split; assumption.
Defined.

(* ================================================================== *)
(** * The reset flow: mail failures, wrong codes, the stored password *)
(* ================================================================== *)

Module ResetFlow.
Import Auth ResetTokens.

Section Flow.

Variable match_reset_token : string -> string -> bool.
Variable hash_password : string -> string.

#[local] Abbreviation reset_password :=
  (Auth.reset_password match_reset_token hash_password).
#[local] Abbreviation serve := (Auth.serve match_reset_token hash_password).

(** [update_one] on [_id] over users with distinct [_id]s rewrites exactly
    the user with that [_id]. *)
Definition with_password_of (user_id : ObjectId) (hashed : string) (us : list UserDocument)
  : list UserDocument :=
  map (fun u => if oid_eqb (u_id u) user_id then set_password hashed u else u) us.

Lemma update_one_absent_user user_id hashed us :
  ~ In user_id (map u_id us) ->
  update_one (fun u => oid_eqb (u_id u) user_id) (set_password hashed) us = us
  /\ with_password_of user_id hashed us = us.
Proof.
  unfold with_password_of. induction us as [|x r IH]; simpl; intro Hn; [split; reflexivity|].
  destruct (oid_eqb (u_id x) user_id) eqn:E.
  - exfalso. apply Hn. left. now apply oid_eqb_eq.
  - destruct IH as [IH1 IH2]; [tauto|]. now rewrite IH1, IH2.
Qed.

Lemma update_one_with_password_of user_id hashed us :
  NoDup (map u_id us) ->
  update_one (fun u => oid_eqb (u_id u) user_id) (set_password hashed) us
  = with_password_of user_id hashed us.
Proof.
  unfold with_password_of. induction us as [|x r IH]; simpl; intro Hn; [reflexivity|].
  inversion Hn as [|a b Hnotin Hnd]; subst.
  destruct (oid_eqb (u_id x) user_id) eqn:E.
  - apply oid_eqb_eq in E. subst user_id.
    destruct (update_one_absent_user (u_id x) hashed r Hnotin) as [_ H].
    unfold with_password_of in H. now rewrite H.
  - now rewrite IH.
Qed.

Lemma find_by_email_with_password_of email user hashed us :
  find_one (by_email email) us = Some user ->
  find_one (by_email email) (with_password_of (u_id user) hashed us)
  = Some (if oid_eqb (u_id user) (u_id user) then set_password hashed user else user).
Proof.
  unfold find_one, with_password_of. induction us as [|x r IH]; simpl; [discriminate|].
  assert (Eb : by_email email (if oid_eqb (u_id x) (u_id user) then set_password hashed x else x)
               = by_email email x)
    by now destruct (oid_eqb (u_id x) (u_id user)).
  rewrite Eb. destruct (by_email email x).
  - intro H. now injection H as ->.
  - exact IH.
Qed.

(** When the mail with the code cannot be sent, forgot_password
    answers 500 with the mail error, and the user is left without any usable
    code: the codes issued before were already marked used, the new one is
    deleted again, so every reset attempt that follows is refused. *)
Theorem failed_mail_leaves_no_usable_code s identifier env user message :
  identifies s identifier user ->
  Forall (fun t => (t_id t < next_oid s)%N) (password_reset_tokens s) ->
  mail env = MailRuntimeError message ->
  exists s1,
    forgot_password identifier env s = (Raise (HTTPError 500 message), s1)
    /\ users s1 = users s
    /\ password_reset_tokens s1 = invalidate_unused (u_id user) (password_reset_tokens s)
    /\ unused_tokens s1 (u_id user) = []
    /\ forall token new_password,
         reset_password identifier token new_password s1 = (Raise invalid_code, s1).
Proof.
  intros Hi Hb Hm.
  destruct (forgot_password_effect s identifier env user Hi) as (result & s1 & Hr & Hu & _ & Ht).
  rewrite Hm in Ht. destruct Ht as [-> Ht].
  assert (Ht' : password_reset_tokens s1
                = invalidate_unused (u_id user) (password_reset_tokens s)).
  { rewrite Ht. apply delete_one_fresh; [|reflexivity].
    rewrite invalidate_unused_ids. intro Hin. apply in_map_iff in Hin.
    destruct Hin as (t & Hid & Hin). rewrite Forall_forall in Hb.
    specialize (Hb t Hin). lia. }
  assert (Hn : unused_tokens s1 (u_id user) = []).
  { unfold unused_tokens. rewrite Ht'. apply invalidate_unused_none. }
  exists s1. split; [exact Hr|]. split; [exact Hu|]. split; [exact Ht'|]. split; [exact Hn|].
  intros token new_password.
  apply (reset_password_no_match match_reset_token hash_password s1 identifier token
           new_password user).
  - destruct Hi as [He Hf]. split; [exact He|]. now rewrite Hu.
  - unfold find_latest_unused. unfold unused_tokens in Hn. now rewrite Hn.
Qed.

(** Reset attempts with codes that do not match the user's latest
    unused code all fail with the invalid-code error and write nothing,
    however many there are: no attempt is counted and the code stays
    unused. *)
Theorem wrong_codes_write_nothing s identifier user entry
    (attempts : list (string * string)) :
  identifies s identifier user ->
  find_latest_unused (u_id user) (password_reset_tokens s) = Some entry ->
  Forall (fun a => match_reset_token (fst a) (t_token_hash entry) = false) attempts ->
  serve (map (fun a => Reset identifier (fst a) (snd a)) attempts) s
  = (map (fun _ => Raise invalid_code) attempts, s).
Proof.
  intros Hi Hl Hall. induction Hall as [|a rest Ha _ IH]; simpl; [reflexivity|].
  rewrite (reset_password_no_match match_reset_token hash_password s identifier (fst a)
             (snd a) user Hi).
  - now rewrite IH.
  - now rewrite Hl.
Qed.

Lemma same_id_same_user (us : list UserDocument) x y :
  NoDup (map u_id us) -> In x us -> In y us -> u_id x = u_id y -> x = y.
Proof.
  induction us as [|z r IH]; simpl; intros Hn Hx Hy Heq; [contradiction|].
  inversion Hn as [|a b Hnotin Hnd]; subst.
  destruct Hx as [->|Hx], Hy as [->|Hy].
  - reflexivity.
  - exfalso. apply Hnotin. rewrite Heq. now apply in_map.
  - exfalso. apply Hnotin. rewrite <- Heq. now apply in_map.
  - now apply IH.
Qed.

(** A reset with the matching, unexpired code stores the hash of the new
    password for the user the identifier names and for nobody else (user
    [_id]s being distinct): the user found under the same identifier
    afterwards has [hashed_password] equal to the hash of the new password
    and the [_id] and e-mail of before, is the only stored user with that
    [_id], and the users with another [_id] are the same before and after. *)
Theorem reset_changes_that_users_password_only s identifier token new_password user entry :
  identifies s identifier user ->
  NoDup (map u_id (users s)) ->
  find_latest_unused (u_id user) (password_reset_tokens s) = Some entry ->
  match_reset_token token (t_token_hash entry) = true ->
  (match t_expires_at entry with Some e => e | None => clock s (ticks s) end
   <? clock s (S (ticks s))) = false ->
  exists s1 user',
    reset_password identifier token new_password s = (Ok "password has been reset", s1)
    /\ find_one (by_email (Py.lower (Py.strip identifier))) (users s1) = Some user'
    /\ u_hashed_password user' = hash_password new_password
    /\ u_id user' = u_id user
    /\ u_email user' = u_email user
    /\ List.length (users s1) = List.length (users s)
    /\ (forall u, In u (users s1) -> u_id u = u_id user -> u = user')
    /\ (forall u, u_id u <> u_id user -> (In u (users s1) <-> In u (users s))).
Proof.
  intros Hi Hn Hl Hm Hx.
  destruct (reset_password_use match_reset_token hash_password s identifier token
              new_password user entry Hi Hl Hm) as (s1 & Hr & _ & Hu & _).
  cbv zeta in Hr, Hu.
  match type of Hr with
  | context [if ?c then _ else _] =>
      assert (Ec : c = false) by exact Hx; rewrite Ec in Hr, Hu
  end.
  rewrite (update_one_with_password_of _ _ _ Hn) in Hu.
  pose proof Hi as [_ Hf].
  assert (Hin : In user (users s)) by (unfold find_one in Hf; now apply find_some in Hf).
  exists s1, (set_password (hash_password new_password) user).
  split; [exact Hr|]. split.
  { rewrite Hu, (find_by_email_with_password_of _ _ (hash_password new_password) _ Hf).
    now rewrite oid_eqb_refl. }
  split; [reflexivity|]. split; [reflexivity|]. split; [reflexivity|].
  split; [rewrite Hu; unfold with_password_of; apply length_map|].
  split.
  - intros u Hu1 Hid. rewrite Hu in Hu1. unfold with_password_of in Hu1.
    apply in_map_iff in Hu1. destruct Hu1 as (x & <- & Hx1).
    destruct (oid_eqb (u_id x) (u_id user)) eqn:E.
    + apply oid_eqb_eq in E. now rewrite (same_id_same_user _ x user Hn Hx1 Hin E).
    + rewrite Hid, oid_eqb_refl in E. discriminate.
  - intros u Hne. rewrite Hu. unfold with_password_of. rewrite in_map_iff. split.
    + intros (x & <- & Hx1).
      destruct (oid_eqb (u_id x) (u_id user)) eqn:E; [|exact Hx1].
      apply oid_eqb_eq in E. simpl in Hne. contradiction.
    + intro Hu0. exists u. split; [|exact Hu0].
      destruct (oid_eqb (u_id u) (u_id user)) eqn:E; [|reflexivity].
      apply oid_eqb_eq in E. contradiction.
Qed.

End Flow.

End ResetFlow.

(** An asks for a new code while the mail service is down: the answer is
    500, the code An held is spent and no code works afterwards. *)
Lemma failed_mail_leaves_no_usable_code_witness :
  exists s1,
    Auth.forgot_password " An@Example.com" Sample.mail_down Sample.auth_store
    = (Raise (HTTPError 500 "SMTP is not configured"), s1)
    /\ Auth.users s1 = [Sample.an]
    /\ Auth.password_reset_tokens s1 = [Auth.set_used Sample.an_token]
    /\ ResetTokens.unused_tokens s1 1%N = []
    /\ Auth.reset_password Sample.match_code Sample.hash_with_prefix
         " An@Example.com" "123456" "new-secret" s1
       = (Raise Auth.invalid_code, s1).
Proof.
  destruct (ResetFlow.failed_mail_leaves_no_usable_code Sample.match_code
              Sample.hash_with_prefix Sample.auth_store " An@Example.com" Sample.mail_down
              Sample.an "SMTP is not configured" (conj eq_refl eq_refl)
              ltac:(repeat constructor) eq_refl)
    as (s1 & Hr & Hu & Ht & Hn & Hall).
  exists s1. split; [exact Hr|]. split; [exact Hu|]. split; [exact Ht|].
  split; [exact Hn|]. exact (Hall "123456" "new-secret").
Defined.

(** Two wrong guesses at An's code change nothing in the store. *)
Lemma wrong_codes_write_nothing_witness :
  Auth.serve Sample.match_code Sample.hash_with_prefix
    [Auth.Reset " An@Example.com" "000000" "guess";
     Auth.Reset " An@Example.com" "111111" "guess"] Sample.auth_store
  = ([Raise Auth.invalid_code; Raise Auth.invalid_code], Sample.auth_store).
Proof.
  exact (ResetFlow.wrong_codes_write_nothing Sample.match_code Sample.hash_with_prefix
           Sample.auth_store " An@Example.com" Sample.an Sample.an_token
           [("000000", "guess"); ("111111", "guess")]
           (conj eq_refl eq_refl) eq_refl
           ltac:(repeat constructor)).
Defined.

(** An resets the password with the code 123456; Binh's record is kept. *)
Lemma reset_changes_that_users_password_only_witness :
  exists s1 user',
    Auth.reset_password Sample.match_code Sample.hash_with_prefix
      " An@Example.com" "123456" "new-secret" Sample.auth_store_two_users
    = (Ok "password has been reset", s1)
    /\ find_one (Auth.by_email "an@example.com") (Auth.users s1) = Some user'
    /\ Auth.u_hashed_password user' = "pw:new-secret"
    /\ Auth.u_id user' = 1%N
    /\ In Sample.binh (Auth.users s1).
Proof.
  assert (Hd : NoDup (map Auth.u_id (Auth.users Sample.auth_store_two_users))).
  { repeat (constructor; [cbn; intuition discriminate|]). constructor. }
  destruct (ResetFlow.reset_changes_that_users_password_only Sample.match_code
              Sample.hash_with_prefix Sample.auth_store_two_users " An@Example.com"
              "123456" "new-secret" Sample.an Sample.an_token
              (conj eq_refl eq_refl) Hd eq_refl eq_refl eq_refl)
    as (s1 & user' & Hr & Hf & Hh & Hid & _ & _ & _ & Hother).
  exists s1, user'. split; [exact Hr|]. split; [exact Hf|]. split; [exact Hh|].
  split; [exact Hid|].
  apply (Hother Sample.binh); [discriminate|]. now left.
Defined.

(* ================================================================== *)
(** * The read state of notifications *)
(* ================================================================== *)

Module Inbox.
Import Notifications.

Lemma unread_of_set_read_true user_id read_at n :
  unread_of user_id (set_read true read_at n) = false.
Proof. unfold unread_of. simpl. apply andb_false_r. Qed.

Lemma unread_of_other user_id other n :
  other <> user_id -> unread_of user_id n = true -> unread_of other n = false.
Proof.
  unfold unread_of. intros Hne H. apply andb_prop in H. destruct H as [H _].
  apply oid_eqb_eq in H. destruct (oid_eqb (n_user_id n) other) eqn:E; [|reflexivity].
  apply oid_eqb_eq in E. congruence.
Qed.

Lemma filter_update_many_own user_id read_at l :
  filter (unread_of user_id)
         (update_many (unread_of user_id) (set_read true read_at) l) = [].
Proof.
  unfold update_many. induction l as [|x r IH]; simpl; [reflexivity|].
  destruct (unread_of user_id x) eqn:E;
    [rewrite unread_of_set_read_true|rewrite E]; exact IH.
Qed.

Lemma filter_update_many_other user_id other read_at l :
  other <> user_id ->
  filter (unread_of other) (update_many (unread_of user_id) (set_read true read_at) l)
  = filter (unread_of other) l.
Proof.
  intro Hne. unfold update_many. induction l as [|x r IH]; simpl; [reflexivity|].
  destruct (unread_of user_id x) eqn:E.
  - assert (Ho : unread_of other (set_read true read_at x) = false)
      by apply unread_of_set_read_true.
    rewrite Ho, (unread_of_other _ _ _ Hne E). exact IH.
  - destruct (unread_of other x); [now rewrite IH|exact IH].
Qed.

(** The document the filter [{"_id": ..., "user_id": ...}] selects among
    documents with distinct [_id]s. *)
Lemma split_at_notification (l : list NotificationDocument) n :
  NoDup (map n_id l) -> In n l ->
  exists l1 l2, l = (l1 ++ n :: l2)%list /\ forall x, In x l1 -> n_id x <> n_id n.
Proof.
  intros Hn Hin. destruct (in_split _ _ Hin) as (l1 & l2 & ->).
  exists l1, l2. split; [reflexivity|]. intros x Hx Heq.
  rewrite map_app in Hn. simpl in Hn. apply NoDup_remove_2 in Hn.
  apply Hn. apply in_or_app. left. rewrite <- Heq. now apply in_map.
Qed.

Lemma update_one_at {A} (p : A -> bool) f l1 x l2 :
  (forall y, In y l1 -> p y = false) -> p x = true ->
  update_one p f (l1 ++ x :: l2)%list = (l1 ++ f x :: l2)%list
  /\ existsb p (l1 ++ x :: l2)%list = true.
Proof.
  intros Hl Hx. induction l1 as [|y r IH]; simpl.
  - now rewrite Hx.
  - rewrite (Hl y) by now left. simpl.
    destruct IH as [IH1 IH2]; [intros z Hz; apply Hl; now right|]. now rewrite IH1, IH2.
Qed.

Lemma update_one_unmatched {A} (p : A -> bool) f l :
  (forall y, In y l -> p y = false) ->
  update_one p f l = l /\ existsb p l = false.
Proof.
  intro Hl. induction l as [|y r IH]; simpl; [split; reflexivity|].
  rewrite (Hl y) by now left. simpl.
  destruct IH as [IH1 IH2]; [intros z Hz; apply Hl; now right|]. now rewrite IH1, IH2.
Qed.

Lemma mark_notification_read_run (db : Database) (notification_id : string)
    (notif_id user_id : ObjectId) (read : bool) :
  Bson.ObjectId_of_str notification_id = Some notif_id ->
  let db1 := if read then with_ticks db (S (ticks db)) else db in
  let read_at := if read then Some (clock db (ticks db)) else None in
  mark_notification_read notification_id user_id read db
  = (if existsb (owned_with_id notif_id user_id) (notifications db)
     then Ok tt
     else Raise (HTTPError HTTP_404_NOT_FOUND "Notification not found"),
     with_notifications db1
       (update_one (owned_with_id notif_id user_id) (set_read read read_at)
                   (notifications db))).
Proof.
  intro Hp. unfold mark_notification_read, _parse_object_id. rewrite Hp.
  destruct read; unfold bind, lift, utcnow, gets, modify, ret, raise; simpl;
    destruct (existsb _ _); reflexivity.
Qed.

(** mark_all_read returns the number of unread notifications the user had
    and leaves the user none: each of them is stored read, the
    notifications that were read before and those of other users are kept as
    they are, so the unread counts of the other users do not change. *)
Theorem mark_all_read_clears_the_unread_count (db : Database) (user_id : ObjectId) :
  exists db',
    mark_all_read user_id db = (Ok (get_unread_count db user_id), db')
    /\ get_unread_count db' user_id = 0%nat
    /\ (forall other, other <> user_id ->
          get_unread_count db' other = get_unread_count db other)
    /\ map n_id (notifications db') = map n_id (notifications db)
    /\ (forall n, In n (notifications db) -> unread_of user_id n = false ->
          In n (notifications db'))
    /\ (forall n, In n (notifications db') -> n_user_id n = user_id -> n_is_read n = true).
Proof.
  eexists. split; [reflexivity|]. cbn [notifications with_notifications with_ticks].
  split; [|split; [|split; [|split]]].
  - unfold get_unread_count. cbn [notifications with_notifications].
    now rewrite filter_update_many_own.
  - intros other Hne. unfold get_unread_count. cbn [notifications with_notifications].
    now rewrite (filter_update_many_other _ _ _ _ Hne).
  - unfold update_many. rewrite map_map. apply map_ext.
    intro n. now destruct (unread_of user_id n).
  - intros n Hin Hu. unfold update_many. apply in_map_iff. exists n.
    split; [now rewrite Hu|exact Hin].
  - intros n Hin Hu. unfold update_many in Hin. apply in_map_iff in Hin.
    destruct Hin as (x & Hx & _). destruct (unread_of user_id x) eqn:E.
    + now subst n.
    + subst n. unfold unread_of in E. rewrite Hu, oid_eqb_refl in E. simpl in E.
      now destruct (n_is_read x).
Qed.

(** Marking a notification that the user does not own (no notification with
    that _id, or one of another user) answers 404 and changes no
    notification, whichever read state was asked for. *)
Theorem mark_notification_read_refuses_foreign_notifications (db : Database)
    (notification_id : string) (notif_id user_id : ObjectId) (read : bool) :
  Bson.ObjectId_of_str notification_id = Some notif_id ->
  (forall n, In n (notifications db) -> n_id n = notif_id -> n_user_id n <> user_id) ->
  exists db',
    mark_notification_read notification_id user_id read db
    = (Raise (HTTPError HTTP_404_NOT_FOUND "Notification not found"), db')
    /\ notifications db' = notifications db.
Proof.
  intros Hp Hforeign.
  rewrite (mark_notification_read_run db notification_id notif_id user_id read Hp).
  cbv zeta.
  destruct (update_one_unmatched (owned_with_id notif_id user_id)
              (set_read read (if read then Some (clock db (ticks db)) else None))
              (notifications db)) as [Hu He].
  { intros n Hin. unfold owned_with_id.
    destruct (oid_eqb (n_id n) notif_id) eqn:E1; [|reflexivity].
    destruct (oid_eqb (n_user_id n) user_id) eqn:E2; [|reflexivity].
    apply oid_eqb_eq in E1, E2. exfalso. exact (Hforeign n Hin E1 E2). }
  rewrite He, Hu. eexists. split; [reflexivity|]. now destruct read.
Qed.


End Inbox.

(** The second buyer cannot mark the buyer's notification 146. *)
Lemma mark_notification_read_refuses_foreign_notifications_witness :
  exists db',
    Notifications.mark_notification_read Sample.notice_id Sample.buyer2 true Sample.db_inbox
    = (Raise (HTTPError HTTP_404_NOT_FOUND "Notification not found"), db')
    /\ notifications db' = notifications Sample.db_inbox.
Proof.
  apply (Inbox.mark_notification_read_refuses_foreign_notifications Sample.db_inbox
           Sample.notice_id 146%N Sample.buyer2 true).
  - reflexivity.
  - intros n Hin Hid. cbn in Hin.
    destruct Hin as [<-|[<-|[<-|[]]]]; cbn in Hid |- *; discriminate.
Defined.


(* ================================================================== *)
(** * Shipments and the orders they belong to *)
(* ================================================================== *)

Module Shipments.
Import Shipping.

(** [f"{provider.upper()}-{uuid4().hex[:10]}"] *)
Definition tracking_number_of (provider uuid_hex : string) : string :=
  Py.upper provider ++ "-" ++ substring 0 10 uuid_hex.

Definition by_tracking_number (tracking_number : string) (sh : ShipmentDocument) : bool :=
  String.eqb (sh_tracking_number sh) tracking_number.

Lemma shipping_update_order_fulfillment_status order_id new_status note actor_id extra s order :
  Orders.get_order_by_object_id (database s) order_id = Ok order ->
  exists s1,
    on_database (Orders.update_order_fulfillment_status order_id new_status note actor_id extra) s
    = (Ok (Orders.apply_update (Some new_status) None None extra
             (clock (database s) (ticks (database s)))
             (OrderRequests.fulfillment_entry new_status note actor_id
                (clock (database s) (ticks (database s)))) order), s1)
    /\ shipments s1 = shipments s
    /\ Orders.get_order_by_object_id (database s1) order_id
       = Ok (Orders.apply_update (Some new_status) None None extra
               (clock (database s) (ticks (database s)))
               (OrderRequests.fulfillment_entry new_status note actor_id
                  (clock (database s) (ticks (database s)))) order).
Proof.
  intro Hg.
  destruct (OrderRequests.update_order_fulfillment_status_found order_id new_status note actor_id
              extra (database s) order Hg) as (db1 & Hu & Hg1 & _).
  unfold on_database. rewrite Hu. eexists. split; [reflexivity|]. split; [reflexivity|].
  exact Hg1.
Qed.

Lemma shipping_update_of_missing_order order_id new_status note actor_id extra s e :
  Orders.get_order_by_object_id (database s) order_id = Raise e ->
  exists s1,
    on_database (Orders.update_order_fulfillment_status order_id new_status note actor_id extra) s
    = (Raise (HTTPError HTTP_404_NOT_FOUND "Không tìm thấy đơn hàng"), s1)
    /\ shipments s1 = shipments s
    /\ orders (database s1) = orders (database s)
    /\ notifications (database s1) = notifications (database s).
Proof.
  unfold Orders.get_order_by_object_id. intro Hg.
  destruct (find_one (fun o => oid_eqb (o_id o) order_id) (orders (database s))) eqn:Ef;
    [discriminate|].
  unfold on_database, Orders.update_order_fulfillment_status, bind, utcnow,
    Orders.find_one_and_update_order.
  cbn [orders with_ticks].
  rewrite (OrderTransitions.find_one_and_update_missing _ _ _ Ef).
  eexists. repeat split; reflexivity.
Qed.

Lemma shipping_create_notification user_id notification_type title message metadata channel s :
  exists v s1,
    on_database (Notifications.create_notification user_id notification_type title message
                   metadata channel) s = (Ok v, s1)
    /\ shipments s1 = shipments s
    /\ orders (database s1) = orders (database s).
Proof.
  unfold on_database.
  destruct (Notifications.create_notification user_id notification_type title message metadata
              channel (database s)) as [r db1] eqn:E.
  destruct (OrderTransitions.create_notification_orders _ _ _ _ _ _ _ _ _ E) as (Ho & v & ->).
  exists v. eexists. split; [reflexivity|]. split; [reflexivity|exact Ho].
Qed.

Lemma get_order_of_same_orders db db' order_id :
  orders db' = orders db ->
  Orders.get_order_by_object_id db' order_id = Orders.get_order_by_object_id db order_id.
Proof. intro H. unfold Orders.get_order_by_object_id. now rewrite H. Qed.

Lemma find_shipment_app_last (p : ShipmentDocument -> bool) l x :
  find_one p l = None -> p x = true -> find_one p (l ++ [x])%list = Some x.
Proof.
  unfold find_one. induction l as [|y r IH]; simpl; intros Hn Hx.
  - now rewrite Hx.
  - destruct (p y); [discriminate|]. now apply IH.
Qed.

(** The first document a filter selects, and what is stored before it. *)
Lemma find_one_split (p : ShipmentDocument -> bool) l x :
  find_one p l = Some x ->
  exists l1 l2, l = (l1 ++ x :: l2)%list /\ p x = true /\ forall y, In y l1 -> p y = false.
Proof.
  unfold find_one. induction l as [|y r IH]; simpl; [discriminate|].
  destruct (p y) eqn:E.
  - intro H. injection H as ->. exists [], r. repeat split; [exact E|]. intros z [].
  - intro H. destruct (IH H) as (l1 & l2 & -> & Hx & Hl).
    exists (y :: l1), l2. repeat split; [exact Hx|].
    intros z [<-|Hz]; [exact E|now apply Hl].
Qed.

Lemma find_one_and_update_at (q : ShipmentDocument -> bool) f l1 x l2 :
  (forall y, In y l1 -> q y = false) -> q x = true ->
  find_one_and_update q f (l1 ++ x :: l2)%list = (Some (f x), (l1 ++ f x :: l2)%list).
Proof.
  intros Hl Hx. induction l1 as [|y r IH]; simpl.
  - now rewrite Hx.
  - rewrite (Hl y) by now left. rewrite IH; [reflexivity|].
    intros z Hz. apply Hl. now right.
Qed.

Lemma find_one_at (p : ShipmentDocument -> bool) l1 x l2 :
  (forall y, In y l1 -> p y = false) -> p x = true ->
  find_one p (l1 ++ x :: l2)%list = Some x.
Proof.
  unfold find_one. intros Hl Hx. induction l1 as [|y r IH]; simpl.
  - now rewrite Hx.
  - rewrite (Hl y) by now left. apply IH. intros z Hz. apply Hl. now right.
Qed.

(** The shipment the tracking number selects is the one its [_id] selects,
    and the update leaves it in its place. *)
Lemma update_found_shipment l tracking_number shipment f :
  NoDup (map sh_id l) ->
  find_one (by_tracking_number tracking_number) l = Some shipment ->
  (forall sh, sh_tracking_number (f sh) = sh_tracking_number sh) ->
  exists l',
    find_one_and_update (fun sh => oid_eqb (sh_id sh) (sh_id shipment)) f l
    = (Some (f shipment), l')
    /\ find_one (by_tracking_number tracking_number) l' = Some (f shipment)
    /\ map sh_id l' = map sh_id (update_one (fun sh => oid_eqb (sh_id sh) (sh_id shipment)) f l)
    /\ List.length l' = List.length l.
Proof.
  intros Hn Hf Hkeep.
  destruct (find_one_split _ _ _ Hf) as (l1 & l2 & -> & Hx & Hl).
  assert (Hids : forall y, In y l1 -> oid_eqb (sh_id y) (sh_id shipment) = false).
  { intros y Hy. destruct (oid_eqb (sh_id y) (sh_id shipment)) eqn:E; [|reflexivity].
    apply oid_eqb_eq in E. exfalso.
    rewrite map_app in Hn. simpl in Hn. apply NoDup_remove_2 in Hn.
    apply Hn. apply in_or_app. left. rewrite <- E. now apply in_map. }
  exists (l1 ++ f shipment :: l2)%list.
  split; [apply find_one_and_update_at; [exact Hids|apply oid_eqb_refl]|].
  split.
  { apply find_one_at; [exact Hl|]. unfold by_tracking_number in *. now rewrite Hkeep. }
  split.
  { clear Hn Hf Hl. induction l1 as [|y r IH]; simpl.
    - now rewrite oid_eqb_refl.
    - rewrite (Hids y) by now left. simpl. f_equal. apply IH.
      intros z Hz. apply Hids. now right. }
  rewrite !length_app. reflexivity.
Qed.




End Shipments.



